(* ===== verification/_CoqProject ===== *)
-Q . S2P
Prelude.v
DateTime.v
Calendar.v
RangeSplitter.v
Money.v
PyStr.v
Strptime.v
Frame.v
Candles.v
Console.v
Client.v
Merge.v
Coalesce.v
Groups.v
Runner.v
EndToEnd.v
Main.v
