(* ===== verification/Prelude.v ===== *)
(** * A verification development for the stock-price parser ([src/main.py])

    The program ([class StockParser]) asks for a list of tickers, two
    dates and a token, looks the tickers up in the brokerage's listings of
    shares and bonds, downloads the daily candles of each instrument in
    chunks of at most 350 days, and assembles one table with a [date]
    column and a column of closing prices per instrument: every chunk's
    table is merged into the table so far by an outer join on [date], and
    a final loop coalesces the suffixed columns that repeated joins leave
    behind.  The table is printed.

    ** The files, in the order of their dependencies

    - [Prelude] (this file): Python outcomes.  A call returns a value or
      raises; [result A] has the constructors [Ok] and [Raise], [exn] lists
      the exceptions the modelled code and the library calls it makes can
      raise ([KeyError] carries the labels not found).  [x <- e ;; k]
      (scope [py_scope]) sequences calls the way statements follow each
      other; [mapM] is a list comprehension whose element expression may
      raise, [foldM] a [for] loop whose body may raise; [returns P r] says
      that [r] is a value that satisfies [P].  The tactics [simpl_result],
      [inv_result], [case_ltb], [by_compute], [by_range] (a statement
      about the integers of an interval, decided by evaluation) and
      [zdiv_lia], the hint database [stock] and the shared lemmas on lists
      and integers live here.

    - [DateTime]: the part of Python's [datetime] the program uses.  A
      naive [datetime] is its proleptic Gregorian ordinal ([toordinal()],
      between 1 and [MAXORDINAL] = 3652059) and the microseconds since
      midnight; [datetime_add] is [d + timedelta(days=n)] with the
      [OverflowError] the library raises outside years 1..9999;
      [datetime_ltb] is [<] (and [>] with the arguments swapped);
      [date_of] is [.date()].

    - [Calendar]: the years, months and days behind the ordinals.
      [ymd2ord] and [ord2ymd] are the library's conversions between the
      fields of a date and its ordinal (the cycles of 400, 100 and 4
      years), [is_leap], [days_in_month], [days_before_month] and
      [days_before_year] their helpers, [check_date_fields] the range
      check of the constructor with its [ValueError]s, [datetime_ymd] the
      constructor [datetime(year, month, day)] and [date_add] the addition
      as the library performs it on the fields.

    - [RangeSplitter]: [StockParser.split_date_range] (lines 46-61).  The
      [while] loop is [split_loop], a [Fixpoint] on a fuel argument whose
      body is the loop body statement by statement; [split_date_range]
      runs it with [split_fuel].  The abstract specification is the closed
      form [split_spec]: chunk [k] starts 351*k days after the start and
      lasts 350 days, clamped to the end date.

    - [Money]: [StockParser.cast_money] (lines 27-29) in IEEE 754
      binary64, through the Standard Library's executable specification of
      floats ([SpecFloat], precision 53, [emax] 1024): [float_of_int] is
      Python's int-to-float conversion (round to nearest even,
      [OverflowError] when the integer is too large), [float_truediv] and
      [float_add] are [/] and [+] on floats.  [cast_money_exact] is the
      rational number the expression denotes.

    - [PyStr]: the methods of [str] the program calls: [rsplit('_', 1)[0]]
      ([rsplit_head]), [startswith], [split(",")] and [join], on strings
      as byte sequences.

    - [Strptime]: [datetime.strptime(s, "%Y-%m-%d")] (lines 139-140).  The
      library compiles the format to a regular expression; the expression
      is syntax here ([regex]: a class of characters, a sequence, an
      alternative), [matches] the backtracking matcher (the matches at the
      start of a text, in the order in which they are tried),
      [format_regex] the expression of the format with its three groups,
      [int] the conversion of a group, and [strptime] the function: the
      first match, the [ValueError] for no match and for text that
      remains, the constructor of [Calendar].

    - [Frame]: the pandas data frames.  A [frame] is its column labels
      (which may repeat, as in pandas) and its rows of cells.
      [DataFrame] is the constructor from a list of dictionaries (columns
      in order of first appearance, no columns at all for an empty list);
      [rename], [select] ([df[[...]]]), [getitem] ([df[label]]),
      [mask_rows] ([df[mask]]), [isin], [series_eq] ([==]), [values_0],
      [frame_empty] ([.empty]), [bfill_axis1], [iloc_col0], [setitem]
      ([df[label] = series]) and [drop_columns] are the operations the
      program applies, with the [KeyError] and [IndexError] pandas raises.
      [dtype_of] is the kind of value a cell holds and [cells P df] says
      that every cell of a frame satisfies [P]; the operations move cells
      and write NaN, so they keep [cells P] for every [P] that NaN
      satisfies.

    - [Candles]: [StockParser.create_df] (lines 14-25) and [chunk_table],
      the three statements of [run] (lines 105-107) that turn the candles
      of one response into the two-column table of dates and closing
      prices.

    - [Console]: the state of a run ([io_state]: the outside world, the
      lines of standard input still to be read, the items written to
      standard output), [input] and [print], and calls with effects as
      state-passing functions ([io], [x <~ e ;; k]).  [later] is the
      preorder "more has been read and more has been written"; a call is
      [forward] when it only moves the console that way.  The hint
      database [forward] and the tactic [solve_forward] prove it of a
      sequence of calls from its parts.

    - [Client]: [StockParser.get_candles] (lines 31-44) and the two
      interfaces of the brokerage's API, the type classes [MarketData]
      (the candle request) and [Instruments] (the listings), each an
      operation on the state of the outside world.  The theorems about the
      program hold for every instance.

    - [Merge]: [merged_df.merge(temp_df, on='date', how='outer')]
      (line 112) as pandas 2.2 performs it: [key_position] finds the key
      column, [items_overlap_with_suffix] makes the labels (suffixes [_x]
      and [_y], [MergeError] when a suffix creates a duplicate),
      [outer_join] makes the rows (keys ascending, each once; for each
      key the left rows paired with the right rows, a missing side filled
      with NaN).

    - [Coalesce]: the coalescing loop (lines 117-124): [coalesce_step] is
      the loop body, [coalesce] the loop.  The iteration order of the
      Python [set] of group names is unspecified; it is the class
      [SetOrder], any listing of the distinct names.  [same_table] is
      equality of tables up to the order of their columns.

    - [Groups]: no code of its own; the coalescing loop against a
      specification without an order of columns.  [table_of] takes a
      frame to the set of its labels and, for each row, the finite map
      from the labels to the cells ([row_map]); [table_step] is the body
      of the loop on such tables, [separate] says that the groups of a
      list of labels stand apart (no label that one group reads or writes
      is read or written by another), and [group_coalesced] is what the
      loop promises for a group in a row.  [family] lists the labels a
      name can give rise to (the name, [name_x], [name_y]);
      [grouped_labels] says that a list of labels is made of such
      families for names that are [keys_apart], which is what the joins
      of [Runner] produce and what makes the groups [separate].

    - [Runner]: [StockParser.run] (lines 63-129): [catalogue] (the
      listings), [ticker_loop] and [ticker_step] (the loop over the
      tickers with the lookup of an instrument), [fetch_ticker] (the
      [try] statement with its bare [except]), [date_ranges], [chunk_loop]
      and [chunk_step] (the loop over the chunks), then [coalesce] and the
      prints.  [script] is an executable instance of both interfaces:
      scripted listings and candle responses, with a log of the requests.
      [answers] is the step relation of a sequence of candle requests: the
      chunks asked for, the world before, the answers, the world after.
      The section [Invariant] is the rule for the two loops: a property
      that the table of a chunk has and that the join keeps holds of the
      table throughout; it is used for [dated], for [priced] (dated,
      and a date or a float in every cell) and for [grouped] (dated, with
      labels in groups that stand apart, which holds when the names of
      the instruments are [compatible]).

    - [EndToEnd]: no code of its own; the theorems about [run] as a
      whole, stated for any instance of the interfaces by the answers the
      instance gives.

    - [Main]: [StockParser.main] (lines 131-145), [__init__] (lines 10-11)
      and the script (lines 148-150): [main], [StockParser_init],
      [program].

    ** What the theorems show

    [DateTime]: the order is a strict total order that agrees with the
    order of microsecond timestamps; [datetime_add] preserves
    well-formedness or raises.  [Calendar]: the two conversions are
    inverse to each other on the dates of years 1..9999 (round trip), the
    order of the ordinals is the order of the fields, and the addition on
    ordinals of [DateTime] is the addition on fields of the library
    (equivalence).  [RangeSplitter]: the loop terminates within
    [split_fuel]; in range the code returns exactly [split_spec]
    (refinement), hence the chunk count, contiguity, the span of at most
    350 days, the clamp, the coverage of every day before the end date;
    the [OverflowError] near year 9999; and the departures from the written
    specification (an empty list exactly when the end is not after the
    start, no error for start > end, the end date left out when the span
    is a multiple of 351 days).  [Money]: no exception and no NaN on the
    64-bit and 32-bit fields of the API's messages, exactness for whole
    amounts, and a price (1.14) where the two roundings miss the nearest
    float.  [Strptime]: the matcher lists exactly the splits of the text
    whose first part is in the language of the expression; [strptime]
    returns a date exactly on the spellings of that date that the format
    admits (four digits, a month and a day with or without a leading
    zero, a day with a leading blank), so parsing the ISO text of a date
    gives the date back, and every other text raises [ValueError].
    [Candles]: one row per candle in the order received, the [KeyError]
    for a response without candles, no missing value in a chunk's table.
    [Client]: one request for daily candles, [RequestError] printed and
    swallowed.  [Merge]: the join of dated tables is the date-aligned
    table (rows per date, ascending dates, union of the dates, one row per
    date when the inputs have one); which labels result, and the
    [MergeError] at the fourth chunk of an instrument.  [Coalesce]: the
    loop raises nothing but [KeyError]; it leaves a table with one column
    per name untouched; what it makes of two and of three chunks of an
    instrument (after two chunks [name_y] stays); what it makes of names
    that begin with one another (a column lost, or a [KeyError] that ends
    the run); a table on which two iteration orders of the set give
    tables that differ in the order of their columns and in nothing else.
    [Groups]: on every table with distinct labels whose groups stand
    apart, the body of the loop implements [table_step] (a simulation),
    steps for different groups commute, hence the loop returns the same
    table up to the order of the columns under every iteration order, and
    every group of every row is coalesced: all labels but the last gone,
    the first value that is not missing under the combined label, the
    last label kept when it is not the combined label.
    [Runner]: the loop over the tickers raises nothing whatever the API
    does, and keeps the table dated; as long as the requests return or
    fail with [RequestError] the loop over the chunks is the fold of
    lines 105-112 over the responses received (a failed request costs its
    chunk and nothing else), and when every request fails the loop still
    ends, with the table it began with; a response without candles, or a
    fourth chunk, ends the instrument.  [EndToEnd], for listings that
    return: when the names of the instruments are compatible (plain
    names, none the beginning of another) no exception leaves a run,
    whatever the API answers to the candle requests; with both listings
    empty a run raises the [KeyError] of the lookup of the column
    [ticker]; with a catalogue in which no instrument is called [date] a
    run returns [None] after the message of line 82, or returns a table
    whose rows fit its labels after the prints of its last lines, or
    raises [KeyError] from the coalescing loop, and nothing else,
    whatever the API answers to the candle requests; when moreover no
    instrument is called [volume], the table returned holds a date or a
    float in every cell (so the joins never fill a column that would need
    a conversion); a run over two
    chunks of one instrument makes the two requests in order and returns
    the date-aligned table with the column [name_y] beside the combined
    column; a run over an empty range makes no request.  [Main]: [main] only ever reads on and writes on
    (no line is read twice, nothing written is taken back); a date that
    does not parse ends the program with [ValueError] after the three
    prompts and before the token is asked for; equal dates give an empty
    table.

    ** Bounds, fuel and assumptions

    Integers are unbounded ([Z]), as Python's are; floats are binary64.
    Dates are bounded by [MAXORDINAL] as in the library; the theorems
    about [split_date_range] that need the absence of overflow say so
    ([in_range]).  [split_fuel] is the number of days between the two
    dates plus two: the start of the current chunk advances by at least
    one day per iteration, and [split_loop_fuel_enough] shows that no run
    of the loop needs more, so the function is total.  All other loops are
    structural recursion over a list; the matcher of [Strptime] is
    structural recursion over the expression, which has no repetition.

    The statements of [Calendar] about all months, all years of a cycle
    and all days of a year are decided by evaluation over the interval
    ([by_range]); the statements about all years are proved from them by
    arithmetic.

    pandas is modelled from its documented behaviour, version 2.2: an
    outer merge sorts the keys; a duplicate label created by a suffix is a
    [MergeError] (since 2.0).  The key column of every table the program
    merges holds dates ([Merge.dated] is an invariant of the loop,
    [Runner.ticker_loop_accumulated]); on other key cells the model raises
    [TypeError] and claims nothing.  Cells are compared as values; dtype
    conversions of columns are not modelled.  Strings are byte strings:
    the separators [_] and [,] are ASCII, which no multi-byte character
    contains, and the digits of a date are ASCII digits.  The messages of
    the [ValueError]s of [datetime] are those of CPython's implementation;
    the message for a text that does not match the format leaves out the
    display of the text.  The attribute [token] of the object is never
    read or assigned by a method, so [run] and the other methods take no
    [self]; [main] takes it and does not use it.

    ** Not modelled

    The text pandas prints for [info()] and for a table (the output holds
    the table itself); the row index of a frame (always the default
    index, never read); the client library behind the two interfaces,
    the network and the [with] statement that closes the channel;
    warnings on standard error; what the interpreter does with an
    exception that leaves [main] (the traceback, the exit status);
    [KeyboardInterrupt] and [SystemExit], which the bare [except] would
    also catch; decimal digits of other scripts in a date, which Python's
    [\d] accepts. *)

From Stdlib Require Import ZArith Lia ZifyBool.
From stdpp Require Import base tactics option list strings.

#[global] Open Scope Z_scope.

(** ** Python outcomes *)

(** The exceptions raised by the modelled code and by the library calls it
    makes. *)
Inductive exn : Type :=
| OverflowError
| ZeroDivisionError
| KeyError (labels : list string)
| ValueError (msg : string)
| MergeError
| TypeError
| IndexError
| EOFError
| RequestError (msg : string)
| OtherError (msg : string).

(** The outcome of a call: a value, or an exception propagating. *)
Inductive result (A : Type) : Type :=
| Ok (a : A)
| Raise (e : exn).

Arguments Ok {A} a.
Arguments Raise {A} e.

#[global] Instance exn_eq_dec : EqDecision exn.
Proof. solve_decision. Defined.

#[global] Instance result_eq_dec `{EqDecision A} : EqDecision (result A).
Proof. solve_decision. Defined.

(** Sequencing: the second statement runs only if the first returned. *)
Definition bind {A B : Type} (m : result A) (k : A -> result B) : result B :=
  match m with
  | Ok a => k a
  | Raise e => Raise e
  end.

Declare Scope py_scope.
Delimit Scope py_scope with py.
Notation "x <- e ;; k" := (bind e (fun x => k))
  (at level 100, e at next level, right associativity) : py_scope.
#[global] Open Scope py_scope.

(** The call returns, and a value with property [P]. *)
Definition returns {A : Type} (P : A -> Prop) (r : result A) : Prop :=
  match r with Ok a => P a | Raise _ => False end.

#[global] Instance returns_dec {A : Type} (P : A -> Prop) `{!forall a, Decision (P a)}
    (r : result A) : Decision (returns P r).
Proof. destruct r; apply _. Defined.

Definition is_Ok {A : Type} (r : result A) : bool :=
  match r with Ok _ => true | Raise _ => false end.

(** [[f(x) for x in l]] where [f] may raise: evaluation is left to right
    and stops at the first exception. *)
Fixpoint mapM {A B : Type} (f : A -> result B) (l : list A) : result (list B) :=
  match l with
  | [] => Ok []
  | x :: l' => y <- f x ;; ys <- mapM f l' ;; Ok (y :: ys)
  end.

(** A [for] loop whose body may raise: the state after the last element,
    or the first exception. *)
Fixpoint foldM {A S : Type} (f : S -> A -> result S) (s : S) (l : list A)
    : result S :=
  match l with
  | [] => Ok s
  | x :: l' => s' <- f s x ;; foldM f s' l'
  end.

(** Ceiling of [a / b] for positive [b]. *)
Definition cdiv (a b : Z) : Z := (a + b - 1) / b.

(** ** Tactics *)

(** Reduce [bind] on constructors. *)
Ltac simpl_result := cbn [bind mapM is_Ok] in *.

(** Case analysis on the first call of a sequence in hypothesis [H]. *)
Ltac inv_result H :=
  match type of H with
  | bind ?m _ = _ =>
      let E := fresh "E" in
      destruct m eqn:E; cbn [bind] in H; [| try discriminate H]
  end.

(** Case analysis on an integer comparison that guards an [if]. *)
Ltac case_ltb :=
  match goal with
  | |- context [if ?a <? ?b then _ else _] => destruct (Z.ltb_spec a b)
  | |- context [if ?a <=? ?b then _ else _] => destruct (Z.leb_spec a b)
  | |- context [if ?a =? ?b then _ else _] => destruct (Z.eqb_spec a b)
  end.

(** Decide a closed proposition by evaluating its decision procedure. *)
Ltac by_compute := apply (bool_decide_unpack _); vm_compute; exact I.

(** Linear arithmetic with division and remainder by constants. *)
Ltac zdiv_lia := Z.div_mod_to_equations; lia.

(** Decide a property of the integers [m], ..., [m + n - 1] by evaluating
    it at each of them: the goal is [forall z, m <= z < m + n -> P z], up
    to the shape of the bounds. *)
Ltac by_range m n :=
  let z := fresh "z" in
  let Hz := fresh "Hz" in
  let Hin := fresh "Hin" in
  intros z Hz;
  assert (z ∈ seqZ m n) as Hin by (apply elem_of_seqZ; lia);
  clear Hz; revert z Hin; apply Forall_forall; by_compute.

(** ** Laws of sequencing *)

Section Bind.
Context {A B C : Type}.

Lemma bind_Ok (a : A) (k : A -> result B) : (x <- Ok a ;; k x) = k a.
Proof. reflexivity. Qed.

Lemma bind_Raise (e : exn) (k : A -> result B) : (x <- Raise e ;; k x) = Raise e.
Proof. reflexivity. Qed.

Lemma bind_ret_r (m : result A) : (x <- m ;; Ok x) = m.
Proof. by destruct m. Qed.

Lemma bind_assoc (m : result A) (k : A -> result B) (h : B -> result C) :
  (y <- (x <- m ;; k x) ;; h y) = (x <- m ;; y <- k x ;; h y).
Proof. by destruct m. Qed.

Lemma bind_Ok_inv (m : result A) (k : A -> result B) (b : B) :
  (x <- m ;; k x) = Ok b <-> exists a, m = Ok a /\ k a = Ok b.
Proof.
  destruct m as [a|e]; cbn; split.
  - eauto.
  - by intros (a' & [= ->] & ?).
  - done.
  - by intros (a' & ? & ?).
Qed.

Lemma bind_Raise_inv (m : result A) (k : A -> result B) (e : exn) :
  (x <- m ;; k x) = Raise e <->
  m = Raise e \/ exists a, m = Ok a /\ k a = Raise e.
Proof.
  destruct m as [a|e']; cbn; split.
  - eauto.
  - by intros [|(a' & [= ->] & ?)].
  - intros [= ->]. by left.
  - by intros [[= ->]|(a' & ? & ?)].
Qed.

Lemma is_Ok_true (m : result A) : is_Ok m = true <-> exists a, m = Ok a.
Proof. destruct m; cbn; split; eauto; (done || by intros [? ?]). Qed.

End Bind.

(** ** Comprehensions that may raise *)

Section MapM.
Context {A B : Type} (f : A -> result B).

Lemma mapM_app (l1 l2 : list A) :
  mapM f (l1 ++ l2) = (ys1 <- mapM f l1 ;; ys2 <- mapM f l2 ;; Ok (ys1 ++ ys2)).
Proof.
  induction l1 as [|x l1 IH]; cbn.
  - by rewrite bind_ret_r.
  - destruct (f x); cbn; [|done]. rewrite IH.
    destruct (mapM f l1); cbn; [|done]. by destruct (mapM f l2).
Qed.

Lemma mapM_Ok_Forall2 (l : list A) (ys : list B) :
  mapM f l = Ok ys <-> Forall2 (fun x y => f x = Ok y) l ys.
Proof.
  revert ys. induction l as [|x l IH]; intros ys; cbn.
  - split; [intros [= <-]; constructor | by inversion 1].
  - rewrite bind_Ok_inv. split.
    + intros (y & Hy & H). apply bind_Ok_inv in H as (ys' & Hys & [= <-]).
      constructor; [done | by apply IH].
    + inversion 1 as [|? y ? ys' Hy Hys]; subst. exists y. split; [done|].
      apply IH in Hys. by rewrite Hys.
Qed.

Lemma mapM_Ok_length (l : list A) (ys : list B) :
  mapM f l = Ok ys -> length ys = length l.
Proof. intros H%mapM_Ok_Forall2. symmetry. by eapply Forall2_length. Qed.

Lemma mapM_Ok_lookup (l : list A) (ys : list B) (i : nat) (x : A) :
  mapM f l = Ok ys -> l !! i = Some x -> exists y, ys !! i = Some y /\ f x = Ok y.
Proof.
  intros H%mapM_Ok_Forall2 Hi.
  destruct (Forall2_lookup_l _ _ _ _ _ H Hi) as (y & ? & ?). eauto.
Qed.

Lemma mapM_total (g : A -> B) (l : list A) :
  (forall x, x ∈ l -> f x = Ok (g x)) -> mapM f l = Ok (map g l).
Proof.
  induction l as [|x l IH]; intros H; cbn; [done|].
  rewrite H by left. cbn. rewrite IH; [done|].
  intros y Hy. apply H. by right.
Qed.

Lemma mapM_Raise (l1 l2 : list A) (x : A) (ys : list B) (e : exn) :
  mapM f l1 = Ok ys -> f x = Raise e -> mapM f (l1 ++ x :: l2) = Raise e.
Proof. intros H1 Hx. rewrite mapM_app, H1. cbn. by rewrite Hx. Qed.

End MapM.

(** ** Loops that may raise *)

Section FoldM.
Context {A S : Type} (f : S -> A -> result S).

Lemma foldM_app (s : S) (l1 l2 : list A) :
  foldM f s (l1 ++ l2) = (s' <- foldM f s l1 ;; foldM f s' l2).
Proof.
  revert s. induction l1 as [|x l1 IH]; intros s; cbn; [done|].
  destruct (f s x); cbn; [apply IH | done].
Qed.

(** An invariant of the body is an invariant of the loop. *)
Lemma foldM_invariant (P : S -> Prop) (s s' : S) (l : list A) :
  (forall s x s', x ∈ l -> P s -> f s x = Ok s' -> P s') ->
  P s -> foldM f s l = Ok s' -> P s'.
Proof.
  revert s. induction l as [|x l IH]; intros s Hf Hs; cbn.
  - by intros [= <-].
  - intros H. inv_result H. eapply IH; [| |exact H].
    + intros ? ? ? ?. apply Hf. by right.
    + eapply Hf; [left | exact Hs | exact E].
Qed.

(** A body that changes nothing makes a loop that changes nothing. *)
Lemma foldM_id (s : S) (l : list A) :
  (forall x, x ∈ l -> f s x = Ok s) -> foldM f s l = Ok s.
Proof.
  induction l as [|x l IH]; intros Hf; cbn; [done|].
  rewrite Hf by left. cbn. apply IH. intros ? ?. apply Hf. by right.
Qed.

(** A loop that raises does so in its body. *)
Lemma foldM_Raise (s : S) (l : list A) (e : exn) :
  foldM f s l = Raise e -> exists s' x, x ∈ l /\ f s' x = Raise e.
Proof.
  revert s. induction l as [|x l IH]; intros s; cbn; [done|].
  destruct (f s x) as [s'|e'] eqn:E; cbn.
  - intros (s'' & y & Hy & H)%IH. exists s'', y. split; [by right | done].
  - intros [= ->]. exists s, x. split; [by left | done].
Qed.

(** A loop in which one element changes the state, once, and every other
    element leaves both the old and the new state as they are, ends in the
    new state, in whatever order the elements come. *)
Lemma foldM_one_change (l : list A) (a : A) (s0 s1 : S) :
  NoDup l -> a ∈ l -> f s0 a = Ok s1 ->
  (forall x, x ∈ l -> x <> a -> f s0 x = Ok s0 /\ f s1 x = Ok s1) ->
  foldM f s0 l = Ok s1.
Proof.
  intros Hnd Ha Hfa Hother.
  apply list_elem_of_split in Ha as (l1 & l2 & ->).
  apply NoDup_app in Hnd as (_ & Hl1 & [Hl2 _]%NoDup_cons).
  rewrite foldM_app, foldM_id.
  - cbn. rewrite Hfa. cbn. apply foldM_id. intros x Hx.
    apply Hother; [rewrite elem_of_app, elem_of_cons; tauto|]. by intros ->.
  - intros x Hx. apply Hother; [rewrite elem_of_app; tauto|].
    intros ->. apply (Hl1 a Hx). left.
Qed.

End FoldM.

(** ** Integers *)

Lemma cdiv_spec (a b q : Z) : 0 < b -> (q < cdiv a b <-> q * b < a).
Proof. intros Hb. unfold cdiv. Z.div_mod_to_equations. nia. Qed.

Lemma cdiv_nonpos (a b : Z) : 0 < b -> a <= 0 -> cdiv a b <= 0.
Proof. intros. unfold cdiv. Z.div_mod_to_equations. nia. Qed.

Lemma cdiv_pos (a b : Z) : 0 < b -> 0 < a -> 0 < cdiv a b.
Proof. intros. unfold cdiv. Z.div_mod_to_equations. nia. Qed.

Lemma cdiv_exact (a b : Z) : 0 < b -> a mod b = 0 -> cdiv a b = a / b.
Proof. intros. unfold cdiv. Z.div_mod_to_equations. nia. Qed.

Lemma cdiv_inexact (a b : Z) : 0 < b -> a mod b <> 0 -> cdiv a b = a / b + 1.
Proof. intros. unfold cdiv. Z.div_mod_to_equations. nia. Qed.

(** ** Lists *)

Lemma lookup_map_seq {A : Type} (f : nat -> A) (a n i : nat) :
  (i < n)%nat -> map f (seq a n) !! i = Some (f (a + i)%nat).
Proof.
  intros Hi. change (map f (seq a n)) with (f <$> seq a n).
  rewrite list_lookup_fmap, lookup_seq_lt by done. done.
Qed.

Lemma lookup_map_seq_ge {A : Type} (f : nat -> A) (a n i : nat) :
  (n <= i)%nat -> map f (seq a n) !! i = None.
Proof.
  intros Hi. apply lookup_ge_None. by rewrite length_map, length_seq.
Qed.

Lemma filter_all {A : Type} (P : A -> Prop) `{forall x, Decision (P x)} (l : list A) :
  Forall P l -> filter P l = l.
Proof.
  induction 1 as [|x l Hx Hl IH]; [done|].
  by rewrite filter_cons_True, IH.
Qed.

Lemma filter_none {A : Type} (P : A -> Prop) `{forall x, Decision (P x)} (l : list A) :
  Forall (fun x => ~ P x) l -> filter P l = [].
Proof.
  induction 1 as [|x l Hx Hl IH]; [done|].
  by rewrite filter_cons_False, IH.
Qed.

Lemma elem_of_removelast {A : Type} (l : list A) (x : A) : x ∈ removelast l -> x ∈ l.
Proof.
  induction l as [|y [|z l] IH]; cbn; [done|by intros ?%elem_of_nil|].
  intros [->|Hx]%elem_of_cons; [left|right; by apply IH].
Qed.

(** A fold whose steps commute does not depend on the order of the list. *)
Lemma foldl_pairwise_perm {S A : Type} (f : S -> A -> S) (l1 l2 : list A) :
  (forall a b, a ∈ l1 -> b ∈ l1 -> a <> b -> forall s, f (f s a) b = f (f s b) a) ->
  NoDup l1 -> l1 ≡ₚ l2 -> forall s, foldl f s l1 = foldl f s l2.
Proof.
  intros Hc Hnd Hp. revert Hc Hnd.
  induction Hp as [|x l l' Hp IH|x y l|l l' l'' Hp1 IH1 Hp2 IH2]; intros Hc Hnd s.
  - done.
  - cbn. apply NoDup_cons in Hnd as [_ Hnd]. apply IH; [|done].
    intros a b Ha Hb. apply Hc; by right.
  - cbn. f_equal. apply NoDup_cons in Hnd as [Hy _].
    apply Hc; [left | right; left |]. intros ->. apply Hy. left.
  - rewrite IH1 by done. apply IH2; [|by rewrite <- Hp1].
    intros a b Ha Hb. apply Hc; by rewrite Hp1.
Qed.

Lemma Forall_flat_map {A B : Type} (P : B -> Prop) (f : A -> list B) (l : list A) :
  Forall (fun x => Forall P (f x)) l -> Forall P (flat_map f l).
Proof. induction 1; cbn; [constructor|]. by apply Forall_app. Qed.

Lemma filter_nil_Forall {A : Type} (P : A -> Prop) `{forall x, Decision (P x)} (l : list A) :
  filter P l = [] <-> Forall (fun x => ~ P x) l.
Proof.
  split; [|apply filter_none]. rewrite Forall_forall.
  intros Hnil x Hx HP. by apply (filter_nil_not_elem_of P l x).
Qed.

Lemma Forall_filter_keep {A : Type} (P Q : A -> Prop) `{forall x, Decision (P x)}
    (l : list A) :
  Forall Q l -> Forall Q (filter P l).
Proof.
  rewrite !Forall_forall. intros HQ x [_ Hx]%list_elem_of_filter. by apply HQ.
Qed.

Lemma seq_cons (a n : nat) : seq a (S n) = a :: seq (S a) n.
Proof. reflexivity. Qed.

(** ** Automation *)

Create HintDb stock discriminated.
Create Rewrite HintDb stock.
#[export] Hint Rewrite @bind_Ok @bind_Raise @bind_ret_r : stock.
#[export] Hint Rewrite @length_map @length_seq @length_app : stock.
#[export] Hint Resolve cdiv_pos cdiv_nonpos : stock.
#[export] Hint Extern 5 (_ <= _) => lia : stock.
#[export] Hint Extern 5 (_ < _) => lia : stock.
