(* ===== verification/DateTime.v ===== *)
(** * DateTime: the part of Python's [datetime] module the program uses

    [src/main.py] adds [timedelta(days=n)] to datetimes (lines 50, 58, 59),
    compares datetimes with [<] and [>] (lines 52, 53) and truncates a
    candle's time to its date (line 17).  A naive datetime is modelled by
    its day number ([toordinal()]) and the microseconds since midnight,
    which is how the library itself does the addition and what its
    field-by-field comparison amounts to. *)

From Stdlib Require Import ZArith Lia ZifyBool.
From stdpp Require Import base tactics option list.
From S2P Require Import Prelude.

(** ** Data *)

(** [date.max.toordinal()]: 31 December 9999. *)
Definition MAXORDINAL : Z := 3652059.

(** Microseconds in a day. *)
Definition DAY_US : Z := 86400000000.

(** A calendar date is its ordinal: 1 is 1 January of year 1. *)
Definition date : Type := Z.

(** [datetime]: the date's ordinal and the time of day in microseconds. *)
Record datetime : Type := mk_datetime { ordinal : date; tod : Z }.

(** [timedelta(days=n)]: the program builds no other kind. *)
Record timedelta : Type := mk_timedelta { td_days : Z }.

#[global] Instance datetime_eq_dec : EqDecision datetime.
Proof. solve_decision. Defined.

#[global] Instance timedelta_eq_dec : EqDecision timedelta.
Proof. solve_decision. Defined.

(** The values the library can represent. *)
Definition datetime_wf (d : datetime) : Prop :=
  1 <= ordinal d <= MAXORDINAL /\ 0 <= tod d < DAY_US.

(** ** Operations *)

(** [d + t]: the day number moves, the time of day stays, and a result
    outside years 1..9999 raises [OverflowError]. *)
Definition datetime_add (d : datetime) (t : timedelta) : result datetime :=
  let days := ordinal d + td_days t in
  if (0 <? days) && (days <=? MAXORDINAL)
  then Ok (mk_datetime days (tod d))
  else Raise OverflowError.

(** [a < b]: by date, then by time of day.  [a > b] is [datetime_ltb b a]. *)
Definition datetime_ltb (a b : datetime) : bool :=
  (ordinal a <? ordinal b) || ((ordinal a =? ordinal b) && (tod a <? tod b)).

(** [d.date()] *)
Definition date_of (d : datetime) : date := ordinal d.

(** ** Specification vocabulary *)

Definition datetime_lt (a b : datetime) : Prop := datetime_ltb a b = true.
Definition datetime_le (a b : datetime) : Prop := datetime_ltb b a = false.

Declare Scope dt_scope.
Delimit Scope dt_scope with dt.
Infix "<" := datetime_lt : dt_scope.
Infix "<=" := datetime_le : dt_scope.
Infix "<?" := datetime_ltb : dt_scope.

(** The datetime [n] days later, without the range check. *)
Definition shift (d : datetime) (n : Z) : datetime :=
  mk_datetime (ordinal d + n) (tod d).

(** Microseconds since the start of day 0. *)
Definition to_micros (d : datetime) : Z := ordinal d * DAY_US + tod d.

(** The earlier of two datetimes (the second on a tie). *)
Definition datetime_min (a b : datetime) : datetime :=
  if datetime_ltb b a then b else a.

(** Midnight of a date. *)
Definition midnight (o : date) : datetime := mk_datetime o 0.

#[global] Instance datetime_lt_dec (a b : datetime) : Decision (a < b)%dt.
Proof. unfold datetime_lt. apply _. Defined.

#[global] Instance datetime_le_dec (a b : datetime) : Decision (a <= b)%dt.
Proof. unfold datetime_le. apply _. Defined.

#[global] Instance datetime_wf_dec (d : datetime) : Decision (datetime_wf d).
Proof. unfold datetime_wf. apply _. Defined.

(** ** Tactics *)

(** Expose the integers behind datetimes, for [lia]. *)
Ltac dt_unfold :=
  unfold datetime_le, datetime_lt, datetime_ltb, datetime_wf, date_of, shift,
    to_micros, midnight, MAXORDINAL, DAY_US in *;
  cbn [ordinal tod td_days] in *.

Ltac dt_lia := dt_unfold; lia.

(** ** The order *)

Lemma datetime_ltb_lt (a b : datetime) : datetime_ltb a b = true <-> (a < b)%dt.
Proof. done. Qed.

Lemma datetime_ltb_ge (a b : datetime) : datetime_ltb a b = false <-> (b <= a)%dt.
Proof. done. Qed.

Lemma datetime_eq (a b : datetime) : ordinal a = ordinal b -> tod a = tod b -> a = b.
Proof. destruct a, b; cbn; congruence. Qed.

Lemma datetime_lt_irrefl (a : datetime) : ~ (a < a)%dt.
Proof. dt_lia. Qed.

Lemma datetime_lt_trans (a b c : datetime) : (a < b)%dt -> (b < c)%dt -> (a < c)%dt.
Proof. dt_lia. Qed.

#[global] Instance datetime_lt_strict : StrictOrder datetime_lt.
Proof. split; [exact datetime_lt_irrefl | exact datetime_lt_trans]. Qed.

#[global] Instance datetime_le_preorder : PreOrder datetime_le.
Proof. split; [intros a | intros a b c]; dt_lia. Qed.

#[global] Instance datetime_le_antisym : AntiSymm eq datetime_le.
Proof. intros a b Hab Hba. apply datetime_eq; dt_lia. Qed.

Lemma datetime_lt_trichotomy (a b : datetime) : (a < b)%dt \/ a = b \/ (b < a)%dt.
Proof.
  destruct (decide (a = b)) as [|Hne]; [by auto|].
  assert (ordinal a <> ordinal b \/ tod a <> tod b) as H.
  { destruct (decide (ordinal a = ordinal b)); [right | by left].
    intros ?. by apply Hne, datetime_eq. }
  dt_unfold. lia.
Qed.

Lemma datetime_le_lt_or_eq (a b : datetime) : (a <= b)%dt <-> (a < b)%dt \/ a = b.
Proof.
  split.
  - intros H. destruct (datetime_lt_trichotomy a b) as [|[|Hba]]; auto.
    exfalso. dt_lia.
  - intros [H| ->]; [dt_lia | reflexivity].
Qed.

Lemma datetime_lt_le (a b : datetime) : (a < b)%dt -> (a <= b)%dt.
Proof. dt_lia. Qed.

Lemma datetime_le_lt_trans (a b c : datetime) : (a <= b)%dt -> (b < c)%dt -> (a < c)%dt.
Proof. dt_lia. Qed.

Lemma datetime_lt_le_trans (a b c : datetime) : (a < b)%dt -> (b <= c)%dt -> (a < c)%dt.
Proof. dt_lia. Qed.

Lemma datetime_lt_ordinal (a b : datetime) : (a < b)%dt -> ordinal a <= ordinal b.
Proof. dt_lia. Qed.

(** The field-by-field comparison is the comparison of timestamps. *)
Lemma datetime_ltb_micros (a b : datetime) :
  0 <= tod a < DAY_US -> 0 <= tod b < DAY_US ->
  datetime_ltb a b = (to_micros a <? to_micros b).
Proof. dt_lia. Qed.

Lemma datetime_lt_micros (a b : datetime) :
  0 <= tod a < DAY_US -> 0 <= tod b < DAY_US ->
  (a < b)%dt <-> to_micros a < to_micros b.
Proof. dt_lia. Qed.

Lemma to_micros_inj (a b : datetime) :
  0 <= tod a < DAY_US -> 0 <= tod b < DAY_US ->
  to_micros a = to_micros b -> a = b.
Proof. intros. apply datetime_eq; dt_lia. Qed.

(** On midnights the order is the order of the dates. *)
Lemma midnight_ltb (o1 o2 : date) : datetime_ltb (midnight o1) (midnight o2) = (o1 <? o2).
Proof. dt_lia. Qed.

(** ** The earlier of two datetimes *)

Lemma datetime_min_l (a b : datetime) : (a <= b)%dt -> datetime_min a b = a.
Proof. unfold datetime_min, datetime_le. by intros ->. Qed.

Lemma datetime_min_r (a b : datetime) : (b < a)%dt -> datetime_min a b = b.
Proof. unfold datetime_min, datetime_lt. by intros ->. Qed.

Lemma datetime_min_le_l (a b : datetime) : (datetime_min a b <= a)%dt.
Proof.
  unfold datetime_min. destruct (datetime_ltb b a) eqn:E; [|reflexivity].
  by apply datetime_lt_le.
Qed.

Lemma datetime_min_le_r (a b : datetime) : (datetime_min a b <= b)%dt.
Proof. unfold datetime_min. by destruct (datetime_ltb b a) eqn:E. Qed.

(** ** Shifting by days *)

Lemma shift_0 (d : datetime) : shift d 0 = d.
Proof. destruct d. unfold shift. cbn. f_equal. lia. Qed.

Lemma shift_shift (d : datetime) (n m : Z) : shift (shift d n) m = shift d (n + m).
Proof. unfold shift. cbn. f_equal. lia. Qed.

Lemma shift_ltb (a b : datetime) (n : Z) :
  datetime_ltb (shift a n) (shift b n) = datetime_ltb a b.
Proof. dt_lia. Qed.

Lemma shift_lt_pos (d : datetime) (n : Z) : 0 < n -> (d < shift d n)%dt.
Proof. dt_lia. Qed.

Lemma shift_wf (d : datetime) (n : Z) :
  datetime_wf d -> 0 < ordinal d + n <= MAXORDINAL -> datetime_wf (shift d n).
Proof. dt_lia. Qed.

Lemma to_micros_shift (d : datetime) (n : Z) :
  to_micros (shift d n) = to_micros d + n * DAY_US.
Proof. dt_lia. Qed.

(** ** Adding a [timedelta] *)

(** In range, the sum is the shifted datetime. *)
Lemma datetime_add_in_range (d : datetime) (t : timedelta) :
  0 < ordinal d + td_days t <= MAXORDINAL ->
  datetime_add d t = Ok (shift d (td_days t)).
Proof.
  intros H. unfold datetime_add, shift. cbn zeta.
  replace ((0 <? _) && _) with true by lia. done.
Qed.

(** Out of range, the addition raises. *)
Lemma datetime_add_out_of_range (d : datetime) (t : timedelta) :
  ~ (0 < ordinal d + td_days t <= MAXORDINAL) ->
  datetime_add d t = Raise OverflowError.
Proof.
  intros H. unfold datetime_add. cbn zeta.
  replace ((0 <? _) && _) with false by lia. done.
Qed.

Lemma datetime_add_Ok (d d' : datetime) (t : timedelta) :
  datetime_add d t = Ok d' <->
  0 < ordinal d + td_days t <= MAXORDINAL /\ d' = shift d (td_days t).
Proof.
  destruct (decide (0 < ordinal d + td_days t <= MAXORDINAL)) as [H|H].
  - rewrite datetime_add_in_range by done. split; [intros [= <-] | intros [_ ->]]; done.
  - rewrite datetime_add_out_of_range by done. split; [done | tauto].
Qed.

Lemma datetime_add_Raise (d : datetime) (t : timedelta) (e : exn) :
  datetime_add d t = Raise e <->
  e = OverflowError /\ ~ (0 < ordinal d + td_days t <= MAXORDINAL).
Proof.
  destruct (decide (0 < ordinal d + td_days t <= MAXORDINAL)) as [H|H].
  - rewrite datetime_add_in_range by done. split; [done | tauto].
  - rewrite datetime_add_out_of_range by done. split; [intros [= <-] | intros [-> _]]; done.
Qed.

(** Whatever the addition returns is a datetime of the library. *)
Lemma datetime_add_wf (d d' : datetime) (t : timedelta) :
  datetime_wf d -> datetime_add d t = Ok d' -> datetime_wf d'.
Proof. intros Hd [H ->]%datetime_add_Ok. by apply shift_wf. Qed.

(** The addition keeps the time of day and moves the date by [td_days]. *)
Lemma datetime_add_date_of (d d' : datetime) (t : timedelta) :
  datetime_add d t = Ok d' -> date_of d' = date_of d + td_days t /\ tod d' = tod d.
Proof. by intros [H ->]%datetime_add_Ok. Qed.

(** Adding a positive number of days gives a strictly later datetime. *)
Lemma datetime_add_lt (d d' : datetime) (t : timedelta) :
  0 < td_days t -> datetime_add d t = Ok d' -> (d < d')%dt.
Proof. intros Ht [H ->]%datetime_add_Ok. by apply shift_lt_pos. Qed.

#[export] Hint Resolve datetime_lt_le datetime_min_le_l datetime_min_le_r
  shift_lt_pos shift_wf : stock.
#[export] Hint Rewrite shift_0 shift_shift shift_ltb to_micros_shift : stock.
