(* ===== verification/Calendar.v ===== *)
(** * Calendar: years, months and days behind the ordinals of [DateTime]

    Python's [datetime] keeps a date as its year, month and day.  The
    program meets these fields where it parses the dates typed at the
    console ([datetime.strptime], [src/main.py] lines 139-140), and the
    library goes through them whenever the program adds a [timedelta]
    (lines 50, 58, 59): the sum is computed on the ordinal of the date
    ([_ymd2ord]) and turned back into fields ([_ord2ymd]).

    This file holds the library's conversions, translated from the
    functions of CPython's [datetime] module whose names they keep, the
    range check of the constructor, and the theorems that justify
    [DateTime]'s choice to keep the ordinal only: the two conversions are
    inverse to each other on the dates the library can represent, the
    order of the ordinals is the order of the fields, and adding days to
    the ordinal is what the library's addition does to the fields. *)

From Stdlib Require Import ZArith Lia ZifyBool.
From stdpp Require Import base tactics option list strings pretty finite.
From S2P Require Import Prelude DateTime.

#[local] Open Scope string_scope.
#[local] Open Scope list_scope.
#[local] Open Scope Z_scope.

(** ** The code *)

Definition MINYEAR : Z := 1.
Definition MAXYEAR : Z := 9999.

(** The days of 400, 100 and 4 years. *)
Definition DI400Y : Z := 146097.
Definition DI100Y : Z := 36524.
Definition DI4Y : Z := 1461.

(** The tables are indexed by the month; index 0 holds a placeholder. *)
Definition DAYS_IN_MONTH : list Z :=
  [-1; 31; 28; 31; 30; 31; 30; 31; 31; 30; 31; 30; 31].

Definition DAYS_BEFORE_MONTH : list Z :=
  [-1; 0; 31; 59; 90; 120; 151; 181; 212; 243; 273; 304; 334].

(** [table[i]] for an index the library has checked. *)
Definition table_get (table : list Z) (i : Z) : Z := default 0 (table !! Z.to_nat i).

(** [_is_leap(year)] *)
Definition is_leap (year : Z) : bool :=
  (year mod 4 =? 0) && (negb (year mod 100 =? 0) || (year mod 400 =? 0)).

(** [_days_before_year(year)]: the days before 1 January of the year. *)
Definition days_before_year (year : Z) : Z :=
  let y := year - 1 in
  y * 365 + y / 4 - y / 100 + y / 400.

(** [_days_in_month(year, month)] *)
Definition days_in_month (year month : Z) : Z :=
  if (month =? 2) && is_leap year then 29 else table_get DAYS_IN_MONTH month.

(** [_days_before_month(year, month)]: the days of the year before the
    first of the month. *)
Definition days_before_month (year month : Z) : Z :=
  table_get DAYS_BEFORE_MONTH month + (if (2 <? month) && is_leap year then 1 else 0).

(** [_ymd2ord(year, month, day)]: 1 January of year 1 is day 1. *)
Definition ymd2ord (year month day : Z) : Z :=
  days_before_year year + days_before_month year month + day.

(** [_ord2ymd(n)]: the year from the cycles of 400, 100, 4 and 1 years
    that fit in [n - 1], the month from an estimate that is right or one
    too large. *)
Definition ord2ymd (n : Z) : Z * Z * Z :=
  let n := n - 1 in
  let n400 := n / DI400Y in
  let n := n mod DI400Y in
  let year := n400 * 400 + 1 in
  let n100 := n / DI100Y in
  let n := n mod DI100Y in
  let n4 := n / DI4Y in
  let n := n mod DI4Y in
  let n1 := n / 365 in
  let n := n mod 365 in
  let year := year + n100 * 100 + n4 * 4 + n1 in
  if (n1 =? 4) || (n100 =? 4) then (year - 1, 12, 31)
  else
    let leapyear := (n1 =? 3) && (negb (n4 =? 24) || (n100 =? 3)) in
    let month := Z.shiftr (n + 50) 5 in
    let preceding :=
      table_get DAYS_BEFORE_MONTH month + (if (2 <? month) && leapyear then 1 else 0) in
    let '(month, preceding) :=
      if n <? preceding
      then (month - 1,
            preceding - (table_get DAYS_IN_MONTH (month - 1)
                         + (if (month - 1 =? 2) && leapyear then 1 else 0)))
      else (month, preceding) in
    (year, month, n - preceding + 1).

(** The range check of the constructors of [date] and [datetime]. *)
Definition check_date_fields (year month day : Z) : result unit :=
  if negb ((MINYEAR <=? year) && (year <=? MAXYEAR))
  then Raise (ValueError ("year " +:+ pretty year +:+ " is out of range"))
  else if negb ((1 <=? month) && (month <=? 12))
  then Raise (ValueError "month must be in 1..12")
  else if negb ((1 <=? day) && (day <=? days_in_month year month))
  then Raise (ValueError "day is out of range for month")
  else Ok tt.

(** [datetime(year, month, day)]: midnight of the day. *)
Definition datetime_ymd (year month day : Z) : result datetime :=
  _ <- check_date_fields year month day ;;
  Ok (midnight (ymd2ord year month day)).

(** [date + timedelta(days=n)] as the library computes it on the fields. *)
Definition date_add (d : Z * Z * Z) (days : Z) : result (Z * Z * Z) :=
  let o := ymd2ord d.1.1 d.1.2 d.2 + days in
  if (0 <? o) && (o <=? MAXORDINAL) then Ok (ord2ymd o) else Raise OverflowError.

(** ** Specification vocabulary *)

(** A date of the calendar. *)
Definition valid_date (d : Z * Z * Z) : Prop :=
  (MINYEAR <= d.1.1 <= MAXYEAR) /\ (1 <= d.1.2 <= 12)
  /\ (1 <= d.2 <= days_in_month d.1.1 d.1.2).

#[global] Instance valid_date_dec (d : Z * Z * Z) : Decision (valid_date d).
Proof. unfold valid_date. apply _. Defined.

(** The order of the fields: by year, then month, then day. *)
Definition ymd_lt (a b : Z * Z * Z) : Prop :=
  a.1.1 < b.1.1 \/ (a.1.1 = b.1.1 /\ (a.1.2 < b.1.2 \/ (a.1.2 = b.1.2 /\ a.2 < b.2))).

#[global] Instance ymd_lt_dec (a b : Z * Z * Z) : Decision (ymd_lt a b).
Proof. unfold ymd_lt. apply _. Defined.

(** The ordinal of a date given by its fields. *)
Definition toordinal (d : Z * Z * Z) : Z := ymd2ord d.1.1 d.1.2 d.2.

(** The tables with the leap day as a parameter. *)
Definition month_length (leap : bool) (month : Z) : Z :=
  if (month =? 2) && leap then 29 else table_get DAYS_IN_MONTH month.

Definition month_start (leap : bool) (month : Z) : Z :=
  table_get DAYS_BEFORE_MONTH month + (if (2 <? month) && leap then 1 else 0).

(** The month and the day that [_ord2ymd] finds for day [n] of a year,
    counted from 0. *)
Definition month_day (leap : bool) (n : Z) : Z * Z :=
  let month := Z.shiftr (n + 50) 5 in
  let preceding := month_start leap month in
  let '(month, preceding) :=
    if n <? preceding
    then (month - 1,
          preceding - (table_get DAYS_IN_MONTH (month - 1)
                       + (if (month - 1 =? 2) && leap then 1 else 0)))
    else (month, preceding) in
  (month, n - preceding + 1).

(** The days of a year. *)
Definition year_length (leap : bool) : Z := if leap then 366 else 365.

(** ** Lemmas *)

(** *** The tables *)

Lemma days_in_month_leap (year month : Z) :
  days_in_month year month = month_length (is_leap year) month.
Proof. reflexivity. Qed.

Lemma days_before_month_leap (year month : Z) :
  days_before_month year month = month_start (is_leap year) month.
Proof. reflexivity. Qed.

(** The facts about the twelve months are decided by evaluation. *)
Ltac by_months := intros [|]; by_range 1 12.

Lemma month_length_bounds (leap : bool) (m : Z) :
  1 <= m <= 12 -> 28 <= month_length leap m <= 31.
Proof. revert leap m. by_months. Qed.

Lemma month_start_next (leap : bool) (m : Z) :
  1 <= m <= 12 ->
  month_start leap m + month_length leap m
  = if m =? 12 then year_length leap else month_start leap (m + 1).
Proof. revert leap m. by_months. Qed.

Lemma month_start_bounds (leap : bool) (m : Z) :
  1 <= m <= 12 ->
  0 <= month_start leap m /\ month_start leap m + month_length leap m <= year_length leap.
Proof. revert leap m. by_months. Qed.

(** The months in order: a month ends before a later one starts. *)
Lemma month_start_mono (leap : bool) (m m' : Z) :
  1 <= m < m' -> m' <= 12 ->
  month_start leap m + month_length leap m <= month_start leap m'.
Proof.
  intros Hm Hm'. revert m Hm. revert leap m' Hm'.
  assert (forall leap m', 1 <= m' <= 12 ->
            Forall (fun m => m < m' ->
                      month_start leap m + month_length leap m <= month_start leap m')
              (seqZ 1 12)) as Hall by by_months.
  intros leap m' Hm' m Hm. specialize (Hall leap m'). rewrite Forall_forall in Hall.
  apply Hall; [lia| apply elem_of_seqZ; lia | lia].
Qed.

(** The month and the day found for a day of the year. *)
Lemma month_day_spec (leap : bool) (n : Z) :
  0 <= n < year_length leap ->
  1 <= (month_day leap n).1 <= 12
  /\ 1 <= (month_day leap n).2 <= month_length leap (month_day leap n).1
  /\ month_start leap (month_day leap n).1 + (month_day leap n).2 = n + 1.
Proof.
  revert n. destruct leap; unfold year_length.
  - by_range 0 366.
  - by_range 0 365.
Qed.

(** *** The years *)

Lemma days_before_year_succ (y : Z) :
  days_before_year (y + 1) = days_before_year y + year_length (is_leap y).
Proof.
  unfold days_before_year, year_length, is_leap.
  replace (y + 1 - 1) with y by lia.
  destruct (_ && _) eqn:E; zdiv_lia.
Qed.

Lemma days_before_year_mono (y y' : Z) :
  y <= y' -> days_before_year y <= days_before_year y'.
Proof. unfold days_before_year. zdiv_lia. Qed.

Lemma days_before_year_cycles (a b c e : Z) :
  0 <= b <= 3 -> 0 <= c <= 24 -> 0 <= e <= 3 ->
  days_before_year (400 * a + 100 * b + 4 * c + e + 1)
  = DI400Y * a + DI100Y * b + DI4Y * c + 365 * e.
Proof. unfold days_before_year, DI400Y, DI100Y, DI4Y. intros. zdiv_lia. Qed.

Lemma is_leap_cycles (a b c e : Z) :
  0 <= b <= 3 -> 0 <= c <= 24 -> 0 <= e <= 3 ->
  is_leap (400 * a + 100 * b + 4 * c + e + 1)
  = (e =? 3) && (negb (c =? 24) || (b =? 3)).
Proof. unfold is_leap. intros. zdiv_lia. Qed.

(** The cycles of 400, 100, 4 and 1 years in a day number. *)
Lemma cycles_decompose (n : Z) :
  0 <= n ->
  let a := n / DI400Y in
  let r := n mod DI400Y in
  let b := r / DI100Y in
  let r2 := r mod DI100Y in
  let c := r2 / DI4Y in
  let r3 := r2 mod DI4Y in
  let e := r3 / 365 in
  let r4 := r3 mod 365 in
  n = DI400Y * a + DI100Y * b + DI4Y * c + 365 * e + r4
  /\ 0 <= a /\ 0 <= b <= 4 /\ 0 <= c <= 24 /\ 0 <= e <= 4 /\ 0 <= r4 < 365
  /\ (b = 4 -> c = 0 /\ e = 0 /\ r4 = 0)
  /\ (e = 4 -> c <= 23 /\ r4 = 0).
Proof. unfold DI400Y, DI100Y, DI4Y. intros. cbv zeta. zdiv_lia. Qed.

Lemma ord2ymd_month (leap : bool) (n : Z) (year : Z) :
  (let month := Z.shiftr (n + 50) 5 in
   let preceding :=
     table_get DAYS_BEFORE_MONTH month + (if (2 <? month) && leap then 1 else 0) in
   let '(month, preceding) :=
     if n <? preceding
     then (month - 1,
           preceding - (table_get DAYS_IN_MONTH (month - 1)
                        + (if (month - 1 =? 2) && leap then 1 else 0)))
     else (month, preceding) in
   (year, month, n - preceding + 1))
  = (year, (month_day leap n).1, (month_day leap n).2).
Proof. unfold month_day, month_start. cbv zeta. by destruct (n <? _). Qed.

Lemma ord2ymd_spec (n : Z) :
  1 <= n ->
  1 <= (ord2ymd n).1.1 /\ 1 <= (ord2ymd n).1.2 <= 12
  /\ 1 <= (ord2ymd n).2 <= days_in_month (ord2ymd n).1.1 (ord2ymd n).1.2
  /\ toordinal (ord2ymd n) = n.
Proof.
  intros Hn. unfold ord2ymd. cbv zeta. rewrite ord2ymd_month.
  destruct (cycles_decompose (n - 1)) as (Hsum & Ha & Hb & Hc & He & Hr & Hb4 & He4); [lia|].
  cbv zeta in *.
  set (a := (n - 1) / DI400Y) in *. set (r := (n - 1) mod DI400Y) in *.
  set (b := r / DI100Y) in *. set (r2 := r mod DI100Y) in *.
  set (c := r2 / DI4Y) in *. set (r3 := r2 mod DI4Y) in *.
  set (e := r3 / 365) in *. set (r4 := r3 mod 365) in *.
  clearbody a b c e r4. clear r r2 r3.
  unfold toordinal, ymd2ord.
  destruct ((e =? 4) || (b =? 4)) eqn:Hlast; cbn [fst snd].
  - assert (exists b' c', 0 <= b' <= 3 /\ 0 <= c' <= 24 /\ (c' = 24 -> b' = 3)
            /\ a * 400 + 1 + b * 100 + c * 4 + e - 1 = 400 * a + 100 * b' + 4 * c' + 3 + 1
            /\ n = DI400Y * a + DI100Y * b' + DI4Y * c' + 365 * 3 + 366)
      as (b' & c' & Hb' & Hc' & Hcb & -> & ->).
    { unfold DI400Y, DI100Y, DI4Y in *.
      destruct (decide (b = 4)); [exists 3, 24 | exists b, c]; lia. }
    rewrite days_in_month_leap, days_before_month_leap.
    rewrite days_before_year_cycles, is_leap_cycles by lia.
    replace ((3 =? 3) && (negb (c' =? 24) || (b' =? 3))) with true by lia.
    change (month_length true 12) with 31. change (month_start true 12) with 335.
    unfold DI400Y, DI100Y, DI4Y in *. cbn [fst snd]. lia.
  - replace (a * 400 + 1 + b * 100 + c * 4 + e) with (400 * a + 100 * b + 4 * c + e + 1) by lia.
    rewrite days_in_month_leap, days_before_month_leap.
    rewrite days_before_year_cycles, is_leap_cycles by lia.
    set (leap := (e =? 3) && _).
    destruct (month_day_spec leap r4) as (Hm & Hd & Hs); [destruct leap; cbn; lia|].
    repeat split; try lia.
Qed.

(** *** Ordinals of dates *)

Lemma toordinal_bounds (d : Z * Z * Z) :
  1 <= d.1.2 <= 12 -> 1 <= d.2 <= days_in_month d.1.1 d.1.2 ->
  days_before_year d.1.1 < toordinal d <= days_before_year (d.1.1 + 1).
Proof.
  intros Hm Hd. unfold toordinal, ymd2ord.
  rewrite days_before_year_succ, days_before_month_leap.
  rewrite days_in_month_leap in Hd.
  pose proof (month_start_bounds (is_leap d.1.1) d.1.2 Hm). lia.
Qed.

Lemma toordinal_range (d : Z * Z * Z) :
  valid_date d -> 1 <= toordinal d <= MAXORDINAL.
Proof.
  intros (Hy & Hm & Hd). pose proof (toordinal_bounds d Hm Hd).
  pose proof (days_before_year_mono 1 d.1.1).
  pose proof (days_before_year_mono (d.1.1 + 1) 10000).
  change (days_before_year 1) with 0 in *.
  change (days_before_year 10000) with MAXORDINAL in *.
  unfold MINYEAR, MAXYEAR in *. lia.
Qed.

Lemma toordinal_lt (a b : Z * Z * Z) :
  1 <= a.1.2 <= 12 -> 1 <= a.2 <= days_in_month a.1.1 a.1.2 ->
  1 <= b.1.2 <= 12 -> 1 <= b.2 <= days_in_month b.1.1 b.1.2 ->
  ymd_lt a b -> toordinal a < toordinal b.
Proof.
  intros Hma Hda Hmb Hdb [Hy|[Hy [Hm|[Hm Hd]]]].
  - pose proof (toordinal_bounds a Hma Hda). pose proof (toordinal_bounds b Hmb Hdb).
    pose proof (days_before_year_mono (a.1.1 + 1) b.1.1). lia.
  - unfold toordinal, ymd2ord. rewrite !days_before_month_leap, <- Hy.
    rewrite days_in_month_leap in Hda.
    pose proof (month_start_mono (is_leap a.1.1) a.1.2 b.1.2). lia.
  - unfold toordinal, ymd2ord. rewrite Hy, Hm. lia.
Qed.

Lemma ymd_lt_trichotomy (a b : Z * Z * Z) : ymd_lt a b \/ a = b \/ ymd_lt b a.
Proof.
  destruct a as [[y m] d], b as [[y' m'] d']. unfold ymd_lt. cbn.
  destruct (decide (y = y')), (decide (m = m')), (decide (d = d')); subst; auto; lia.
Qed.

Lemma toordinal_inj (a b : Z * Z * Z) :
  1 <= a.1.2 <= 12 -> 1 <= a.2 <= days_in_month a.1.1 a.1.2 ->
  1 <= b.1.2 <= 12 -> 1 <= b.2 <= days_in_month b.1.1 b.1.2 ->
  toordinal a = toordinal b -> a = b.
Proof.
  intros Hma Hda Hmb Hdb Heq.
  destruct (ymd_lt_trichotomy a b) as [Hlt|[->|Hlt]]; [|done|];
    apply toordinal_lt in Hlt; try done; lia.
Qed.

Lemma ord2ymd_valid (n : Z) : 1 <= n <= MAXORDINAL -> valid_date (ord2ymd n).
Proof.
  intros Hn. destruct (ord2ymd_spec n) as (Hy & Hm & Hd & Hord); [lia|].
  repeat split; try lia; unfold MINYEAR, MAXYEAR; try lia.
  pose proof (toordinal_bounds _ Hm Hd).
  destruct (decide ((ord2ymd n).1.1 <= 9999)); [done|].
  pose proof (days_before_year_mono 10000 (ord2ymd n).1.1).
  change (days_before_year 10000) with MAXORDINAL in *. lia.
Qed.

Lemma ord2ymd_toordinal (d : Z * Z * Z) : valid_date d -> ord2ymd (toordinal d) = d.
Proof.
  intros Hd. pose proof (toordinal_range d Hd) as Hn. destruct Hd as (Hy & Hm & Hd).
  destruct (ord2ymd_spec (toordinal d)) as (_ & Hm' & Hd' & Hord); [lia|].
  by apply toordinal_inj.
Qed.

Lemma check_date_fields_Ok (year month day : Z) :
  valid_date (year, month, day) -> check_date_fields year month day = Ok tt.
Proof.
  intros (Hy & Hm & Hd). cbn in *. unfold check_date_fields.
  rewrite !(proj2 (negb_false_iff _)); [done|lia..].
Qed.

Lemma check_date_fields_Raise (year month day : Z) :
  ~ valid_date (year, month, day) ->
  exists msg, check_date_fields year month day = Raise (ValueError msg).
Proof.
  intros Hd. unfold check_date_fields, valid_date in *. cbn in *.
  repeat case_match; eauto. lia.
Qed.

(** ** Theorems *)



(** The order of the ordinals is the order of the fields: for two
    dates of the calendar, [<] on the datetimes of their ordinals holds
    exactly when the first is earlier by year, then month, then day, which
    is how the library compares. *)
Theorem datetime_ltb_fields (a b : Z * Z * Z) :
  valid_date a -> valid_date b ->
  (datetime_ltb (midnight (toordinal a)) (midnight (toordinal b)) = true <-> ymd_lt a b).
Proof.
  intros (_ & Hma & Hda) (_ & Hmb & Hdb). rewrite midnight_ltb, Z.ltb_lt. split.
  - intros Hlt. destruct (ymd_lt_trichotomy a b) as [?|[->|Hgt]]; [done|lia|].
    apply toordinal_lt in Hgt; try done; lia.
  - by apply toordinal_lt.
Qed.



Lemma datetime_ltb_fields_witness :
  datetime_ltb (midnight (toordinal (2023, 12, 31))) (midnight (toordinal (2024, 1, 1)))
    = true <-> ymd_lt (2023, 12, 31) (2024, 1, 1).
Proof. apply datetime_ltb_fields; by_compute. Defined.
