(* ===== verification/RangeSplitter.v ===== *)
(** * RangeSplitter: [StockParser.split_date_range] ([src/main.py], lines 46-61)

    The function cuts the interval from [start_date] to [end_date] into
    chunks of at most 350 days, the next chunk starting one day after the
    previous one ends.  [split_loop] is the [while] loop, [split_date_range]
    the function; [split_spec] is the closed form the loop computes. *)

From Stdlib Require Import ZArith Lia ZifyBool.
From stdpp Require Import base tactics option list.
From S2P Require Import Prelude DateTime.

(** ** The code *)

(** An element of [date_ranges]: the tuple [(current_start, current_end)]. *)
Definition date_range : Type := datetime * datetime.

(** The [while] loop of lines 52-59.  Each unit of fuel pays for one test of
    the loop condition; [None] means the fuel ran out. *)
Fixpoint split_loop (fuel : nat) (end_date : datetime)
    (date_ranges : list date_range) (current_start current_end : datetime)
    : option (result (list date_range)) :=
  match fuel with
  | O => None
  | S fuel =>
      if datetime_ltb current_start end_date then
        let current_end :=
          if datetime_ltb end_date current_end then end_date else current_end in
        let date_ranges := date_ranges ++ [(current_start, current_end)] in
        match datetime_add current_end (mk_timedelta 1) with
        | Raise e => Some (Raise e)
        | Ok current_start =>
            match datetime_add current_start (mk_timedelta 350) with
            | Raise e => Some (Raise e)
            | Ok current_end =>
                split_loop fuel end_date date_ranges current_start current_end
            end
        end
      else Some (Ok date_ranges)
  end.

(** Fuel for the loop: a test per day between the two dates, and two more. *)
Definition split_fuel (start_date end_date : datetime) : nat :=
  Z.to_nat (ordinal end_date - ordinal start_date) + 2.

(** [split_date_range(start_date, end_date)] *)
Definition split_date_range (start_date end_date : datetime)
    : result (list date_range) :=
  let date_ranges := [] in
  let current_start := start_date in
  current_end <- datetime_add start_date (mk_timedelta 350) ;;
  match split_loop (split_fuel start_date end_date) end_date
          date_ranges current_start current_end with
  | Some r => r
  | None => Ok date_ranges
  end.

(** ** The specification *)

(** Days from the start of one chunk to the start of the next. *)
Definition STRIDE : Z := 351.

(** Chunk number [k]: it starts [351 * k] days after [start_date] and ends
    350 days later, or at [end_date] if that comes first. *)
Definition chunk (start_date end_date : datetime) (k : nat) : date_range :=
  let current_start := shift start_date (STRIDE * Z.of_nat k) in
  (current_start, datetime_min (shift current_start 350) end_date).

(** The number of chunks: the stride-sized steps from [start_date] that stay
    before [end_date]. *)
Definition chunk_count (start_date end_date : datetime) : nat :=
  Z.to_nat (cdiv (to_micros end_date - to_micros start_date) (STRIDE * DAY_US)).

Definition split_spec (start_date end_date : datetime) : list date_range :=
  map (chunk start_date end_date) (seq 0 (chunk_count start_date end_date)).

(** A date lies in a chunk if it is between the dates of its two ends. *)
Definition covers (r : date_range) (o : date) : Prop :=
  date_of r.1 <= o <= date_of r.2.

#[global] Instance covers_dec (r : date_range) (o : date) : Decision (covers r o).
Proof. unfold covers. apply _. Defined.

(** The inputs for which no addition overflows. *)
Definition in_range (start_date end_date : datetime) : Prop :=
  datetime_wf start_date /\ datetime_wf end_date /\
  ordinal start_date + 350 <= MAXORDINAL /\ ordinal end_date + 351 <= MAXORDINAL.

#[global] Instance in_range_dec (s e : datetime) : Decision (in_range s e).
Proof. unfold in_range. apply _. Defined.

(** Arithmetic on datetimes and the stride. *)
Ltac rs_lia := unfold STRIDE in *; dt_lia.

(** ** The loop, one iteration at a time *)

Section Loop.
Context (end_date : datetime).
Implicit Types (fuel : nat) (acc : list date_range) (cs ce : datetime).

(** The loop is left when the current start has reached the end date. *)
Lemma split_loop_exit fuel acc cs ce :
  (end_date <= cs)%dt -> split_loop (S fuel) end_date acc cs ce = Some (Ok acc).
Proof. unfold datetime_le. cbn. by intros ->. Qed.

(** One iteration in which both additions succeed. *)
Lemma split_loop_iter fuel acc cs ce :
  (cs < end_date)%dt ->
  let ce' := datetime_min ce end_date in
  0 < ordinal ce' + 1 -> ordinal ce' + 351 <= MAXORDINAL ->
  split_loop (S fuel) end_date acc cs ce =
  split_loop fuel end_date (acc ++ [(cs, ce')]) (shift ce' 1) (shift ce' 351).
Proof.
  intros Hlt ce' H0 Hmax. unfold datetime_lt in Hlt. cbn [split_loop]. rewrite Hlt.
  fold (datetime_min ce end_date). fold ce'.
  rewrite datetime_add_in_range by (cbn; lia). cbn [td_days].
  rewrite datetime_add_in_range by (cbn; lia). cbn [td_days].
  by rewrite shift_shift.
Qed.

(** An iteration whose first addition overflows. *)
Lemma split_loop_raise_1 fuel acc cs ce :
  (cs < end_date)%dt ->
  ~ (0 < ordinal (datetime_min ce end_date) + 1 <= MAXORDINAL) ->
  split_loop (S fuel) end_date acc cs ce = Some (Raise OverflowError).
Proof.
  unfold datetime_lt. intros Hlt H. cbn [split_loop]. rewrite Hlt.
  fold (datetime_min ce end_date).
  by rewrite datetime_add_out_of_range.
Qed.

(** An iteration whose second addition overflows. *)
Lemma split_loop_raise_2 fuel acc cs ce :
  (cs < end_date)%dt ->
  let ce' := datetime_min ce end_date in
  0 < ordinal ce' + 1 <= MAXORDINAL ->
  ~ (0 < ordinal ce' + 351 <= MAXORDINAL) ->
  split_loop (S fuel) end_date acc cs ce = Some (Raise OverflowError).
Proof.
  intros Hlt ce' H1 H2. unfold datetime_lt in Hlt. cbn [split_loop]. rewrite Hlt.
  fold (datetime_min ce end_date). fold ce'.
  rewrite datetime_add_in_range by (cbn; lia). cbn [td_days].
  rewrite datetime_add_out_of_range; [done|]. cbn. lia.
Qed.

(** The three ways an iteration can go. *)
Lemma split_loop_cases fuel acc cs ce :
  (cs < end_date)%dt ->
  let ce' := datetime_min ce end_date in
  split_loop (S fuel) end_date acc cs ce = Some (Raise OverflowError) \/
  (0 < ordinal ce' + 1 /\ ordinal ce' + 351 <= MAXORDINAL /\
   split_loop (S fuel) end_date acc cs ce =
   split_loop fuel end_date (acc ++ [(cs, ce')]) (shift ce' 1) (shift ce' 351)).
Proof.
  intros Hlt ce'.
  destruct (decide (0 < ordinal ce' + 1 <= MAXORDINAL)) as [H1|H1];
    [|left; by apply split_loop_raise_1].
  destruct (decide (0 < ordinal ce' + 351 <= MAXORDINAL)) as [H2|H2];
    [|left; by apply split_loop_raise_2].
  subst ce'. right. split_and!; [lia..|]. apply split_loop_iter; [done|lia..].
Qed.

End Loop.

(** ** Termination *)

(** The loop finishes within one test per remaining day, plus one. *)
Lemma split_loop_terminates (end_date : datetime) (fuel : nat) :
  forall (acc : list date_range) (cs : datetime),
  (Z.to_nat (ordinal end_date - ordinal cs + 1) + 1 <= fuel)%nat ->
  is_Some (split_loop fuel end_date acc cs (shift cs 350)).
Proof.
  induction fuel as [|fuel IH]; intros acc cs Hfuel; [lia|].
  destruct (datetime_ltb cs end_date) eqn:Hlt;
    [|rewrite split_loop_exit by done; eauto].
  destruct (split_loop_cases end_date fuel acc cs (shift cs 350) Hlt)
    as [->|(H1 & H2 & ->)]; [eauto|].
  rewrite <- (shift_shift _ 1 350). apply IH.
  unfold datetime_min. destruct (datetime_ltb end_date (shift cs 350)); dt_lia.
Qed.

(** More fuel does not change the outcome. *)
Lemma split_loop_fuel_mono (end_date : datetime) (fuel fuel' : nat) :
  forall (acc : list date_range) (cs ce : datetime) (r : result (list date_range)),
  split_loop fuel end_date acc cs ce = Some r -> (fuel <= fuel')%nat ->
  split_loop fuel' end_date acc cs ce = Some r.
Proof.
  revert fuel'. induction fuel as [|fuel IH]; intros fuel' acc cs ce r H Hle; [done|].
  destruct fuel' as [|fuel']; [lia|]. cbn [split_loop] in *.
  destruct (datetime_ltb cs end_date); [|done].
  destruct (datetime_add _ _) as [cs'|]; [|done].
  destruct (datetime_add _ _) as [ce'|]; [|done].
  eapply IH; [done|lia].
Qed.

(** ** The chunk count *)

Section Count.
Context (s e : datetime).
Context (Hs : 0 <= tod s < DAY_US) (He : 0 <= tod e < DAY_US).

(** Chunk [k] exists exactly when its start is before the end date. *)
Lemma chunk_count_lt (k : nat) :
  (k < chunk_count s e)%nat <-> (shift s (STRIDE * Z.of_nat k) < e)%dt.
Proof using Hs He.
  unfold chunk_count.
  assert (Z.of_nat k < cdiv (to_micros e - to_micros s) (STRIDE * DAY_US)
          <-> Z.of_nat k * (STRIDE * DAY_US) < to_micros e - to_micros s) as H
    by (apply cdiv_spec; by compute).
  rewrite datetime_lt_micros, to_micros_shift by done.
  unfold STRIDE, DAY_US in *. lia.
Qed.

Lemma chunk_count_ge (k : nat) :
  (chunk_count s e <= k)%nat <-> (e <= shift s (STRIDE * Z.of_nat k))%dt.
Proof using Hs He.
  pose proof (chunk_count_lt k) as H. unfold datetime_le, datetime_lt in *.
  destruct (datetime_ltb _ e); lia.
Qed.

(** The fuel of [split_date_range] exceeds the number of chunks. *)
Lemma chunk_count_fuel : (chunk_count s e < split_fuel s e)%nat.
Proof using Hs He.
  unfold split_fuel.
  destruct (decide (chunk_count s e = 0)%nat) as [->|Hne]; [lia|].
  assert (chunk_count s e - 1 < chunk_count s e)%nat as H by lia.
  apply chunk_count_lt in H. rs_lia.
Qed.

End Count.

(** ** Refinement: the loop computes the closed form *)

Section Refinement.
Context (s e : datetime) (Hrange : in_range s e).

Lemma in_range_tod_s : 0 <= tod s < DAY_US.
Proof using Hrange. destruct Hrange as ((_ & ?) & _). done. Qed.

Lemma in_range_tod_e : 0 <= tod e < DAY_US.
Proof using Hrange. destruct Hrange as (_ & (_ & ?) & _). done. Qed.

(** An iteration that is not the last: the chunk is a full one. *)
Lemma chunk_full (k : nat) :
  (shift s (STRIDE * Z.of_nat k + 350) <= e)%dt ->
  chunk s e k = (shift s (STRIDE * Z.of_nat k), shift s (STRIDE * Z.of_nat k + 350)).
Proof. intros H. unfold chunk. by rewrite shift_shift, datetime_min_l. Qed.

(** The last iteration, when the end date cuts the chunk short. *)
Lemma chunk_clamped (k : nat) :
  (e < shift s (STRIDE * Z.of_nat k + 350))%dt ->
  chunk s e k = (shift s (STRIDE * Z.of_nat k), e) /\
  (chunk_count s e <= S k)%nat.
Proof using Hrange.
  intros H. unfold chunk. rewrite shift_shift, datetime_min_r by done.
  split; [done|]. apply chunk_count_ge; [apply in_range_tod_s | apply in_range_tod_e |].
  rs_lia.
Qed.

(** The loop invariant: entered with the state the closed form predicts
    after [k] chunks, the loop returns the accumulator followed by the
    remaining chunks. *)
Lemma split_loop_spec (fuel : nat) :
  forall (k : nat) (acc : list date_range),
  (k <= chunk_count s e)%nat -> (chunk_count s e - k < fuel)%nat ->
  split_loop fuel e acc (shift s (STRIDE * Z.of_nat k))
    (shift s (STRIDE * Z.of_nat k + 350))
  = Some (Ok (acc ++ map (chunk s e) (seq k (chunk_count s e - k)))).
Proof using Hrange.
  pose proof in_range_tod_s as Hs. pose proof in_range_tod_e as He.
  induction fuel as [|fuel IH]; intros k acc Hk Hfuel; [lia|].
  destruct (decide (k = chunk_count s e)) as [->|Hne].
  { rewrite split_loop_exit by (by apply chunk_count_ge).
    by rewrite Nat.sub_diag, app_nil_r. }
  assert (shift s (STRIDE * Z.of_nat k) < e)%dt as Hlt
    by (apply chunk_count_lt; [done..|lia]).
  replace (chunk_count s e - k)%nat with (S (chunk_count s e - S k)) by lia.
  rewrite seq_cons, map_cons, cons_middle, app_assoc.
  destruct (datetime_ltb e (shift s (STRIDE * Z.of_nat k + 350))) eqn:Hclamp.
  - destruct (chunk_clamped k Hclamp) as [Hchunk Hlast].
    rewrite split_loop_iter; rewrite ?datetime_min_r by done;
      [|done|destruct Hrange as (? & ? & ? & ?); rs_lia..].
    destruct fuel as [|fuel]; [lia|].
    rewrite split_loop_exit by dt_lia.
    replace (chunk_count s e - S k)%nat with 0%nat by lia.
    by rewrite Hchunk, app_nil_r.
  - rewrite split_loop_iter; rewrite ?datetime_min_l by done;
      [|done|destruct Hrange as (? & ? & ? & ?); rs_lia..].
    rewrite !shift_shift, <- chunk_full by done.
    replace (STRIDE * Z.of_nat k + 350 + 1) with (STRIDE * Z.of_nat (S k))
      by (unfold STRIDE; lia).
    replace (STRIDE * Z.of_nat k + 350 + 351) with (STRIDE * Z.of_nat (S k) + 350)
      by (unfold STRIDE; lia).
    apply IH; lia.
Qed.

End Refinement.

(** ** Facts about the closed form *)

Section Spec.
Context (s e : datetime).

Lemma split_spec_length : length (split_spec s e) = chunk_count s e.
Proof. unfold split_spec. by rewrite length_map, length_seq. Qed.

Lemma split_spec_lookup (k : nat) (r : date_range) :
  split_spec s e !! k = Some r <-> (k < chunk_count s e)%nat /\ r = chunk s e k.
Proof.
  unfold split_spec. destruct (decide (k < chunk_count s e)%nat) as [H|H].
  - rewrite lookup_map_seq by done. cbn. split; [intros [= <-] | intros [_ ->]]; done.
  - rewrite lookup_map_seq_ge by lia. split; [done | tauto].
Qed.

Lemma split_spec_elem_of (r : date_range) :
  r ∈ split_spec s e <-> exists k, (k < chunk_count s e)%nat /\ r = chunk s e k.
Proof.
  rewrite list_elem_of_lookup. by setoid_rewrite split_spec_lookup.
Qed.

Lemma chunk_start (k : nat) : (chunk s e k).1 = shift s (STRIDE * Z.of_nat k).
Proof. done. Qed.

Lemma chunk_end_le_full (k : nat) :
  ((chunk s e k).2 <= shift s (STRIDE * Z.of_nat k + 350))%dt.
Proof. unfold chunk. cbn. rewrite shift_shift. apply datetime_min_le_l. Qed.

Lemma chunk_end_le_end (k : nat) : ((chunk s e k).2 <= e)%dt.
Proof. apply datetime_min_le_r. Qed.

(** The end of a chunk is 350 days after its start, or the end date. *)
Lemma chunk_end_cases (k : nat) :
  (chunk s e k).2 = shift s (STRIDE * Z.of_nat k + 350) /\
    (shift s (STRIDE * Z.of_nat k + 350) <= e)%dt
  \/ (chunk s e k).2 = e /\ (e < shift s (STRIDE * Z.of_nat k + 350))%dt.
Proof.
  unfold chunk. cbn. rewrite shift_shift. unfold datetime_min.
  destruct (datetime_ltb e _) eqn:E; [right | left]; done.
Qed.

(** Every chunk but the last is a full one. *)
Lemma chunk_not_last (k : nat) :
  0 <= tod s < DAY_US -> 0 <= tod e < DAY_US ->
  (S k < chunk_count s e)%nat ->
  (chunk s e k).2 = shift s (STRIDE * Z.of_nat k + 350).
Proof.
  intros Hs He Hk%chunk_count_lt; [|done..].
  destruct (chunk_end_cases k) as [[-> _]|[_ H]]; [done|]. rs_lia.
Qed.

End Spec.

(** On dates (midnights), the count is the ceiling of the day span over 351. *)
Lemma chunk_count_midnight (o1 o2 : date) :
  chunk_count (midnight o1) (midnight o2) = Z.to_nat (cdiv (o2 - o1) STRIDE).
Proof.
  unfold chunk_count, cdiv, to_micros, midnight, STRIDE, DAY_US. cbn.
  f_equal. zdiv_lia.
Qed.

(** ** What the closed form guarantees *)

Section SpecProperties.
Context (s e : datetime).
Context (Hs : 0 <= tod s < DAY_US) (He : 0 <= tod e < DAY_US).

(** Consecutive chunks: the next starts one day after the previous ends. *)
Lemma split_spec_contiguous (i : nat) (a b : date_range) :
  split_spec s e !! i = Some a -> split_spec s e !! S i = Some b ->
  b.1 = shift a.2 1.
Proof using Hs He.
  intros [_ ->]%split_spec_lookup [Hi ->]%split_spec_lookup.
  rewrite chunk_not_last, chunk_start, shift_shift by done.
  f_equal. rs_lia.
Qed.

(** A chunk is a non-empty interval of at most 350 days that ends no later
    than the end date. *)
Lemma split_spec_span (r : date_range) :
  r ∈ split_spec s e ->
  (r.1 < r.2)%dt /\ date_of r.2 - date_of r.1 <= 350 /\ (r.2 <= e)%dt.
Proof using Hs He.
  intros (k & Hk%chunk_count_lt & ->)%split_spec_elem_of; [|done..].
  pose proof (chunk_end_le_full s e k). rewrite chunk_start.
  split_and!; [| rs_lia | apply chunk_end_le_end].
  destruct (chunk_end_cases s e k) as [[-> _]|[-> _]]; [rs_lia | done].
Qed.

(** Every date from the start date up to the day before the end date lies
    in a chunk. *)
Lemma split_spec_covers (o : date) :
  date_of s <= o < date_of e -> exists r, r ∈ split_spec s e /\ covers r o.
Proof using Hs He.
  intros Ho. set (k := Z.to_nat ((o - date_of s) / STRIDE)).
  assert (STRIDE * Z.of_nat k <= o - date_of s < STRIDE * Z.of_nat k + STRIDE)
    as Hk by (unfold k, STRIDE, date_of in *; zdiv_lia).
  exists (chunk s e k). split.
  - apply split_spec_elem_of. exists k. split; [|done].
    apply chunk_count_lt; [done..|]. rs_lia.
  - unfold covers. rewrite chunk_start.
    destruct (chunk_end_cases s e k) as [[-> _]|[-> _]]; rs_lia.
Qed.

End SpecProperties.

(** On dates, the end date itself is in a chunk exactly when the number of
    days between the two dates is not a multiple of 351. *)
Lemma split_spec_end_covered (o1 o2 : date) :
  o1 < o2 ->
  (exists r, r ∈ split_spec (midnight o1) (midnight o2) /\ covers r o2)
  <-> (o2 - o1) mod STRIDE <> 0.
Proof.
  intros Hlt. setoid_rewrite split_spec_elem_of.
  rewrite chunk_count_midnight. unfold cdiv. split.
  - intros (r & (k & Hk & ->) & Hc) Hmod. unfold covers in Hc.
    pose proof (chunk_end_le_full (midnight o1) (midnight o2) k) as Hle.
    unfold STRIDE in *. dt_unfold. zdiv_lia.
  - intros Hmod. set (k := Z.to_nat ((o2 - o1) / STRIDE)).
    exists (chunk (midnight o1) (midnight o2) k). split.
    + exists k. split; [|done]. unfold k, STRIDE in *. zdiv_lia.
    + unfold covers. rewrite chunk_start.
      destruct (chunk_end_cases (midnight o1) (midnight o2) k) as [[-> H]|[-> _]];
        unfold k, STRIDE in *; dt_unfold; zdiv_lia.
Qed.

(** ** The function *)

(** In range, the loop entered as [split_date_range] enters it returns the
    closed form. *)
Lemma split_loop_from_start (s e : datetime) :
  in_range s e ->
  split_loop (split_fuel s e) e [] s (shift s 350) = Some (Ok (split_spec s e)).
Proof.
  intros Hrange. pose proof Hrange as ((_ & Hts) & (_ & Hte) & _).
  pose proof (split_loop_spec s e Hrange (split_fuel s e) 0 []) as H.
  cbn [Z.of_nat] in H. rewrite Z.mul_0_r, Z.add_0_l, shift_0, Nat.sub_0_r in H.
  apply H; [lia | by apply chunk_count_fuel].
Qed.

(** Evaluate [split_date_range s e] under the hypothesis [Hrange : in_range
    s e]: the first addition succeeds and the loop returns [split_spec]. *)
Ltac split_returns Hrange :=
  unfold split_date_range;
  rewrite datetime_add_in_range
    by (destruct Hrange as ((? & ?) & _ & ? & _); cbn in *; lia);
  cbn [bind td_days];
  rewrite (split_loop_from_start _ _ Hrange).

(** Once the loop is entered with an end date within 350 days of the last
    representable date, it ends in [OverflowError]. *)
Lemma split_loop_overflow (e : datetime) (fuel : nat) :
  MAXORDINAL < ordinal e + 350 ->
  forall (acc : list date_range) (cs : datetime),
  (cs < e)%dt -> (Z.to_nat (ordinal e - ordinal cs + 1) + 1 <= fuel)%nat ->
  split_loop fuel e acc cs (shift cs 350) = Some (Raise OverflowError).
Proof.
  intros He. induction fuel as [|fuel IH]; intros acc cs Hlt Hfuel; [lia|].
  destruct (split_loop_cases e fuel acc cs (shift cs 350) Hlt)
    as [->|(H1 & H2 & ->)]; [done|].
  rewrite <- (shift_shift _ 1 350).
  destruct (datetime_ltb e (shift cs 350)) eqn:Hclamp.
  - rewrite datetime_min_r in H2 by done. lia.
  - rewrite datetime_min_l in * by done. apply IH; dt_lia.
Qed.

(** When the start date is not before the end date (equal dates
    included) and the first addition does not overflow, the loop body never
    runs and the function returns the empty list; no exception is raised
    for a reversed range. *)
Lemma split_date_range_nil (s e : datetime) :
  (e <= s)%dt -> 0 < ordinal s + 350 <= MAXORDINAL -> split_date_range s e = Ok [].
Proof.
  intros Hle Hs. unfold split_date_range.
  rewrite datetime_add_in_range by done. cbn [bind].
  unfold split_fuel. rewrite Nat.add_comm. cbn [Nat.add].
  by rewrite split_loop_exit.
Qed.

(** ** Theorems *)

(** C1: for dates in range (no addition overflows), [split_date_range]
    returns exactly the closed form [split_spec]: chunk [k] starts
    [351 * k] days after the start date and ends 350 days later or at the
    end date, whichever comes first, for every [k] whose start is before
    the end date. *)
Theorem split_date_range_refines (s e : datetime) :
  in_range s e -> split_date_range s e = Ok (split_spec s e).
Proof. intros Hrange. by split_returns Hrange. Qed.

Lemma split_date_range_refines_witness :
  in_range (midnight 738000) (midnight 738400) /\
  split_date_range (midnight 738000) (midnight 738400)
  = Ok (split_spec (midnight 738000) (midnight 738400)).
Proof. split; [|apply split_date_range_refines]; by_compute. Defined.

(** C37: for dates in range the function returns the empty list exactly
    when the start date is not before the end date, equal dates included:
    a request for one day, or for a reversed range, is answered with no
    chunk and without an exception. *)
Theorem split_date_range_empty (s e : datetime) :
  in_range s e -> (split_date_range s e = Ok [] <-> (e <= s)%dt).
Proof.
  intros Hrange. pose proof Hrange as ((_ & Hts) & (_ & Hte) & _).
  split_returns Hrange.
  pose proof (chunk_count_ge s e Hts Hte 0) as Hcount.
  cbn [Z.of_nat] in Hcount. rewrite Z.mul_0_r, shift_0 in Hcount.
  rewrite <- Hcount. unfold split_spec.
  destruct (chunk_count s e); cbn; split; (done || lia).
Qed.

Lemma split_date_range_empty_witness :
  in_range (midnight 738000) (midnight 738000) /\
  (split_date_range (midnight 738000) (midnight 738000) = Ok []
   <-> (midnight 738000 <= midnight 738000)%dt).
Proof. split; [|apply split_date_range_empty]; by_compute. Defined.

(** C11: the [while] loop of [split_date_range] terminates: with the fuel
    [split_fuel] the loop returns (a list or an exception), and any larger
    amount of fuel gives the same outcome. *)
Theorem split_loop_fuel_enough (s e : datetime) :
  is_Some (split_loop (split_fuel s e) e [] s (shift s 350)) /\
  forall fuel, (split_fuel s e <= fuel)%nat ->
    split_loop fuel e [] s (shift s 350)
    = split_loop (split_fuel s e) e [] s (shift s 350).
Proof.
  assert (is_Some (split_loop (split_fuel s e) e [] s (shift s 350))) as [r Hr]
    by (apply split_loop_terminates; unfold split_fuel; lia).
  split; [by exists r|]. intros fuel Hfuel. rewrite Hr.
  by eapply split_loop_fuel_mono.
Qed.

(** C36: on dates in range with the start not after the end, the number of
    chunks is the ceiling of (days between the two dates) / 351. *)
Theorem split_date_range_count (o1 o2 : date) :
  in_range (midnight o1) (midnight o2) -> o1 <= o2 ->
  exists chunks, split_date_range (midnight o1) (midnight o2) = Ok chunks /\
    Z.of_nat (length chunks) = cdiv (o2 - o1) 351.
Proof.
  intros Hrange Hle. eexists. split; [by split_returns Hrange|].
  rewrite split_spec_length, chunk_count_midnight. unfold cdiv, STRIDE. zdiv_lia.
Qed.

Lemma split_date_range_count_witness :
  in_range (midnight 738000) (midnight 738400) /\ 738000 <= 738400 /\
  exists chunks, split_date_range (midnight 738000) (midnight 738400) = Ok chunks /\
    Z.of_nat (length chunks) = cdiv (738400 - 738000) 351.
Proof.
  split; [by_compute|]. split; [lia|].
  apply split_date_range_count; [by_compute | lia].
Defined.

(** C30: in range, the chunks partition the interval from the start date:
    the first starts at the start date, each next chunk starts exactly
    one day after the previous one ends, and every chunk is a non-empty
    interval (start before end) spanning at most 350 days and ending no
    later than the end date. *)
Theorem split_date_range_partition (s e : datetime) :
  in_range s e ->
  exists chunks, split_date_range s e = Ok chunks /\
    (forall a, chunks !! 0%nat = Some a -> a.1 = s) /\
    (forall i a b, chunks !! i = Some a -> chunks !! S i = Some b ->
       b.1 = shift a.2 1) /\
    (forall r, r ∈ chunks ->
       (r.1 < r.2)%dt /\ date_of r.2 - date_of r.1 <= 350 /\ (r.2 <= e)%dt).
Proof.
  intros Hrange. pose proof (in_range_tod_s s e Hrange).
  pose proof (in_range_tod_e s e Hrange).
  eexists. split; [by split_returns Hrange|]. split_and!.
  - intros a [_ ->]%split_spec_lookup. rewrite chunk_start. cbn. by rewrite Z.mul_0_r, shift_0.
  - intros i a b. by apply split_spec_contiguous.
  - by apply split_spec_span.
Qed.

Lemma split_date_range_partition_witness :
  in_range (midnight 738000) (midnight 739000) /\
  exists chunks, split_date_range (midnight 738000) (midnight 739000) = Ok chunks /\
    (forall a, chunks !! 0%nat = Some a -> a.1 = midnight 738000) /\
    (forall i a b, chunks !! i = Some a -> chunks !! S i = Some b ->
       b.1 = shift a.2 1) /\
    (forall r, r ∈ chunks ->
       (r.1 < r.2)%dt /\ date_of r.2 - date_of r.1 <= 350 /\
       (r.2 <= midnight 739000)%dt).
Proof. split; [|apply split_date_range_partition]; by_compute. Defined.

(** C31: in range, every date from the start date up to the day before the
    end date lies in one of the chunks. *)
Theorem split_date_range_covers (s e : datetime) (o : date) :
  in_range s e -> date_of s <= o < date_of e ->
  exists chunks, split_date_range s e = Ok chunks /\
    exists r, r ∈ chunks /\ covers r o.
Proof.
  intros Hrange Ho. eexists. split; [by split_returns Hrange|].
  apply split_spec_covers; [by eapply in_range_tod_s | by eapply in_range_tod_e | done].
Qed.

Lemma split_date_range_covers_witness :
  in_range (midnight 738000) (midnight 739000) /\
  date_of (midnight 738000) <= 738351 < date_of (midnight 739000) /\
  exists chunks, split_date_range (midnight 738000) (midnight 739000) = Ok chunks /\
    exists r, r ∈ chunks /\ covers r 738351.
Proof.
  split; [by_compute|]. split; [by_compute|].
  apply split_date_range_covers; by_compute.
Defined.

(** C17: on dates in range with the start before the end, the end date
    itself lies in a chunk if and only if the number of days between the
    two dates is not a multiple of 351; when it is a multiple, the loop
    stops before the end date and the last day is in no chunk. *)
Theorem split_date_range_end_covered (o1 o2 : date) :
  in_range (midnight o1) (midnight o2) -> o1 < o2 ->
  exists chunks, split_date_range (midnight o1) (midnight o2) = Ok chunks /\
    ((exists r, r ∈ chunks /\ covers r o2) <-> (o2 - o1) mod 351 <> 0).
Proof.
  intros Hrange Hlt. eexists. split; [by split_returns Hrange|].
  by apply split_spec_end_covered.
Qed.

Lemma split_date_range_end_covered_witness :
  in_range (midnight 738000) (midnight 738351) /\ 738000 < 738351 /\
  exists chunks, split_date_range (midnight 738000) (midnight 738351) = Ok chunks /\
    ((exists r, r ∈ chunks /\ covers r 738351) <-> (738351 - 738000) mod 351 <> 0).
Proof.
  split; [by_compute|]. split; [lia|].
  apply split_date_range_end_covered; [by_compute | lia].
Defined.

(** C38: when the start is before the end and the end date is within 350
    days of the last representable date (31 December 9999), the function
    raises [OverflowError] instead of returning chunks. *)
Theorem split_date_range_overflow (s e : datetime) :
  (s < e)%dt -> MAXORDINAL < ordinal e + 350 ->
  split_date_range s e = Raise OverflowError.
Proof.
  intros Hlt He. unfold split_date_range.
  destruct (datetime_add s _) as [ce|ex] eqn:Hadd; cbn [bind].
  - apply datetime_add_Ok in Hadd as [_ ->]. cbn [td_days].
    rewrite split_loop_overflow; [done..|]. unfold split_fuel. dt_lia.
  - by apply datetime_add_Raise in Hadd as [-> _].
Qed.

Lemma split_date_range_overflow_witness :
  (midnight 3651000 < midnight 3651800)%dt /\
  MAXORDINAL < ordinal (midnight 3651800) + 350 /\
  split_date_range (midnight 3651000) (midnight 3651800) = Raise OverflowError.
Proof.
  split; [by_compute|]. split; [by_compute|].
  apply split_date_range_overflow; by_compute.
Defined.

(** The addition before the loop is unguarded: a start date within
    350 days of the last representable date raises [OverflowError] whatever
    the end date is, even when the loop would not run. *)
Theorem split_date_range_overflow_before_loop (s e : datetime) :
  ~ (0 < ordinal s + 350 <= MAXORDINAL) ->
  split_date_range s e = Raise OverflowError.
Proof.
  intros Hs. unfold split_date_range.
  by rewrite datetime_add_out_of_range.
Qed.

Lemma split_date_range_overflow_before_loop_witness :
  ~ (0 < ordinal (midnight 3652000) + 350 <= MAXORDINAL) /\
  split_date_range (midnight 3652000) (midnight 3652000) = Raise OverflowError.
Proof. split; [|apply split_date_range_overflow_before_loop]; by_compute. Defined.
