(* ===== verification/Money.v ===== *)
(** * Money: [StockParser.cast_money] ([src/main.py], lines 27-29)

    [cast_money(v)] is [v.units + v.nano / 1e9] on Python's integers and
    floats.  Floats are IEEE 754 binary64, modelled by the Standard
    Library's executable specification [SpecFloat] at precision 53 and
    maximal exponent 1024; the conversions that Python inserts between an
    integer operand and a float operand are explicit here. *)

From Stdlib Require Import ZArith Lia ZifyBool SpecFloat QArith Qpower Qfield Qabs.
From stdpp Require Import base tactics option list.
From S2P Require Import Prelude.

#[local] Open Scope Z_scope.

(** ** Floats *)

Definition float : Type := spec_float.

Definition prec : Z := 53.
Definition emax : Z := 1024.

#[global] Instance float_eq_dec : EqDecision float.
Proof. solve_decision. Defined.

(** The integer [z] rounded to the nearest float, ties to even; infinite
    when [z] is too large. *)
Definition float_of_Z (z : Z) : float := binary_normalize prec emax z 0 false.

(** Python's conversion of an [int] operand to [float]: an integer that
    rounds to infinity raises [OverflowError]. *)
Definition float_of_int (z : Z) : result float :=
  match float_of_Z z with
  | S754_infinity _ => Raise OverflowError
  | f => Ok f
  end.

Definition is_zero (x : float) : bool :=
  match x with S754_zero _ => true | _ => false end.

Definition is_nan (x : float) : bool :=
  match x with S754_nan => true | _ => false end.

Definition is_finite (x : float) : bool :=
  match x with S754_zero _ | S754_finite _ _ _ => true | _ => false end.

(** [x / y] on floats: division by zero raises. *)
Definition float_truediv (x y : float) : result float :=
  if is_zero y then Raise ZeroDivisionError else Ok (SFdiv prec emax x y).

(** [x + y] on floats. *)
Definition float_add (x y : float) : float := SFadd prec emax x y.

(** [n / y] for an integer [n] and a float [y]. *)
Definition int_truediv (n : Z) (y : float) : result float :=
  x <- float_of_int n ;; float_truediv x y.

(** [n + y] for an integer [n] and a float [y]. *)
Definition int_add (n : Z) (y : float) : result float :=
  x <- float_of_int n ;; Ok (float_add x y).

(** The literal [1e9]: 8388608000000000 * 2^-23. *)
Definition f1e9 : float := S754_finite false 8388608000000000 (-23).

(** ** The code *)

(** The argument [v] of [cast_money]: a quotation with integer [units] and
    [nano] (billionths). *)
Record Quotation : Type := mk_Quotation { units : Z; nano : Z }.

#[global] Instance Quotation_eq_dec : EqDecision Quotation.
Proof. solve_decision. Defined.

(** [cast_money(v)]: [v.units + v.nano / 1e9], the division first. *)
Definition cast_money (v : Quotation) : result float :=
  q <- int_truediv (nano v) f1e9 ;;
  int_add (units v) q.

(** ** Specification vocabulary *)

(** The rational number a float denotes (0 for infinities and NaN). *)
Definition float_to_Q (x : float) : Q :=
  match x with
  | S754_finite s m e =>
      (inject_Z (if s then Z.neg m else Z.pos m) * Qpower 2 e)%Q
  | _ => 0%Q
  end.

(** The number [cast_money] approximates: [units + nano / 10^9]. *)
Definition cast_money_exact (v : Quotation) : Q :=
  Qmake (units v * 1000000000 + nano v) 1000000000.

(** The float [cast_money] returns when it returns. *)
Definition price (v : Quotation) : float :=
  float_add (float_of_Z (units v)) (SFdiv prec emax (float_of_Z (nano v)) f1e9).

(** The float nearest to [n / d], for integers that are floats themselves:
    one correctly rounded division. *)
Definition float_nearest_ratio (n d : Z) : float :=
  SFdiv prec emax (float_of_Z n) (float_of_Z d).

(** The ranges of the two fields in the API's messages: [units] is a
    64-bit and [nano] a 32-bit signed integer. *)
Definition proto_range (v : Quotation) : Prop :=
  - 2 ^ 63 <= units v < 2 ^ 63 /\ - 2 ^ 31 <= nano v < 2 ^ 31.

#[global] Instance proto_range_dec (v : Quotation) : Decision (proto_range v).
Proof. unfold proto_range. apply _. Defined.

(** ** Rounding: shifts never grow the mantissa, results are never NaN *)

Section Rounding.

Lemma shr_1_le (mrs : shr_record) :
  0 <= shr_m mrs -> 0 <= shr_m (shr_1 mrs) <= shr_m mrs.
Proof. destruct mrs as [[|[p|p|]|p] r s]; cbn; lia. Qed.

Lemma iter_shr_1_le (p : positive) :
  forall mrs, 0 <= shr_m mrs ->
  0 <= shr_m (SpecFloat.iter_pos shr_1 p mrs) <= shr_m mrs.
Proof.
  induction p as [p IH|p IH|]; intros mrs H; cbn.
  - pose proof (shr_1_le mrs H). pose proof (IH (shr_1 mrs) ltac:(lia)).
    pose proof (IH (SpecFloat.iter_pos shr_1 p (shr_1 mrs)) ltac:(lia)). lia.
  - pose proof (IH mrs H).
    pose proof (IH (SpecFloat.iter_pos shr_1 p mrs) ltac:(lia)). lia.
  - by apply shr_1_le.
Qed.

(** A right shift by [n]: the mantissa shrinks, the exponent grows by [n]. *)
Lemma shr_bounds (mrs : shr_record) (e n : Z) :
  0 <= shr_m mrs ->
  0 <= shr_m (shr mrs e n).1 <= shr_m mrs /\ (shr mrs e n).2 = e + Z.max 0 n.
Proof.
  intros H. destruct n as [|p|p]; cbn [shr fst snd]; [split; lia| |split; lia].
  split; [by apply iter_shr_1_le | lia].
Qed.

Lemma shr_record_of_loc_m (m : Z) (l : location) : shr_m (shr_record_of_loc m l) = m.
Proof. by destruct l as [|[]]. Qed.

Lemma shr_fexp_nonneg (m e : Z) (l : location) :
  0 <= m -> 0 <= shr_m (shr_fexp prec emax m e l).1.
Proof.
  intros H. unfold shr_fexp. apply shr_bounds. by rewrite shr_record_of_loc_m.
Qed.

Lemma round_nearest_even_nonneg (m : Z) (l : location) :
  0 <= m -> 0 <= round_nearest_even m l.
Proof. destruct l as [|[]]; cbn; try destruct (Z.even m); lia. Qed.

Lemma round_nearest_even_le (m : Z) (l : location) : round_nearest_even m l <= m + 1.
Proof. destruct l as [|[]]; cbn; try destruct (Z.even m); lia. Qed.

Lemma fexp_bounds (x : Z) : -1074 <= fexp prec emax x <= Z.max (x - 53) (-1074).
Proof. unfold fexp, emin, prec, emax. lia. Qed.

Lemma binary_round_aux_not_nan (sx : bool) (mx ex : Z) (lx : location) :
  0 <= mx -> binary_round_aux prec emax sx mx ex lx <> S754_nan.
Proof.
  intros H. unfold binary_round_aux.
  pose proof (shr_fexp_nonneg mx ex lx H) as H1.
  destruct (shr_fexp prec emax mx ex lx) as [mrs' e']. cbn [fst] in H1.
  pose proof (shr_fexp_nonneg _ e' loc_Exact
    (round_nearest_even_nonneg _ (loc_of_shr_record mrs') H1)) as H2.
  destruct (shr_fexp prec emax _ e' loc_Exact) as [mrs'' e'']. cbn [fst] in H2.
  destruct (shr_m mrs'') as [|m|m]; [done| |lia].
  by destruct (e'' <=? emax - prec).
Qed.

Lemma binary_round_not_nan (sx : bool) (mx : positive) (ex : Z) :
  binary_round prec emax sx mx ex <> S754_nan.
Proof.
  unfold binary_round. destruct (shl_align _ _ _) as [mz ez].
  by apply binary_round_aux_not_nan.
Qed.

Lemma binary_normalize_not_nan (m e : Z) (szero : bool) :
  binary_normalize prec emax m e szero <> S754_nan.
Proof. destruct m; cbn; [done|apply binary_round_not_nan..]. Qed.

End Rounding.

(** ** The operations on finite floats *)

Lemma float_of_Z_not_nan (z : Z) : is_nan (float_of_Z z) = false.
Proof.
  pose proof (binary_normalize_not_nan z 0 false) as H. unfold float_of_Z.
  by destruct (binary_normalize _ _ _ _ _).
Qed.

(** A converted integer is a finite float. *)
Lemma float_of_int_finite (z : Z) (x : float) :
  float_of_int z = Ok x -> is_finite x = true.
Proof.
  unfold float_of_int. pose proof (float_of_Z_not_nan z) as H.
  destruct (float_of_Z z); intros [= <-]; done.
Qed.

(** The only exception of a conversion is [OverflowError]. *)
Lemma float_of_int_Raise (z : Z) (e : exn) :
  float_of_int z = Raise e -> e = OverflowError.
Proof. unfold float_of_int. destruct (float_of_Z z); by intros [= <-]. Qed.

Lemma float_of_int_0 : float_of_int 0 = Ok (S754_zero false).
Proof. reflexivity. Qed.

Lemma SFdiv_core_nonneg (m1 m2 : positive) (e1 e2 : Z) :
  0 <= (SFdiv_core_binary prec emax (Z.pos m1) e1 (Z.pos m2) e2).1.1.
Proof.
  unfold SFdiv_core_binary. cbn zeta.
  set (a := match _ - _ - _ with Z0 => _ | Z.pos _ => _ | Z.neg _ => _ end).
  assert (0 <= a) as Ha.
  { subst a. destruct (_ - _ - _); [lia| |lia]. apply Z.shiftl_nonneg. lia. }
  pose proof (Z_div_mod a (Z.pos m2) ltac:(lia)) as Hdm.
  destruct (Z.div_eucl a (Z.pos m2)) as [q r]. cbn. nia.
Qed.

Lemma SFdiv_finite_not_nan (x y : float) :
  is_finite x = true -> is_finite y = true -> is_zero y = false ->
  is_nan (SFdiv prec emax x y) = false.
Proof.
  destruct x as [sx| | |sx mx ex], y as [sy| | |sy my ey]; try done.
  intros _ _ _. cbn [SFdiv].
  pose proof (SFdiv_core_nonneg mx my ex ey) as Hq.
  destruct (SFdiv_core_binary _ _ _ _ _ _) as [[q e'] l]. cbn in Hq.
  pose proof (binary_round_aux_not_nan (xorb sx sy) q e' l Hq) as H.
  by destruct (binary_round_aux _ _ _ _ _ _).
Qed.

Lemma float_add_not_nan (x y : float) :
  is_finite x = true -> is_nan y = false -> is_nan (float_add x y) = false.
Proof.
  destruct x as [sx| | |sx mx ex], y as [sy|sy| |sy my ey]; try done.
  - intros _ _. cbn. by destruct sx, sy.
  - intros _ _. unfold float_add. cbn.
    pose proof (binary_normalize_not_nan
      (cond_Zopp sx (Z.pos (shl_align mx ex (Z.min ex ey)).1)
       + cond_Zopp sy (Z.pos (shl_align my ey (Z.min ex ey)).1))
      (Z.min ex ey) false) as H.
    by destruct (binary_normalize _ _ _ _ _).
Qed.

(** Adding zero to a finite float returns it (with [+0.0] for [-0.0 + 0.0]). *)
Lemma float_add_zero_r (x : float) :
  is_finite x = true -> is_zero x = false ->
  float_add x (S754_zero false) = x.
Proof. by destruct x. Qed.

Lemma float_truediv_f1e9 (x : float) :
  float_truediv x f1e9 = Ok (SFdiv prec emax x f1e9).
Proof. reflexivity. Qed.

(** [1e9] is the float of the integer 10^9, and denotes it. *)
Lemma f1e9_exact : float_of_Z 1000000000 = f1e9 /\ (float_to_Q f1e9 == 1000000000)%Q.
Proof. split; [reflexivity | by vm_compute]. Qed.

(** ** Integers below 2^53 convert exactly *)

(** Shifting a mantissa left by [k] bits multiplies it by [2^k] and adds
    [k] binary digits. *)
Lemma iter_xO_value (m k : positive) :
  Z.pos (Pos.iter xO m k) = Z.pos m * 2 ^ Z.pos k /\
  digits2_pos (Pos.iter xO m k) = (digits2_pos m + k)%positive.
Proof.
  apply (Pos.iter_ind _ xO m
    (fun k a => Z.pos a = Z.pos m * 2 ^ Z.pos k /\ digits2_pos a = (digits2_pos m + k)%positive)).
  - split; [lia | cbn; lia].
  - intros p a [Ha Hd]. split.
    + rewrite Pos2Z.inj_succ, Z.pow_succ_r by lia. lia.
    + cbn. rewrite Hd. lia.
Qed.

(** A mantissa of [d] binary digits is at least [2^(d-1)]. *)
Lemma digits2_pos_lower (m : positive) : 2 ^ (Z.pos (digits2_pos m) - 1) <= Z.pos m.
Proof.
  induction m as [m IH|m IH|]; cbn [digits2_pos]; [| |done];
    rewrite Pos2Z.inj_succ; replace (Z.succ _ - 1) with (Z.succ (Z.pos (digits2_pos m) - 1)) by lia;
    rewrite Z.pow_succ_r by lia; lia.
Qed.

Lemma digits2_pos_small (m : positive) : Z.pos m < 2 ^ 53 -> Z.pos (digits2_pos m) <= 53.
Proof.
  intros H. pose proof (digits2_pos_lower m) as Hl.
  destruct (Z.le_gt_cases (Z.pos (digits2_pos m)) 53) as [|Hgt]; [done|].
  assert (2 ^ 53 <= 2 ^ (Z.pos (digits2_pos m) - 1)) by (apply Z.pow_le_mono_r; lia).
  lia.
Qed.

(** A 53-bit mantissa with an exponent in range is left as it is. *)
Lemma binary_round_aux_normal (s : bool) (mz : positive) (ez : Z) :
  Z.pos (digits2_pos mz) = 53 -> -1074 <= ez <= 971 ->
  binary_round_aux prec emax s (Z.pos mz) ez loc_Exact = S754_finite s mz ez.
Proof.
  intros Hd He. unfold binary_round_aux, shr_fexp.
  assert (fexp prec emax (Zdigits2 (Z.pos mz) + ez) - ez = 0) as ->
    by (unfold fexp, emin, prec, emax; cbn [Zdigits2]; lia).
  cbn [shr shr_record_of_loc loc_of_shr_record shr_m round_nearest_even].
  assert (fexp prec emax (Zdigits2 (Z.pos mz) + ez) - ez = 0) as ->
    by (unfold fexp, emin, prec, emax; cbn [Zdigits2]; lia).
  cbn [shr shr_record_of_loc shr_m].
  replace (ez <=? emax - prec) with true by (unfold emax, prec; lia). done.
Qed.

(** An integer below [2^53] is normalised by a left shift alone. *)
Lemma binary_round_small (s : bool) (m : positive) :
  Z.pos m < 2 ^ 53 ->
  exists m' e', binary_round prec emax s m 0 = S754_finite s m' e' /\
    e' <= 0 /\ Z.pos m' = Z.pos m * 2 ^ (- e').
Proof.
  intros Hm%digits2_pos_small. unfold binary_round, shl_align.
  assert (fexp prec emax (Z.pos (digits2_pos m) + 0) = Z.pos (digits2_pos m) - 53) as ->
    by (unfold fexp, emin, prec, emax; lia).
  destruct (Z.pos (digits2_pos m) - 53 - 0) as [|k|k] eqn:Hk; [|lia|].
  - exists m, 0. rewrite binary_round_aux_normal by lia. split; [done|]. split; lia.
  - destruct (iter_xO_value m k) as [Hv Hd].
    exists (Pos.iter xO m k), (Z.pos (digits2_pos m) - 53).
    rewrite binary_round_aux_normal by lia. split; [done|]. split; [lia|].
    rewrite Hv. f_equal. f_equal. lia.
Qed.

Lemma Qpower_2_scale (a k : Z) : 0 <= k -> (inject_Z (a * 2 ^ k) * Qpower 2 (- k) == inject_Z a)%Q.
Proof.
  intros Hk. rewrite inject_Z_mult, Qpower_opp.
  rewrite (Zpower_Qpower 2 k Hk).
  assert (~ (inject_Z 2 ^ k == 0)%Q) as Hne.
  { rewrite <- Zpower_Qpower by done. intros H.
    assert (0 < 2 ^ k) by (apply Z.pow_pos_nonneg; lia).
    unfold Qeq in H. cbn in H. lia. }
  change (2%Q) with (inject_Z 2). field. exact Hne.
Qed.

(** The float of an integer below [2^53] in absolute value denotes it. *)
Lemma float_of_Z_exact (z : Z) :
  Z.abs z < 2 ^ 53 -> is_finite (float_of_Z z) = true /\ (float_to_Q (float_of_Z z) == inject_Z z)%Q.
Proof.
  intros Hz. unfold float_of_Z. destruct z as [|m|m]; cbn [binary_normalize].
  - done.
  - destruct (binary_round_small false m Hz) as (m' & e' & -> & He & Hm).
    split; [done|]. cbn [float_to_Q]. rewrite Hm.
    rewrite <- (Z.opp_involutive e') at 2. apply Qpower_2_scale. lia.
  - destruct (binary_round_small true m Hz) as (m' & e' & -> & He & Hm).
    split; [done|]. cbn [float_to_Q].
    replace (Z.neg m') with (Z.neg m * 2 ^ (- e')) by lia.
    rewrite <- (Z.opp_involutive e') at 2. apply Qpower_2_scale. lia.
Qed.

(** ** Integers below 2^485 convert to finite floats *)

Lemma Zdigits2_upper (m k : Z) : 0 <= k -> 0 <= m < 2 ^ k -> 0 <= Zdigits2 m <= k.
Proof.
  intros Hk [H0 Hm]. destruct m as [|p|p]; cbn; [lia| |lia].
  pose proof (digits2_pos_lower p) as Hl.
  destruct (Z.le_gt_cases (Z.pos (digits2_pos p)) k) as [|Hgt]; [lia|].
  assert (2 ^ k <= 2 ^ (Z.pos (digits2_pos p) - 1)) by (apply Z.pow_le_mono_r; lia).
  lia.
Qed.

Lemma shr_fexp_bounds (m e : Z) (l : location) (k : Z) :
  0 <= k -> 0 <= m < 2 ^ k ->
  0 <= shr_m (shr_fexp prec emax m e l).1 <= m /\
  (shr_fexp prec emax m e l).2 <= Z.max e (Z.max (k + e - 53) (-1074)).
Proof.
  intros Hk Hm. unfold shr_fexp.
  pose proof (Zdigits2_upper m k Hk Hm) as Hd.
  pose proof (fexp_bounds (Zdigits2 m + e)) as Hf.
  destruct (shr_bounds (shr_record_of_loc m l) e
    (fexp prec emax (Zdigits2 m + e) - e)) as [H1 H2];
    [by destruct l as [|[]]; cbn; lia|].
  rewrite H2. replace (shr_m (shr_record_of_loc m l)) with m in H1 by (by destruct l as [|[]]).
  split; [done|lia].
Qed.

Lemma binary_round_aux_finite (s : bool) (m : Z) (k : Z) :
  0 <= k <= 485 -> 0 <= m < 2 ^ k ->
  is_finite (binary_round_aux prec emax s m 0 loc_Exact) = true.
Proof.
  intros Hk Hm. unfold binary_round_aux.
  destruct (shr_fexp_bounds m 0 loc_Exact k ltac:(lia) Hm) as [H1 H2].
  destruct (shr_fexp prec emax m 0 loc_Exact) as [mrs' e']. cbn [fst snd] in *.
  set (m1 := round_nearest_even (shr_m mrs') (loc_of_shr_record mrs')).
  assert (0 <= m1 < 2 ^ (k + 1)) as Hm1.
  { pose proof (round_nearest_even_nonneg (shr_m mrs') (loc_of_shr_record mrs') ltac:(lia)).
    pose proof (round_nearest_even_le (shr_m mrs') (loc_of_shr_record mrs')).
    rewrite Z.pow_add_r by lia. change (2 ^ 1) with 2. fold m1 in H, H0. lia. }
  destruct (shr_fexp_bounds m1 e' loc_Exact (k + 1) ltac:(lia) Hm1) as [H3 H4].
  destruct (shr_fexp prec emax m1 e' loc_Exact) as [mrs'' e'']. cbn [fst snd] in *.
  destruct (shr_m mrs'') as [|p|p]; [done| |lia].
  replace (e'' <=? emax - prec) with true by (unfold emax, prec; lia). done.
Qed.

Lemma digits2_pos_upper (m : positive) : Z.pos m < 2 ^ Z.pos (digits2_pos m).
Proof.
  induction m as [m IH|m IH|]; cbn [digits2_pos]; [| |done];
    rewrite Pos2Z.inj_succ, Z.pow_succ_r by lia; lia.
Qed.

Lemma binary_round_finite (s : bool) (m : positive) :
  Z.pos m < 2 ^ 485 -> is_finite (binary_round prec emax s m 0) = true.
Proof.
  intros Hm. destruct (Z.le_gt_cases (Z.pos (digits2_pos m)) 53) as [Hd|Hd].
  - assert (Z.pos m < 2 ^ 53) as Hs.
    { pose proof (digits2_pos_upper m).
      assert (2 ^ Z.pos (digits2_pos m) <= 2 ^ 53) by (apply Z.pow_le_mono_r; lia). lia. }
    by destruct (binary_round_small s m Hs) as (m' & e' & -> & _).
  - unfold binary_round, shl_align.
    assert (fexp prec emax (Z.pos (digits2_pos m) + 0) = Z.pos (digits2_pos m) - 53) as ->
      by (unfold fexp, emin, prec, emax; lia).
    destruct (Z.pos (digits2_pos m) - 53 - 0) eqn:E; [lia| |lia].
    apply (binary_round_aux_finite s (Z.pos m) 485); lia.
Qed.

Lemma float_of_Z_finite (z : Z) : Z.abs z < 2 ^ 485 -> is_finite (float_of_Z z) = true.
Proof.
  intros Hz. unfold float_of_Z.
  destruct z as [|m|m]; [done|..]; cbn [binary_normalize]; by apply binary_round_finite.
Qed.

(** ** [cast_money] *)

(** An integer below [2^485] in absolute value converts without error. *)
Lemma float_of_int_in_range (z : Z) :
  Z.abs z < 2 ^ 485 -> exists x, float_of_int z = Ok x /\ is_finite x = true.
Proof.
  intros H%float_of_Z_finite. unfold float_of_int.
  destruct (float_of_Z z) eqn:E; try done; eauto.
Qed.

(** A non-zero integer below [2^53] converts to a non-zero float that
    denotes it. *)
Lemma float_of_int_small (z : Z) :
  z <> 0 -> Z.abs z < 2 ^ 53 ->
  exists x, float_of_int z = Ok x /\ is_finite x = true /\ is_zero x = false /\
    (float_to_Q x == inject_Z z)%Q.
Proof.
  intros Hz Hs. destruct (float_of_Z_exact z Hs) as [Hf Hq].
  unfold float_of_int, float_of_Z in *.
  destruct z as [|m|m]; [done|..]; cbn [binary_normalize] in *.
  - destruct (binary_round_small false m Hs) as (m' & e' & E & _).
    rewrite E in *. eauto.
  - destruct (binary_round_small true m Hs) as (m' & e' & E & _).
    rewrite E in *. eauto.
Qed.

(** The steps of [cast_money], when it returns. *)
Lemma cast_money_Ok (v : Quotation) (f : float) :
  cast_money v = Ok f <->
  exists x y, float_of_int (nano v) = Ok x /\ float_of_int (units v) = Ok y /\
    f = float_add y (SFdiv prec emax x f1e9).
Proof.
  unfold cast_money, int_truediv, int_add. rewrite bind_assoc. split.
  - intros H. inv_result H. rewrite float_truediv_f1e9 in H. cbn [bind] in H.
    inv_result H. injection H as <-. eauto.
  - intros (x & y & -> & -> & ->). done.
Qed.

(** Whatever [cast_money] returns is not NaN. *)
Lemma cast_money_Ok_not_nan (v : Quotation) (f : float) :
  cast_money v = Ok f -> is_nan f = false.
Proof.
  intros (x & y & Hx%float_of_int_finite & Hy%float_of_int_finite & ->)%cast_money_Ok.
  apply float_add_not_nan; [done|]. by apply SFdiv_finite_not_nan.
Qed.

(** The only exception of [cast_money] is [OverflowError]. *)
Lemma cast_money_Raise (v : Quotation) (e : exn) :
  cast_money v = Raise e -> e = OverflowError.
Proof.
  unfold cast_money, int_truediv, int_add. rewrite bind_assoc. intros H.
  destruct (float_of_int (nano v)) eqn:E1; cbn [bind] in H;
    [|injection H as <-; by eapply float_of_int_Raise].
  rewrite float_truediv_f1e9 in H. cbn [bind] in H.
  destruct (float_of_int (units v)) eqn:E2; cbn [bind] in H; [done|].
  injection H as <-. by eapply float_of_int_Raise.
Qed.

(** On the values the API can send, [cast_money] returns. *)
Lemma cast_money_proto_range_lemma (v : Quotation) :
  proto_range v -> exists f, cast_money v = Ok f /\ is_nan f = false.
Proof.
  intros [Hu Hn].
  assert (2 ^ 63 < 2 ^ 485 /\ 2 ^ 31 < 2 ^ 485) as [? ?] by (split; by compute).
  destruct (float_of_int_in_range (nano v)) as (x & Hx & _); [lia|].
  destruct (float_of_int_in_range (units v)) as (y & Hy & _); [lia|].
  assert (cast_money v = Ok (float_add y (SFdiv prec emax x f1e9))) as Hv
    by (apply cast_money_Ok; eauto).
  eexists. split; [done|]. by eapply cast_money_Ok_not_nan.
Qed.

Lemma float_of_int_Ok (z : Z) (x : float) : float_of_int z = Ok x -> x = float_of_Z z.
Proof. unfold float_of_int. destruct (float_of_Z z); by intros [= <-]. Qed.

(** When [cast_money] returns, it returns [price]. *)
Lemma cast_money_price (v : Quotation) (f : float) : cast_money v = Ok f -> f = price v.
Proof.
  intros (x & y & ->%float_of_int_Ok & ->%float_of_int_Ok & ->)%cast_money_Ok. done.
Qed.

Lemma cast_money_in_range (v : Quotation) : proto_range v -> cast_money v = Ok (price v).
Proof.
  intros (f & Hf & _)%cast_money_proto_range_lemma.
  by rewrite Hf, (cast_money_price v f Hf).
Qed.

(** ** Theorems *)

(** For a quotation of 100 units and 500000000 nanos [cast_money]
    returns the float that denotes exactly 100.5. *)
Theorem cast_money_example :
  exists f, cast_money (mk_Quotation 100 500000000) = Ok f /\
    (float_to_Q f == 201 # 2)%Q.
Proof. eexists. split; [reflexivity | by vm_compute]. Qed.

(** C34: whatever the quotation, [cast_money] either returns a float that
    is not NaN (so a price is never taken for a missing value) or raises
    [OverflowError]; it raises nothing else. *)
Theorem cast_money_outcome (v : Quotation) :
  match cast_money v with
  | Ok f => is_nan f = false
  | Raise e => e = OverflowError
  end.
Proof.
  destruct (cast_money v) eqn:E;
    [by eapply cast_money_Ok_not_nan | by eapply cast_money_Raise].
Qed.

(** C14: on the values the API can send (64-bit [units], 32-bit [nano])
    [cast_money] raises nothing: it returns the float [price v], the
    rounded sum of the float of [units] and the rounded quotient of the
    float of [nano] by [1e9], and that float is not NaN. *)
Theorem cast_money_proto_range (v : Quotation) :
  proto_range v -> cast_money v = Ok (price v) /\ is_nan (price v) = false.
Proof.
  intros Hv. split; [by apply cast_money_in_range|].
  eapply cast_money_Ok_not_nan. by apply cast_money_in_range.
Qed.

Lemma cast_money_proto_range_witness :
  proto_range (mk_Quotation 267 450000000) /\
  cast_money (mk_Quotation 267 450000000) = Ok (price (mk_Quotation 267 450000000)) /\
  is_nan (price (mk_Quotation 267 450000000)) = false.
Proof. split; [|apply cast_money_proto_range]; by_compute. Defined.

(** A whole amount ([nano] = 0) below [2^53] units in absolute value
    is converted exactly: the float returned denotes [units]. *)
Theorem cast_money_whole (u : Z) :
  Z.abs u < 2 ^ 53 ->
  exists f, cast_money (mk_Quotation u 0) = Ok f /\
    (float_to_Q f == cast_money_exact (mk_Quotation u 0))%Q.
Proof.
  intros Hu.
  assert (cast_money_exact (mk_Quotation u 0) == inject_Z u)%Q as Hex.
  { unfold cast_money_exact, Qeq. cbn. lia. }
  destruct (decide (u = 0)) as [->|Hne]; [by exists (S754_zero false)|].
  destruct (float_of_int_small u Hne Hu) as (x & Hx & Hf & Hz & Hq).
  exists x. split; [|by rewrite Hex]. apply cast_money_Ok.
  exists (S754_zero false), x. split_and!; [done..|].
  change (SFdiv prec emax (S754_zero false) f1e9) with (S754_zero false).
  by rewrite (float_add_zero_r x Hf Hz).
Qed.

Lemma cast_money_whole_witness :
  Z.abs 267 < 2 ^ 53 /\
  exists f, cast_money (mk_Quotation 267 0) = Ok f /\
    (float_to_Q f == cast_money_exact (mk_Quotation 267 0))%Q.
Proof. split; [by compute | apply cast_money_whole; by compute]. Defined.

