(* ===== verification/PyStr.v ===== *)
(** * PyStr: the methods of Python's [str] that [src/main.py] calls

    [col.rsplit('_', 1)[0]] (lines 118 and 122), [col.startswith(name)]
    (line 121), [s.split(",")] (line 132) and [', '.join(tickers)]
    (line 82).  A string is a sequence of bytes here (the UTF-8 encoding of
    Python's string).  The separators are ASCII characters, and an ASCII
    byte never occurs inside the encoding of another character, so
    splitting at a separator and testing for a prefix give the same answers
    on the encoding as on the characters. *)

From Stdlib Require Import ZArith Lia Ascii.
From stdpp Require Import base tactics option list strings.
From S2P Require Import Prelude.

#[local] Open Scope string_scope.
#[local] Open Scope list_scope.

(** ** Operations *)

(** [s.rsplit(sep, 1)] when [sep] occurs in [s]: the part before the last
    occurrence and the part after it. *)
Fixpoint rsplit1 (sep : ascii) (s : string) : option (string * string) :=
  match s with
  | EmptyString => None
  | String c s' =>
      match rsplit1 sep s' with
      | Some (h, t) => Some (String c h, t)
      | None => if decide (c = sep) then Some (EmptyString, s') else None
      end
  end.

(** [s.rsplit(sep, 1)[0]]: [s] itself when [sep] does not occur. *)
Definition rsplit_head (sep : ascii) (s : string) : string :=
  match rsplit1 sep s with
  | Some (h, _) => h
  | None => s
  end.

(** [s.startswith(p)] *)
Definition startswith (s p : string) : bool := String.prefix p s.

(** [s.split(sep)]: the pieces between the separators, empty pieces
    included; never the empty list. *)
Fixpoint split (sep : ascii) (s : string) : list string :=
  match s with
  | EmptyString => [EmptyString]
  | String c s' =>
      if decide (c = sep) then EmptyString :: split sep s'
      else match split sep s' with
           | w :: ws => String c w :: ws
           | [] => [String c EmptyString]
           end
  end.

(** [sep.join(l)] *)
Definition join (sep : string) (l : list string) : string := String.concat sep l.

(** [sep] occurs in [s]. *)
Fixpoint contains (sep : ascii) (s : string) : bool :=
  match s with
  | EmptyString => false
  | String c s' => bool_decide (c = sep) || contains sep s'
  end.

(** ** Concatenation *)

Lemma append_nil_l (s : string) : "" +:+ s = s.
Proof. reflexivity. Qed.

Lemma append_String (a : ascii) (s1 s2 : string) :
  String a s1 +:+ s2 = String a (s1 +:+ s2).
Proof. reflexivity. Qed.

(** Push concatenations inside the constructors. *)
Ltac str_simpl :=
  repeat (rewrite ?append_nil_l, ?append_String in *; cbn [String.length String.concat] in * ).

Lemma append_nil_r (s : string) : s +:+ "" = s.
Proof. induction s as [|a s IH]; str_simpl; [done|]. by rewrite IH. Qed.

Lemma append_assoc (s1 s2 s3 : string) : (s1 +:+ s2) +:+ s3 = s1 +:+ (s2 +:+ s3).
Proof. induction s1 as [|a s1 IH]; str_simpl; [done|]. by rewrite IH. Qed.

Lemma length_append (s1 s2 : string) :
  String.length (s1 +:+ s2) = (String.length s1 + String.length s2)%nat.
Proof. induction s1 as [|a s1 IH]; str_simpl; [done|]. by rewrite IH. Qed.

(** Appending a non-empty string changes a string. *)
Lemma append_neq_self (s t : string) : t <> "" -> s +:+ t <> s.
Proof.
  intros Ht H. apply (f_equal String.length) in H. rewrite length_append in H.
  destruct t; [done|]. cbn in H. lia.
Qed.

(** Appending is injective in its first argument. *)
Lemma append_inj_l (s1 s2 t : string) : s1 +:+ t = s2 +:+ t -> s1 = s2.
Proof.
  revert s2. induction s1 as [|a s1 IH]; intros [|b s2] H; str_simpl; try done.
  - apply (f_equal String.length) in H. cbn in H. rewrite length_append in H. lia.
  - apply (f_equal String.length) in H. cbn in H. rewrite length_append in H. lia.
  - injection H as -> H. f_equal. by apply IH.
Qed.

(** ** [startswith] *)

Lemma startswith_nil (s : string) : startswith s "" = true.
Proof. by destruct s. Qed.

Lemma startswith_String (a b : ascii) (s p : string) :
  startswith (String a s) (String b p) = bool_decide (a = b) && startswith s p.
Proof.
  unfold startswith. cbn. destruct (Ascii.ascii_dec b a) as [->|Hne].
  - by rewrite bool_decide_eq_true_2.
  - rewrite bool_decide_eq_false_2; [done | by intros ->].
Qed.

(** [s] starts with [p] exactly when [s] is [p] followed by something. *)
Lemma startswith_spec (s p : string) :
  startswith s p = true <-> exists t, s = p +:+ t.
Proof.
  revert s. induction p as [|b p IH]; intros s.
  - rewrite startswith_nil. split; [eauto | done].
  - destruct s as [|a s]; [split; [done | by intros [t [=]]]|].
    rewrite startswith_String, andb_true_iff, bool_decide_eq_true, IH. split.
    + intros [-> [t ->]]. eauto.
    + intros [t [= -> ->]]. eauto.
Qed.

Lemma startswith_append (p t : string) : startswith (p +:+ t) p = true.
Proof. apply startswith_spec. eauto. Qed.

Lemma startswith_refl (s : string) : startswith s s = true.
Proof. apply startswith_spec. exists "". by rewrite append_nil_r. Qed.

Lemma startswith_trans (s p q : string) :
  startswith s p = true -> startswith p q = true -> startswith s q = true.
Proof.
  rewrite !startswith_spec. intros [t ->] [u ->]. exists (u +:+ t).
  apply append_assoc.
Qed.

Lemma startswith_length (s p : string) :
  startswith s p = true -> (String.length p <= String.length s)%nat.
Proof. intros [t ->]%startswith_spec. rewrite length_append. lia. Qed.

(** A prefix without separator of a name followed by a separator is a
    prefix of the name. *)
Lemma startswith_before_sep (sep : ascii) (s t p : string) :
  contains sep p = false ->
  startswith (s +:+ String sep t) p = startswith s p.
Proof.
  revert s. induction p as [|b p IH]; intros s Hp.
  - by rewrite !startswith_nil.
  - cbn in Hp. apply orb_false_iff in Hp as [Hb%bool_decide_eq_false Hp].
    destruct s as [|a s]; str_simpl.
    + rewrite startswith_String. rewrite bool_decide_eq_false_2 by congruence.
      by destruct p.
    + rewrite !startswith_String. by rewrite IH.
Qed.

(** ** [rsplit] *)

Lemma rsplit1_None (sep : ascii) (s : string) :
  rsplit1 sep s = None <-> contains sep s = false.
Proof.
  induction s as [|c s IH]; cbn; [done|].
  destruct (rsplit1 sep s) as [[h t]|].
  - split; [done|]. rewrite orb_false_iff. intros [_ H%IH]. done.
  - rewrite orb_false_iff, bool_decide_eq_false.
    destruct (decide (c = sep)); [split; [done | tauto] | split; [|done]].
    intros _. split; [done|]. by apply IH.
Qed.

(** A string with a last separator splits there. *)
Lemma rsplit1_append (sep : ascii) (h t : string) :
  contains sep t = false -> rsplit1 sep (h +:+ String sep t) = Some (h, t).
Proof.
  intros Ht. induction h as [|a h IH]; str_simpl; cbn.
  - apply rsplit1_None in Ht. rewrite Ht. by rewrite decide_True.
  - by rewrite IH.
Qed.

(** The two parts put the string together again around the separator, and
    the separator does not occur in the second part. *)
Lemma rsplit1_Some (sep : ascii) (s h t : string) :
  rsplit1 sep s = Some (h, t) <-> s = h +:+ String sep t /\ contains sep t = false.
Proof.
  split; [|intros [-> Ht]; by apply rsplit1_append].
  revert h. induction s as [|c s IH]; intros h; cbn; [done|].
  destruct (rsplit1 sep s) as [[h' t']|] eqn:E.
  - intros [= <- <-]. by destruct (IH h' eq_refl) as [-> ?].
  - case_decide; [|done]. intros [= <- <-]. subst. by apply rsplit1_None in E.
Qed.

(** Without the separator the string is its own head. *)
Lemma rsplit_head_id (sep : ascii) (s : string) :
  contains sep s = false -> rsplit_head sep s = s.
Proof. intros H%rsplit1_None. unfold rsplit_head. by rewrite H. Qed.

(** A suffix after a last separator is cut off. *)
Lemma rsplit_head_append (sep : ascii) (h t : string) :
  contains sep t = false -> rsplit_head sep (h +:+ String sep t) = h.
Proof. intros H. unfold rsplit_head. by rewrite rsplit1_append. Qed.

(** Every string starts with its head. *)
Lemma startswith_rsplit_head (sep : ascii) (s : string) :
  startswith s (rsplit_head sep s) = true.
Proof.
  unfold rsplit_head. destruct (rsplit1 sep s) as [[h t]|] eqn:E.
  - apply rsplit1_Some in E as [-> _]. apply startswith_append.
  - apply startswith_refl.
Qed.

Lemma contains_append (sep : ascii) (s t : string) :
  contains sep (s +:+ t) = contains sep s || contains sep t.
Proof. induction s as [|a s IH]; str_simpl; cbn; [done|]. by rewrite IH, orb_assoc. Qed.

(** ** [split] and [join] *)

Lemma split_nonempty (sep : ascii) (s : string) : split sep s <> [].
Proof.
  induction s as [|c s IH]; cbn; [done|].
  case_decide; [done|]. by destruct (split sep s).
Qed.

(** The pieces hold no separator. *)
Lemma split_contains (sep : ascii) (s : string) :
  Forall (fun w => contains sep w = false) (split sep s).
Proof.
  induction s as [|c s IH]; cbn; [by repeat constructor|].
  case_decide as Hc; [by constructor|].
  destruct (split sep s) as [|w ws]; cbn.
  - repeat constructor. cbn. by rewrite bool_decide_eq_false_2.
  - apply Forall_cons in IH as [Hw Hws]. constructor; [|done].
    cbn. by rewrite bool_decide_eq_false_2.
Qed.

(** Joining the pieces with the separator gives the string back. *)
Lemma join_split (sep : ascii) (s : string) :
  join (String sep "") (split sep s) = s.
Proof.
  unfold join. induction s as [|c s IH]; cbn; [done|].
  case_decide as Hc.
  - subst. pose proof (split_nonempty sep s) as Hne.
    destruct (split sep s) as [|w ws]; [done|]. cbn in *. by rewrite IH.
  - pose proof (split_nonempty sep s) as Hne.
    destruct (split sep s) as [|w ws]; [done|]. cbn in *.
    destruct ws; cbn in *; by rewrite <- IH.
Qed.

(** Splitting a piece without separator that is followed by the rest. *)
Lemma split_append (sep : ascii) (w rest : string) :
  contains sep w = false ->
  split sep (w +:+ String sep rest) = w :: split sep rest.
Proof.
  intros Hw. induction w as [|c w IH]; str_simpl; cbn [split].
  - by rewrite decide_True.
  - cbn in Hw. apply orb_false_iff in Hw as [Hc%bool_decide_eq_false Hw].
    rewrite decide_False by done. by rewrite IH.
Qed.

Lemma split_id (sep : ascii) (w : string) :
  contains sep w = false -> split sep w = [w].
Proof.
  intros Hw. induction w as [|c w IH]; cbn [split]; [done|].
  cbn in Hw. apply orb_false_iff in Hw as [Hc%bool_decide_eq_false Hw].
  rewrite decide_False by done. by rewrite IH.
Qed.

(** Splitting a join of separator-free pieces gives the pieces back. *)
Lemma split_join (sep : ascii) (ws : list string) :
  ws <> [] -> Forall (fun w => contains sep w = false) ws ->
  split sep (join (String sep "") ws) = ws.
Proof.
  intros Hne Hall. unfold join.
  induction Hall as [|w ws Hw Hws IH]; [done|]. clear Hne.
  destruct ws as [|w' ws]; cbn [String.concat].
  - by apply split_id.
  - str_simpl. rewrite split_append by done. f_equal. by apply IH.
Qed.
