(* ===== verification/Strptime.v ===== *)
(** * Strptime: [datetime.strptime(s, "%Y-%m-%d")] ([src/main.py], lines 139-140)

    The library turns the format into the regular expression

      [(?P<Y>\d\d\d\d)-(?P<m>1[0-2]|0[1-9]|[1-9])-(?P<d>3[0-1]|[1-2]\d|0[1-9]|[1-9]| [1-9])]

    matches it at the start of the text, raises [ValueError] when it does
    not match or when text remains after the match, converts the three
    groups with [int] and builds the datetime, whose constructor raises
    [ValueError] for a day the month does not have and for year 0.

    The expressions are syntax ([regex]); [matches] lists the matches of
    an expression at the start of a text in the order in which the
    backtracking matcher tries them, each match the text matched and the
    text that remains.  The first match of the whole expression is the
    match the library uses.

    Texts are byte strings and [\d] is an ASCII digit here.  Python's [\d]
    also accepts the decimal digits of other scripts; a text with such
    digits is outside this model.  The message of the [ValueError] for a
    text that does not match leaves out the display of the text. *)

From Stdlib Require Import ZArith Lia Ascii.
From stdpp Require Import base tactics option list strings.
From S2P Require Import Prelude DateTime Calendar PyStr.

#[local] Open Scope string_scope.
#[local] Open Scope list_scope.
#[local] Open Scope Z_scope.

(** ** Regular expressions *)

(** The expressions the format needs: a character class [[lo-hi]] (a
    literal when the two ends are the same character), a sequence and an
    alternative. *)
Inductive regex : Type :=
| Class (lo hi : ascii)
| Seq (r1 r2 : regex)
| Alt (r1 r2 : regex).

(** [c] is one of the characters from [lo] to [hi]. *)
Definition between (lo hi c : ascii) : bool :=
  (nat_of_ascii lo <=? nat_of_ascii c)%nat && (nat_of_ascii c <=? nat_of_ascii hi)%nat.

(** The matches of an expression at the start of a text: the text matched
    and the rest, in the order of the matcher's attempts (the first
    alternative first, and for a sequence the matches of its first part in
    their order, each with the matches of the second part that follow
    it). *)
Fixpoint matches (r : regex) (s : string) : list (string * string) :=
  match r with
  | Class lo hi =>
      match s with
      | String c rest => if between lo hi c then [(String c "", rest)] else []
      | "" => []
      end
  | Seq r1 r2 =>
      '(t1, s1) ← matches r1 s; '(t2, s2) ← matches r2 s1; [(t1 +:+ t2, s2)]
  | Alt r1 r2 => matches r1 s ++ matches r2 s
  end.

(** [\d] *)
Definition re_digit : regex := Class "0" "9".

(** A literal character. *)
Definition re_lit (c : ascii) : regex := Class c c.

(** [%Y]: [\d\d\d\d] *)
Definition re_Y : regex := Seq re_digit (Seq re_digit (Seq re_digit re_digit)).

(** [%m]: [1[0-2]|0[1-9]|[1-9]] *)
Definition re_m : regex :=
  Alt (Seq (re_lit "1") (Class "0" "2"))
    (Alt (Seq (re_lit "0") (Class "1" "9"))
       (Class "1" "9")).

(** [%d]: [3[0-1]|[1-2]\d|0[1-9]|[1-9]| [1-9]] *)
Definition re_d : regex :=
  Alt (Seq (re_lit "3") (Class "0" "1"))
    (Alt (Seq (Class "1" "2") re_digit)
       (Alt (Seq (re_lit "0") (Class "1" "9"))
          (Alt (Class "1" "9")
             (Seq (re_lit " ") (Class "1" "9"))))).

(** The expression of the format [%Y-%m-%d]: the matches with the texts of
    the three groups. *)
Definition format_regex (s : string) : list ((string * string * string) * string) :=
  '(Y, s) ← matches re_Y s;
  '(_, s) ← matches (re_lit "-") s;
  '(m, s) ← matches re_m s;
  '(_, s) ← matches (re_lit "-") s;
  '(d, s) ← matches re_d s;
  [((Y, m, d), s)].

(** ** Conversion *)

(** The value of a decimal digit. *)
Definition digit_value (c : ascii) : Z := Z.of_nat (nat_of_ascii c) - 48.

Fixpoint int_digits (acc : Z) (s : string) : Z :=
  match s with
  | "" => acc
  | String c s' => int_digits (10 * acc + digit_value c) s'
  end.

(** Leading spaces removed. *)
Fixpoint lstrip (s : string) : string :=
  match s with
  | String c s' => if Ascii.eqb c " " then lstrip s' else s
  | "" => ""
  end.

(** [int(s)] on a group of the expression: digits, after a space in one
    alternative of the day. *)
Definition int (s : string) : Z := int_digits 0 (lstrip s).

(** [datetime.strptime(data_string, "%Y-%m-%d")] *)
Definition strptime (data_string : string) : result datetime :=
  match head (format_regex data_string) with
  | None => Raise (ValueError "time data does not match format '%Y-%m-%d'")
  | Some ((Y, m, d), rest) =>
      if bool_decide (rest = "")
      then datetime_ymd (int Y) (int m) (int d)
      else Raise (ValueError ("unconverted data remains: " +:+ rest))
  end.

(** ** Specification vocabulary *)

(** The character of a decimal digit. *)
Definition digit_char (k : Z) : ascii := ascii_of_nat (Z.to_nat (48 + k)).

(** A number in two and in four digits. *)
Definition pad2 (n : Z) : string :=
  String (digit_char (n / 10)) (String (digit_char (n mod 10)) "").

Definition pad4 (n : Z) : string :=
  String (digit_char (n / 1000)) (String (digit_char (n / 100 mod 10)) (pad2 (n mod 100))).

(** [date.isoformat()]: [yyyy-mm-dd]. *)
Definition isoformat (d : Z * Z * Z) : string :=
  pad4 d.1.1 +:+ "-" +:+ pad2 d.1.2 +:+ "-" +:+ pad2 d.2.

(** The month and the day of the expression, after the year. *)
Definition re_md (s : string) : list ((string * string) * string) :=
  '(m, s) ← matches re_m s;
  '(_, s) ← matches (re_lit "-") s;
  '(d, s) ← matches re_d s;
  [((m, d), s)].

(** The texts an expression matches. *)
Fixpoint language (r : regex) : list string :=
  match r with
  | Class lo hi =>
      (fun n => String (ascii_of_nat n) "")
        <$> seq (nat_of_ascii lo) (S (nat_of_ascii hi) - nat_of_ascii lo)
  | Seq r1 r2 => t1 ← language r1; t2 ← language r2; [t1 +:+ t2]
  | Alt r1 r2 => language r1 ++ language r2
  end.

(** The spellings of a number that a group accepts: in two digits, without
    the leading zero, and for the day with a space in its place. *)
Definition month_spellings (m : Z) : list string :=
  pad2 m :: (if m <? 10 then [String (digit_char m) ""] else []).

Definition day_spellings (d : Z) : list string :=
  pad2 d :: (if d <? 10 then [String (digit_char d) ""; String " " (String (digit_char d) "")]
             else []).

(** The texts of a date that the format accepts. *)
Definition spellings (d : Z * Z * Z) : list string :=
  m ← month_spellings d.1.2; dd ← day_spellings d.2;
  [pad4 d.1.1 +:+ "-" +:+ m +:+ "-" +:+ dd].


(** ** Lemmas *)

(** *** Digits *)

Lemma digit_char_digit (k : Z) : 0 <= k <= 9 -> between "0" "9" (digit_char k) = true.
Proof. revert k. by_range 0 10. Qed.

Lemma digit_value_char (k : Z) : 0 <= k <= 9 -> digit_value (digit_char k) = k.
Proof. revert k. by_range 0 10. Qed.

Lemma lstrip_digit (c : ascii) (s : string) :
  between "0" "9" c = true -> lstrip (String c s) = String c s.
Proof. intros Hc. cbn. by destruct (Ascii.eqb_spec c " ") as [->|]. Qed.

Lemma int_pad2 (n : Z) : 0 <= n <= 99 -> int (pad2 n) = n.
Proof.
  intros Hn. unfold int, pad2. rewrite lstrip_digit by (apply digit_char_digit; zdiv_lia).
  cbn [int_digits]. rewrite !digit_value_char by zdiv_lia. zdiv_lia.
Qed.

Lemma int_pad4 (n : Z) : 0 <= n <= 9999 -> int (pad4 n) = n.
Proof.
  intros Hn. unfold int, pad4, pad2. rewrite lstrip_digit by (apply digit_char_digit; zdiv_lia).
  cbn [int_digits]. rewrite !digit_value_char by zdiv_lia. zdiv_lia.
Qed.

Lemma between_same (c c' : ascii) : between c c c' = true -> c' = c.
Proof.
  unfold between. intros Hc. rewrite <- (ascii_nat_embedding c), <- (ascii_nat_embedding c').
  f_equal. lia.
Qed.

(** *** The matcher *)

Lemma fmap_list_bind {A B C : Type} (f : B -> C) (g : A -> list B) (l : list A) :
  f <$> (l ≫= g) = l ≫= (fun x => f <$> g x).
Proof.
  induction l as [|x l IH]; [done|]. cbn [mbind list_bind] in *. by rewrite fmap_app, IH.
Qed.

Lemma head_fmap {A B : Type} (f : A -> B) (l : list A) : head (f <$> l) = f <$> head l.
Proof. by destruct l. Qed.

Lemma matches_Class (lo hi : ascii) (s t rest : string) :
  (t, rest) ∈ matches (Class lo hi) s
  <-> exists c, between lo hi c = true /\ t = String c "" /\ s = String c rest.
Proof.
  destruct s as [|c s]; cbn.
  - rewrite elem_of_nil. split; [done|]. by intros (c & _ & _ & ?).
  - destruct (between lo hi c) eqn:Hc.
    + rewrite list_elem_of_singleton. split; [intros [= -> ->]; eauto|].
      by intros (c' & _ & -> & [= -> ->]).
    + rewrite elem_of_nil. split; [done|]. intros (c' & Hc' & _ & [= -> _]). congruence.
Qed.

Lemma matches_Seq (r1 r2 : regex) (s t rest : string) :
  (t, rest) ∈ matches (Seq r1 r2) s
  <-> exists t1 s1 t2, (t1, s1) ∈ matches r1 s /\ (t2, rest) ∈ matches r2 s1 /\ t = t1 +:+ t2.
Proof.
  cbn [matches]. rewrite list_elem_of_bind. split.
  - intros ([t1 s1] & H2 & H1). apply list_elem_of_bind in H2 as ([t2 s2] & H3 & H2).
    apply list_elem_of_singleton in H3 as [= -> ->]. eauto 6.
  - intros (t1 & s1 & t2 & H1 & H2 & ->). exists (t1, s1). split; [|done].
    apply list_elem_of_bind. exists (t2, rest). split; [|done]. by apply list_elem_of_singleton.
Qed.

(** The text matched is taken from the start of the text, and it is a
    text of the expression's language. *)
Lemma matches_sound (r : regex) (s t rest : string) :
  (t, rest) ∈ matches r s -> s = t +:+ rest /\ t ∈ language r.
Proof.
  revert s t rest. induction r as [lo hi|r1 IH1 r2 IH2|r1 IH1 r2 IH2]; intros s t rest.
  - intros (c & Hc & -> & ->)%matches_Class. split; [done|]. cbn [language].
    apply list_elem_of_fmap. exists (nat_of_ascii c).
    split; [by rewrite ascii_nat_embedding|].
    unfold between in Hc. apply elem_of_seq. lia.
  - intros (t1 & s1 & t2 & H1 & H2 & ->)%matches_Seq.
    apply IH1 in H1 as [-> H1]. apply IH2 in H2 as [-> H2].
    split; [by rewrite append_assoc|]. cbn [language].
    apply list_elem_of_bind. exists t1. split; [|done].
    apply list_elem_of_bind. exists t2. split; [|done]. by apply list_elem_of_singleton.
  - cbn [matches language]. rewrite !elem_of_app. intros [H|H]; [apply IH1 in H|apply IH2 in H]; tauto.
Qed.

(** Every text of the language is matched at the start of a text that
    begins with it. *)
Lemma matches_complete (r : regex) (t rest : string) :
  t ∈ language r -> (t, rest) ∈ matches r (t +:+ rest).
Proof.
  revert t rest. induction r as [lo hi|r1 IH1 r2 IH2|r1 IH1 r2 IH2]; intros t rest.
  - cbn [language]. intros (n & -> & Hn%elem_of_seq)%list_elem_of_fmap.
    apply matches_Class. exists (ascii_of_nat n). split; [|done].
    pose proof (nat_ascii_bounded hi). pose proof (nat_ascii_bounded lo).
    unfold between. rewrite nat_ascii_embedding by lia. lia.
  - cbn [language]. intros (t1 & (t2 & ->%list_elem_of_singleton & H2)%list_elem_of_bind & H1)%list_elem_of_bind.
    apply matches_Seq. exists t1, (t2 +:+ rest), t2. rewrite append_assoc. auto.
  - cbn [matches language]. rewrite !elem_of_app. intros [H|H]; auto.
Qed.

(** *** The format *)

Lemma matches_String (lo hi c : ascii) (s : string) :
  between lo hi c = true -> matches (Class lo hi) (String c s) = [(String c "", s)].
Proof. intros Hc. cbn. by rewrite Hc. Qed.

Lemma matches_Seq_Class (lo hi : ascii) (r : regex) (c : ascii) (s : string) :
  between lo hi c = true ->
  matches (Seq (Class lo hi) r) (String c s) = (fun m => (String c m.1, m.2)) <$> matches r s.
Proof.
  intros Hc. cbn [matches]. rewrite Hc. cbn [mbind list_bind].
  rewrite app_nil_r. induction (matches r s) as [|[t2 s2] l IH]; [done|].
  cbn [mbind list_bind fmap list_fmap app fst snd]. by rewrite IH.
Qed.

(** The year in four digits is the only match of [%Y]. *)
Lemma re_Y_pad4 (n : Z) (s : string) :
  0 <= n <= 9999 -> matches re_Y (pad4 n +:+ s) = [(pad4 n, s)].
Proof.
  intros Hn. unfold re_Y, re_digit, pad4, pad2. str_simpl.
  rewrite !matches_Seq_Class, matches_String by (apply digit_char_digit; zdiv_lia).
  done.
Qed.

Lemma format_regex_year (Y s : string) :
  matches re_Y (Y +:+ "-" +:+ s) = [(Y, "-" +:+ s)] ->
  format_regex (Y +:+ "-" +:+ s) = (fun m => ((Y, m.1.1, m.1.2), m.2)) <$> re_md s.
Proof.
  intros HY. unfold format_regex, re_md. rewrite HY. cbn [mbind list_bind]. rewrite app_nil_r.
  str_simpl. change (matches (re_lit "-") (String "-" s)) with [(String "-" "", s)].
  cbn [mbind list_bind]. rewrite app_nil_r.
  rewrite fmap_list_bind. apply list_bind_ext; [|done]. intros [m s1].
  rewrite fmap_list_bind. apply list_bind_ext; [|done]. intros [x s2].
  rewrite fmap_list_bind. apply list_bind_ext; [|done]. by intros [d s3].
Qed.

(** Every spelling of a month and a day is the first match, and converts
    to the month and the day. *)
Lemma re_md_spellings (m d : Z) (ms ds : string) :
  1 <= m <= 12 -> 1 <= d <= 31 -> ms ∈ month_spellings m -> ds ∈ day_spellings d ->
  head (re_md (ms +:+ "-" +:+ ds)) = Some ((ms, ds), "") /\ int ms = m /\ int ds = d.
Proof.
  intros Hm Hd Hms Hds.
  assert (Forall (fun m => forall d, 1 <= d <= 31 ->
     Forall (fun ms => Forall (fun ds =>
        head (re_md (ms +:+ "-" +:+ ds)) = Some ((ms, ds), "") /\ int ms = m /\ int ds = d)
       (day_spellings d)) (month_spellings m)) (seqZ 1 12)) as Hall.
  { repeat (apply Forall_cons; split; [by_range 1 31|]). constructor. }
  rewrite Forall_forall in Hall. specialize (Hall m ltac:(apply elem_of_seqZ; lia) d Hd).
  rewrite Forall_forall in Hall. specialize (Hall ms Hms).
  rewrite Forall_forall in Hall. by apply Hall.
Qed.

(** The texts of the groups are spellings of the numbers they convert
    to. *)
Lemma language_Y (Y : string) :
  Y ∈ language re_Y -> 0 <= int Y <= 9999 /\ Y = pad4 (int Y).
Proof. revert Y. apply Forall_forall. by_compute. Qed.

Lemma language_m (m : string) :
  m ∈ language re_m -> 1 <= int m <= 12 /\ m ∈ month_spellings (int m).
Proof. revert m. apply Forall_forall. by_compute. Qed.

Lemma language_d (d : string) :
  d ∈ language re_d -> 1 <= int d <= 31 /\ d ∈ day_spellings (int d).
Proof. revert d. apply Forall_forall. by_compute. Qed.

(** A match of the whole expression: the text is the three groups with
    their separators and the rest. *)
Lemma format_regex_sound (s Y m d rest : string) :
  ((Y, m, d), rest) ∈ format_regex s ->
  s = Y +:+ "-" +:+ m +:+ "-" +:+ d +:+ rest
  /\ Y ∈ language re_Y /\ m ∈ language re_m /\ d ∈ language re_d.
Proof.
  unfold format_regex. intros ([Y' s1] & H & HY)%list_elem_of_bind.
  apply list_elem_of_bind in H as ([x1 s2] & H & H1).
  apply list_elem_of_bind in H as ([m' s3] & H & Hm).
  apply list_elem_of_bind in H as ([x2 s4] & H & H2).
  apply list_elem_of_bind in H as ([d' s5] & H & Hd).
  apply list_elem_of_singleton in H as [= -> -> -> ->].
  apply matches_sound in HY as [-> HY], Hm as [-> Hm], Hd as [-> Hd].
  apply matches_Class in H1 as (c1 & Hc1 & -> & ->), H2 as (c2 & Hc2 & -> & ->).
  apply between_same in Hc1 as ->, Hc2 as ->. by str_simpl.
Qed.

(** The text that [strptime] accepts for a datetime is a spelling of its
    date. *)
Lemma strptime_Ok (s : string) (dt : datetime) :
  strptime s = Ok dt ->
  exists d, valid_date d /\ s ∈ spellings d /\ dt = midnight (toordinal d).
Proof.
  unfold strptime. destruct (head _) as [[[[Y m] d] rest]|] eqn:Hhead; [|done].
  case_bool_decide as Hrest; [subst rest|done].
  apply head_Some_elem_of, format_regex_sound in Hhead as (-> & HY & Hm & Hd).
  apply language_Y in HY as [HY1 HY2]. apply language_m in Hm as [Hm1 Hm2].
  apply language_d in Hd as [Hd1 Hd2]. unfold datetime_ymd.
  destruct (decide (valid_date (int Y, int m, int d))) as [Hv|Hv].
  - rewrite check_date_fields_Ok by done. intros [= <-].
    exists (int Y, int m, int d). split_and!; [done| |done].
    unfold spellings. cbn [fst snd]. apply list_elem_of_bind. exists m. split; [|done].
    apply list_elem_of_bind. exists d. split; [|done].
    apply list_elem_of_singleton. by rewrite <- HY2, append_nil_r.
  - by apply check_date_fields_Raise in Hv as [msg ->].
Qed.

(** Every spelling of a date of the calendar is accepted. *)
Lemma strptime_spelling (d : Z * Z * Z) (s : string) :
  valid_date d -> s ∈ spellings d -> strptime s = Ok (midnight (toordinal d)).
Proof.
  intros Hv (ms & (ds & ->%list_elem_of_singleton & Hds)%list_elem_of_bind & Hms)%list_elem_of_bind.
  pose proof Hv as (Hy & Hm & Hday). unfold MINYEAR, MAXYEAR in *.
  assert (d.2 <= 31).
  { rewrite days_in_month_leap in Hday.
    pose proof (month_length_bounds (is_leap d.1.1) d.1.2). lia. }
  destruct (re_md_spellings d.1.2 d.2 ms ds) as (Hhead & Hims & Hids); [lia..|done|done|].
  unfold strptime.
  rewrite format_regex_year, head_fmap, Hhead by (apply re_Y_pad4; lia).
  cbn [fmap option_fmap option_map fst snd]. rewrite bool_decide_eq_true_2 by done.
  rewrite int_pad4, Hims, Hids by lia. unfold datetime_ymd.
  destruct d as [[y m] dd]. by rewrite check_date_fields_Ok.
Qed.

Lemma spellings_not_empty (d : Z * Z * Z) (s : string) : s ∈ spellings d -> s <> "".
Proof.
  intros (ms & (ds & ->%list_elem_of_singleton & _)%list_elem_of_bind & _)%list_elem_of_bind.
  unfold pad4. by str_simpl.
Qed.

(** Whatever is not accepted raises [ValueError]. *)
Lemma strptime_Raise (s : string) (e : exn) :
  strptime s = Raise e -> exists msg, e = ValueError msg.
Proof.
  unfold strptime. destruct (head _) as [[[[Y m] d] rest]|]; [|intros [= <-]; eauto].
  case_bool_decide; [|intros [= <-]; eauto]. unfold datetime_ymd.
  destruct (decide (valid_date (int Y, int m, int d))) as [Hv|Hv].
  - by rewrite check_date_fields_Ok.
  - apply check_date_fields_Raise in Hv as [msg ->]. intros [= <-]. eauto.
Qed.

Lemma strptime_rejects (s : string) :
  (forall d, valid_date d -> s ∉ spellings d) ->
  exists msg, strptime s = Raise (ValueError msg).
Proof.
  intros Hs. destruct (strptime s) as [dt|e] eqn:E.
  - apply strptime_Ok in E as (d & Hd & Hin & _). by destruct (Hs d Hd).
  - apply strptime_Raise in E as [msg ->]. eauto.
Qed.

(** ** Theorems *)


(** C9: what [strptime] accepts.  A text is parsed to a datetime exactly
    when it is a spelling of a date of the calendar in years 1..9999 (the
    year in four digits, the month and the day in two digits or without
    the leading zero, the day also with a space in place of the zero), and
    the datetime is midnight of that date.  In particular the form
    [yyyy-mm-dd] that the prompts ask for is read back to the date it
    writes. *)
Theorem strptime_spec (s : string) (dt : datetime) :
  strptime s = Ok dt
  <-> exists d, valid_date d /\ s ∈ spellings d /\ dt = midnight (toordinal d).
Proof.
  split; [apply strptime_Ok|]. intros (d & Hd & Hs & ->). by apply strptime_spelling.
Qed.

(** A text that is not accepted raises [ValueError] and nothing else,
    and a datetime returned is one the library can represent, at
    midnight. *)
Theorem strptime_outcome (s : string) :
  match strptime s with
  | Ok dt => datetime_wf dt /\ tod dt = 0
  | Raise e => exists msg, e = ValueError msg
  end.
Proof.
  destruct (strptime s) as [dt|e] eqn:E; [|by eapply strptime_Raise].
  apply strptime_Ok in E as (d & Hd & _ & ->).
  pose proof (toordinal_range d Hd). by repeat split; try dt_lia.
Qed.

Example strptime_examples :
  strptime "2022-01-05" = Ok (midnight 738160)
  /\ strptime "2022-1- 5" = Ok (midnight 738160)
  /\ strptime "2022-02-30" = Raise (ValueError "day is out of range for month")
  /\ strptime "0000-01-01" = Raise (ValueError "year 0 is out of range")
  /\ strptime "2022-01-051" = Raise (ValueError "unconverted data remains: 1")
  /\ strptime "05.01.2022" = Raise (ValueError "time data does not match format '%Y-%m-%d'").
Proof. by vm_compute. Qed.
