(* ===== verification/Frame.v ===== *)
(** * Frame: the pandas data frames of [StockParser.create_df] and [run]

    A data frame is its column labels and its rows of cells.  Labels may
    repeat, as they may in pandas.  The row index is not modelled: every
    frame the program builds has the default index 0..n-1 and the program
    never reads it.  A missing value is the float NaN.

    This file holds the constructors ([DataFrame()], [DataFrame(records)]),
    the three operations applied to a chunk's frame ([rename], the
    selection [df[[...]]] with its [KeyError], and [.empty]) and the
    operations of the coalescing loop of [run] (lines 123-124):
    [bfill(axis=1)], [iloc[:, 0]], the assignment of a column and [drop],
    and the operations on the catalogue of instruments (lines 80-94): the
    column of a label, [isin], [==], the selection of rows by a boolean
    series and [.values[0]].  Cells are compared as values; the catalogue
    holds strings only, so the special case of NaN in a comparison does
    not arise.

    [dtype_of] is the kind of value a cell holds; the last section shows
    what the operations do to the cells: they move them and write NaN,
    and make no cell of a new kind. *)

From Stdlib Require Import ZArith Lia ZifyBool SpecFloat.
From stdpp Require Import base tactics option list strings.
From S2P Require Import Prelude DateTime Money.

#[local] Open Scope string_scope.
#[local] Open Scope list_scope.

(** ** Data *)

(** A cell: a [date], an [int], a [float] or a [str]. *)
Inductive cell : Type :=
| CDate (d : date)
| CInt (z : Z)
| CFloat (f : float)
| CStr (s : string).

#[global] Instance cell_eq_dec : EqDecision cell.
Proof. solve_decision. Defined.

(** The missing value. *)
Definition NaN : cell := CFloat S754_nan.

(** [pd.isna] on a cell. *)
Definition isna (c : cell) : bool :=
  match c with
  | CFloat f => is_nan f
  | _ => false
  end.

(** [DataFrame]: [columns] and the rows, each a list of cells in column
    order. *)
Record frame : Type := mk_frame { columns : list string; rows : list (list cell) }.

#[global] Instance frame_eq_dec : EqDecision frame.
Proof. solve_decision. Defined.

(** A dictionary display [{'k': v, ...}], in insertion order. *)
Definition record : Type := list (string * cell).

(** Every row has one cell per column. *)
Definition frame_wf (df : frame) : Prop :=
  Forall (fun r => length r = length (columns df)) (rows df).

#[global] Instance frame_wf_dec (df : frame) : Decision (frame_wf df).
Proof. unfold frame_wf. apply _. Defined.

(** ** Constructors *)

(** [DataFrame()] *)
Definition DataFrame_empty : frame := mk_frame [] [].

(** The distinct elements of a list, in the order of their first
    occurrence. *)
Fixpoint dedup (l : list string) : list string :=
  match l with
  | [] => []
  | x :: l' => x :: filter (fun y => y <> x) (dedup l')
  end.

(** [r[k]] if the key is present. *)
Fixpoint record_get (r : record) (k : string) : option cell :=
  match r with
  | [] => None
  | (k', v) :: r' => if decide (k' = k) then Some v else record_get r' k
  end.

(** [DataFrame(records)] for a list of dictionaries: the columns are the
    keys in the order they first appear, a key absent from a dictionary
    gives NaN; an empty list gives a frame with no columns. *)
Definition DataFrame (records : list record) : frame :=
  let cols := dedup (concat (map (map fst) records)) in
  mk_frame cols (map (fun r => map (fun k => default NaN (record_get r k)) cols) records).

(** ** Operations *)

(** [df.empty]: no rows or no columns. *)
Definition frame_empty (df : frame) : bool :=
  bool_decide (columns df = []) || bool_decide (rows df = []).

(** [df.rename(columns={old: new})]: every column labelled [old] is
    relabelled; an absent label is ignored. *)
Definition rename (old new : string) (df : frame) : frame :=
  mk_frame (map (fun c => if decide (c = old) then new else c) (columns df)) (rows df).

(** The cells of a row that stand under label [l]. *)
Definition cells_at (l : string) (cols : list string) (row : list cell) : list cell :=
  map snd (filter (fun p => p.1 = l) (zip cols row)).

(** [df[labels]] for a list of labels: for each requested label, in order,
    every column that carries it; a label that no column carries raises
    [KeyError] with the labels not found. *)
Definition select (labels : list string) (df : frame) : result frame :=
  match filter (fun l => l ∉ columns df) labels with
  | (_ :: _) as missing => Raise (KeyError missing)
  | [] =>
      Ok (mk_frame
            (flat_map (fun l => filter (fun c => c = l) (columns df)) labels)
            (map (fun row => flat_map (fun l => cells_at l (columns df) row) labels)
                 (rows df)))
  end.

(** [row.bfill()]: a missing cell takes the next value to its right that is
    not missing, if there is one. *)
Fixpoint bfill_row (row : list cell) : list cell :=
  match row with
  | [] => []
  | c :: rest =>
      let rest' := bfill_row rest in
      (if isna c then default c (head rest') else c) :: rest'
  end.

(** [df.bfill(axis=1)] *)
Definition bfill_axis1 (df : frame) : frame :=
  mk_frame (columns df) (map bfill_row (rows df)).

(** [df.iloc[:, 0]]: the cells of the first column, [IndexError] when the
    frame has no column. *)
Definition iloc_col0 (df : frame) : result (list cell) :=
  match columns df with
  | [] => Raise IndexError
  | _ :: _ => Ok (map (fun row => default NaN (head row)) (rows df))
  end.

(** [df[label] = values] for a series with the frame's index: the cells of
    every column labelled [label] are replaced; when no column carries the
    label, a new last column is added. *)
Definition setitem (label : string) (values : list cell) (df : frame) : frame :=
  if bool_decide (label ∈ columns df)
  then mk_frame (columns df)
         (zip_with (fun row v =>
                      map (fun p => if decide (p.1 = label) then v else p.2)
                          (zip (columns df) row))
                   (rows df) values)
  else mk_frame (columns df ++ [label])
         (zip_with (fun row v => row ++ [v]) (rows df) values).

(** [df.drop(labels, axis=1)]: every column that carries one of the labels
    is removed; a label that no column carries raises [KeyError]. *)
Definition drop_columns (labels : list string) (df : frame) : result frame :=
  match filter (fun l => l ∉ columns df) labels with
  | (_ :: _) as missing => Raise (KeyError missing)
  | [] =>
      Ok (mk_frame (filter (fun c => c ∉ labels) (columns df))
            (map (fun row =>
                    map snd (filter (fun p => p.1 ∉ labels) (zip (columns df) row)))
                 (rows df)))
  end.

(** [df[label]] for one label: the cells of the column ([KeyError] when
    no column carries the label; the first one when several do). *)
Definition getitem (label : string) (df : frame) : result (list cell) :=
  match list_find (fun c => c = label) (columns df) with
  | None => Raise (KeyError [label])
  | Some (i, _) => Ok (map (fun row => default NaN (row !! i)) (rows df))
  end.

(** [series.isin(values)] *)
Definition isin (values : list cell) (series : list cell) : list bool :=
  map (fun c => bool_decide (c ∈ values)) series.

(** [series == value] *)
Definition series_eq (series : list cell) (value : cell) : list bool :=
  map (fun c => bool_decide (c = value)) series.

(** [df[mask]] for a boolean series: the rows where the mask holds. *)
Definition mask_rows (mask : list bool) (df : frame) : frame :=
  mk_frame (columns df) (map snd (filter (fun p => p.1 = true) (zip mask (rows df)))).

(** [series.values[0]] *)
Definition values_0 (series : list cell) : result cell :=
  match series with
  | [] => Raise IndexError
  | c :: _ => Ok c
  end.

(** The text of a cell that holds a string. *)
Definition cell_str (c : cell) : string :=
  match c with
  | CStr s => s
  | _ => ""
  end.

(** ** Specification vocabulary *)

(** The first cell that is not missing, NaN when all are. *)
Definition first_valid (cells : list cell) : cell :=
  default NaN (head (filter (fun c => isna c = false) cells)).

(** The kind of value a cell holds; a column has the dtype when all its
    cells hold that kind. *)
Inductive dtype : Type := date_object | int64 | float64 | str_object.

#[global] Instance dtype_eq_dec : EqDecision dtype.
Proof. solve_decision. Defined.

Definition dtype_of (c : cell) : dtype :=
  match c with
  | CDate _ => date_object
  | CInt _ => int64
  | CFloat _ => float64
  | CStr _ => str_object
  end.

(** A date or a float: what a cell of the table of prices holds. *)
Definition date_or_float (c : cell) : Prop :=
  dtype_of c = date_object \/ dtype_of c = float64.

#[global] Instance date_or_float_dec (c : cell) : Decision (date_or_float c).
Proof. unfold date_or_float. apply _. Defined.

(** Every cell of the frame satisfies [P]. *)
Definition cells (P : cell -> Prop) (df : frame) : Prop := Forall (Forall P) (rows df).

#[global] Instance cells_dec (P : cell -> Prop) `{!forall c, Decision (P c)} (df : frame) :
  Decision (cells P df).
Proof. unfold cells. apply _. Defined.

(** ** Tactics *)

(** Decide memberships and repetitions in explicit lists of labels from
    the inequalities in the context. *)
Ltac solve_labels :=
  rewrite ?NoDup_cons, ?NoDup_nil, ?elem_of_cons, ?elem_of_nil; intuition congruence.

(** Evaluate filters over explicit lists of labels, one test at a time. *)
Ltac eval_decides :=
  repeat first
   [ progress cbn [fst snd map app flat_map zip zip_with removelast columns rows]
   | rewrite filter_nil | rewrite filter_cons
   | rewrite decide_True by solve_labels
   | rewrite decide_False by solve_labels
   | rewrite bool_decide_eq_true_2 by solve_labels
   | rewrite bool_decide_eq_false_2 by solve_labels ].

(** ** Lemmas *)

Lemma dedup_elem_of (l : list string) (x : string) : x ∈ dedup l <-> x ∈ l.
Proof.
  induction l as [|y l IH]; cbn; [done|].
  rewrite !elem_of_cons, list_elem_of_filter, IH.
  destruct (decide (x = y)); tauto.
Qed.

Lemma dedup_NoDup (l : list string) : NoDup (dedup l).
Proof.
  induction l as [|y l IH]; cbn; constructor.
  - rewrite list_elem_of_filter. tauto.
  - by apply NoDup_filter.
Qed.

(** A list without repetitions is its own [dedup]. *)
Lemma dedup_id (l : list string) : NoDup l -> dedup l = l.
Proof.
  induction 1 as [|x l Hx Hl IH]; cbn; [done|]. rewrite IH. f_equal.
  apply filter_all, Forall_forall. intros y Hy ->. done.
Qed.

Lemma DataFrame_nil : DataFrame [] = DataFrame_empty.
Proof. reflexivity. Qed.

Lemma DataFrame_wf (records : list record) : frame_wf (DataFrame records).
Proof.
  unfold frame_wf, DataFrame. cbn. apply Forall_forall.
  intros r (r' & -> & _)%list_elem_of_fmap. by rewrite length_map.
Qed.

Lemma frame_empty_true (df : frame) :
  frame_empty df = true <-> columns df = [] \/ rows df = [].
Proof.
  unfold frame_empty. rewrite orb_true_iff, !bool_decide_eq_true. done.
Qed.

Lemma rename_wf (old new : string) (df : frame) : frame_wf df -> frame_wf (rename old new df).
Proof. unfold frame_wf, rename. cbn. by rewrite length_map. Qed.

Lemma rename_rows (old new : string) (df : frame) : rows (rename old new df) = rows df.
Proof. reflexivity. Qed.

(** Renaming an absent label changes nothing. *)
Lemma rename_absent (old new : string) (df : frame) :
  old ∉ columns df -> rename old new df = df.
Proof.
  intros H. destruct df as [cols rs]. unfold rename. cbn in *. f_equal.
  induction cols as [|c cols IH]; cbn; [done|].
  rewrite not_elem_of_cons in H. destruct H as [? ?].
  rewrite decide_False by done. f_equal. by apply IH.
Qed.

Lemma cells_at_length (l : string) (cols : list string) (row : list cell) :
  length row = length cols ->
  length (cells_at l cols row) = length (filter (fun c => c = l) cols).
Proof.
  unfold cells_at. rewrite length_map. revert row.
  induction cols as [|c cols IH]; intros [|x row] Hlen; try done.
  change (zip (c :: cols) (x :: row)) with ((c, x) :: zip cols row).
  rewrite !filter_cons. cbn [fst] in *.
  destruct (decide (c = l)); cbn [length]; rewrite IH by (cbn in Hlen; lia); done.
Qed.

(** A selection that names an absent label raises [KeyError] with the
    absent labels. *)
Lemma select_missing (labels : list string) (df : frame) (l : string) :
  l ∈ labels -> l ∉ columns df ->
  select labels df = Raise (KeyError (filter (fun l => l ∉ columns df) labels)).
Proof.
  intros Hl Hmiss. unfold select.
  destruct (filter _ labels) as [|l' ?] eqn:E; [|done].
  assert (l ∈ filter (fun l => l ∉ columns df) labels) as H
    by (by apply list_elem_of_filter).
  rewrite E in H. by apply not_elem_of_nil in H.
Qed.

(** A selection returns when every label is present. *)
Lemma select_present (labels : list string) (df : frame) :
  Forall (fun l => l ∈ columns df) labels ->
  select labels df =
  Ok (mk_frame
        (flat_map (fun l => filter (fun c => c = l) (columns df)) labels)
        (map (fun row => flat_map (fun l => cells_at l (columns df) row) labels)
             (rows df))).
Proof.
  intros H. unfold select.
  destruct (filter _ labels) as [|l' ?] eqn:E; [done|].
  assert (l' ∈ filter (fun l => l ∉ columns df) labels) as Hl' by (rewrite E; left).
  apply list_elem_of_filter in Hl' as [Hn Hin].
  rewrite Forall_forall in H. by apply H in Hin.
Qed.

Lemma select_wf (labels : list string) (df df' : frame) :
  frame_wf df -> select labels df = Ok df' -> frame_wf df'.
Proof.
  unfold select, frame_wf. intros Hwf H.
  destruct (filter _ labels); [|done]. injection H as <-. cbn.
  apply Forall_forall. intros r (row & -> & Hrow)%list_elem_of_fmap.
  rewrite Forall_forall in Hwf. specialize (Hwf row Hrow).
  clear Hrow. induction labels as [|l labels IH]; cbn; [done|].
  rewrite !length_app, IH. f_equal. by apply cells_at_length.
Qed.

(** ** Frames built from uniform records *)

Lemma dedup_app (l l' : list string) :
  dedup (l ++ l') = dedup l ++ filter (fun y => y ∉ l) (dedup l').
Proof.
  induction l as [|x l IH]; cbn.
  - symmetry. apply filter_all, Forall_forall. intros y _. apply not_elem_of_nil.
  - f_equal. rewrite IH, filter_app. f_equal.
    rewrite list_filter_filter. apply list_filter_iff.
    intros y. rewrite not_elem_of_cons. tauto.
Qed.

(** Repeating the same keys adds no column. *)
Lemma dedup_concat_same (cols : list string) (keys : list (list string)) :
  NoDup cols -> keys <> [] -> Forall (fun k => k = cols) keys ->
  dedup (concat keys) = cols.
Proof.
  intros Hnd Hne Hall. destruct Hall as [|k keys -> Hall]; [done|]. clear Hne.
  cbn. rewrite dedup_app, dedup_id by done.
  rewrite filter_none; [by rewrite app_nil_r|].
  apply Forall_forall. intros y Hy Hn. apply Hn.
  rewrite dedup_elem_of, list_elem_of_In, in_concat in Hy.
  destruct Hy as (k & Hk%list_elem_of_In & Hy%list_elem_of_In).
  rewrite Forall_forall in Hall. by rewrite <- (Hall k Hk).
Qed.

(** Looking up the keys of a record in order returns its values. *)
Lemma record_get_keys (r : record) :
  NoDup (map fst r) ->
  map (fun k => default NaN (record_get r k)) (map fst r) = map snd r.
Proof.
  induction r as [|[k v] r IH]; intros Hnd; [done|].
  cbn in *. apply NoDup_cons in Hnd as [Hk Hnd].
  rewrite decide_True by done. cbn. f_equal.
  rewrite <- IH by done. apply map_ext_in. intros k' Hk'.
  rewrite decide_False; [done|]. intros ->. by apply list_elem_of_In in Hk'.
Qed.

(** Records that all have the keys [cols], in that order, give the frame
    with those columns and the records' values as rows. *)
Lemma DataFrame_uniform (cols : list string) (records : list record) :
  NoDup cols -> records <> [] -> Forall (fun r => map fst r = cols) records ->
  DataFrame records = mk_frame cols (map (map snd) records).
Proof.
  intros Hnd Hne Hall. unfold DataFrame.
  rewrite (dedup_concat_same cols); [|done|by destruct records|].
  - f_equal. apply map_ext_in. intros r Hr%list_elem_of_In.
    rewrite Forall_forall in Hall. specialize (Hall r Hr). subst cols.
    by apply record_get_keys.
  - apply Forall_forall. intros k (r & -> & Hr)%list_elem_of_fmap.
    rewrite Forall_forall in Hall. by apply Hall.
Qed.

(** ** Filling, assigning and dropping columns *)

Lemma isna_true (c : cell) : isna c = true -> c = NaN.
Proof. destruct c as [| |[]|]; cbn; (done || by intros ?). Qed.

Lemma length_bfill_row (row : list cell) : length (bfill_row row) = length row.
Proof. induction row as [|c row IH]; cbn; [done|]. by rewrite IH. Qed.

(** Filling puts the first value that is not missing into the first
    cell. *)
Lemma bfill_row_head (row : list cell) :
  default NaN (head (bfill_row row)) = first_valid row.
Proof.
  unfold first_valid. induction row as [|c row IH]; [done|].
  cbn [bfill_row head default]. rewrite filter_cons.
  destruct (isna c) eqn:E.
  - rewrite decide_False by done. rewrite <- IH.
    apply isna_true in E as ->. by destruct (bfill_row row).
  - by rewrite decide_True.
Qed.

(** Filling changes no cell that holds a value. *)
Lemma bfill_row_valid (row : list cell) :
  Forall (fun c => isna c = false) row -> bfill_row row = row.
Proof.
  induction 1 as [|c row Hc Hrow IH]; cbn; [done|]. by rewrite Hc, IH.
Qed.

Lemma zip_with_map_same {A B C : Type} (f : A -> B -> C) (g : A -> B) (l : list A) :
  zip_with f l (map g l) = map (fun x => f x (g x)) l.
Proof. induction l as [|x l IH]; cbn; [done|]. by rewrite IH. Qed.

(** Assigning a column computed row by row. *)
Lemma setitem_rows (label : string) (g : list cell -> cell) (df : frame) :
  setitem label (map g (rows df)) df
  = if bool_decide (label ∈ columns df)
    then mk_frame (columns df)
           (map (fun row => map (fun p => if decide (p.1 = label) then g row else p.2)
                              (zip (columns df) row)) (rows df))
    else mk_frame (columns df ++ [label]) (map (fun row => row ++ [g row]) (rows df)).
Proof. unfold setitem. by rewrite !zip_with_map_same. Qed.

Lemma setitem_wf (label : string) (values : list cell) (df : frame) :
  frame_wf df -> frame_wf (setitem label values df).
Proof.
  unfold frame_wf, setitem. intros Hwf. case_bool_decide; cbn [rows columns];
    apply Forall_forall; intros row [i Hi]%list_elem_of_lookup;
    apply lookup_zip_with_Some in Hi as (r & v & -> & Hr & _);
    apply list_elem_of_lookup_2 in Hr; rewrite Forall_forall in Hwf;
    specialize (Hwf r Hr).
  - rewrite length_map, length_zip_with. lia.
  - rewrite !length_app, Hwf. done.
Qed.

Lemma length_drop_row (labels cols : list string) (row : list cell) :
  length row = length cols ->
  length (filter (fun p => p.1 ∉ labels) (zip cols row))
  = length (filter (fun c => c ∉ labels) cols).
Proof.
  revert row. induction cols as [|c cols IH]; intros [|x row] Hlen; try done.
  change (zip (c :: cols) (x :: row)) with ((c, x) :: zip cols row).
  rewrite !filter_cons. cbn [fst].
  destruct (decide (c ∉ labels)); cbn [length]; rewrite IH by (cbn in Hlen; lia); done.
Qed.

Lemma drop_columns_wf (labels : list string) (df df' : frame) :
  frame_wf df -> drop_columns labels df = Ok df' -> frame_wf df'.
Proof.
  unfold drop_columns, frame_wf. intros Hwf H.
  destruct (filter _ labels); [|done]. injection H as <-. cbn.
  apply Forall_forall. intros r (row & -> & Hrow)%list_elem_of_fmap.
  rewrite Forall_forall in Hwf. rewrite length_map.
  by rewrite length_drop_row by auto.
Qed.

(** Dropping nothing changes nothing. *)
Lemma drop_columns_nil (df : frame) : frame_wf df -> drop_columns [] df = Ok df.
Proof.
  intros Hwf. unfold drop_columns. cbn. destruct df as [cols rs]. cbn in *.
  f_equal. f_equal.
  - apply filter_all, Forall_forall. intros c _. apply not_elem_of_nil.
  - rewrite <- (map_id rs) at 2. apply map_ext_Forall.
    unfold frame_wf in Hwf. cbn in Hwf. eapply Forall_impl; [exact Hwf|].
    intros row Hlen. cbn in *. rewrite filter_all.
    + by apply snd_zip; lia.
    + apply Forall_forall. intros p _. apply not_elem_of_nil.
Qed.

(** ** The exceptions of the operations *)

Lemma select_Raise (labels : list string) (df : frame) (e : exn) :
  select labels df = Raise e -> exists missing, e = KeyError missing.
Proof. unfold select. destruct (filter _ labels); [done|]. intros [= <-]. eauto. Qed.

Lemma drop_columns_Raise (labels : list string) (df : frame) (e : exn) :
  drop_columns labels df = Raise e -> exists missing, e = KeyError missing.
Proof.
  unfold drop_columns. destruct (filter _ labels); [done|]. intros [= <-]. eauto.
Qed.

(** A selection of at least one label has at least one column. *)
Lemma select_columns_nonempty (labels : list string) (df sel : frame) :
  labels <> [] -> select labels df = Ok sel -> columns sel <> [].
Proof.
  unfold select. destruct (filter _ labels) as [|] eqn:E; [|done].
  intros Hne [= <-]. cbn. destruct labels as [|l labels]; [done|]. cbn.
  assert (l ∈ columns df) as Hl.
  { destruct (decide (l ∈ columns df)) as [|Hn]; [done|].
    assert (l ∈ filter (fun l => l ∉ columns df) (l :: labels)) as H
      by (apply list_elem_of_filter; split; [done | left]).
    rewrite E in H. by apply elem_of_nil in H. }
  assert (l ∈ filter (fun c => c = l) (columns df)) as H
    by (by apply list_elem_of_filter).
  intros [Hnil _]%app_eq_nil. rewrite Hnil in H. by apply elem_of_nil in H.
Qed.

Lemma iloc_col0_Ok (df : frame) :
  columns df <> [] ->
  iloc_col0 df = Ok (map (fun row => default NaN (head row)) (rows df)).
Proof. unfold iloc_col0. by destruct (columns df). Qed.

(** ** A column read and written back *)

Lemma first_valid_singleton (c : cell) : first_valid [c] = c.
Proof.
  unfold first_valid. rewrite filter_cons, filter_nil.
  destruct (isna c) eqn:E; [|by rewrite decide_True].
  rewrite decide_False by done. by apply isna_true in E.
Qed.

(** Under a label that occurs once stands one cell. *)
Lemma cells_at_NoDup (l : string) (cols : list string) (row : list cell) (x : cell) :
  NoDup cols -> (l, x) ∈ zip cols row -> cells_at l cols row = [x].
Proof.
  unfold cells_at. revert row. induction cols as [|c cols IH]; intros [|y row] Hnd Hin;
    try (by apply elem_of_nil in Hin).
  apply NoDup_cons in Hnd as [Hc Hnd].
  change (zip (c :: cols) (y :: row)) with ((c, y) :: zip cols row) in *.
  rewrite filter_cons. cbn [fst]. apply elem_of_cons in Hin as [[= -> ->]|Hin].
  - rewrite decide_True by done. cbn. f_equal.
    rewrite filter_none; [done|]. apply Forall_forall. intros [c' y'] Hin' <-.
    by apply elem_of_zip_l in Hin'.
  - rewrite decide_False; [by apply IH|]. intros ->.
    by apply elem_of_zip_l in Hin.
Qed.

(** Writing into the column labelled [l] what already stands there changes
    no row. *)
Lemma write_back_row (l : string) (cols : list string) (row : list cell) (v : cell) :
  length row = length cols ->
  (forall x, (l, x) ∈ zip cols row -> v = x) ->
  map (fun p => if decide (p.1 = l) then v else p.2) (zip cols row) = row.
Proof.
  revert row. induction cols as [|c cols IH]; intros [|y row] Hlen Hv; try done.
  change (zip (c :: cols) (y :: row)) with ((c, y) :: zip cols row) in *.
  cbn [map fst snd]. f_equal.
  - case_decide as Hc; [|done]. subst. apply Hv. left.
  - apply IH; [cbn in Hlen; lia|]. intros x Hx. apply Hv. by right.
Qed.

(** Assigning to a column its own first valid value, when its label occurs
    once, changes nothing. *)
Lemma setitem_same (l : string) (df : frame) :
  frame_wf df -> NoDup (columns df) -> l ∈ columns df ->
  setitem l (map (fun row => first_valid (cells_at l (columns df) row)) (rows df)) df
  = df.
Proof.
  intros Hwf Hnd Hl. rewrite setitem_rows, bool_decide_eq_true_2 by done.
  destruct df as [cols rs]. unfold frame_wf in Hwf. cbn [columns rows] in *.
  f_equal. rewrite <- (map_id rs) at 2. apply map_ext_Forall.
  eapply Forall_impl; [exact Hwf|]. intros row Hlen. cbn beta in *.
  apply write_back_row; [done|]. intros x Hx.
  by rewrite (cells_at_NoDup l cols row x), first_valid_singleton.
Qed.

(** ** What the operations do to the cells

    The operations of the coalescing loop and the selection move cells and
    write NaN; they make no cell of a new kind. *)

Section Cells.
Context (P : cell -> Prop).

(** The cells under a label, by the cells that stand under it. *)
Lemma cells_at_labelled (l : string) (cols : list string) (row : list cell) :
  Forall (fun p => p.1 = l -> P p.2) (zip cols row) -> Forall P (cells_at l cols row).
Proof.
  intros H. unfold cells_at. apply Forall_fmap, Forall_forall.
  intros p [Hl Hin]%list_elem_of_filter. rewrite Forall_forall in H. by apply H.
Qed.

Lemma Forall_zip_snd (labels : list string) (cols : list string) (row : list cell) :
  Forall P row -> Forall (fun p => p.1 ∈ labels -> P p.2) (zip cols row).
Proof.
  rewrite !Forall_forall. intros H [k v] Hin%elem_of_zip_r _. by apply H.
Qed.

(** A selection holds the cells that stood under the labels selected. *)
Lemma select_labelled (labels : list string) (df df' : frame) :
  Forall (fun row => Forall (fun p => p.1 ∈ labels -> P p.2) (zip (columns df) row))
         (rows df) ->
  select labels df = Ok df' -> cells P df'.
Proof.
  unfold select, cells. intros Hdf H.
  destruct (filter _ labels); [|done]. injection H as <-. cbn [rows].
  apply Forall_fmap. eapply Forall_impl; [exact Hdf|]. intros row Hrow. cbn.
  apply Forall_flat_map, Forall_forall. intros l Hl. apply cells_at_labelled.
  eapply Forall_impl; [exact Hrow|]. intros p Hp Heq. apply Hp. by rewrite Heq.
Qed.

Lemma select_cells (labels : list string) (df df' : frame) :
  cells P df -> select labels df = Ok df' -> cells P df'.
Proof.
  intros Hdf. apply select_labelled. eapply Forall_impl; [exact Hdf|].
  intros row. apply Forall_zip_snd.
Qed.

Lemma rename_cells (old new : string) (df : frame) :
  cells P df -> cells P (rename old new df).
Proof. done. Qed.

Lemma bfill_row_Forall (row : list cell) : Forall P row -> Forall P (bfill_row row).
Proof.
  induction 1 as [|c rest Hc _ IH]; [constructor|]. cbn [bfill_row].
  constructor; [|done]. destruct (isna c); [|done].
  by destruct IH.
Qed.

Lemma bfill_axis1_cells (df : frame) : cells P df -> cells P (bfill_axis1 df).
Proof.
  unfold cells, bfill_axis1. cbn [rows]. intros H. apply Forall_fmap.
  eapply Forall_impl; [exact H|]. apply bfill_row_Forall.
Qed.

Lemma iloc_col0_Forall (df : frame) (values : list cell) :
  P NaN -> cells P df -> iloc_col0 df = Ok values -> Forall P values.
Proof.
  unfold iloc_col0, cells. intros HNaN Hdf H. destruct (columns df); [done|].
  injection H as <-. apply Forall_fmap. eapply Forall_impl; [exact Hdf|].
  intros row Hrow. cbn. by destruct Hrow.
Qed.

Lemma setitem_cells (label : string) (values : list cell) (df : frame) :
  cells P df -> Forall P values -> cells P (setitem label values df).
Proof.
  unfold cells, setitem. rewrite !Forall_forall. intros Hdf Hvalues.
  case_bool_decide; cbn [rows]; intros row [i Hi]%list_elem_of_lookup;
    apply lookup_zip_with_Some in Hi as (r & v & -> & Hr%list_elem_of_lookup_2
                                         & Hv%list_elem_of_lookup_2);
    specialize (Hdf r Hr); specialize (Hvalues v Hv).
  - apply Forall_fmap, Forall_forall. intros [k c] Hin%elem_of_zip_r. cbn.
    destruct (decide (k = label)); [done|]. rewrite Forall_forall in Hdf. by apply Hdf.
  - apply Forall_app. split; [done|by constructor].
Qed.

Lemma drop_columns_cells (labels : list string) (df df' : frame) :
  cells P df -> drop_columns labels df = Ok df' -> cells P df'.
Proof.
  unfold drop_columns, cells. intros Hdf H.
  destruct (filter _ labels); [|done]. injection H as <-. cbn [rows].
  apply Forall_fmap. eapply Forall_impl; [exact Hdf|]. intros row Hrow. cbn.
  apply Forall_fmap, Forall_forall. intros [k v] [_ Hin%elem_of_zip_r]%list_elem_of_filter.
  rewrite Forall_forall in Hrow. by apply Hrow.
Qed.

End Cells.
