(* ===== verification/Candles.v ===== *)
(** * Candles: [StockParser.create_df] ([src/main.py], lines 14-25) and the
    frame of one chunk (lines 105-107)

    [create_df] turns the candles of a response into a data frame with the
    columns [date], [volume], [open], [close], [high], [low], one row per
    candle in the order received.  [chunk_table] is what [run] does with
    that frame: [close] is renamed to the instrument's name and the columns
    [date] and that name are selected. *)

From Stdlib Require Import ZArith Lia ZifyBool SpecFloat.
From stdpp Require Import base tactics option list strings.
From S2P Require Import Prelude DateTime Money Frame.

#[local] Open Scope string_scope.
#[local] Open Scope list_scope.

(** ** Data *)

(** [HistoricCandle], with the fields the program reads. *)
Record HistoricCandle : Type := mk_HistoricCandle {
  open : Quotation;
  high : Quotation;
  low : Quotation;
  close : Quotation;
  volume : Z;
  time : datetime
}.

#[global] Instance HistoricCandle_eq_dec : EqDecision HistoricCandle.
Proof. solve_decision. Defined.

(** ** The code *)

(** The dictionary built for one candle (lines 16-23): the values are
    evaluated in the order of the keys. *)
Definition candle_record (c : HistoricCandle) : result record :=
  let date := date_of (time c) in
  let volume := volume c in
  open <- cast_money (open c) ;;
  close <- cast_money (close c) ;;
  high <- cast_money (high c) ;;
  low <- cast_money (low c) ;;
  Ok [("date", CDate date); ("volume", CInt volume); ("open", CFloat open);
      ("close", CFloat close); ("high", CFloat high); ("low", CFloat low)].

(** [create_df(candles)] *)
Definition create_df (candles : list HistoricCandle) : result frame :=
  records <- mapM candle_record candles ;;
  let df := DataFrame records in
  Ok df.

(** Lines 105-107 of [run], for the candles [r.candles] of one response:
    [temp_df = create_df(...)], [temp_df.rename(columns={'close':
    asset_name})], [temp_df = temp_df[['date', asset_name]]]. *)
Definition chunk_table (asset_name : string) (candles : list HistoricCandle)
    : result frame :=
  temp_df <- create_df candles ;;
  let temp_df := rename "close" asset_name temp_df in
  select ["date"; asset_name] temp_df.

(** ** Specification vocabulary *)

(** The labels of a candle frame. *)
Definition candle_columns : list string :=
  ["date"; "volume"; "open"; "close"; "high"; "low"].

(** The row of a candle. *)
Definition candle_row (c : HistoricCandle) : list cell :=
  [CDate (date_of (time c)); CInt (volume c); CFloat (price (open c));
   CFloat (price (close c)); CFloat (price (high c)); CFloat (price (low c))].

(** The two cells kept for a chunk: the date and the closing price. *)
Definition close_row (c : HistoricCandle) : list cell :=
  [CDate (date_of (time c)); CFloat (price (close c))].

(** A candle whose four prices are in the range of the API's messages. *)
Definition candle_in_range (c : HistoricCandle) : Prop :=
  proto_range (open c) /\ proto_range (high c) /\
  proto_range (low c) /\ proto_range (close c).

#[global] Instance candle_in_range_dec (c : HistoricCandle) : Decision (candle_in_range c).
Proof. unfold candle_in_range. apply _. Defined.

(** A frame without missing values. *)
Definition no_missing (df : frame) : Prop := cells (fun c => isna c = false) df.

(** Two candles for the examples: consecutive days, 07:00 UTC. *)
Definition candle_1 : HistoricCandle :=
  mk_HistoricCandle (mk_Quotation 267 450000000) (mk_Quotation 270 0)
    (mk_Quotation 265 100000000) (mk_Quotation 268 500000000) 1200
    (mk_datetime 738157 25200000000).

Definition candle_2 : HistoricCandle :=
  mk_HistoricCandle (mk_Quotation 268 500000000) (mk_Quotation 272 0)
    (mk_Quotation 268 0) (mk_Quotation 271 250000000) 900
    (mk_datetime 738158 25200000000).

(** ** One candle *)

(** The record of a candle, when all four conversions return. *)
Lemma candle_record_Ok (c : HistoricCandle) (r : record) :
  candle_record c = Ok r -> r = zip candle_columns (candle_row c).
Proof.
  unfold candle_record. intros H.
  inv_result H. inv_result H. inv_result H. inv_result H. injection H as <-.
  repeat match goal with
         | E : cast_money _ = Ok _ |- _ => apply cast_money_price in E; subst
         end.
  done.
Qed.

Lemma candle_record_in_range (c : HistoricCandle) :
  candle_in_range c -> candle_record c = Ok (zip candle_columns (candle_row c)).
Proof.
  intros (Ho & Hh & Hl & Hc). unfold candle_record.
  by rewrite !cast_money_in_range.
Qed.

Lemma candle_record_Raise (c : HistoricCandle) (e : exn) :
  candle_record c = Raise e -> e = OverflowError.
Proof.
  unfold candle_record. intros H.
  repeat (inv_result H; [|injection H as <-; by eapply cast_money_Raise]).
  done.
Qed.

(** ** The frame *)

Lemma candle_columns_NoDup : NoDup candle_columns.
Proof. by_compute. Qed.

Lemma mapM_candle_record_Ok (candles : list HistoricCandle) (records : list record) :
  mapM candle_record candles = Ok records ->
  records = map (fun c => zip candle_columns (candle_row c)) candles.
Proof.
  intros H%mapM_Ok_Forall2. induction H as [|c r cs rs Hc _ IH]; [done|].
  cbn [map]. by rewrite (candle_record_Ok c r Hc), IH.
Qed.

(** [create_df], when it returns: no columns for no candles, else the six
    columns and a row per candle. *)
Lemma create_df_Ok (candles : list HistoricCandle) (df : frame) :
  create_df candles = Ok df ->
  df = match candles with
       | [] => DataFrame_empty
       | _ => mk_frame candle_columns (map candle_row candles)
       end.
Proof.
  unfold create_df. intros H. inv_result H. injection H as <-.
  apply mapM_candle_record_Ok in E as ->.
  destruct candles as [|c cs]; [done|].
  rewrite (DataFrame_uniform candle_columns); [|apply candle_columns_NoDup|done|].
  - f_equal. rewrite map_map. by apply map_ext.
  - apply Forall_forall. by intros r (c' & -> & _)%list_elem_of_fmap.
Qed.

Lemma create_df_in_range_lemma (candles : list HistoricCandle) :
  Forall candle_in_range candles -> candles <> [] ->
  create_df candles = Ok (mk_frame candle_columns (map candle_row candles)).
Proof.
  intros Hall Hne.
  assert (mapM candle_record candles
          = Ok (map (fun c => zip candle_columns (candle_row c)) candles)) as HM.
  { apply mapM_total. intros c Hc. apply candle_record_in_range.
    rewrite Forall_forall in Hall. by apply Hall. }
  destruct (create_df candles) as [df|e] eqn:E.
  - apply create_df_Ok in E as ->. by destruct candles.
  - unfold create_df in E. by rewrite HM in E.
Qed.

Lemma create_df_Raise (candles : list HistoricCandle) (e : exn) :
  create_df candles = Raise e -> e = OverflowError.
Proof.
  unfold create_df. intros H. inv_result H; [done|]. injection H as <-.
  clear -E. induction candles as [|c cs IH]; [done|]. cbn [mapM] in E.
  inv_result E; [|injection E as <-; by eapply candle_record_Raise].
  inv_result E; [done|]. injection E as <-. by apply IH.
Qed.

(** ** The frame of a chunk *)

(** Solve goals about filters over the six labels by deciding each
    comparison of labels. *)
Ltac decide_labels :=
  unfold cells_at, candle_row, close_row; by eval_decides.

(** Selecting [date] and the renamed closing price from a candle frame. *)
Lemma select_close (asset_name : string) (candles : list HistoricCandle) :
  asset_name ∉ ["date"; "volume"; "open"; "high"; "low"] ->
  select ["date"; asset_name]
    (rename "close" asset_name (mk_frame candle_columns (map candle_row candles)))
  = Ok (mk_frame ["date"; asset_name] (map close_row candles)).
Proof.
  rewrite !not_elem_of_cons. intros (? & ? & ? & ? & ? & _).
  unfold rename. cbn [columns rows candle_columns map]. eval_decides.
  rewrite select_present by (repeat constructor; rewrite !elem_of_cons; tauto).
  cbn [columns rows]. f_equal. f_equal.
  - decide_labels.
  - rewrite map_map. apply map_ext. intros c. decide_labels.
Qed.

(** ** No missing values *)

Lemma candle_row_no_missing (c : HistoricCandle) (r : record) :
  candle_record c = Ok r -> Forall (fun x => isna x = false) (candle_row c).
Proof.
  unfold candle_record. intros H.
  inv_result H. inv_result H. inv_result H. inv_result H.
  repeat match goal with
         | E : cast_money ?v = Ok ?f |- _ =>
             pose proof (cast_money_Ok_not_nan v f E);
             apply cast_money_price in E; subst
         end.
  by repeat constructor.
Qed.

Lemma create_df_no_missing (candles : list HistoricCandle) (df : frame) :
  create_df candles = Ok df -> no_missing df.
Proof.
  intros H. pose proof (create_df_Ok candles df H) as ->.
  unfold create_df in H. inv_result H. clear H. apply mapM_Ok_Forall2 in E.
  unfold no_missing. destruct candles as [|c cs]; [constructor|].
  cbn [rows]. apply Forall_fmap, Forall_forall. intros c' Hc'.
  apply list_elem_of_lookup in Hc' as [i Hi].
  destruct (Forall2_lookup_l _ _ _ _ _ E Hi) as (r & _ & Hr).
  by eapply candle_row_no_missing.
Qed.

(** The table of a chunk, when it is built for a name that is none of the
    labels of a candle's table: not empty, dates and closing prices. *)
Lemma chunk_table_Ok (asset_name : string) (candles : list HistoricCandle) (df : frame) :
  asset_name ∉ ["date"; "volume"; "open"; "high"; "low"] ->
  chunk_table asset_name candles = Ok df ->
  candles <> [] /\ df = mk_frame ["date"; asset_name] (map close_row candles).
Proof.
  intros Hname H. unfold chunk_table in H. inv_result H.
  apply create_df_Ok in E as ->. destruct candles as [|c cs]; [done|].
  rewrite select_close in H by done. by injection H as <-.
Qed.

(** The table of a chunk holds dates and floats, unless the instrument is
    called [volume]: the selection of line 107 then takes the column of
    the volumes with it. *)
Lemma chunk_table_cells (asset_name : string) (candles : list HistoricCandle)
    (df : frame) :
  asset_name <> "volume" -> chunk_table asset_name candles = Ok df ->
  cells date_or_float df.
Proof.
  intros Hname H. unfold chunk_table in H. inv_result H.
  apply create_df_Ok in E as ->. eapply select_labelled; [|exact H].
  destruct candles as [|c0 cs]; [constructor|]. unfold rename. cbn [rows columns].
  apply Forall_fmap, Forall_forall. intros c _.
  unfold candle_columns, candle_row. cbv beta. eval_decides.
  repeat (apply Forall_cons; split; [cbn; intros Hin|]); [..|constructor];
    try (by left); try (by right).
  apply elem_of_cons in Hin as [|Hin%list_elem_of_singleton]; congruence.
Qed.

(** ** Theorems *)

(** C13: [create_df] either returns the frame of the candles (no columns
    and no rows for an empty list; otherwise the columns date, volume,
    open, close, high, low and one row per candle, in the order received,
    with the date of the candle's time, its volume and its four prices as
    floats) or it raises [OverflowError], which happens only when some
    candle has a price outside the range of the API's messages. *)
Theorem create_df_outcome (candles : list HistoricCandle) :
  match create_df candles with
  | Ok df =>
      df = match candles with
           | [] => DataFrame_empty
           | _ => mk_frame candle_columns (map candle_row candles)
           end
  | Raise e => e = OverflowError /\ ~ Forall candle_in_range candles
  end.
Proof.
  destruct (create_df candles) as [df|e] eqn:E; [by apply create_df_Ok|].
  split; [by eapply create_df_Raise|]. intros Hall.
  destruct candles as [|c cs]; [done|].
  by rewrite create_df_in_range_lemma in E.
Qed.

(** A response without candles makes the chunk's frame fail: the frame
    of no candles has no columns and no rows, renaming changes nothing, and
    selecting the columns date and the instrument's name raises [KeyError]
    naming both labels (in [run] the bare [except] catches it and abandons
    the remaining chunks of the instrument). *)
Theorem chunk_table_no_candles (asset_name : string) :
  create_df [] = Ok DataFrame_empty /\
  rename "close" asset_name DataFrame_empty = DataFrame_empty /\
  chunk_table asset_name [] = Raise (KeyError ["date"; asset_name]).
Proof. by repeat split. Qed.

(** C32: for a non-empty list of candles with prices in range and an
    instrument name other than date, volume, open, high and low, the
    chunk's frame has the two columns date and the instrument's name, and
    one row per candle, in the order received, holding the candle's date
    and its closing price. *)
Theorem chunk_table_spec (asset_name : string) (candles : list HistoricCandle) :
  asset_name ∉ ["date"; "volume"; "open"; "high"; "low"] ->
  Forall candle_in_range candles -> candles <> [] ->
  chunk_table asset_name candles
  = Ok (mk_frame ["date"; asset_name] (map close_row candles)).
Proof.
  intros Hname Hall Hne. unfold chunk_table.
  rewrite create_df_in_range_lemma by done. cbn [bind].
  by apply select_close.
Qed.

Lemma chunk_table_spec_witness :
  ("SBER" ∉ ["date"; "volume"; "open"; "high"; "low"]) /\
  Forall candle_in_range [candle_1; candle_2] /\ [candle_1; candle_2] <> [] /\
  chunk_table "SBER" [candle_1; candle_2]
  = Ok (mk_frame ["date"; "SBER"] (map close_row [candle_1; candle_2])).
Proof.
  split; [by_compute|]. split; [by_compute|]. split; [done|].
  apply chunk_table_spec; [by_compute | by_compute | done].
Defined.

(** Whatever the instrument's name and the candles, a chunk's frame,
    when it is built, holds no missing value: every cell is a date, an
    integer or a float that is not NaN. *)
Theorem chunk_table_no_missing (asset_name : string)
    (candles : list HistoricCandle) (df : frame) :
  chunk_table asset_name candles = Ok df -> no_missing df.
Proof.
  unfold chunk_table. intros H. inv_result H.
  apply create_df_no_missing in E.
  eapply select_cells; [|done]. done.
Qed.

Lemma chunk_table_no_missing_witness :
  chunk_table "SBER" [candle_1; candle_2]
  = Ok (mk_frame ["date"; "SBER"] (map close_row [candle_1; candle_2])) /\
  no_missing (mk_frame ["date"; "SBER"] (map close_row [candle_1; candle_2])).
Proof.
  split; [by vm_compute|].
  apply (chunk_table_no_missing "SBER" [candle_1; candle_2]). by vm_compute.
Defined.

(** An instrument called [volume]: the closing prices are renamed to a
    label the table already has, the selection of line 107 returns both
    columns of that label, and the chunk's table has three columns, one
    of them the integer volumes. *)
Example chunk_table_volume :
  chunk_table "volume" [candle_1]
  = Ok (mk_frame ["date"; "volume"; "volume"]
          [[CDate 738157; CInt 1200; CFloat (price (close candle_1))]]).
Proof. by vm_compute. Qed.
