(* ===== verification/Console.v ===== *)
(** * Console: standard input, standard output and the outside world

    The program reads lines with [input] ([src/main.py], lines 64, 132,
    135, 136) and writes with [print] (lines 44, 82, 90, 114, 115, 127,
    128, 145).  The state of a run is the outside world (the brokerage's
    servers, an abstract type), the lines still to be read and what has
    been written.  What is written is kept as a list of items: a line of
    text, a prompt, or the display of a table, which pandas renders and
    this development keeps as the table itself.

    A call that reads or writes is a function from the state to an outcome
    and a new state ([io]); [x <~ e ;; k] sequences such calls, an
    exception ending the sequence with the state reached. *)

From Stdlib Require Import ZArith Lia.
From stdpp Require Import base tactics option list strings.
From S2P Require Import Prelude DateTime Money PyStr Frame.

#[local] Open Scope string_scope.
#[local] Open Scope list_scope.

(** ** State *)

(** One item of output. *)
Inductive output : Type :=
| Line (text : string)              (* [print(text)] *)
| Prompt (text : string)            (* the prompt of [input(text)] *)
| Info (df : frame)                 (* what [df.info()] writes *)
| Table (df : option frame).        (* [print(df)], [None] included *)

#[global] Instance output_eq_dec : EqDecision output.
Proof. solve_decision. Defined.

Record io_state (W : Type) : Type := mk_io_state {
  world : W;
  stdin : list string;
  stdout : list output
}.
Arguments mk_io_state {W} world stdin stdout.
Arguments world {W} _.
Arguments stdin {W} _.
Arguments stdout {W} _.

(** A call with effects. *)
Definition io (W A : Type) : Type := io_state W -> result A * io_state W.

Section IO.
Context {W : Type}.

Definition io_ret {A : Type} (a : A) : io W A := fun st => (Ok a, st).

Definition io_bind {A B : Type} (m : io W A) (k : A -> io W B) : io W B :=
  fun st =>
    match m st with
    | (Ok a, st') => k a st'
    | (Raise e, st') => (Raise e, st')
    end.

(** A computation without effects, inside a sequence of calls. *)
Definition io_lift {A : Type} (r : result A) : io W A := fun st => (r, st).

(** The world after a call of the API. *)
Definition set_world (w : W) (st : io_state W) : io_state W :=
  mk_io_state w (stdin st) (stdout st).

(** Write one item. *)
Definition put (o : output) (st : io_state W) : io_state W :=
  mk_io_state (world st) (stdin st) (stdout st ++ [o]).

(** [print(line)] *)
Definition print (line : string) (st : io_state W) : io_state W := put (Line line) st.

Definition io_print (line : string) : io W unit := fun st => (Ok tt, print line st).

Definition io_put (o : output) : io W unit := fun st => (Ok tt, put o st).

(** [input(prompt)]: the prompt is written, then a line is read;
    [EOFError] at the end of the input. *)
Definition input (prompt : string) : io W string :=
  fun st =>
    let st := put (Prompt prompt) st in
    match stdin st with
    | [] => (Raise EOFError, st)
    | line :: rest => (Ok line, mk_io_state (world st) rest (stdout st))
    end.

End IO.

Declare Scope io_scope.
Delimit Scope io_scope with io.
Notation "x <~ e ;; k" := (io_bind e (fun x => k))
  (at level 100, e at next level, right associativity) : io_scope.
#[global] Open Scope io_scope.

(** ** Specification vocabulary *)

(** [st'] is a later state of the console of [st]: lines have been read
    from the front of the input, and items have been added at the end of
    the output. *)
Definition later {W : Type} (st st' : io_state W) : Prop :=
  (exists read, stdin st = read ++ stdin st')
  /\ (exists out, stdout st' = stdout st ++ out).

(** A call that leaves the console in a later state, whatever its outcome:
    it takes back nothing it has written and reads the input in order. *)
Definition forward {W A : Type} (m : io W A) : Prop :=
  forall st r st', m st = (r, st') -> later st st'.

(** ** Laws *)

Section Laws.
Context {W A B C : Type}.

Lemma io_bind_ret_l (a : A) (k : A -> io W B) (st : io_state W) :
  (x <~ io_ret a ;; k x) st = k a st.
Proof. reflexivity. Qed.

Lemma io_bind_ret_r (m : io W A) (st : io_state W) :
  (x <~ m ;; io_ret x) st = m st.
Proof. unfold io_bind. by destruct (m st) as [[a|e] st']. Qed.

Lemma io_bind_assoc (m : io W A) (k : A -> io W B) (h : B -> io W C)
    (st : io_state W) :
  (y <~ (x <~ m ;; k x) ;; h y) st = (x <~ m ;; y <~ k x ;; h y) st.
Proof. unfold io_bind. by destruct (m st) as [[a|e] st']. Qed.

Lemma io_bind_Ok (m : io W A) (k : A -> io W B) (st st' : io_state W) (a : A) :
  m st = (Ok a, st') -> (x <~ m ;; k x) st = k a st'.
Proof. unfold io_bind. by intros ->. Qed.

Lemma io_bind_Raise (m : io W A) (k : A -> io W B) (st st' : io_state W) (e : exn) :
  m st = (Raise e, st') -> (x <~ m ;; k x) st = (Raise e, st').
Proof. unfold io_bind. by intros ->. Qed.

Lemma io_bind_lift_Ok (a : A) (k : A -> io W B) (st : io_state W) :
  (x <~ io_lift (Ok a) ;; k x) st = k a st.
Proof. reflexivity. Qed.

Lemma io_bind_lift_Raise (e : exn) (k : A -> io W B) (st : io_state W) :
  (x <~ io_lift (Raise e) ;; k x) st = (Raise e, st).
Proof. reflexivity. Qed.

Lemma io_bind_lift_Ok_eq (r : result A) (k : A -> io W B) (a : A)
    (st : io_state W) :
  r = Ok a -> (x <~ io_lift r ;; k x) st = k a st.
Proof. by intros ->. Qed.

End Laws.

(** ** The console only moves forward *)

#[global] Instance later_PreOrder {W : Type} : PreOrder (@later W).
Proof.
  split.
  - intros st. split; [by exists [] | exists []; by rewrite app_nil_r].
  - intros st1 st2 st3 [[r1 Hr1] [o1 Ho1]] [[r2 Hr2] [o2 Ho2]]. split.
    + exists (r1 ++ r2). by rewrite Hr1, Hr2, app_assoc.
    + exists (o1 ++ o2). by rewrite Ho2, Ho1, app_assoc.
Qed.

Lemma later_put {W : Type} (o : output) (st : io_state W) : later st (put o st).
Proof. split; [by exists [] | by exists [o]]. Qed.

Lemma later_set_world {W : Type} (w : W) (st : io_state W) : later st (set_world w st).
Proof. split; [by exists [] | exists []; cbn; by rewrite app_nil_r]. Qed.

Section Forward.
Context {W A B : Type}.

Lemma forward_ret (a : A) : forward (io_ret (W := W) a).
Proof. by intros st r st' [= _ <-]. Qed.

Lemma forward_lift (r : result A) : forward (io_lift (W := W) r).
Proof. by intros st r' st' [= _ <-]. Qed.

Lemma forward_bind (m : io W A) (k : A -> io W B) :
  forward m -> (forall a, forward (k a)) -> forward (x <~ m ;; k x).
Proof.
  intros Hm Hk st r st'. unfold io_bind.
  destruct (m st) as [[a|e] st1] eqn:E; specialize (Hm _ _ _ E).
  - intros Hka. etrans; [exact Hm|]. by eapply Hk.
  - by intros [= _ <-].
Qed.

Lemma forward_put (o : output) : forward (io_put (W := W) o).
Proof. intros st r st' [= _ <-]. apply later_put. Qed.

Lemma forward_print (line : string) : forward (io_print (W := W) line).
Proof. intros st r st' [= _ <-]. apply later_put. Qed.

Lemma forward_input (prompt : string) : forward (input (W := W) prompt).
Proof.
  intros st r st'. unfold input. cbn. destruct (stdin st) as [|line rest] eqn:E.
  - intros [= _ <-]. apply later_put.
  - intros [= _ <-]. split; cbn; [exists [line]; by rewrite E | by eexists].
Qed.

End Forward.

(** The calls of a sequence one by one; the hint base [forward] holds the
    lemmas of the program's own functions. *)
Create HintDb forward discriminated.
#[export] Hint Resolve forward_ret forward_lift forward_put forward_print
  forward_input : forward.

Ltac forward_step :=
  match goal with
  | |- forward (io_bind _ _) => apply forward_bind; [|intros ?]
  | |- forward (if ?b then _ else _) => destruct b
  | |- forward (match ?x with _ => _ end) => destruct x
  end.

Ltac solve_forward := repeat forward_step; eauto with forward.

(** What has been written is only ever extended. *)
Lemma stdout_put {W : Type} (o : output) (st : io_state W) :
  stdout (put o st) = stdout st ++ [o].
Proof. reflexivity. Qed.

Lemma input_Ok {W : Type} (prompt line : string) (rest : list string)
    (st : io_state W) :
  stdin st = line :: rest ->
  input prompt st
  = (Ok line, mk_io_state (world st) rest (stdout st ++ [Prompt prompt])).
Proof. unfold input. cbn. by intros ->. Qed.

Lemma input_EOF {W : Type} (prompt : string) (st : io_state W) :
  stdin st = [] -> input prompt st = (Raise EOFError, put (Prompt prompt) st).
Proof. unfold input. cbn. by intros ->. Qed.
