(* ===== verification/Client.v ===== *)
(** * Client: [StockParser.get_candles] ([src/main.py], lines 31-44) and the
    interfaces of the brokerage API the program calls

    The API is outside the program.  It is two interfaces here: the class
    [MarketData] (the candle request of line 35) and the class
    [Instruments] (the listings of shares and bonds of lines 70-71), each
    an operation that takes the state of the outside world and returns the
    call's outcome and the new state.  [get_candles] is the wrapper of the
    source: one call for daily candles, a [RequestError] printed and
    turned into [None], any other exception left to propagate.  What the
    program prints is kept in [stdout] ([Console]).  Two instances of
    [MarketData] serve the examples: a list of scripted outcomes, and
    [recorder], a function of the request with the log of the requests
    made. *)

From Stdlib Require Import ZArith Lia.
From stdpp Require Import base tactics option list strings.
From S2P Require Import Prelude DateTime Money Frame Candles Console.

#[local] Open Scope string_scope.
#[local] Open Scope list_scope.

(** ** Data *)

(** [CandleInterval]: the candle widths of the API. *)
Inductive CandleInterval : Type :=
| CANDLE_INTERVAL_UNSPECIFIED
| CANDLE_INTERVAL_1_MIN
| CANDLE_INTERVAL_5_MIN
| CANDLE_INTERVAL_15_MIN
| CANDLE_INTERVAL_HOUR
| CANDLE_INTERVAL_DAY.

#[global] Instance CandleInterval_eq_dec : EqDecision CandleInterval.
Proof. solve_decision. Defined.

(** [GetCandlesResponse]: the object [r] whose [candles] the program reads. *)
Record GetCandlesResponse : Type := mk_GetCandlesResponse {
  candles : list HistoricCandle
}.

#[global] Instance GetCandlesResponse_eq_dec : EqDecision GetCandlesResponse.
Proof. solve_decision. Defined.

(** The arguments of one call of the API. *)
Record candles_request : Type := mk_candles_request {
  req_token : string;
  req_figi : string;
  req_from : option datetime;
  req_to : option datetime;
  req_interval : CandleInterval
}.

#[global] Instance candles_request_eq_dec : EqDecision candles_request.
Proof. solve_decision. Defined.

(** The interface: [client.market_data.get_candles(...)] inside
    [with Client(token)], as a transition of the outside world [W]. *)
Class MarketData (W : Type) : Type := {
  market_data_get_candles : candles_request -> W -> result GetCandlesResponse * W
}.

(** An item of the listings of the API: [item.ticker], [item.figi],
    [item.name]. *)
Record Instrument : Type := mk_Instrument {
  item_ticker : string;
  item_figi : string;
  item_name : string
}.

#[global] Instance Instrument_eq_dec : EqDecision Instrument.
Proof. solve_decision. Defined.

(** The interface of the listings: [getattr(cl.instruments, method)()]
    inside [with Client(token)], for the method names [shares] and
    [bonds]. *)
Class Instruments (W : Type) : Type := {
  instruments_list : string -> string -> W -> result (list Instrument) * W
}.

(** The request [get_candles] sends: daily candles between the two bounds. *)
Definition request_of (figi : string) (start_date end_date : option datetime)
    (token : string) : candles_request :=
  mk_candles_request token figi start_date end_date CANDLE_INTERVAL_DAY.

(** ** The code *)

Section GetCandles.
Context {W : Type} `{!MarketData W}.

(** [get_candles(figi, start_date, end_date, token)]: [Ok (Some r)] is
    [return r], [Ok None] is the fall through the [except] clause. *)
Definition get_candles (figi : string) (start_date end_date : option datetime)
    (token : string) : io W (option GetCandlesResponse) := fun st =>
  let request :=
    mk_candles_request token figi start_date end_date CANDLE_INTERVAL_DAY in
  match market_data_get_candles request (world st) with
  | (Ok r, w) => (Ok (Some r), set_world w st)
  | (Raise (RequestError e), w) => (Ok None, print e (set_world w st))
  | (Raise e, w) => (Raise e, set_world w st)
  end.

End GetCandles.

(** ** Two implementations of the interface *)

(** A scripted world: the outcomes of the calls to come, in order. *)
#[global] Instance scripted_market : MarketData (list (result GetCandlesResponse)) := {
  market_data_get_candles _ w :=
    match w with
    | [] => (Raise (OtherError "connection closed"), [])
    | r :: w' => (r, w')
    end
}.

(** A recording world: a fixed function of the request, with the log of the
    requests made. *)
Record recorder : Type := mk_recorder {
  respond : candles_request -> result GetCandlesResponse;
  requests : list candles_request
}.

#[global] Instance recorder_market : MarketData recorder := {
  market_data_get_candles q w :=
    (respond w q, mk_recorder (respond w) (requests w ++ [q]))
}.

(** ** Lemmas *)

Section GetCandlesLemmas.
Context {W : Type} `{!MarketData W}.
Implicit Types (st : io_state W) (figi token : string)
  (start_date end_date : option datetime).

Lemma get_candles_Ok figi start_date end_date token st r w :
  market_data_get_candles (request_of figi start_date end_date token) (world st)
    = (Ok r, w) ->
  get_candles figi start_date end_date token st
    = (Ok (Some r), set_world w st).
Proof. unfold get_candles, request_of. by intros ->. Qed.

Lemma get_candles_RequestError figi start_date end_date token st e w :
  market_data_get_candles (request_of figi start_date end_date token) (world st)
    = (Raise (RequestError e), w) ->
  get_candles figi start_date end_date token st
    = (Ok None, print e (set_world w st)).
Proof. unfold get_candles, request_of. by intros ->. Qed.

Lemma get_candles_other figi start_date end_date token st e w :
  market_data_get_candles (request_of figi start_date end_date token) (world st)
    = (Raise e, w) ->
  (forall msg, e <> RequestError msg) ->
  get_candles figi start_date end_date token st
    = (Raise e, set_world w st).
Proof.
  unfold get_candles, request_of. intros -> He.
  destruct e; try done. by destruct (He msg).
Qed.

(** The wrapper writes at most one line and reads nothing. *)
Lemma get_candles_forward figi start_date end_date token :
  forward (get_candles figi start_date end_date token).
Proof.
  intros st r st'. unfold get_candles.
  destruct (market_data_get_candles _ _) as [[resp|e] w]; [|destruct e];
    intros [= _ <-]; try apply later_set_world.
  etrans; [apply (later_set_world w)|apply later_put].
Qed.

End GetCandlesLemmas.

#[export] Hint Resolve get_candles_forward : forward.

(** ** Theorems *)

Section GetCandlesTheorems.
Context {W : Type} `{!MarketData W}.
Implicit Types (st : io_state W) (figi token : string)
  (start_date end_date : option datetime).

(** C15: [get_candles] makes one call of the API, for daily candles with
    the given instrument, bounds and token, and leaves the world as that
    call left it; a response is returned as it is and nothing is printed;
    a [RequestError] is printed (one line, its text) and [None] is
    returned; any other exception propagates and nothing is printed. *)
Theorem get_candles_outcome figi start_date end_date token st :
  let call := market_data_get_candles
                (request_of figi start_date end_date token) (world st) in
  let out := get_candles figi start_date end_date token st in
  world out.2 = call.2 /\
  match call.1 with
  | Ok r => out.1 = Ok (Some r) /\ stdout out.2 = stdout st
  | Raise (RequestError e) => out.1 = Ok None /\ stdout out.2 = stdout st ++ [Line e]
  | Raise e => out.1 = Raise e /\ stdout out.2 = stdout st
  end.
Proof.
  cbn zeta. unfold get_candles, request_of.
  destruct (market_data_get_candles _ _) as [[r|e] w]; [done|].
  by destruct e.
Qed.

(** No [RequestError] escapes [get_candles]: whatever the API does,
    the outcome is never that exception. *)
Theorem get_candles_catches_RequestError figi start_date end_date token st msg :
  (get_candles figi start_date end_date token st).1 <> Raise (RequestError msg).
Proof.
  unfold get_candles.
  destruct (market_data_get_candles _ _) as [[r|e] w]; [done|].
  by destruct e.
Qed.

End GetCandlesTheorems.

(** Against the recording world, [get_candles] sends exactly one
    request, appended to the log: the given instrument, bounds and token,
    and the interval [CANDLE_INTERVAL_DAY]. *)
Theorem get_candles_request (figi token : string)
    (start_date end_date : option datetime) (st : io_state recorder) :
  requests (world (get_candles figi start_date end_date token st).2)
  = requests (world st)
    ++ [mk_candles_request token figi start_date end_date CANDLE_INTERVAL_DAY].
Proof.
  unfold get_candles. cbn [market_data_get_candles recorder_market].
  destruct (respond (world st) _) as [r|e]; [done|]. by destruct e.
Qed.
