(* ===== verification/Merge.v ===== *)
(** * Merge: the outer join of [run] ([src/main.py], line 112)

    [merged_df.merge(temp_df, on='date', how='outer')] is a call of pandas;
    the definitions here follow what pandas 2.2 does for it, step by step:
    the key column is located in both frames ([KeyError] when it is absent,
    [ValueError] when the label is repeated; the right frame is looked at
    first), the key is dropped from the right frame, labels that occur on
    both sides get the suffixes [_x] and [_y], a duplicate label created by
    a suffix raises [MergeError], and the rows are the full outer join: the
    keys of both frames in ascending order without repetition, for each key
    every left row paired with every right row (left-major), a missing side
    filled with NaN.

    The key columns the program makes hold dates only ([Candles.create_df]
    puts [candle.time.date()] there); the model orders keys as dates and
    raises [TypeError] on any other key cell, so nothing is claimed about
    keys of other types. *)

From Stdlib Require Import ZArith Lia ZifyBool SpecFloat.
From stdpp Require Import base tactics option list strings sorting.
From S2P Require Import Prelude DateTime Money PyStr Frame.

#[local] Open Scope string_scope.
#[local] Open Scope list_scope.

(** ** Locating the key *)

(** The position of the one column labelled [on]. *)
Definition key_position (on : string) (cols : list string) : result nat :=
  match list_find (fun c => c = on) cols with
  | None => Raise (KeyError [on])
  | Some (i, _) =>
      if bool_decide (on ∈ drop (S i) cols)
      then Raise (ValueError "The column label is not unique")
      else Ok i
  end.

(** The key of a row, which has to be a date. *)
Definition row_key (i : nat) (row : list cell) : result date :=
  match row !! i with
  | Some (CDate d) => Ok d
  | _ => Raise TypeError
  end.

(** The rows of a frame, each with its key. *)
Definition keyed_rows (i : nat) (rs : list (list cell))
    : result (list (date * list cell)) :=
  mapM (fun row => k <- row_key i row ;; Ok (k, row)) rs.

(** ** Suffixes *)

(** A label that occurs on both sides gets the suffix. *)
Definition add_suffix (to_rename : list string) (suffix : string) (c : string)
    : string :=
  if bool_decide (c ∈ to_rename) then c ++ suffix else c.

(** [Index.duplicated()]: for each label, whether it has occurred before. *)
Fixpoint duplicated_from (seen : list string) (l : list string) : list bool :=
  match l with
  | [] => []
  | x :: l' => bool_decide (x ∈ seen) :: duplicated_from (x :: seen) l'
  end.

Definition duplicated : list string -> list bool := duplicated_from [].

(** The labels that repeat after renaming although the original label at
    that position did not. *)
Definition suffix_dups (orig renamed : list string) : list string :=
  map fst (filter (fun p => p.2.1 && negb p.2.2)
             (zip renamed (zip (duplicated renamed) (duplicated orig)))).

(** ** Rows *)

(** The rows with key [k], in their order in the frame. *)
Definition rows_with (k : date) (keyed : list (date * list cell))
    : list (list cell) :=
  map snd (filter (fun p => p.1 = k) keyed).

(** The rows of the join for one key: [nl] and [nr] are the numbers of
    columns that come from the left and from the right, [lk] is the
    position of the key on the left, [rs] are right rows without their
    key. *)
Definition join_key (lk nl nr : nat) (ls rs : list (list cell)) (k : date)
    : list (list cell) :=
  match ls, rs with
  | [], _ => map (fun r => <[lk := CDate k]> (replicate nl NaN) ++ r) rs
  | _, [] => map (fun l => l ++ replicate nr NaN) ls
  | _, _ => flat_map (fun l => map (fun r => l ++ r) rs) ls
  end.

(** The keys of the join: ascending, each once. *)
Definition join_keys (lkeys rkeys : list date) : list date :=
  merge_sort Z.le (remove_dups (lkeys ++ rkeys)).

(** The rows of the full outer join of keyed rows. *)
Definition outer_join (lk rk nl nr : nat) (lrows rrows : list (date * list cell))
    : list (list cell) :=
  flat_map
    (fun k => join_key lk nl nr
                (rows_with k lrows) (map (delete rk) (rows_with k rrows)) k)
    (join_keys (map fst lrows) (map fst rrows)).

(** ** The join *)

(** The labels of the result, those from the left and those from the
    right: a label on both sides is suffixed, and a label that a suffix
    makes a duplicate is an error (pandas' [_items_overlap_with_suffix]). *)
Definition items_overlap_with_suffix (left right : list string)
    : result (list string * list string) :=
  let to_rename := filter (fun c => c ∈ right) left in
  let llabels := map (add_suffix to_rename "_x") left in
  let rlabels := map (add_suffix to_rename "_y") right in
  match suffix_dups left llabels ++ suffix_dups right rlabels with
  | _ :: _ => Raise MergeError
  | [] => Ok (llabels, rlabels)
  end.

(** [left.merge(right, on=on, how='outer')] *)
Definition merge_outer (on : string) (left right : frame) : result frame :=
  rk <- key_position on (columns right) ;;
  lk <- key_position on (columns left) ;;
  let rcols := delete rk (columns right) in
  lrows <- keyed_rows lk (rows left) ;;
  rrows <- keyed_rows rk (rows right) ;;
  labels <- items_overlap_with_suffix (columns left) rcols ;;
  Ok (mk_frame (labels.1 ++ labels.2)
        (outer_join lk rk (length (columns left)) (length rcols) lrows rrows)).

(** ** Specification vocabulary *)

(** A dated frame: one cell per column in every row, the key [date] as the
    first column and nowhere else, and a date in every key cell.  These are
    the frames that reach line 112. *)
Definition dated (df : frame) : Prop :=
  frame_wf df /\ head (columns df) = Some "date" /\
  ("date" ∉ tail (columns df)) /\
  Forall (fun row => exists d, head row = Some (CDate d)) (rows df).

#[global] Instance has_date_dec (row : list cell) :
  Decision (exists d, head row = Some (CDate d)).
Proof.
  destruct (head row) as [[d| | |]|]; [left; eauto | right; intros [? [=]] ..].
Defined.

#[global] Instance dated_dec (df : frame) : Decision (dated df).
Proof. unfold dated. apply _. Defined.

(** The key of a row of a dated frame. *)
Definition date_key (row : list cell) : date :=
  match head row with
  | Some (CDate d) => d
  | _ => 0
  end.

(** The keys of a dated frame, in row order. *)
Definition dates (df : frame) : list date := map date_key (rows df).

(** The rows of a dated frame for one date. *)
Definition rows_at (k : date) (df : frame) : list (list cell) :=
  filter (fun row => date_key row = k) (rows df).

(** The rows of the join of two dated frames for the date [k]: every left
    row for [k] with every right row for [k], or the rows of the side that
    has [k] completed with NaN. *)
Definition joined_at (k : date) (l r : frame) : list (list cell) :=
  join_key 0 (length (columns l)) (length (tail (columns r)))
    (rows_at k l) (map tail (rows_at k r)) k.

(** The frames of the example of the written specification (8,
    SeriesMerger). *)
Definition money (z : Z) : cell := CFloat (float_of_Z z).

Definition frame_A : frame :=
  mk_frame ["date"; "A"] [[CDate 1; money 10]; [CDate 2; money 20]].

Definition frame_B : frame :=
  mk_frame ["date"; "B"] [[CDate 2; money 21]; [CDate 3; money 30]].

(** ** Lemmas *)

Lemma key_position_lookup (on : string) (cols : list string) (i : nat) :
  key_position on cols = Ok i -> cols !! i = Some on.
Proof.
  unfold key_position. destruct (list_find _ cols) as [[j c]|] eqn:E; [|done].
  apply list_find_Some in E as (Hj & -> & _). case_bool_decide; [done|].
  by intros [= <-].
Qed.

Lemma key_position_unique (on : string) (cols : list string) (i j : nat) :
  key_position on cols = Ok i -> cols !! j = Some on -> j = i.
Proof.
  unfold key_position. destruct (list_find _ cols) as [[i' c]|] eqn:E; [|done].
  apply list_find_Some in E as (Hi & -> & Hfirst).
  case_bool_decide as Hlater; [done|]. intros [= <-] Hj.
  destruct (Nat.lt_trichotomy j i') as [Hlt|[->|Hgt]]; [|done|].
  - by destruct (Hfirst j on Hj Hlt).
  - destruct Hlater. apply list_elem_of_lookup. exists (j - S i')%nat.
    rewrite lookup_drop. by replace (S i' + (j - S i'))%nat with j by lia.
Qed.

Lemma key_position_absent (on : string) (cols : list string) :
  on ∉ cols -> key_position on cols = Raise (KeyError [on]).
Proof.
  intros H. unfold key_position.
  destruct (list_find _ cols) as [[j c]|] eqn:E; [|done].
  apply list_find_Some in E as (Hj & -> & _).
  destruct H. by eapply list_elem_of_lookup_2.
Qed.

Lemma key_position_head (on : string) (rest : list string) :
  on ∉ rest -> key_position on (on :: rest) = Ok 0%nat.
Proof.
  intros H. unfold key_position. cbn. rewrite decide_True by done. cbn.
  by rewrite bool_decide_eq_false_2.
Qed.

(** *** Dated frames *)

Lemma dated_columns (df : frame) :
  dated df -> exists rest, columns df = "date" :: rest /\ "date" ∉ rest.
Proof.
  intros (_ & Hhd & Htl & _). destruct (columns df) as [|c rest]; [done|].
  cbn in *. injection Hhd as ->. eauto.
Qed.

Lemma dated_key_position (df : frame) :
  dated df -> key_position "date" (columns df) = Ok 0%nat.
Proof. intros (rest & -> & ?)%dated_columns. by apply key_position_head. Qed.

Lemma row_key_date_key (row : list cell) :
  (exists d, head row = Some (CDate d)) -> row_key 0 row = Ok (date_key row).
Proof.
  intros [d Hd]. unfold row_key, date_key. by rewrite <- head_lookup, Hd.
Qed.

Lemma keyed_rows_dated (rs : list (list cell)) :
  Forall (fun row => exists d, head row = Some (CDate d)) rs ->
  keyed_rows 0 rs = Ok (map (fun row => (date_key row, row)) rs).
Proof.
  intros H. apply mapM_total. intros row Hrow.
  rewrite Forall_forall in H. by rewrite row_key_date_key by auto.
Qed.

Lemma rows_with_keyed (k : date) (rs : list (list cell)) :
  rows_with k (map (fun row => (date_key row, row)) rs)
  = filter (fun row => date_key row = k) rs.
Proof.
  unfold rows_with. induction rs as [|row rs IH]; [done|].
  cbn [map]. rewrite !filter_cons. cbn [fst].
  destruct (decide (date_key row = k)); cbn [map snd]; by rewrite IH.
Qed.

(** *** The keys of the join *)

Lemma elem_of_join_keys (lkeys rkeys : list date) (k : date) :
  k ∈ join_keys lkeys rkeys <-> k ∈ lkeys \/ k ∈ rkeys.
Proof.
  unfold join_keys.
  by rewrite merge_sort_Permutation, elem_of_remove_dups, elem_of_app.
Qed.

Lemma join_keys_NoDup (lkeys rkeys : list date) : NoDup (join_keys lkeys rkeys).
Proof.
  unfold join_keys. rewrite merge_sort_Permutation. apply NoDup_remove_dups.
Qed.

Lemma join_keys_sorted (lkeys rkeys : list date) :
  StronglySorted Z.le (join_keys lkeys rkeys).
Proof. apply StronglySorted_merge_sort; apply _. Qed.

(** Sorted without repetition is strictly ascending. *)
Lemma sorted_NoDup_lt (l : list Z) :
  StronglySorted Z.le l -> NoDup l -> StronglySorted Z.lt l.
Proof.
  induction 1 as [|x l Hl IH Hx]; intros Hnd; constructor;
    apply NoDup_cons in Hnd as [Hin Hnd]; [by apply IH|].
  rewrite Forall_forall in Hx |- *. intros y Hy.
  specialize (Hx y Hy). assert (x <> y) by (by intros ->). lia.
Qed.

Lemma join_keys_ascending (lkeys rkeys : list date) :
  StronglySorted Z.lt (join_keys lkeys rkeys).
Proof. apply sorted_NoDup_lt; [apply join_keys_sorted | apply join_keys_NoDup]. Qed.

(** *** The rows for one key *)

Lemma join_key_nil (lk nl nr : nat) (k : date) : join_key lk nl nr [] [] k = [].
Proof. reflexivity. Qed.

Lemma join_key_elem_of (lk nl nr : nat) (ls rs : list (list cell)) (k : date)
    (row : list cell) :
  row ∈ join_key lk nl nr ls rs k ->
  (exists l r, l ∈ ls /\ r ∈ rs /\ row = l ++ r) \/
  (exists l, l ∈ ls /\ rs = [] /\ row = l ++ replicate nr NaN) \/
  (exists r, r ∈ rs /\ ls = [] /\ row = <[lk := CDate k]> (replicate nl NaN) ++ r).
Proof.
  unfold join_key. destruct ls as [|l0 ls], rs as [|r0 rs].
  - by intros ?%elem_of_nil.
  - intros (r & -> & Hr)%list_elem_of_fmap. right. right. eauto.
  - intros (l & -> & Hl)%list_elem_of_fmap. right. left. eauto.
  - rewrite list_elem_of_In, in_flat_map.
    intros (l & Hl%list_elem_of_In & (r & -> & Hr)%list_elem_of_In%list_elem_of_fmap).
    left. eauto.
Qed.

(** Every row of the join for key [k] has [nl + nr] cells and carries [k]
    in its first cell. *)
Lemma join_key_row (nl nr : nat) (ls rs : list (list cell)) (k : date)
    (row : list cell) :
  (0 < nl)%nat ->
  Forall (fun l => length l = nl /\ head l = Some (CDate k)) ls ->
  Forall (fun r => length r = nr) rs ->
  row ∈ join_key 0 nl nr ls rs k ->
  length row = (nl + nr)%nat /\ head row = Some (CDate k).
Proof.
  rewrite !Forall_forall. intros Hnl Hls Hrs Hrow.
  apply join_key_elem_of in Hrow
    as [(l & r & Hl & Hr & ->)|[(l & Hl & _ & ->)|(r & Hr & _ & ->)]].
  - destruct (Hls l Hl) as [? Hhd]. rewrite length_app, (Hrs r Hr).
    split; [lia|]. by destruct l.
  - destruct (Hls l Hl) as [? Hhd]. rewrite length_app, length_replicate.
    split; [lia|]. by destruct l.
  - rewrite length_app, length_insert, length_replicate, (Hrs r Hr).
    split; [lia|]. by destruct nl; [lia|].
Qed.

(** *** The cells of a join

    A join moves the cells of the two frames and writes NaN and keys:
    what holds of every cell of both frames, of NaN and of a date holds
    of every cell of the join. *)

Lemma keyed_rows_Forall (P : list cell -> Prop) (i : nat) (rs : list (list cell))
    (keyed : list (date * list cell)) (k : date) :
  keyed_rows i rs = Ok keyed -> Forall P rs -> Forall P (rows_with k keyed).
Proof.
  intros H%mapM_Ok_Forall2 Hrs. unfold rows_with.
  induction H as [|row p rs keyed Hp _ IH]; [constructor|].
  apply Forall_cons in Hrs as [Hrow Hrs]. inv_result Hp. injection Hp as <-.
  rewrite filter_cons. cbn [fst]. case_decide; [constructor|]; auto.
Qed.

Section JoinCells.
Context (P : cell -> Prop) (HNaN : P NaN) (Hdate : forall d, P (CDate d)).

Lemma join_key_cells (lk nl nr : nat) (ls rs : list (list cell)) (k : date) :
  Forall (Forall P) ls -> Forall (Forall P) rs ->
  Forall (Forall P) (join_key lk nl nr ls rs k).
Proof.
  rewrite !Forall_forall. intros Hls Hrs row Hrow.
  apply join_key_elem_of in Hrow
    as [(l & r & Hl & Hr & ->)|[(l & Hl & _ & ->)|(r & Hr & _ & ->)]];
    apply Forall_app; split; auto.
  - by apply Forall_replicate.
  - apply Forall_insert; [by apply Forall_replicate | done].
Qed.

Lemma merge_outer_cells (on : string) (l r df : frame) :
  cells P l -> cells P r -> merge_outer on l r = Ok df -> cells P df.
Proof.
  unfold merge_outer, cells. intros Hl Hr H. do 5 inv_result H.
  injection H as <-. cbn [rows].
  apply Forall_flat_map, Forall_forall. intros k _. apply join_key_cells.
  - by eapply keyed_rows_Forall.
  - apply Forall_fmap. eapply Forall_impl; [by eapply keyed_rows_Forall|].
    intros row. apply Forall_delete.
Qed.

End JoinCells.

(** *** Blocks of rows in key order *)

Section Blocks.
Context {A K : Type} `{EqDecision K} (key : A -> K) (f : K -> list A).
Hypothesis f_key : forall k x, x ∈ f k -> key x = k.

Lemma filter_block_other (k k' : K) :
  k' <> k -> filter (fun x => key x = k) (f k') = [].
Proof.
  intros Hne. apply filter_none, Forall_forall. intros x Hx Hk.
  apply f_key in Hx. congruence.
Qed.

Lemma filter_block_same (k : K) : filter (fun x => key x = k) (f k) = f k.
Proof. apply filter_all, Forall_forall. intros x Hx. by apply f_key. Qed.

(** The rows with key [k] in a sequence of blocks, one block per key. *)
Lemma filter_flat_map_key (ks : list K) (k : K) :
  NoDup ks ->
  filter (fun x => key x = k) (flat_map f ks) = if decide (k ∈ ks) then f k else [].
Proof.
  induction 1 as [|k' ks Hk' Hnd IH]; cbn [flat_map]; [done|].
  rewrite filter_app, IH. destruct (decide (k' = k)) as [->|Hne].
  - rewrite filter_block_same, (decide_False (P := k ∈ ks)) by done.
    rewrite decide_True by left. by rewrite app_nil_r.
  - rewrite filter_block_other by done. cbn [app].
    destruct (decide (k ∈ ks)) as [Hin|Hin].
    + rewrite decide_True; [done | by right].
    + rewrite decide_False; [done|]. rewrite elem_of_cons. by intros [->|?].
Qed.

Lemma map_key_flat_map (ks : list K) :
  Forall (fun k => f k <> []) ks ->
  forall k, k ∈ map key (flat_map f ks) <-> k ∈ ks.
Proof.
  intros Hne k. rewrite list_elem_of_fmap. setoid_rewrite list_elem_of_In.
  setoid_rewrite in_flat_map. setoid_rewrite <- list_elem_of_In. split.
  - intros (x & -> & k' & Hk' & Hx). by rewrite (f_key k' x Hx).
  - intros Hk. rewrite Forall_forall in Hne. specialize (Hne k Hk).
    destruct (f k) as [|x xs] eqn:E; [done|]. exists x.
    assert (x ∈ f k) as Hx by (rewrite E; left).
    split; [by rewrite (f_key k x Hx) | eauto].
Qed.

End Blocks.

(** Blocks in ascending key order give keys in ascending order. *)
Lemma sorted_flat_map_key {A : Type} (key : A -> Z) (f : Z -> list A)
    (ks : list Z) :
  (forall k x, x ∈ f k -> key x = k) ->
  StronglySorted Z.le ks -> StronglySorted Z.le (map key (flat_map f ks)).
Proof.
  intros Hkey. induction 1 as [|k ks Hks IH Hk]; cbn [flat_map map]; [constructor|].
  rewrite map_app. apply StronglySorted_app_2; [| |done].
  - intros x1 x2 (y1 & -> & Hy1)%list_elem_of_fmap (y2 & -> & Hy2)%list_elem_of_fmap.
    rewrite (Hkey k y1 Hy1). apply list_elem_of_In, in_flat_map in Hy2
      as (k' & Hk'%list_elem_of_In & Hy2%list_elem_of_In).
    rewrite (Hkey k' y2 Hy2). rewrite Forall_forall in Hk. auto.
  - assert (Forall (fun x => key x = k) (f k)) as H
      by (apply Forall_forall; auto).
    induction H as [|x xs Hx Hxs IHxs]; cbn; constructor; [done|].
    apply Forall_fmap, Forall_forall. intros y Hy. cbn.
    rewrite Forall_forall in Hxs. rewrite Hx, (Hxs y Hy). lia.
Qed.

(** Renaming a label other than [date] to a label other than [date] keeps
    a frame dated. *)
Lemma rename_dated (old new : string) (df : frame) :
  old <> "date" -> new <> "date" -> dated df -> dated (rename old new df).
Proof.
  intros Ho Hn Hd. destruct (dated_columns df Hd) as (rest & Hcols & Hrest).
  destruct Hd as (Hwf & _ & _ & Hrows).
  split; [by apply rename_wf|]. unfold rename. cbn [columns rows]. rewrite Hcols.
  cbn [map head tail]. rewrite decide_False by done.
  split; [done|]. split; [|done].
  intros (c & Hc & Hin)%list_elem_of_fmap. case_decide; congruence.
Qed.

(** Selecting [date] and another label from a dated frame gives a dated
    frame. *)
Lemma select_dated (label : string) (df df' : frame) :
  label <> "date" -> dated df -> select ["date"; label] df = Ok df' -> dated df'.
Proof.
  intros Hl Hd Hsel. destruct (dated_columns df Hd) as (rest & Hcols & Hrest).
  assert (frame_wf df') as Hwf' by (eapply select_wf; [apply Hd | exact Hsel]).
  destruct Hd as (Hwf & _ & _ & Hrows). unfold select in Hsel.
  destruct (filter _ ["date"; label]); [|done]. injection Hsel as <-.
  split; [done|]. cbn [columns rows flat_map]. rewrite Hcols, !filter_cons.
  rewrite decide_True, decide_False by congruence. cbn [app head tail].
  split; [done|]. split.
  - rewrite !elem_of_app, !list_elem_of_filter, elem_of_nil.
    intros [[_ ?]|[[_ ?]|[]]]; done.
  - apply Forall_fmap. eapply Forall_impl; [exact Hrows|].
    intros [|c row] [d Hd]; [done|]. cbn in Hd. injection Hd as ->.
    exists d. unfold cells_at. cbn [zip zip_with]. rewrite filter_cons.
    cbn [fst]. by rewrite decide_True.
Qed.

(** *** Labels *)

Lemma suffix_dups_same (l : list string) : suffix_dups l l = [].
Proof.
  unfold suffix_dups. rewrite filter_none; [done|].
  apply Forall_forall. intros (c & b1 & b2) Hin. cbn.
  apply elem_of_zip_r in Hin. apply list_elem_of_lookup in Hin as [i Hi].
  apply lookup_zip_with_Some in Hi as (x & y & [= -> ->] & Hx & Hy).
  rewrite Hx in Hy. injection Hy as ->. destruct y; cbn; tauto.
Qed.

Lemma add_suffix_nil (suffix c : string) : add_suffix [] suffix c = c.
Proof. reflexivity. Qed.

(** Labels that do not occur on both sides are kept as they are. *)
Lemma items_overlap_disjoint (left right : list string) :
  (forall c, c ∈ left -> c ∉ right) ->
  items_overlap_with_suffix left right = Ok (left, right).
Proof.
  intros H. unfold items_overlap_with_suffix.
  rewrite (filter_none _ left) by (by apply Forall_forall).
  rewrite !(map_ext _ id), !map_id by done. by rewrite !suffix_dups_same.
Qed.

Lemma items_overlap_Ok (left right ll rl : list string) :
  items_overlap_with_suffix left right = Ok (ll, rl) ->
  let to_rename := filter (fun c => c ∈ right) left in
  ll = map (add_suffix to_rename "_x") left /\
  rl = map (add_suffix to_rename "_y") right.
Proof.
  unfold items_overlap_with_suffix. destruct (_ ++ _); [|done]. by intros [= <- <-].
Qed.

Lemma items_overlap_Raise (left right : list string) (e : exn) :
  items_overlap_with_suffix left right = Raise e -> e = MergeError.
Proof.
  unfold items_overlap_with_suffix. destruct (_ ++ _); [done|]. by intros [= <-].
Qed.

Lemma length_duplicated_from (seen l : list string) :
  length (duplicated_from seen l) = length l.
Proof. revert seen. induction l as [|x l IH]; intros seen; cbn; [done|]. by rewrite IH. Qed.

(** No label is marked exactly when no label repeats. *)
Lemma duplicated_from_false (seen l : list string) :
  Forall (fun b => b = false) (duplicated_from seen l) <->
  NoDup l /\ forall x, x ∈ l -> x ∉ seen.
Proof.
  revert seen. induction l as [|x l IH]; intros seen; cbn.
  - split; [split; [constructor | by intros ? ?%elem_of_nil] | constructor].
  - rewrite Forall_cons, IH, NoDup_cons, bool_decide_eq_false.
    setoid_rewrite elem_of_cons. split.
    + intros (Hx & Hnd & Hl). split; [split; [|done]|].
      * intros Hin. apply (Hl x Hin). by left.
      * intros y [->|Hy]; [done|]. intros Hin. apply (Hl y Hy). by right.
    + intros ((Hx & Hnd) & Hl). split; [auto|]. split; [done|].
      intros y Hy [->|Hin]; [done|]. by apply (Hl y); [right|].
Qed.

Lemma duplicated_NoDup (l : list string) :
  Forall (fun b => b = false) (duplicated l) <-> NoDup l.
Proof.
  unfold duplicated. rewrite duplicated_from_false. split; [tauto|].
  intros H. split; [done|]. intros x _. apply not_elem_of_nil.
Qed.

Lemma suffix_marks_nil (renamed : list string) (dr dor : list bool) :
  length dr = length renamed -> length dor = length renamed ->
  Forall (fun b => b = false) dor ->
  map fst (filter (fun p => p.2.1 && negb p.2.2) (zip renamed (zip dr dor))) = []
  <-> Forall (fun b => b = false) dr.
Proof.
  revert dr dor. induction renamed as [|c renamed IH];
    intros [|b dr] [|b' dor] Hdr Hdor Ho; try done.
  apply Forall_cons in Ho as [-> Ho]. cbn [zip zip_with]. rewrite filter_cons.
  cbn [fst snd negb]. rewrite andb_true_r, Forall_cons. destruct b.
  - rewrite decide_True by done. split; [done | by intros [? _]].
  - rewrite decide_False by (by intros []).
    rewrite IH; [tauto | | | done]; cbn in *; lia.
Qed.

(** When the original labels do not repeat, a suffix creates a duplicate
    exactly when the new labels repeat. *)
Lemma suffix_dups_nil (orig renamed : list string) :
  NoDup orig -> length renamed = length orig ->
  suffix_dups orig renamed = [] <-> NoDup renamed.
Proof.
  intros Ho%duplicated_NoDup Hlen. rewrite <- duplicated_NoDup.
  apply suffix_marks_nil; [| |done]; unfold duplicated;
    rewrite length_duplicated_from; done.
Qed.

(** For labels that repeat on neither side, the labels of the join are
    the suffixed labels, unless a suffix creates a duplicate. *)
Lemma items_overlap_NoDup (left right : list string) :
  NoDup left -> NoDup right ->
  let to_rename := filter (fun c => c ∈ right) left in
  let ll := map (add_suffix to_rename "_x") left in
  let rl := map (add_suffix to_rename "_y") right in
  items_overlap_with_suffix left right
  = if decide (NoDup ll /\ NoDup rl) then Ok (ll, rl) else Raise MergeError.
Proof.
  intros Hl Hr to_rename ll rl. unfold items_overlap_with_suffix.
  fold to_rename. fold ll. fold rl.
  pose proof (suffix_dups_nil left ll Hl ltac:(by unfold ll; rewrite length_map)) as Hll.
  pose proof (suffix_dups_nil right rl Hr ltac:(by unfold rl; rewrite length_map)) as Hrl.
  destruct (suffix_dups left ll ++ suffix_dups right rl) as [|d ds] eqn:E.
  - apply app_eq_nil in E as [E1 E2]. rewrite decide_True; [done|]. tauto.
  - rewrite decide_False; [done|]. intros [H1%Hll H2%Hrl].
    by rewrite H1, H2 in E.
Qed.

Lemma add_suffix_both (left right : list string) (suffix c : string) :
  c ∈ left -> c ∈ right ->
  add_suffix (filter (fun c => c ∈ right) left) suffix c = c +:+ suffix.
Proof.
  intros ? ?. unfold add_suffix. rewrite bool_decide_eq_true_2; [done|].
  by apply list_elem_of_filter.
Qed.

Lemma add_suffix_one (left right : list string) (suffix c : string) :
  c ∉ left \/ c ∉ right ->
  add_suffix (filter (fun c => c ∈ right) left) suffix c = c.
Proof.
  intros H. unfold add_suffix. rewrite bool_decide_eq_false_2; [done|].
  rewrite list_elem_of_filter. tauto.
Qed.

(** No suffixed label is [date]. *)
Lemma suffix_not_date (c suffix : string) :
  suffix ∈ ["_x"; "_y"] -> c +:+ suffix <> "date".
Proof.
  rewrite !elem_of_cons. intros [->|[->|?%elem_of_nil]]; [| |done];
    destruct c as [|a1 [|a2 [|a3 [|a4 [|a5 c]]]]]; intros H'; cbv in H'; congruence.
Qed.

Lemma add_suffix_not_date (to_rename : list string) (suffix c : string) :
  suffix ∈ ["_x"; "_y"] -> c <> "date" -> add_suffix to_rename suffix c <> "date".
Proof.
  intros Hs Hc. unfold add_suffix. case_bool_decide; [|done].
  by apply suffix_not_date.
Qed.

(** The suffixed labels of a name differ from the name, from each other
    and from [date]. *)
Lemma suffix_facts (name : string) :
  name +:+ "_x" <> name /\ name +:+ "_y" <> name /\
  name +:+ "_x" <> name +:+ "_y" /\
  name +:+ "_x" <> "date" /\ name +:+ "_y" <> "date".
Proof.
  split; [by apply append_neq_self|]. split; [by apply append_neq_self|].
  split; [by intros ?%(inj _)|].
  split; apply suffix_not_date; rewrite !elem_of_cons; tauto.
Qed.

Lemma delete_0 {A : Type} (l : list A) : delete 0%nat l = tail l.
Proof. by destruct l. Qed.

(** *** The join of dated frames *)

Section Dated.
Context (l r : frame) (Hl : dated l) (Hr : dated r).

Lemma dated_row (df : frame) (k : date) (row : list cell) :
  dated df -> row ∈ rows_at k df ->
  length row = length (columns df) /\ head row = Some (CDate k).
Proof.
  intros (Hwf & _ & _ & Hdates) [Hk Hrow]%list_elem_of_filter.
  unfold frame_wf in Hwf. rewrite Forall_forall in Hwf, Hdates.
  split; [auto|]. destruct (Hdates row Hrow) as [d Hd].
  unfold date_key in Hk. rewrite Hd in Hk |- *. by subst.
Qed.

Lemma dated_columns_length (df : frame) :
  dated df -> length (columns df) = S (length (tail (columns df))).
Proof. by intros (rest & -> & _)%dated_columns. Qed.

Lemma joined_at_row (k : date) (row : list cell) :
  row ∈ joined_at k l r ->
  length row = (length (columns l) + length (tail (columns r)))%nat /\
  head row = Some (CDate k).
Proof.
  apply join_key_row.
  - rewrite (dated_columns_length l Hl). lia.
  - apply Forall_forall. intros row'. by apply dated_row.
  - apply Forall_forall. intros ? (row' & -> & Hrow')%list_elem_of_fmap.
    destruct (dated_row r k row' Hr Hrow') as [Hlen _].
    rewrite (dated_columns_length r Hr) in Hlen. destruct row'; cbn in *; lia.
Qed.

Lemma joined_at_key (k : date) (row : list cell) :
  row ∈ joined_at k l r -> date_key row = k.
Proof.
  intros [_ Hhd]%joined_at_row. unfold date_key. by rewrite Hhd.
Qed.

(** The join of dated frames: the labels, and the rows date by date. *)
Lemma merge_outer_dated_eq :
  merge_outer "date" l r =
  (labels <- items_overlap_with_suffix (columns l) (tail (columns r)) ;;
   Ok (mk_frame (labels.1 ++ labels.2)
         (flat_map (fun k => joined_at k l r) (join_keys (dates l) (dates r))))).
Proof.
  unfold merge_outer. rewrite !dated_key_position by done. cbn [bind].
  destruct Hl as (_ & _ & _ & Hld), Hr as (_ & _ & _ & Hrd).
  rewrite !keyed_rows_dated by done. cbn [bind]. rewrite delete_0.
  destruct (items_overlap_with_suffix _ _) as [labels|e]; [|done]. cbn [bind].
  unfold outer_join, joined_at, rows_at, dates. rewrite !map_map. cbn [fst].
  do 2 f_equal. apply flat_map_ext. intros k.
  rewrite !rows_with_keyed. f_equal. apply map_ext. intros row. apply delete_0.
Qed.

Lemma rows_at_nil (df : frame) (k : date) : k ∉ dates df -> rows_at k df = [].
Proof.
  intros Hk. apply filter_none, Forall_forall. intros row Hrow <-.
  apply Hk. unfold dates. apply list_elem_of_fmap. eauto.
Qed.

Lemma rows_at_cons (df : frame) (k : date) :
  k ∈ dates df -> exists row rs, rows_at k df = row :: rs.
Proof.
  intros (row & -> & Hrow)%list_elem_of_fmap.
  assert (row ∈ rows_at (date_key row) df) as H by (by apply list_elem_of_filter).
  destruct (rows_at _ df) as [|row' rs]; [by apply elem_of_nil in H | eauto].
Qed.

(** A date of either frame has at least one row in the join. *)
Lemma joined_at_nonempty (k : date) :
  k ∈ join_keys (dates l) (dates r) -> joined_at k l r <> [].
Proof.
  intros [Hk|Hk]%elem_of_join_keys; apply rows_at_cons in Hk as (row & rs & E);
    unfold joined_at, join_key; rewrite E.
  - by destruct (map tail (rows_at k r)).
  - by destruct (rows_at k l).
Qed.

Lemma joined_at_absent (k : date) :
  k ∉ join_keys (dates l) (dates r) -> joined_at k l r = [].
Proof.
  rewrite elem_of_join_keys. intros Hk. unfold joined_at.
  rewrite !rows_at_nil by tauto. reflexivity.
Qed.

(** The labels of the join keep [date] first and nowhere else. *)
Lemma merge_labels_dated (ll rl : list string) :
  items_overlap_with_suffix (columns l) (tail (columns r)) = Ok (ll, rl) ->
  length ll = length (columns l) /\ length rl = length (tail (columns r)) /\
  head (ll ++ rl) = Some "date" /\ "date" ∉ tail (ll ++ rl).
Proof.
  intros [-> ->]%items_overlap_Ok. rewrite !length_map.
  destruct (dated_columns l Hl) as (rest & -> & Hrest).
  destruct Hr as (_ & _ & Hrt & _). cbn [map app head tail].
  assert (add_suffix (filter (fun c => c ∈ tail (columns r)) ("date" :: rest))
            "_x" "date" = "date") as ->.
  { unfold add_suffix. rewrite bool_decide_eq_false_2; [done|].
    by intros [? _]%list_elem_of_filter. }
  do 3 (split; [done|]). rewrite elem_of_app, !list_elem_of_fmap.
  intros [(c & Hc & Hin)|(c & Hc & Hin)]; symmetry in Hc;
    (eapply add_suffix_not_date; [| |exact Hc]);
    [| by intros -> | | by intros ->]; rewrite !elem_of_cons; tauto.
Qed.

End Dated.

(** *** One row per date *)

Lemma filter_key_NoDup {A : Type} (f : A -> Z) (l : list A) (k : Z) :
  NoDup (map f l) -> (length (filter (fun x => f x = k) l) <= 1)%nat.
Proof.
  induction l as [|x l IH]; cbn [map]; [cbn; lia|].
  intros [Hx Hnd]%NoDup_cons. rewrite filter_cons. case_decide as Hk; [|auto].
  rewrite filter_none; [cbn; lia|]. apply Forall_forall. intros y Hy Hyk.
  apply Hx, list_elem_of_fmap. exists y. split; [congruence | done].
Qed.

Section Unique.
Context (l r : frame) (Hl : dated l) (Hr : dated r).
Context (Hlu : NoDup (dates l)) (Hru : NoDup (dates r)).

(** With one row per date on both sides, the join has one row for each
    of its dates. *)
Lemma joined_at_singleton (k : date) :
  k ∈ join_keys (dates l) (dates r) -> exists row, joined_at k l r = [row].
Proof.
  intros Hk%(joined_at_nonempty l r).
  pose proof (filter_key_NoDup date_key (rows l) k Hlu) as H1.
  pose proof (filter_key_NoDup date_key (rows r) k Hru) as H2.
  revert Hk H1 H2. unfold joined_at, join_key, rows_at.
  destruct (filter _ (rows l)) as [|x [|??]], (filter _ (rows r)) as [|y [|??]];
    cbn; intros ? ? ?; try done; try lia; eauto.
Qed.

Lemma dates_flat_map_joined (ks : list date) :
  Forall (fun k => k ∈ join_keys (dates l) (dates r)) ks ->
  map date_key (flat_map (fun k => joined_at k l r) ks) = ks.
Proof.
  induction 1 as [|k ks Hk Hks IH]; [done|]. cbn [flat_map].
  rewrite map_app, IH. destruct (joined_at_singleton k Hk) as [row E].
  assert (row ∈ joined_at k l r) as Hrow by (rewrite E; left).
  rewrite E. cbn. by rewrite (joined_at_key l r Hl Hr k row Hrow).
Qed.

End Unique.

(** The join of two dated frames is dated. *)
Lemma merge_outer_keeps_dated (l r df : frame) :
  dated l -> dated r -> merge_outer "date" l r = Ok df -> dated df.
Proof.
  intros Hl Hr H. rewrite merge_outer_dated_eq in H by done.
  inv_result H. destruct a as [ll rl]. injection H as <-.
  destruct (merge_labels_dated l r Hl Hr ll rl E) as (Hll & Hrl & Hhd & Htl).
  split; [|split; [done|split; [done|]]]; unfold frame_wf; cbn [rows columns fst snd];
    apply Forall_forall; intros row Hrow%list_elem_of_In%in_flat_map;
    destruct Hrow as (k & _ & Hrow%list_elem_of_In);
    apply joined_at_row in Hrow as [Hlen Hhead]; try done.
  - rewrite length_app. lia.
  - eauto.
Qed.

(** *** The chunks of one instrument *)

Section SameLabel.
Context (l r : frame) (name : string).
Context (Hl : dated l) (Hr : dated r) (Hcr : columns r = ["date"; name]).

Lemma same_label_not_date : name <> "date".
Proof.
  destruct Hr as (_ & _ & Ht & _). rewrite Hcr in Ht. intros ->. apply Ht. left.
Qed.

(** Evaluate the labels of the join from the labels of the left frame. *)
Ltac eval_join Hcl :=
  pose proof same_label_not_date;
  destruct (suffix_facts name) as (? & ? & ? & ? & ?);
  rewrite merge_outer_dated_eq by done;
  rewrite Hcl, Hcr; cbn [tail]; rewrite items_overlap_NoDup by solve_labels;
  cbn [map]; rewrite ?add_suffix_one by solve_labels;
  rewrite ?add_suffix_both by solve_labels;
  first [rewrite decide_True by solve_labels | rewrite decide_False by solve_labels].

(** The second chunk: both labels are suffixed. *)
Lemma merge_second_chunk :
  columns l = ["date"; name] ->
  exists df, merge_outer "date" l r = Ok df /\
    columns df = ["date"; name +:+ "_x"; name +:+ "_y"].
Proof. intros Hcl. eval_join Hcl. cbn. eauto. Qed.

(** The third chunk: its label collides with none. *)
Lemma merge_third_chunk :
  columns l = ["date"; name +:+ "_x"; name +:+ "_y"] ->
  exists df, merge_outer "date" l r = Ok df /\
    columns df = ["date"; name +:+ "_x"; name +:+ "_y"; name].
Proof. intros Hcl. eval_join Hcl. cbn. eauto. Qed.

(** The fourth chunk: the suffix [_x] repeats the label of the first. *)
Lemma merge_fourth_chunk :
  columns l = ["date"; name +:+ "_x"; name +:+ "_y"; name] ->
  merge_outer "date" l r = Raise MergeError.
Proof. intros Hcl. by eval_join Hcl. Qed.

End SameLabel.

(** ** Theorems *)

(** C2: the outer join of two dated frames, when it returns, is the
    date-aligned table of the two: it is a dated frame again (one cell per
    label in every row, [date] first and nowhere else, a date in every key
    cell); its rows for a date are the rows of the two frames for that
    date joined (each left row followed by the cells of each right row,
    or the rows of the one side that has the date completed with NaN);
    its dates ascend; and a date occurs in it exactly when it occurs in
    one of the two frames. *)
Theorem merge_outer_spec (l r df : frame) :
  dated l -> dated r -> merge_outer "date" l r = Ok df ->
  dated df /\
  (forall k, rows_at k df = joined_at k l r) /\
  StronglySorted Z.le (dates df) /\
  (forall k, k ∈ dates df <-> k ∈ dates l \/ k ∈ dates r).
Proof.
  intros Hl Hr H. split; [by apply (merge_outer_keeps_dated l r)|].
  rewrite merge_outer_dated_eq in H by done. inv_result H. injection H as <-.
  pose proof (joined_at_key l r Hl Hr) as Hkey.
  unfold rows_at, dates. cbn [rows]. split; [|split].
  - intros k. rewrite (filter_flat_map_key date_key _ Hkey) by apply join_keys_NoDup.
    case_decide; [done|]. symmetry. by apply joined_at_absent.
  - apply sorted_flat_map_key; [done | apply join_keys_sorted].
  - intros k. rewrite <- elem_of_join_keys. apply map_key_flat_map; [done|].
    apply Forall_forall. intros k'. by apply joined_at_nonempty.
Qed.

Lemma merge_outer_spec_witness :
  exists df, merge_outer "date" frame_A frame_B = Ok df /\
    dated df /\
    (forall k, rows_at k df = joined_at k frame_A frame_B) /\
    StronglySorted Z.le (dates df) /\
    (forall k, k ∈ dates df <-> k ∈ dates frame_A \/ k ∈ dates frame_B).
Proof.
  eexists. split; [reflexivity|].
  apply (merge_outer_spec frame_A frame_B); [by_compute | by_compute | reflexivity].
Defined.

(** When no label other than [date] occurs in both frames, the join of
    two dated frames raises nothing, and its labels are those of the left
    frame followed by those of the right frame without [date]. *)
Theorem merge_outer_distinct_labels (l r : frame) :
  dated l -> dated r -> (forall c, c ∈ columns l -> c ∉ tail (columns r)) ->
  exists df, merge_outer "date" l r = Ok df /\
    columns df = columns l ++ tail (columns r).
Proof.
  intros Hl Hr Hdisj. rewrite merge_outer_dated_eq by done.
  rewrite items_overlap_disjoint by done. cbn [bind]. eauto.
Qed.

Lemma merge_outer_distinct_labels_witness :
  exists df, merge_outer "date" frame_A frame_B = Ok df /\
    columns df = columns frame_A ++ tail (columns frame_B).
Proof.
  apply merge_outer_distinct_labels; [by_compute | by_compute |].
  intros c. cbn. rewrite !elem_of_cons, elem_of_nil.
  intros [->|[->|[]]] [[=]|[]].
Defined.

(** C22: the chunks of one instrument.  The second chunk's frame has the
    same price label as the first, so the join suffixes both ([_x], [_y]);
    the third chunk's label then collides with nothing and is kept; the
    fourth collides with the third, the suffix [_x] repeats the label of
    the first chunk, and the join raises [MergeError]. *)
Theorem merge_outer_same_label (l r : frame) (name : string) :
  dated l -> dated r -> columns r = ["date"; name] ->
  (columns l = ["date"; name] ->
   exists df, merge_outer "date" l r = Ok df /\
     columns df = ["date"; name +:+ "_x"; name +:+ "_y"]) /\
  (columns l = ["date"; name +:+ "_x"; name +:+ "_y"] ->
   exists df, merge_outer "date" l r = Ok df /\
     columns df = ["date"; name +:+ "_x"; name +:+ "_y"; name]) /\
  (columns l = ["date"; name +:+ "_x"; name +:+ "_y"; name] ->
   merge_outer "date" l r = Raise MergeError).
Proof.
  intros Hl Hr Hcr. split; [|split].
  - by apply merge_second_chunk.
  - by apply merge_third_chunk.
  - by apply merge_fourth_chunk.
Qed.

Lemma merge_outer_same_label_witness :
  exists df, merge_outer "date" frame_A frame_A = Ok df /\
    columns df = ["date"; "A_x"; "A_y"].
Proof.
  by apply (merge_outer_same_label frame_A frame_A "A");
    [by_compute | by_compute | ..].
Defined.

(** C29: when each frame has one row per date, the join has one row for
    each date of either frame, in strictly ascending order of date. *)
Theorem merge_outer_one_row_per_date (l r df : frame) :
  dated l -> dated r -> NoDup (dates l) -> NoDup (dates r) ->
  merge_outer "date" l r = Ok df ->
  dates df = join_keys (dates l) (dates r) /\ StronglySorted Z.lt (dates df).
Proof.
  intros Hl Hr Hlu Hru H. rewrite merge_outer_dated_eq in H by done.
  inv_result H. injection H as <-.
  assert (dates (mk_frame (a.1 ++ a.2)
                   (flat_map (fun k => joined_at k l r)
                      (join_keys (dates l) (dates r))))
          = join_keys (dates l) (dates r)) as ->.
  { unfold dates at 1. cbn [rows].
    apply dates_flat_map_joined; (done || by apply Forall_forall). }
  split; [done | apply join_keys_ascending].
Qed.

Lemma merge_outer_one_row_per_date_witness :
  exists df, merge_outer "date" frame_A frame_B = Ok df /\
    dates df = join_keys (dates frame_A) (dates frame_B) /\
    StronglySorted Z.lt (dates df).
Proof.
  eexists. split; [reflexivity|].
  apply (merge_outer_one_row_per_date frame_A frame_B);
    [by_compute | by_compute | by_compute | by_compute | reflexivity].
Defined.

(** The example of the written specification: joining dates 1, 2 with
    prices 10, 20 under [A] and dates 2, 3 with prices 21, 30 under [B]
    gives rows for the dates 1, 2, 3, with [B] missing at date 1 and [A]
    missing at date 3. *)
Theorem merge_outer_example :
  merge_outer "date" frame_A frame_B
  = Ok (mk_frame ["date"; "A"; "B"]
          [[CDate 1; money 10; NaN];
           [CDate 2; money 20; money 21];
           [CDate 3; NaN; money 30]]).
Proof. by vm_compute. Qed.
