(* ===== verification/Coalesce.v ===== *)
(** * Coalesce: the column coalescing loop of [run] ([src/main.py], lines 117-124)

    After the merges, [run] groups the labels of the table by their name
    without the last [_]-separated part, and for each group writes the
    first value that is not missing, scanning the group's columns from
    left to right, into the column named after the group's last label;
    the other columns of the group are dropped.

    The groups are visited in the iteration order of a Python [set] of
    strings, which the language leaves unspecified.  The order is a
    parameter here, the class [SetOrder]: any function that lists the
    distinct elements of a list, each once.  The theorems hold for every
    such order unless they name one. *)

From Stdlib Require Import ZArith Lia ZifyBool SpecFloat Ascii.
From stdpp Require Import base tactics option list strings.
From S2P Require Import Prelude DateTime Money PyStr Frame Merge.

#[local] Open Scope string_scope.
#[local] Open Scope list_scope.

(** ** The iteration order of a set *)

Class SetOrder : Type := {
  set_iter : list string -> list string;
  set_iter_perm : forall l, set_iter l ≡ₚ dedup l
}.

(** The order of first insertion. *)
#[global, refine] Instance insertion_order : SetOrder := {| set_iter := dedup |}.
Proof. done. Defined.

(** The reverse of the order of first insertion. *)
#[global, refine] Instance reverse_order : SetOrder :=
  {| set_iter := fun l => reverse (dedup l) |}.
Proof. intros l. apply reverse_Permutation. Defined.

(** ** The loop *)

(** [relevant_columns[-1]] *)
Definition last_item (l : list string) : result string :=
  match last l with
  | Some c => Ok c
  | None => Raise IndexError
  end.

(** The body of the loop (lines 121-124) for one group name; [columns] are
    the labels the table had before the loop. *)
Definition coalesce_step (columns : list string) (merged_df : frame)
    (column_name : string) : result frame :=
  let relevant_columns := filter (fun col => startswith col column_name) columns in
  last_column <- last_item relevant_columns ;;
  let combined_column := rsplit_head "_" last_column in
  selected <- select relevant_columns merged_df ;;
  values <- iloc_col0 (bfill_axis1 selected) ;;
  let merged_df := setitem combined_column values merged_df in
  drop_columns (removelast relevant_columns) merged_df.

(** Lines 117-124. *)
Definition coalesce `{SetOrder} (merged_df : frame) : result frame :=
  let columns := columns merged_df in
  let unique_columns := set_iter (map (rsplit_head "_") columns) in
  foldM (coalesce_step columns) merged_df unique_columns.

(** ** Specification vocabulary *)

(** A table with one column per name: the labels are distinct, none holds
    the separator, and none is the beginning of another. *)
Definition plain (df : frame) : Prop :=
  frame_wf df /\ NoDup (columns df) /\
  Forall (fun c => contains "_" c = false) (columns df) /\
  Forall (fun c => Forall (fun c' => startswith c' c = true -> c' = c) (columns df))
         (columns df).

#[global] Instance plain_dec (df : frame) : Decision (plain df).
Proof. unfold plain. apply _. Defined.

(** A name that stands apart from [date]: it holds no separator, and
    neither of the two is the beginning of the other. *)
Definition apart (name : string) : Prop :=
  contains "_" name = false /\
  startswith name "date" = false /\ startswith "date" name = false.

#[global] Instance apart_dec (name : string) : Decision (apart name).
Proof. unfold apart. apply _. Defined.

(** What the loop makes of a row [date, x, y] of two chunks, of a row
    [date, x, y, z] of three chunks, and of a row [date, a, b] of two
    instruments. *)
Definition coalesced_two (row : list cell) : list cell :=
  match row with
  | [d; x; y] => [d; y; first_valid [x; y]]
  | _ => row
  end.

Definition coalesced_three (row : list cell) : list cell :=
  match row with
  | [d; x; y; z] => [d; first_valid [x; y; z]]
  | _ => row
  end.

Definition coalesced_prefix (row : list cell) : list cell :=
  match row with
  | [d; a; b] => [d; first_valid [a; b]]
  | _ => row
  end.

(** Three instruments whose names begin with one another. *)
Definition frame_chain : frame :=
  mk_frame ["date"; "A"; "AB"; "ABC"] [[CDate 1; money 10; money 11; money 12]].

(** The table of the example of the written specification (8,
    ColumnCoalescer). *)
Definition frame_AAA : frame :=
  mk_frame ["AAA_1"; "AAA_2"] [[money 10; NaN]; [NaN; money 20]].

(** Two instruments with two chunks each, as the joins leave their
    columns. *)
Definition frame_two_by_two : frame :=
  mk_frame ["date"; "A_x"; "A_y"; "B_x"; "B_y"]
    [[CDate 1; money 10; NaN; money 30; NaN];
     [CDate 2; NaN; money 20; NaN; money 40]].

(** The same table up to the order of the columns: the same number of
    columns, and the columns of [df'] selected from [df] give [df']. *)
Definition same_table (df df' : frame) : Prop :=
  length (columns df) = length (columns df') /\ select (columns df') df = Ok df'.

#[global] Instance same_table_dec (df df' : frame) : Decision (same_table df df').
Proof. unfold same_table. apply _. Defined.

(** ** Lemmas *)

(** The group of a name taken from the labels is not empty. *)
Lemma relevant_nonempty (columns : list string) (column_name : string) :
  column_name ∈ map (rsplit_head "_") columns ->
  filter (fun col => startswith col column_name) columns <> [].
Proof.
  intros (col & -> & Hcol)%list_elem_of_fmap H.
  assert (col ∈ filter (fun c => startswith c (rsplit_head "_" col)) columns) as Hin.
  { apply list_elem_of_filter. split; [|done].
    by rewrite startswith_rsplit_head. }
  rewrite H in Hin. by apply elem_of_nil in Hin.
Qed.

Lemma last_item_Ok (l : list string) :
  l <> [] -> exists c, last l = Some c /\ last_item l = Ok c.
Proof.
  intros Hne. unfold last_item. destruct (last l) as [c|] eqn:E; [eauto|].
  by apply last_None in E.
Qed.

(** The body of the loop as one expression: the column named after the
    group's last label receives, row by row, the first value of the group
    that is not missing, and the other labels of the group are dropped. *)
Lemma coalesce_step_Ok (columns : list string) (df : frame) (column_name c : string) :
  let relevant_columns := filter (fun col => startswith col column_name) columns in
  last relevant_columns = Some c ->
  Forall (fun l => l ∈ Frame.columns df) relevant_columns ->
  coalesce_step columns df column_name
  = drop_columns (removelast relevant_columns)
      (setitem (rsplit_head "_" c)
         (map (fun row =>
                 first_valid (flat_map (fun l => cells_at l (Frame.columns df) row)
                                relevant_columns))
              (rows df))
         df).
Proof.
  intros rel Hlast Hall. unfold coalesce_step. fold rel.
  unfold last_item. rewrite Hlast. cbn [bind].
  rewrite select_present by done. cbn [bind].
  rewrite iloc_col0_Ok.
  - cbn [bind bfill_axis1 rows]. rewrite !map_map. do 2 f_equal.
    apply map_ext. intros row. apply bfill_row_head.
  - assert (rel <> []) as Hne by (intros E; by rewrite E in Hlast).
    exact (select_columns_nonempty rel df _ Hne (select_present rel df Hall)).
Qed.

(** The body raises nothing but [KeyError]. *)
Lemma coalesce_step_Raise (columns : list string) (df : frame)
    (column_name : string) (e : exn) :
  column_name ∈ map (rsplit_head "_") columns ->
  coalesce_step columns df column_name = Raise e ->
  exists missing, e = KeyError missing.
Proof.
  intros Hne%relevant_nonempty H. unfold coalesce_step in H.
  destruct (last_item_Ok _ Hne) as (c & _ & Hc). rewrite Hc in H. cbn [bind] in H.
  inv_result H; [|injection H as <-; by eapply select_Raise].
  rewrite iloc_col0_Ok in H by exact (select_columns_nonempty _ df a Hne E).
  cbn [bind] in H. by eapply drop_columns_Raise.
Qed.

Lemma coalesce_step_wf (columns : list string) (df df' : frame)
    (column_name : string) :
  frame_wf df -> coalesce_step columns df column_name = Ok df' -> frame_wf df'.
Proof.
  intros Hwf H. unfold coalesce_step in H.
  inv_result H. inv_result H. inv_result H.
  eapply drop_columns_wf; [|exact H]. by apply setitem_wf.
Qed.

(** The body of the loop makes no cell of a new kind. *)
Lemma coalesce_step_cells (P : cell -> Prop) (columns : list string) (df df' : frame)
    (column_name : string) :
  P NaN -> cells P df -> coalesce_step columns df column_name = Ok df' -> cells P df'.
Proof.
  intros HNaN Hdf H. unfold coalesce_step in H.
  inv_result H. inv_result H. inv_result H.
  eapply drop_columns_cells; [|exact H]. apply setitem_cells; [done|].
  eapply iloc_col0_Forall; [done| |done]. by eapply bfill_axis1_cells, select_cells.
Qed.

(** A group of one label that is its own name: the body changes
    nothing. *)
Lemma coalesce_step_single (columns : list string) (df : frame)
    (column_name c : string) :
  filter (fun col => startswith col column_name) columns = [c] ->
  rsplit_head "_" c = c ->
  frame_wf df -> NoDup (Frame.columns df) -> c ∈ Frame.columns df ->
  coalesce_step columns df column_name = Ok df.
Proof.
  intros Hrel Hc Hwf Hnd Hin.
  rewrite (coalesce_step_Ok columns df column_name c); rewrite Hrel;
    [|done|by repeat constructor].
  cbn [flat_map removelast]. rewrite Hc.
  rewrite (map_ext _ (fun row => first_valid (cells_at c (Frame.columns df) row)))
    by (intros row; by rewrite app_nil_r).
  rewrite setitem_same by done. by apply drop_columns_nil.
Qed.

(** The elements with a property that only [x] has. *)
Lemma filter_singleton {A : Type} (P : A -> Prop) `{forall x, Decision (P x)}
    (l : list A) (x : A) :
  NoDup l -> x ∈ l -> P x -> (forall y, y ∈ l -> P y -> y = x) -> filter P l = [x].
Proof.
  induction 1 as [|y l Hy Hnd IH]; intros Hx HP Huniq; [by apply elem_of_nil in Hx|].
  rewrite filter_cons. apply elem_of_cons in Hx as [->|Hx].
  - rewrite decide_True by done. f_equal. apply filter_none, Forall_forall.
    intros z Hz HPz. apply Hy. rewrite <- (Huniq z); [done | by right | done].
  - rewrite decide_False; [apply IH; [done..|]|].
    + intros z Hz. apply Huniq. by right.
    + intros HPy. apply Hy. rewrite (Huniq y); [done | left | done].
Qed.

Lemma elem_of_set_iter `{SetOrder} (l : list string) (x : string) :
  x ∈ set_iter l <-> x ∈ l.
Proof. by rewrite set_iter_perm, dedup_elem_of. Qed.

Lemma set_iter_NoDup `{SetOrder} (l : list string) : NoDup (set_iter l).
Proof. rewrite set_iter_perm. apply dedup_NoDup. Qed.

(** What the loop does in every order of the groups, it does. *)
(** The table without columns has no group. *)
Lemma coalesce_empty `{SetOrder} : coalesce DataFrame_empty = Ok DataFrame_empty.
Proof.
  unfold coalesce. cbn [columns DataFrame_empty map].
  by rewrite (proj1 (Permutation_nil_r _) (set_iter_perm [])).
Qed.

Lemma coalesce_orders_Forall `{SetOrder} (P : result frame -> Prop) (df : frame) :
  Forall (fun order => P (foldM (coalesce_step (columns df)) df order))
         (permutations (dedup (map (rsplit_head "_") (columns df)))) ->
  P (coalesce df).
Proof.
  intros Hall. rewrite Forall_forall in Hall. apply Hall.
  apply permutations_Permutation. symmetry. apply set_iter_perm.
Qed.

Lemma coalesce_all_orders `{SetOrder} (df : frame) (r : result frame) :
  Forall (fun order => foldM (coalesce_step (columns df)) df order = r)
         (permutations (dedup (map (rsplit_head "_") (columns df)))) ->
  coalesce df = r.
Proof. apply (coalesce_orders_Forall (fun r' => r' = r)). Qed.

(** ** The groups of one instrument *)

Section OneName.
Context (name : string) (Hname : apart name).

Lemma apart_not_date : name <> "date".
Proof. destruct Hname as (_ & H & _). intros ->. by rewrite startswith_refl in H. Qed.

(** Evaluate the groups of [date] and of [name]. *)
Ltac eval_groups :=
  let Hsep := fresh in let Hnd := fresh in let Hdn := fresh in
  destruct Hname as (Hsep & Hnd & Hdn);
  repeat (rewrite filter_cons; rewrite ?startswith_before_sep by done;
          rewrite ?startswith_refl, ?startswith_append, ?Hnd, ?Hdn;
          cbn [decide Is_true_dec]);
  rewrite ?filter_nil; clear Hsep Hnd Hdn.

(** The facts about the labels of the chunks of [name]. *)
Ltac label_facts :=
  pose proof apart_not_date;
  destruct (suffix_facts name) as (? & ? & ? & ? & ?).

(** The group of [date] has one label, in a table of two chunks and in a
    table of three: its iteration changes nothing. *)
Lemma step_date (columns : list string) (df : frame) :
  columns = ["date"; name +:+ "_x"; name +:+ "_y"] \/
  columns = ["date"; name +:+ "_x"; name +:+ "_y"; name] ->
  frame_wf df -> NoDup (Frame.columns df) -> "date" ∈ Frame.columns df ->
  coalesce_step columns df "date" = Ok df.
Proof.
  intros Hcols Hwf Hnd Hin.
  apply (coalesce_step_single _ _ _ "date"); [|done..].
  destruct Hcols as [-> | ->]; by eval_groups.
Qed.

Lemma step_name_two (rs : list (list cell)) :
  Forall (fun row => length row = 3%nat) rs ->
  coalesce_step ["date"; name +:+ "_x"; name +:+ "_y"]
    (mk_frame ["date"; name +:+ "_x"; name +:+ "_y"] rs) name
  = Ok (mk_frame ["date"; name +:+ "_y"; name] (map coalesced_two rs)).
Proof.
  intros Hrs. label_facts.
  rewrite (coalesce_step_Ok _ _ _ (name +:+ "_y")); eval_groups; cbn;
    [|done|repeat constructor; solve_labels].
  rewrite rsplit_head_append by done. unfold setitem, drop_columns.
  eval_decides. rewrite zip_with_map_same, map_map. do 2 f_equal.
  apply map_ext_Forall. eapply Forall_impl; [exact Hrs|].
  intros [|d [|x [|y [|]]]]; try done. intros _. unfold cells_at. by eval_decides.
Qed.

Lemma step_name_three (rs : list (list cell)) :
  Forall (fun row => length row = 4%nat) rs ->
  coalesce_step ["date"; name +:+ "_x"; name +:+ "_y"; name]
    (mk_frame ["date"; name +:+ "_x"; name +:+ "_y"; name] rs) name
  = Ok (mk_frame ["date"; name] (map coalesced_three rs)).
Proof.
  intros Hrs. label_facts.
  rewrite (coalesce_step_Ok _ _ _ name); eval_groups; cbn;
    [|done|repeat constructor; solve_labels].
  rewrite rsplit_head_id by apply Hname. unfold setitem, drop_columns.
  eval_decides. rewrite zip_with_map_same, map_map. do 2 f_equal.
  apply map_ext_Forall. eapply Forall_impl; [exact Hrs|].
  intros [|d [|x [|y [|z [|]]]]]; try done. intros _. unfold cells_at. by eval_decides.
Qed.

(** The group names of the labels of two and of three chunks. *)
Lemma group_names (columns : list string) :
  columns = ["date"; name +:+ "_x"; name +:+ "_y"] \/
  columns = ["date"; name +:+ "_x"; name +:+ "_y"; name] ->
  forall x, x ∈ map (rsplit_head "_") columns <-> x = "date" \/ x = name.
Proof.
  intros Hcols x. destruct Hname as (Hsep & _).
  destruct Hcols as [-> | ->]; cbn [map];
    rewrite !rsplit_head_append, ?(rsplit_head_id _ name) by done;
    rewrite (rsplit_head_id _ "date") by done;
    rewrite !elem_of_cons, elem_of_nil; tauto.
Qed.

(** The loop on the table of two or three chunks ends in the table that
    the iteration of [name] makes, in whatever order the groups come. *)
Lemma coalesce_chunks `{SetOrder} (columns : list string) (rs : list (list cell))
    (df' : frame) :
  columns = ["date"; name +:+ "_x"; name +:+ "_y"] \/
  columns = ["date"; name +:+ "_x"; name +:+ "_y"; name] ->
  Forall (fun row => length row = length columns) rs ->
  coalesce_step columns (mk_frame columns rs) name = Ok df' ->
  frame_wf df' -> NoDup (Frame.columns df') -> "date" ∈ Frame.columns df' ->
  coalesce (mk_frame columns rs) = Ok df'.
Proof.
  intros Hcols Hrs Hstep Hwf' Hnd' Hin'. label_facts. unfold coalesce.
  apply (foldM_one_change _ _ name); [apply set_iter_NoDup| |done|].
  - rewrite elem_of_set_iter, (group_names _ Hcols). by right.
  - intros x Hx Hne. rewrite elem_of_set_iter, (group_names _ Hcols) in Hx.
    destruct Hx as [-> | ->]; [|done]. cbn [Frame.columns].
    split; apply step_date; try done; cbn [Frame.columns];
      destruct Hcols as [-> | ->]; solve_labels.
Qed.

End OneName.

(** ** Two instruments, the name of one the beginning of the other's *)

Section PrefixNames.
Context (name rest : string).
Context (Hname : apart name) (Hlong : apart (name +:+ rest)) (Hrest : rest <> "").

Lemma prefix_not_startswith : startswith name (name +:+ rest) = false.
Proof.
  destruct (startswith name (name +:+ rest)) eqn:E; [|done].
  apply startswith_length in E. rewrite length_append in E.
  destruct rest; [done|]. cbn in E. lia.
Qed.

(** The facts about the three labels. *)
Ltac prefix_facts :=
  pose proof (apart_not_date name Hname);
  pose proof (apart_not_date _ Hlong);
  pose proof (append_neq_self name rest Hrest).

(** Evaluate the groups of [date], of [name] and of the longer name. *)
Ltac eval_prefix_groups :=
  destruct Hname as (? & Hnd & Hdn); destruct Hlong as (? & Hld & Hdl);
  repeat (rewrite filter_cons;
          rewrite ?startswith_refl, ?startswith_append, ?prefix_not_startswith,
            ?Hnd, ?Hdn, ?Hld, ?Hdl;
          cbn [decide Is_true_dec]);
  rewrite ?filter_nil.

(** The groups of [date] and of the longer name have one label each:
    their iterations change nothing. *)
Lemma step_other (df : frame) (x : string) :
  x = "date" \/ x = name +:+ rest ->
  frame_wf df -> NoDup (columns df) -> x ∈ columns df ->
  coalesce_step ["date"; name; name +:+ rest] df x = Ok df.
Proof.
  intros Hx Hwf Hnd' Hin. apply (coalesce_step_single _ _ _ x); try done.
  - destruct Hx as [-> | ->]; by eval_prefix_groups.
  - destruct Hx as [-> | ->]; apply rsplit_head_id; [done | apply Hlong].
Qed.

(** The iteration of the shorter name takes the column of the longer name
    into its group and overwrites it. *)
Lemma step_prefix (rs : list (list cell)) :
  Forall (fun row => length row = 3%nat) rs ->
  coalesce_step ["date"; name; name +:+ rest]
    (mk_frame ["date"; name; name +:+ rest] rs) name
  = Ok (mk_frame ["date"; name +:+ rest] (map coalesced_prefix rs)).
Proof.
  intros Hrs. prefix_facts.
  rewrite (coalesce_step_Ok _ _ _ (name +:+ rest)); eval_prefix_groups; cbn;
    [|done|repeat constructor; solve_labels].
  rewrite rsplit_head_id by done. unfold setitem, drop_columns.
  eval_decides. rewrite zip_with_map_same, map_map. do 2 f_equal.
  apply map_ext_Forall. eapply Forall_impl; [exact Hrs|].
  intros [|d [|x [|y [|]]]]; try done. intros _. unfold cells_at. by eval_decides.
Qed.

End PrefixNames.

(** The loop on the tables of two and of three chunks. *)
Lemma coalesce_two `{SetOrder} (name : string) (rs : list (list cell)) :
  apart name -> Forall (fun row => length row = 3%nat) rs ->
  coalesce (mk_frame ["date"; name +:+ "_x"; name +:+ "_y"] rs)
  = Ok (mk_frame ["date"; name +:+ "_y"; name] (map coalesced_two rs)).
Proof.
  intros Hname Hrs. pose proof (apart_not_date name Hname).
  destruct (suffix_facts name) as (? & ? & ? & ? & ?).
  apply (coalesce_chunks name Hname); [by left | done | by apply step_name_two | ..];
    cbn [columns]; [|solve_labels..].
  apply Forall_fmap. eapply Forall_impl; [exact Hrs|].
  by intros [|d [|x [|y [|]]]].
Qed.

Lemma coalesce_three `{SetOrder} (name : string) (rs : list (list cell)) :
  apart name -> Forall (fun row => length row = 4%nat) rs ->
  coalesce (mk_frame ["date"; name +:+ "_x"; name +:+ "_y"; name] rs)
  = Ok (mk_frame ["date"; name] (map coalesced_three rs)).
Proof.
  intros Hname Hrs. pose proof (apart_not_date name Hname).
  destruct (suffix_facts name) as (? & ? & ? & ? & ?).
  apply (coalesce_chunks name Hname); [by right | done | by apply step_name_three | ..];
    cbn [columns]; [|solve_labels..].
  apply Forall_fmap. eapply Forall_impl; [exact Hrs|].
  by intros [|d [|x [|y [|z [|]]]]].
Qed.

(** Whatever the table and the iteration order of the set, the
    coalescing loop either returns a table or raises [KeyError] (a label
    of a group has been dropped by an earlier iteration); the group of a
    name is never empty, so [relevant_columns[-1]] and [iloc[:, 0]] never
    raise [IndexError]. *)
Lemma coalesce_outcome `{SetOrder} (merged_df : frame) :
  match coalesce merged_df with
  | Ok _ => True
  | Raise e => exists missing, e = KeyError missing
  end.
Proof.
  destruct (coalesce merged_df) as [|e] eqn:E; [done|].
  apply foldM_Raise in E as (df & x & Hx & E).
  rewrite elem_of_set_iter in Hx. by eapply coalesce_step_Raise.
Qed.

(** The coalescing loop keeps the table well formed: when it returns,
    every row has one cell per label. *)
Lemma coalesce_wf `{SetOrder} (merged_df df : frame) :
  frame_wf merged_df -> coalesce merged_df = Ok df -> frame_wf df.
Proof.
  intros Hwf Hco. eapply (foldM_invariant _ frame_wf); [|exact Hwf|exact Hco].
  intros ? ? ? _. apply coalesce_step_wf.
Qed.

(** The coalescing loop makes no cell of a new kind. *)
Lemma coalesce_cells `{SetOrder} (P : cell -> Prop) (merged_df df : frame) :
  P NaN -> cells P merged_df -> coalesce merged_df = Ok df -> cells P df.
Proof.
  intros HNaN Hdf Hco. eapply (foldM_invariant _ (cells P)); [|exact Hdf|exact Hco].
  intros ? ? ? _. by apply coalesce_step_cells.
Qed.

(** ** Theorems *)

(** C28: a table with one column per name (distinct labels without [_],
    none the beginning of another) passes through the coalescing loop
    unchanged, whatever the iteration order: every group has one label
    and that label names the group. *)
Theorem coalesce_plain `{SetOrder} (df : frame) :
  plain df -> coalesce df = Ok df.
Proof.
  intros (Hwf & Hnd & Hsep & Hpre). apply foldM_id. intros x Hx.
  rewrite elem_of_set_iter in Hx. apply list_elem_of_fmap in Hx as (c & -> & Hc).
  rewrite Forall_forall in Hsep, Hpre. rewrite rsplit_head_id by auto.
  apply (coalesce_step_single _ _ _ c); [|by apply rsplit_head_id; auto|done..].
  apply filter_singleton; [done | done | by rewrite startswith_refl |].
  intros c' Hc' Hst. specialize (Hpre c Hc). rewrite Forall_forall in Hpre.
  apply Hpre; [done|]. by destruct (startswith c' c).
Qed.

Lemma coalesce_plain_witness :
  plain frame_A /\ coalesce (H := reverse_order) frame_A = Ok frame_A.
Proof. split; [by_compute | apply coalesce_plain; by_compute]. Defined.

(** C6: the chunks of one instrument.  On the table
    [date, name_x, name_y] that the merge of two chunks leaves, the loop
    adds the column [name] with the first valid value of the two and drops
    [name_x] only: the suffixed column [name_y] stays in the result.  On
    the table [date, name_x, name_y, name] of three chunks the loop writes
    the first valid value of the three columns into [name] and drops the
    two suffixed columns.  Both in whatever order the groups are
    visited. *)
Theorem coalesce_chunks_of_one_instrument `{SetOrder} (name : string)
    (rs2 rs3 : list (list cell)) :
  apart name ->
  Forall (fun row => length row = 3%nat) rs2 ->
  Forall (fun row => length row = 4%nat) rs3 ->
  coalesce (mk_frame ["date"; name +:+ "_x"; name +:+ "_y"] rs2)
  = Ok (mk_frame ["date"; name +:+ "_y"; name] (map coalesced_two rs2)) /\
  coalesce (mk_frame ["date"; name +:+ "_x"; name +:+ "_y"; name] rs3)
  = Ok (mk_frame ["date"; name] (map coalesced_three rs3)).
Proof. intros. split; [by apply coalesce_two | by apply coalesce_three]. Qed.

Lemma coalesce_chunks_of_one_instrument_witness :
  coalesce (H := reverse_order)
    (mk_frame ["date"; "SBER_x"; "SBER_y"]
       [[CDate 1; money 10; NaN]; [CDate 2; NaN; money 20]])
  = Ok (mk_frame ["date"; "SBER_y"; "SBER"]
          [[CDate 1; NaN; money 10]; [CDate 2; money 20; money 20]]) /\
  coalesce (H := reverse_order)
    (mk_frame ["date"; "SBER_x"; "SBER_y"; "SBER"]
       [[CDate 1; money 10; NaN; NaN]; [CDate 2; NaN; money 20; NaN];
        [CDate 3; NaN; NaN; money 30]])
  = Ok (mk_frame ["date"; "SBER"]
          [[CDate 1; money 10]; [CDate 2; money 20]; [CDate 3; money 30]]).
Proof.
  apply (coalesce_chunks_of_one_instrument (H := reverse_order) "SBER");
    [by_compute | by repeat constructor..].
Defined.

(** C21: two instruments of which one name is the beginning of the other
    (as the names of a company's ordinary and preferred shares are).  The
    group of the shorter name also takes the column of the longer name,
    the first valid value of the two is written under the longer name,
    and the column of the shorter name is dropped: the result has one price
    column, labelled with the longer name and holding the prices of the
    other instrument wherever it has one. *)
Theorem coalesce_prefix_names `{SetOrder} (name rest : string)
    (rs : list (list cell)) :
  apart name -> apart (name +:+ rest) -> rest <> "" ->
  Forall (fun row => length row = 3%nat) rs ->
  coalesce (mk_frame ["date"; name; name +:+ rest] rs)
  = Ok (mk_frame ["date"; name +:+ rest] (map coalesced_prefix rs)).
Proof.
  intros Hname Hlong Hrest Hrs. unfold coalesce. cbn [columns map].
  pose proof (apart_not_date name Hname). pose proof (apart_not_date _ Hlong).
  pose proof (append_neq_self name rest Hrest).
  rewrite !rsplit_head_id by (done || apply Hname || apply Hlong).
  apply (foldM_one_change _ _ name); [apply set_iter_NoDup| | |].
  - rewrite elem_of_set_iter. solve_labels.
  - by apply step_prefix.
  - intros x Hx Hne. rewrite elem_of_set_iter, !elem_of_cons, elem_of_nil in Hx.
    assert (x = "date" \/ x = name +:+ rest) as Hx' by tauto.
    split; apply step_other; try done; cbn [columns];
      try (destruct Hx' as [-> | ->]; solve_labels).
    apply Forall_fmap. eapply Forall_impl; [exact Hrs|].
    by intros [|d [|a [|b [|]]]].
Qed.

Lemma coalesce_prefix_names_witness :
  coalesce (H := insertion_order)
    (mk_frame ["date"; "Sber"; "Sber-p"]
       [[CDate 1; money 300; money 290]; [CDate 2; NaN; money 291]])
  = Ok (mk_frame ["date"; "Sber-p"]
          [[CDate 1; money 300]; [CDate 2; money 291]]).
Proof.
  apply (coalesce_prefix_names (H := insertion_order) "Sber" "-p");
    [by_compute | by_compute | done | by repeat constructor].
Defined.



(** The order of the columns depends on the order in which the set of
    names is visited.  On the table of two instruments with two chunks
    each, every order of the groups gives the same table up to the order
    of its columns, but the order of first insertion and its reverse give
    the columns of the two instruments in opposite orders: the result of
    the run is determined only up to what Python's [set] of strings
    does. *)
Theorem coalesce_column_order :
  let expected := mk_frame ["date"; "A_y"; "B_y"; "A"; "B"]
                    [[CDate 1; NaN; NaN; money 10; money 30];
                     [CDate 2; money 20; money 40; money 20; money 40]] in
  (forall order : SetOrder,
      returns (fun df => same_table df expected)
        (coalesce (H := order) frame_two_by_two))
  /\ coalesce (H := insertion_order) frame_two_by_two = Ok expected
  /\ coalesce (H := reverse_order) frame_two_by_two
     = Ok (mk_frame ["date"; "A_y"; "B_y"; "B"; "A"]
             [[CDate 1; NaN; NaN; money 30; money 10];
              [CDate 2; money 20; money 40; money 40; money 20]]).
Proof.
  intros expected. split; [|by split; vm_compute].
  intros order. apply (coalesce_orders_Forall (returns (fun df => same_table df expected))).
  by_compute.
Qed.
