(* ===== verification/Groups.v ===== *)
(** * Groups: the coalescing loop on a table of several instruments

    The loop of [Coalesce] visits the groups of labels in the iteration
    order of a set.  This file gives the loop an abstract specification
    that mentions no order, and shows that the loop implements it on
    every table whose groups stand apart from one another.

    The abstraction forgets the order of the columns: a table is the set
    of its labels and, for each row, the finite map from the labels to
    the cells of the row ([table_of]).  On such a table the body of the
    loop for one group is [table_step]: the combined label receives the
    first value of the group's columns that is not missing, and all the
    group's labels but the last are removed.  Steps for groups that
    stand apart commute, so the fold over the groups does not depend on
    the order, and each group is left as [group_coalesced] says.

    The tables the program builds have labels drawn from the families of
    the instruments' names ([family]: the name, or the name with a suffix
    of the join).  When the names stand apart ([keys_apart]) the groups of
    such labels stand apart ([separate_families]), and a join with the
    table of a further chunk keeps the labels that way
    ([grouped_labels_chunk]). *)

From Stdlib Require Import ZArith Lia Ascii.
From stdpp Require Import base tactics option list strings gmap.
From S2P Require Import Prelude DateTime Money PyStr Frame Merge Coalesce.

#[local] Open Scope string_scope.
#[local] Open Scope list_scope.

(** ** Tables without an order of columns *)

(** A row as a map from the labels to its cells. *)
Definition row_map (cols : list string) (row : list cell) : gmap string cell :=
  list_to_map (zip cols row).

Definition rows_of (df : frame) : list (gmap string cell) :=
  map (row_map (columns df)) (rows df).

(** A table up to the order of its columns: the labels, and the rows. *)
Definition table : Type := gset string * list (gmap string cell).

Definition table_of (df : frame) : table := (list_to_set (columns df), rows_of df).

(** ** Groups *)

(** A group: the labels the loop selects for a name ([relevant_columns])
    and the label it assigns to ([combined_column]). *)
Record group : Type := mk_group { members : list string; combined : string }.

Definition group_of (labels : list string) (g : string) : group :=
  let rel := filter (fun col => startswith col g) labels in
  mk_group rel (rsplit_head "_" (default g (last rel))).

(** The labels a step for the group reads or writes. *)
Definition footprint (gr : group) : list string := combined gr :: members gr.

(** The value the step assigns in a row. *)
Definition first_valid_of (gr : group) (m : gmap string cell) : cell :=
  first_valid (omap (m !!.) (members gr)).

(** The step on a row: the assignment of line 123, then the drop of line
    124. *)
Definition row_step (gr : group) (m : gmap string cell) : gmap string cell :=
  filter (fun kv => kv.1 ∉ removelast (members gr))
         (<[combined gr := first_valid_of gr m]> m).

(** The step on the labels, as a list and as a set. *)
Definition columns_step (gr : group) (cols : list string) : list string :=
  filter (fun c => c ∉ removelast (members gr))
         (if decide (combined gr ∈ cols) then cols else cols ++ [combined gr]).

Definition labels_step (gr : group) (L : gset string) : gset string :=
  (L ∪ {[combined gr]}) ∖ list_to_set (removelast (members gr)).

(** The step on a table, and the steps for a list of names on a row. *)
Definition table_step (labels : list string) (t : table) (g : string) : table :=
  let gr := group_of labels g in
  (labels_step gr t.1, map (row_step gr) t.2).

Definition row_fold (labels : list string) (gs : list string) (m : gmap string cell)
    : gmap string cell :=
  foldl (fun m g => row_step (group_of labels g) m) m gs.

(** What the loop promises for a group, between a row [m] of the table
    and the row [m'] of the result: the labels of the group except the
    last are gone; the combined label, unless it is one of those, holds
    the first value of the group that is not missing; and the last label
    of the group, when it is not the combined label, still holds what it
    held. *)
Definition group_coalesced (gr : group) (m m' : gmap string cell) : Prop :=
  (forall l, l ∈ removelast (members gr) -> m' !! l = None)
  /\ ((combined gr ∉ removelast (members gr)) ->
      m' !! combined gr = Some (first_valid_of gr m))
  /\ (forall l, last (members gr) = Some l -> l <> combined gr -> m' !! l = m !! l).

(** The groups stand apart: no label that one group reads or writes is
    read or written by another. *)
Definition separate (labels : list string) : Prop :=
  let names := map (rsplit_head "_") labels in
  Forall (fun g1 =>
            Forall (fun g2 =>
                      g1 <> g2 ->
                      Forall (fun l => l ∉ footprint (group_of labels g2))
                             (footprint (group_of labels g1)))
                   names)
         names.

#[global] Instance separate_dec (labels : list string) : Decision (separate labels).
Proof. unfold separate. apply _. Defined.

(** ** Tables of named instruments *)

(** The labels a name can have in the table: the name itself, or the name
    with a suffix of the join. *)
Definition family (n : string) : list string := [n; n +:+ "_x"; n +:+ "_y"].

Definition families (keys : list string) : list string := flat_map family keys.

(** Names that stand apart: none holds the separator, and none is the
    beginning of another. *)
Definition keys_apart (keys : list string) : Prop :=
  Forall (fun g => contains "_" g = false) keys
  /\ Forall (fun g => Forall (fun h => g <> h -> startswith h g = false) keys) keys.

#[global] Instance keys_apart_dec (keys : list string) : Decision (keys_apart keys).
Proof. unfold keys_apart. apply _. Defined.

(** The suffixed labels of a name come in pairs. *)
Definition paired (names cols : list string) : Prop :=
  Forall (fun n => n +:+ "_x" ∈ cols <-> n +:+ "_y" ∈ cols) names.

(** The labels of a table built from chunks of the instruments [names]:
    distinct, each [date] or a label of one of the names, the suffixed
    ones in pairs. *)
Definition grouped_labels (names cols : list string) : Prop :=
  NoDup cols /\ Forall (fun c => c ∈ families ("date" :: names)) cols /\ paired names cols.

#[global] Instance grouped_labels_dec (names cols : list string) :
  Decision (grouped_labels names cols).
Proof. unfold grouped_labels, paired. apply _. Defined.

(** ** Rows as maps *)

Lemma row_map_cons (c : string) (cols : list string) (y : cell) (row : list cell) :
  row_map (c :: cols) (y :: row) = <[c := y]> (row_map cols row).
Proof. reflexivity. Qed.

Lemma row_map_lookup_None (cols : list string) (row : list cell) (l : string) :
  l ∉ cols -> row_map cols row !! l = None.
Proof.
  intros Hl. apply not_elem_of_list_to_map_1. intros Hin. apply Hl.
  apply list_elem_of_fmap in Hin as ([k x] & -> & Hin). by apply elem_of_zip_l in Hin.
Qed.

Lemma row_map_lookup_is_Some (cols : list string) (row : list cell) (l : string) :
  length row = length cols -> l ∈ cols -> is_Some (row_map cols row !! l).
Proof.
  revert row. induction cols as [|c cols IH]; intros [|y row] Hlen Hin; try done.
  - by apply elem_of_nil in Hin.
  - rewrite row_map_cons. destruct (decide (c = l)) as [->|Hne].
    + rewrite lookup_insert_eq. eauto.
    + rewrite lookup_insert_ne by done. apply IH; [cbn in Hlen; lia|].
      apply elem_of_cons in Hin as [|]; congruence.
Qed.

Lemma cells_at_row_map (cols : list string) (row : list cell) (l : string) (x : cell) :
  NoDup cols -> row_map cols row !! l = Some x -> cells_at l cols row = [x].
Proof.
  intros Hnd Hl. apply cells_at_NoDup; [done|].
  apply elem_of_list_to_map_2 in Hl. done.
Qed.

(** The cells a selection reads are the values of the map. *)
Lemma picks_row_map (cols : list string) (row : list cell) (rel : list string) :
  NoDup cols -> length row = length cols -> Forall (fun l => l ∈ cols) rel ->
  flat_map (fun l => cells_at l cols row) rel = omap (row_map cols row !!.) rel.
Proof.
  intros Hnd Hlen. induction 1 as [|l rel Hl _ IH]; [done|]. cbn [flat_map omap].
  destruct (row_map_lookup_is_Some cols row l Hlen Hl) as [x Hx].
  cbn. rewrite Hx. cbn. by rewrite (cells_at_row_map cols row l x), IH.
Qed.

(** A row is the values of its map, label by label. *)
Lemma row_of_row_map (cols : list string) (row : list cell) :
  NoDup cols -> length row = length cols ->
  omap (row_map cols row !!.) cols = row.
Proof.
  intros Hnd. revert row. induction Hnd as [|c cols Hc Hnd IH]; intros [|y row] Hlen; try done.
  rewrite row_map_cons. csimpl. rewrite lookup_insert_eq. csimpl. f_equal.
  etrans; [|apply (IH row); cbn in Hlen; lia].
  apply list_omap_ext, Forall2_same_length_lookup. split; [done|].
  intros i l l' Hl Hl'. assert (l' = l) as -> by congruence.
  apply list_elem_of_lookup_2 in Hl. rewrite lookup_insert_ne; [done|]. by intros ->.
Qed.

(** Writing under a label that is there, appending a label that is not,
    and dropping labels, on the maps. *)
Lemma row_map_write (cols : list string) (row : list cell) (label : string) (v : cell) :
  length row = length cols ->
  row_map cols (map (fun p => if decide (p.1 = label) then v else p.2) (zip cols row))
  = if decide (label ∈ cols) then <[label := v]> (row_map cols row) else row_map cols row.
Proof.
  revert row. induction cols as [|c cols IH]; intros [|y row] Hlen; try done.
  change (zip (c :: cols) (y :: row)) with ((c, y) :: zip cols row).
  cbn [map fst snd]. rewrite !row_map_cons, IH by (cbn in Hlen; lia).
  destruct (decide (c = label)) as [->|Hne].
  - rewrite (decide_True (P := label ∈ label :: cols)) by left.
    rewrite insert_insert_eq. case_decide; [by rewrite insert_insert_eq|done].
  - destruct (decide (label ∈ cols)) as [Hin|Hout].
    + rewrite (decide_True (P := label ∈ c :: cols)) by (by right).
      by apply insert_insert_ne.
    + rewrite (decide_False (P := label ∈ c :: cols)); [done|].
      rewrite elem_of_cons. intros [|]; congruence.
Qed.

Lemma row_map_append (cols : list string) (row : list cell) (label : string) (v : cell) :
  length row = length cols -> label ∉ cols ->
  row_map (cols ++ [label]) (row ++ [v]) = <[label := v]> (row_map cols row).
Proof.
  intros Hlen Hout. unfold row_map. rewrite zip_with_app by done.
  rewrite list_to_map_app. cbn [zip_with list_to_map foldr].
  rewrite insert_empty, <- insert_union_singleton_r; [done|].
  by apply row_map_lookup_None.
Qed.

Lemma zip_drop (labels cols : list string) (row : list cell) :
  length row = length cols ->
  zip (filter (fun c => c ∉ labels) cols)
      (map snd (filter (fun p => p.1 ∉ labels) (zip cols row)))
  = filter (fun p => p.1 ∉ labels) (zip cols row).
Proof.
  revert row. induction cols as [|c cols IH]; intros [|y row] Hlen; try done.
  change (zip (c :: cols) (y :: row)) with ((c, y) :: zip cols row).
  rewrite !filter_cons. cbn [fst]. destruct (decide (c ∉ labels)); cbn; rewrite IH; try done;
    cbn in Hlen; lia.
Qed.

Lemma list_to_map_drop (labels : list string) (l : list (string * cell)) :
  list_to_map (filter (fun p => p.1 ∉ labels) l)
  =@{gmap string cell} filter (fun kv => kv.1 ∉ labels) (list_to_map l).
Proof.
  induction l as [|[k x] l IH]; [symmetry; apply map_filter_empty|].
  rewrite filter_cons. cbn [fst list_to_map foldr]. destruct (decide (k ∉ labels)).
  - cbn. rewrite IH. symmetry. by apply map_filter_insert_True.
  - rewrite IH. symmetry. apply map_filter_insert_not. by intros y.
Qed.

Lemma row_map_drop (cols : list string) (row : list cell) (labels : list string) :
  length row = length cols ->
  row_map (filter (fun c => c ∉ labels) cols)
    (map snd (filter (fun p => p.1 ∉ labels) (zip cols row)))
  = filter (fun kv => kv.1 ∉ labels) (row_map cols row).
Proof.
  intros Hlen. unfold row_map. rewrite zip_drop by done. apply list_to_map_drop.
Qed.

(** ** One step of the loop *)

Lemma rows_of_setitem (label : string) (g : list cell -> cell) (df : frame) :
  frame_wf df ->
  let df' := setitem label (map g (rows df)) df in
  columns df' = (if decide (label ∈ columns df) then columns df else columns df ++ [label])
  /\ rows_of df' = map (fun row => <[label := g row]> (row_map (columns df) row)) (rows df).
Proof.
  intros Hwf df'. subst df'. rewrite setitem_rows. unfold rows_of.
  destruct (decide (label ∈ columns df)) as [Hin|Hout].
  - rewrite bool_decide_eq_true_2 by done. cbn [columns rows]. split; [done|].
    rewrite map_map. apply map_ext_Forall. eapply Forall_impl; [exact Hwf|].
    intros row Hlen. cbn beta in *. by rewrite row_map_write, decide_True.
  - rewrite bool_decide_eq_false_2 by done. cbn [columns rows]. split; [done|].
    rewrite map_map. apply map_ext_Forall. eapply Forall_impl; [exact Hwf|].
    intros row Hlen. by apply row_map_append.
Qed.

Lemma rows_of_drop_columns (labels : list string) (df : frame) :
  frame_wf df -> Forall (fun l => l ∈ columns df) labels ->
  exists df', drop_columns labels df = Ok df'
    /\ columns df' = filter (fun c => c ∉ labels) (columns df)
    /\ rows_of df' = map (filter (fun kv => kv.1 ∉ labels)) (rows_of df).
Proof.
  intros Hwf Hall. unfold drop_columns.
  assert (filter (fun l => l ∉ columns df) labels = []) as ->.
  { apply filter_nil_Forall. eapply Forall_impl; [exact Hall|]. tauto. }
  eexists. split; [done|]. split; [done|]. unfold rows_of. cbn [rows columns].
  rewrite !map_map. apply map_ext_Forall. eapply Forall_impl; [exact Hwf|].
  intros row Hlen. by apply row_map_drop.
Qed.

(** The body of the loop implements the step on tables. *)
Lemma coalesce_step_groups (labels : list string) (df : frame) (g : string) :
  let gr := group_of labels g in
  frame_wf df -> NoDup (columns df) -> members gr <> [] ->
  Forall (fun l => l ∈ columns df) (members gr) ->
  exists df', coalesce_step labels df g = Ok df'
    /\ columns df' = columns_step gr (columns df)
    /\ rows_of df' = map (row_step gr) (rows_of df)
    /\ frame_wf df' /\ NoDup (columns df').
Proof.
  intros gr Hwf Hnd Hne Hall.
  destruct (last_item_Ok (members gr) Hne) as (c & Hlast & _).
  rewrite (coalesce_step_Ok labels df g c) by done. fold (members gr).
  assert (combined gr = rsplit_head "_" c) as <-.
  { unfold gr, group_of in *. cbn [combined members] in *. by rewrite Hlast. }
  set (values := fun row => first_valid _).
  destruct (rows_of_setitem (combined gr) values df Hwf) as [Hcols Hrows].
  destruct (rows_of_drop_columns (removelast (members gr))
              (setitem (combined gr) (map values (rows df)) df)) as (df' & Hdf' & Hc' & Hr').
  { by apply setitem_wf. }
  { rewrite Hcols. apply Forall_forall. intros l Hl%elem_of_removelast.
    rewrite Forall_forall in Hall. specialize (Hall l Hl).
    case_decide; [done|]. apply elem_of_app. by left. }
  exists df'. split; [done|]. rewrite Hc', Hr', Hcols, Hrows. split_and!.
  - done.
  - unfold rows_of. rewrite !map_map. apply map_ext_Forall.
    eapply Forall_impl; [exact Hwf|]. intros row Hlen. cbn beta in *.
    unfold row_step, first_valid_of, values. by rewrite picks_row_map.
  - eapply drop_columns_wf; [|exact Hdf']. by apply setitem_wf.
  - apply NoDup_filter. case_decide; [done|].
    apply NoDup_app. split_and!; [done| |apply NoDup_singleton].
    by intros x Hx ->%list_elem_of_singleton.
Qed.

Lemma list_to_set_columns_step (gr : group) (cols : list string) :
  list_to_set (columns_step gr cols) = labels_step gr (list_to_set cols).
Proof.
  unfold columns_step, labels_step. apply set_eq. intros l.
  rewrite elem_of_list_to_set, list_elem_of_filter, elem_of_difference, elem_of_union,
    elem_of_singleton, !elem_of_list_to_set.
  case_decide; [|rewrite elem_of_app, list_elem_of_singleton]; intuition congruence.
Qed.

(** ** Steps for groups that stand apart commute *)

Lemma lookup_row_step (gr : group) (m : gmap string cell) (l : string) :
  row_step gr m !! l
  = if decide (l ∈ removelast (members gr)) then None
    else if decide (l = combined gr) then Some (first_valid_of gr m)
    else m !! l.
Proof.
  unfold row_step. apply option_eq. intros x. rewrite map_lookup_filter_Some. cbn [fst].
  destruct (decide (l ∈ removelast (members gr))); [by intuition|].
  destruct (decide (l = combined gr)) as [->|Hne].
  - rewrite lookup_insert_eq. by intuition.
  - rewrite lookup_insert_ne by done. by intuition.
Qed.

Section Separate.
Context (g1 g2 : group).
Context (Hsep : forall l, l ∈ footprint g1 -> l ∉ footprint g2).

Lemma separate_facts :
  combined g1 <> combined g2
  /\ (combined g1 ∉ removelast (members g2)) /\ (combined g2 ∉ removelast (members g1))
  /\ (forall l, l ∈ members g1 -> l <> combined g2 /\ (l ∉ removelast (members g2))).
Proof.
  unfold footprint in Hsep. split_and!.
  - intros E. apply (Hsep (combined g1)); [left|]. rewrite E. left.
  - intros Hin%elem_of_removelast. apply (Hsep (combined g1)); [left|by right].
  - intros Hin%elem_of_removelast. apply (Hsep (combined g2)); [by right|left].
  - intros l Hl. split.
    + intros ->. apply (Hsep (combined g2)); [by right|left].
    + intros Hin%elem_of_removelast. apply (Hsep l); by right.
Qed.

(** The value assigned for a group is not changed by the step for the
    other. *)
Lemma first_valid_of_step (m : gmap string cell) :
  first_valid_of g1 (row_step g2 m) = first_valid_of g1 m.
Proof.
  destruct separate_facts as (_ & _ & _ & Hmem).
  unfold first_valid_of. f_equal. apply list_omap_ext, Forall2_same_length_lookup.
  split; [done|]. intros i l l' Hl Hl'. assert (l' = l) as -> by congruence.
  apply list_elem_of_lookup_2 in Hl. destruct (Hmem l Hl) as [Hc Hr].
  rewrite lookup_row_step. by rewrite !decide_False.
Qed.

End Separate.

Lemma row_step_comm (g1 g2 : group) (m : gmap string cell) :
  (forall l, l ∈ footprint g1 -> l ∉ footprint g2) ->
  row_step g2 (row_step g1 m) = row_step g1 (row_step g2 m).
Proof.
  intros Hsep.
  assert (forall l, l ∈ footprint g2 -> l ∉ footprint g1) as Hsep'
    by (intros l H2 H1; by apply (Hsep l)).
  destruct (separate_facts g1 g2 Hsep) as (Hc & Hc1 & Hc2 & _).
  apply map_eq. intros l. rewrite !lookup_row_step.
  rewrite (first_valid_of_step g1 g2 Hsep), (first_valid_of_step g2 g1 Hsep').
  repeat case_decide; subst; done.
Qed.

Lemma labels_step_comm (g1 g2 : group) (L : gset string) :
  (forall l, l ∈ footprint g1 -> l ∉ footprint g2) ->
  labels_step g2 (labels_step g1 L) = labels_step g1 (labels_step g2 L).
Proof.
  intros Hsep. destruct (separate_facts g1 g2 Hsep) as (Hc & Hc1 & Hc2 & _).
  unfold labels_step. apply set_eq. intros l.
  rewrite !elem_of_difference, !elem_of_union, !elem_of_difference, !elem_of_union,
    !elem_of_singleton, !elem_of_list_to_set.
  intuition congruence.
Qed.

(** ** The loop *)

Lemma last_not_removelast {A : Type} (l : list A) (x : A) :
  NoDup l -> last l = Some x -> x ∉ removelast l.
Proof.
  induction 1 as [|y l Hy Hnd IH]; [done|]. destruct l as [|z l]; [by intros _ ?%elem_of_nil|].
  intros Hlast. change (removelast (y :: z :: l)) with (y :: removelast (z :: l)).
  change (last (y :: z :: l)) with (last (z :: l)) in Hlast.
  rewrite not_elem_of_cons. split; [|by apply IH].
  intros ->. apply Hy. by apply last_Some_elem_of.
Qed.

Lemma table_fold_rows (labels gs : list string) (t : table) :
  (foldl (table_step labels) t gs).2 = map (row_fold labels gs) t.2.
Proof.
  revert t. induction gs as [|g gs IH]; intros t; cbn [foldl].
  - unfold row_fold. symmetry. apply map_id.
  - rewrite IH. unfold table_step. cbn [snd]. by rewrite map_map.
Qed.

Section Loop.
Context (labels : list string) (Hsep : separate labels).

Lemma separate_groups (g1 g2 : string) (l : string) :
  g1 ∈ map (rsplit_head "_") labels -> g2 ∈ map (rsplit_head "_") labels -> g1 <> g2 ->
  l ∈ footprint (group_of labels g1) -> l ∉ footprint (group_of labels g2).
Proof.
  intros H1 H2 Hne Hl. unfold separate in Hsep. rewrite Forall_forall in Hsep.
  specialize (Hsep g1 H1). rewrite Forall_forall in Hsep. specialize (Hsep g2 H2 Hne).
  rewrite Forall_forall in Hsep. by apply Hsep.
Qed.

Lemma table_step_comm (t : table) (g1 g2 : string) :
  g1 ∈ map (rsplit_head "_") labels -> g2 ∈ map (rsplit_head "_") labels -> g1 <> g2 ->
  table_step labels (table_step labels t g1) g2
  = table_step labels (table_step labels t g2) g1.
Proof.
  intros H1 H2 Hne. unfold table_step. cbn [fst snd]. f_equal.
  - apply labels_step_comm. intros l. by apply separate_groups.
  - rewrite !map_map. apply map_ext. intros m. apply row_step_comm.
    intros l. by apply separate_groups.
Qed.

(** The loop over any list of distinct group names whose labels are still
    in the table. *)
Lemma coalesce_fold (gs : list string) (df : frame) :
  NoDup gs -> Forall (fun g => g ∈ map (rsplit_head "_") labels) gs ->
  frame_wf df -> NoDup (columns df) ->
  Forall (fun g => Forall (fun l => l ∈ columns df) (members (group_of labels g))) gs ->
  exists df', foldM (coalesce_step labels) df gs = Ok df'
    /\ frame_wf df' /\ NoDup (columns df')
    /\ table_of df' = foldl (table_step labels) (table_of df) gs.
Proof.
  revert df. induction gs as [|g gs IH]; intros df Hgs Hnames Hwf Hnd Hpresent.
  { exists df. by split_and!. }
  apply NoDup_cons in Hgs as [Hg Hgs]. apply Forall_cons in Hnames as [Hname Hnames].
  apply Forall_cons in Hpresent as [Hmem Hpresent].
  destruct (coalesce_step_groups labels df g) as (df1 & Hstep & Hcols & Hrows & Hwf1 & Hnd1);
    [done | done | by apply relevant_nonempty | done |].
  destruct (IH df1) as (df' & Hloop & Hwf' & Hnd' & Htable); try done.
  { rewrite Forall_forall in Hnames, Hpresent. apply Forall_forall. intros g' Hg'.
    specialize (Hpresent g' Hg'). rewrite Forall_forall in Hpresent.
    apply Forall_forall. intros l Hl. rewrite Hcols. apply list_elem_of_filter. split.
    - intros Hin%elem_of_removelast.
      apply (separate_groups g' g l); [auto | done | by intros -> | by right | by right].
    - case_decide; [|apply elem_of_app; left]; auto. }
  exists df'. cbn [foldM]. rewrite Hstep. cbn [bind]. split_and!; try done.
  rewrite Htable. cbn [foldl]. f_equal. unfold table_of, table_step. cbn [fst snd].
  by rewrite Hcols, Hrows, list_to_set_columns_step.
Qed.

Lemma row_fold_other (gs : list string) (m : gmap string cell) (l : string) :
  Forall (fun g => (l ∉ removelast (members (group_of labels g)))
                   /\ l <> combined (group_of labels g)) gs ->
  row_fold labels gs m !! l = m !! l.
Proof.
  intros H. revert m. induction H as [|g gs [Hr Hc] _ IH]; intros m; [done|].
  unfold row_fold in *. cbn [foldl]. rewrite IH, lookup_row_step.
  by rewrite !decide_False.
Qed.

Lemma outside_others (g : string) (gs : list string) (l : string) :
  g ∈ map (rsplit_head "_") labels -> Forall (fun g' => g' ∈ map (rsplit_head "_") labels) gs -> g ∉ gs ->
  l ∈ footprint (group_of labels g) ->
  Forall (fun g' => (l ∉ removelast (members (group_of labels g')))
                    /\ l <> combined (group_of labels g')) gs.
Proof.
  intros Hg Hgs Hout Hl. rewrite Forall_forall in Hgs. apply Forall_forall. intros g' Hg'.
  assert (l ∉ footprint (group_of labels g')) as Hl'.
  { apply (separate_groups g g'); auto. by intros ->. }
  unfold footprint in Hl'. rewrite not_elem_of_cons in Hl'. destruct Hl' as [Hc Hm].
  split; [|done]. by intros ?%elem_of_removelast.
Qed.

(** Every group of the list has been coalesced by the steps for the list. *)
Lemma row_fold_groups (gs : list string) (m : gmap string cell) (g : string) :
  NoDup labels -> NoDup gs -> Forall (fun g' => g' ∈ map (rsplit_head "_") labels) gs -> g ∈ gs ->
  group_coalesced (group_of labels g) m (row_fold labels gs m).
Proof.
  intros Hlabels Hnd Hnames Hg. revert m.
  induction gs as [|g0 gs IH]; intros m; [by apply elem_of_nil in Hg|].
  apply NoDup_cons in Hnd as [Hg0 Hnd]. apply Forall_cons in Hnames as [Hname0 Hnames].
  change (row_fold labels (g0 :: gs) m) with (row_fold labels gs (row_step (group_of labels g0) m)).
  apply elem_of_cons in Hg as [->|Hg].
  - split_and!.
    + intros l Hl. rewrite row_fold_other, lookup_row_step, decide_True; [done..|].
      apply (outside_others g0); try done. right. by apply elem_of_removelast.
    + intros Hc. rewrite row_fold_other, lookup_row_step, decide_False, decide_True; [done..|].
      apply (outside_others g0); try done. left.
    + intros l Hlast Hne.
      assert (l ∉ removelast (members (group_of labels g0))) as Hl.
      { apply last_not_removelast; [|done]. by apply NoDup_filter. }
      rewrite row_fold_other, lookup_row_step, !decide_False; [done..|].
      apply (outside_others g0); try done. right. by apply last_Some_elem_of.
  - assert (g <> g0) as Hne by (by intros ->).
    assert (g ∈ map (rsplit_head "_") labels) as Hname by (rewrite Forall_forall in Hnames; auto).
    destruct (IH Hnd Hnames Hg (row_step (group_of labels g0) m)) as (Hdrop & Hcomb & Hlast).
    split_and!; [done| |].
    + intros Hc. rewrite Hcomb by done. f_equal. apply first_valid_of_step.
      intros l. by apply (separate_groups g g0).
    + intros l Hl Hlc. rewrite Hlast, lookup_row_step by done.
      assert (l ∉ footprint (group_of labels g0)) as Hout.
      { apply (separate_groups g g0); try done. right.
        by apply last_Some_elem_of. }
      unfold footprint in Hout. rewrite not_elem_of_cons in Hout. destruct Hout as [? Hm].
      rewrite !decide_False; [done..|]. by intros ?%elem_of_removelast.
Qed.

End Loop.

(** ** Back to frames *)

Lemma filter_eq_NoDup (cols : list string) (l : string) :
  NoDup cols -> l ∈ cols -> filter (fun c => c = l) cols = [l].
Proof.
  intros Hnd Hl. by apply filter_singleton.
Qed.

Lemma select_labels_NoDup (cols labels : list string) :
  NoDup cols -> Forall (fun l => l ∈ cols) labels ->
  flat_map (fun l => filter (fun c => c = l) cols) labels = labels.
Proof.
  intros Hnd. induction 1 as [|l labels Hl _ IH]; [done|].
  cbn [flat_map]. by rewrite filter_eq_NoDup, IH.
Qed.

(** Frames with the same table are the same up to the order of their
    columns. *)
Lemma same_table_of (df df' : frame) :
  frame_wf df -> NoDup (columns df) -> frame_wf df' -> NoDup (columns df') ->
  table_of df = table_of df' -> same_table df df'.
Proof.
  intros Hwf Hnd Hwf' Hnd' [= Hset Hrows].
  assert (Forall (fun l => l ∈ columns df) (columns df')) as Hmem.
  { apply Forall_forall. intros l.
    by rewrite <- !(elem_of_list_to_set (C := gset string)), Hset. }
  assert (columns df ≡ₚ columns df') as Hperm.
  { apply NoDup_Permutation; [done..|]. intros l.
    by rewrite <- !(elem_of_list_to_set (C := gset string)), Hset. }
  split; [by rewrite Hperm|]. rewrite select_present by done.
  rewrite select_labels_NoDup by done.
  destruct df' as [cols' rs']. cbn [columns rows] in *. do 2 f_equal.
  unfold rows_of in Hrows. cbn [columns rows] in Hrows.
  apply (f_equal (map (fun m : gmap string cell => omap (m !!.) cols'))) in Hrows.
  rewrite !map_map in Hrows.
  etrans; [apply map_ext_Forall|etrans; [exact Hrows|etrans; [apply map_ext_Forall|apply map_id]]].
  - eapply Forall_impl; [exact Hwf|]. intros row Hlen. by apply picks_row_map.
  - eapply Forall_impl; [exact Hwf'|]. intros row Hlen. by apply row_of_row_map.
Qed.

Lemma set_iter_Forall `{SetOrder} (l : list string) :
  Forall (fun g => g ∈ l) (set_iter l).
Proof. apply Forall_forall. intros g. by rewrite elem_of_set_iter. Qed.

Section Orders.
Context (df : frame) (Hwf : frame_wf df) (Hnd : NoDup (columns df)).
Context (Hsep : separate (columns df)).

(** The loop in the order of the set. *)
Lemma coalesce_table `{SetOrder} :
  exists df', coalesce df = Ok df' /\ frame_wf df' /\ NoDup (columns df')
    /\ table_of df' = foldl (table_step (columns df)) (table_of df)
                        (set_iter (map (rsplit_head "_") (columns df))).
Proof.
  apply coalesce_fold; try done.
  - apply set_iter_NoDup.
  - apply set_iter_Forall.
  - apply Forall_forall. intros g _. apply Forall_forall.
    by intros l [_ Hl]%list_elem_of_filter.
Qed.

Lemma table_fold_perm (gs gs' : list string) (t : table) :
  NoDup gs -> Forall (fun g => g ∈ map (rsplit_head "_") (columns df)) gs -> gs ≡ₚ gs' ->
  foldl (table_step (columns df)) t gs = foldl (table_step (columns df)) t gs'.
Proof.
  intros Hgs Hnames Hperm. apply foldl_pairwise_perm; [|done..].
  rewrite Forall_forall in Hnames. intros a b Ha Hb Hne s.
  apply table_step_comm; auto.
Qed.

End Orders.

(** ** Labels drawn from the families of names that stand apart *)

Lemma elem_of_family (c n : string) :
  c ∈ family n <-> c = n \/ c = n +:+ "_x" \/ c = n +:+ "_y".
Proof. unfold family. rewrite !elem_of_cons, elem_of_nil. tauto. Qed.

Lemma elem_of_families (keys : list string) (c : string) :
  c ∈ families keys <-> exists h, h ∈ keys /\ c ∈ family h.
Proof.
  unfold families. rewrite list_elem_of_In, in_flat_map. setoid_rewrite list_elem_of_In.
  done.
Qed.

Lemma rsplit_head_family (c h : string) :
  contains "_" h = false -> c ∈ family h -> rsplit_head "_" c = h.
Proof.
  intros Hh [->|[->| ->]]%elem_of_family;
    [by apply rsplit_head_id | by apply rsplit_head_append..].
Qed.

Lemma startswith_family (c g h : string) :
  contains "_" g = false -> c ∈ family h -> startswith c g = startswith h g.
Proof.
  intros Hg [->|[->| ->]]%elem_of_family; [done | by apply startswith_before_sep..].
Qed.

Lemma family_disjoint (g h c : string) :
  contains "_" g = false -> contains "_" h = false -> g <> h ->
  c ∈ family g -> c ∉ family h.
Proof.
  intros Hg Hh Hne Hcg Hch. apply Hne.
  by rewrite <- (rsplit_head_family c g), <- (rsplit_head_family c h).
Qed.

Section Keys.
Context (keys labels : list string).
Context (Hkeys : keys_apart keys).
Context (Hlabels : Forall (fun c => c ∈ families keys) labels).

Lemma key_sepfree (g : string) : g ∈ keys -> contains "_" g = false.
Proof. destruct Hkeys as [H _]. rewrite Forall_forall in H. apply H. Qed.

Lemma key_prefix (g h : string) :
  g ∈ keys -> h ∈ keys -> startswith h g = true -> g = h.
Proof.
  destruct Hkeys as [_ H]. intros Hg Hh Hst. rewrite Forall_forall in H.
  specialize (H g Hg). rewrite Forall_forall in H. specialize (H h Hh).
  destruct (decide (g = h)) as [|Hne]; [done|]. by rewrite H in Hst.
Qed.

Lemma label_family (c : string) : c ∈ labels -> exists h, h ∈ keys /\ c ∈ family h.
Proof.
  intros Hc. apply elem_of_families. revert c Hc. by apply Forall_forall.
Qed.

Lemma group_name_key (g : string) : g ∈ map (rsplit_head "_") labels -> g ∈ keys.
Proof.
  intros (c & -> & Hc)%list_elem_of_fmap.
  apply label_family in Hc as (h & Hh & Hc).
  by rewrite (rsplit_head_family c h) by (done || by apply key_sepfree).
Qed.

Lemma members_family (g c : string) :
  g ∈ keys -> c ∈ members (group_of labels g) -> c ∈ family g.
Proof.
  intros Hg [Hst Hc]%list_elem_of_filter.
  apply label_family in Hc as (h & Hh & Hc).
  rewrite (startswith_family c g h) in Hst by (done || by apply key_sepfree).
  apply Is_true_true in Hst. by rewrite (key_prefix g h).
Qed.

Lemma footprint_family (g c : string) :
  g ∈ keys -> c ∈ footprint (group_of labels g) -> c ∈ family g.
Proof.
  intros Hg [->|Hc]%elem_of_cons; [|by apply members_family].
  change (combined (group_of labels g))
    with (rsplit_head "_" (default g (last (members (group_of labels g))))).
  destruct (last (members (group_of labels g))) as [c|] eqn:Hlast;
    unfold default; cbn [from_option id].
  - apply last_Some_elem_of, members_family in Hlast; [|done].
    rewrite (rsplit_head_family c g) by (done || by apply key_sepfree).
    apply elem_of_family. by left.
  - rewrite rsplit_head_id by (by apply key_sepfree). apply elem_of_family. by left.
Qed.

(** The groups of such labels stand apart. *)
Lemma separate_families : separate labels.
Proof.
  unfold separate. apply Forall_forall. intros g1 Hg1%group_name_key.
  apply Forall_forall. intros g2 Hg2%group_name_key Hne.
  apply Forall_forall. intros c Hc1%footprint_family Hc2%footprint_family; try done.
  by apply (family_disjoint g1 g2 c); try apply key_sepfree.
Qed.

End Keys.

(** ** The labels of a join with the table of a chunk *)

Lemma merge_labels_chunk (L ll rl : list string) (n : string) :
  NoDup L -> items_overlap_with_suffix L [n] = Ok (ll, rl) ->
  ((n ∉ L) /\ ll = L /\ rl = [n])
  \/ (n ∈ L /\ NoDup ll /\ rl = [n +:+ "_y"]
      /\ ll = map (fun c => if decide (c = n) then n +:+ "_x" else c) L).
Proof.
  intros Hnd. rewrite items_overlap_NoDup by (done || apply NoDup_singleton).
  case_decide as Hok; [|done]. destruct Hok as [Hll _]. intros [= <- <-].
  destruct (decide (n ∈ L)) as [Hin|Hout]; [right|left].
  - split_and!; [done | done | |].
    + cbn [map]. by rewrite add_suffix_both by (done || left).
    + apply map_ext_in. intros c Hc%list_elem_of_In. case_decide as Hcn.
      * subst. by apply add_suffix_both; [|left].
      * apply add_suffix_one. right. by intros ->%list_elem_of_singleton.
  - split_and!; [done | |].
    + etrans; [|apply map_id]. apply map_ext. intros c. apply add_suffix_one.
      destruct (decide (c = n)) as [->|Hne]; [by left|right].
      by intros ->%list_elem_of_singleton.
    + cbn [map]. rewrite add_suffix_one; [done|]. by left.
Qed.

Lemma NoDup_map_inj {A B : Type} (f : A -> B) (l : list A) (x y : A) :
  NoDup (map f l) -> x ∈ l -> y ∈ l -> f x = f y -> x = y.
Proof.
  intros Hnd [i Hi]%list_elem_of_lookup [j Hj]%list_elem_of_lookup Hf.
  assert (i = j) as ->; [|congruence].
  apply (NoDup_lookup _ i j (f x) Hnd); rewrite list_lookup_fmap; [by rewrite Hi|].
  by rewrite Hj, Hf.
Qed.

Lemma elem_of_renamed (L : list string) (n c : string) :
  c ∈ map (fun c => if decide (c = n) then n +:+ "_x" else c) L
  <-> (c = n +:+ "_x" /\ n ∈ L) \/ (c ∈ L /\ c <> n).
Proof.
  rewrite list_elem_of_fmap. split.
  - intros (c' & -> & Hc'). case_decide; subst; tauto.
  - intros [[-> Hin]|[Hc Hne]].
    + exists n. by rewrite decide_True.
    + exists c. by rewrite decide_False.
Qed.

Section Chunk.
Context (names : list string) (n : string).
Context (Hkeys : keys_apart ("date" :: names)) (Hn : n ∈ names).

Lemma name_sepfree (m : string) : m ∈ names -> contains "_" m = false.
Proof. intros Hm. apply (key_sepfree ("date" :: names)); [done|by right]. Qed.

Lemma sepfree_not_suffixed (m h s : string) :
  contains "_" m = false -> m <> h +:+ String "_" s.
Proof.
  intros Hm ->. rewrite contains_append in Hm. apply orb_false_iff in Hm as [_ Hm].
  cbn in Hm. by rewrite bool_decide_eq_true_2 in Hm.
Qed.

Lemma suffixed_inj (g h : string) : g +:+ "_x" <> h +:+ "_y".
Proof.
  intros E. apply (f_equal (rsplit1 "_")) in E.
  rewrite !rsplit1_append in E by done. by injection E.
Qed.

(** The join with the table of a chunk of one of the names keeps the
    labels grouped. *)
Lemma grouped_labels_chunk (L ll rl : list string) :
  grouped_labels names L -> items_overlap_with_suffix L [n] = Ok (ll, rl) ->
  grouped_labels names (ll ++ rl).
Proof.
  intros (Hnd & Hfam & Hpair) Hlabels.
  pose proof (name_sepfree n Hn) as Hsep.
  assert (n ∈ families ("date" :: names)) as Hnf.
  { apply elem_of_families. exists n. split; [by right|]. apply elem_of_family. by left. }
  apply (merge_labels_chunk _ _ _ _ Hnd) in Hlabels
    as [(Hout & -> & ->)|(Hin & Hll & -> & ->)].
  - split_and!.
    + apply NoDup_app. split_and!; [done| |apply NoDup_singleton].
      by intros c Hc ->%list_elem_of_singleton.
    + apply Forall_app. split; [done|]. by constructor.
    + unfold paired in *. eapply Forall_impl; [exact Hpair|]. intros m Hm. cbn beta in *.
      rewrite !elem_of_app, !list_elem_of_singleton.
      pose proof (sepfree_not_suffixed n m "x" Hsep).
      pose proof (sepfree_not_suffixed n m "y" Hsep). intuition congruence.
  - pose proof (elem_of_renamed L n) as Hren.
    assert (n +:+ "_y" ∉ L) as Hy.
    { intros Hy. apply (proj1 (Forall_forall _ _) Hpair n Hn) in Hy.
      apply (append_neq_self n "_x"); [done|]. symmetry.
      apply (NoDup_map_inj _ _ _ _ Hll Hin Hy).
      rewrite decide_True, decide_False; [done| |done]. by apply append_neq_self. }
    split_and!.
    + apply NoDup_app. split_and!; [done| |apply NoDup_singleton].
      intros c Hc Hc'%list_elem_of_singleton.
      apply Hren in Hc as [[-> _]|[Hc _]]; [by apply (suffixed_inj n n)|]. by subst.
    + apply Forall_app. split; [|constructor; [|done]].
      * apply Forall_forall. intros c [[-> _]|[Hc _]]%Hren.
        -- apply elem_of_families. exists n. split; [by right|].
           apply elem_of_family. tauto.
        -- rewrite Forall_forall in Hfam. by apply Hfam.
      * apply elem_of_families. exists n. split; [by right|].
        apply elem_of_family. tauto.
    + apply Forall_forall. intros m Hm.
      pose proof (proj1 (Forall_forall _ _) Hpair m Hm) as Hm'. cbn beta in Hm'.
      rewrite !elem_of_app, !list_elem_of_singleton, !Hren.
      destruct (decide (m = n)) as [->|Hne]; [tauto|].
      pose proof (sepfree_not_suffixed n m "x" Hsep).
      pose proof (sepfree_not_suffixed n m "y" Hsep).
      pose proof (suffixed_inj m n). pose proof (suffixed_inj n m).
      assert (m +:+ "_x" <> n +:+ "_x") by (by intros ?%append_inj_l).
      assert (m +:+ "_y" <> n +:+ "_y") by (by intros ?%append_inj_l).
      intuition congruence.
Qed.

End Chunk.

(** ** Theorems *)

(** C7: what the coalescing loop makes of a table whose groups stand
    apart.  On a table with distinct labels and one cell per label in
    every row, the loop raises nothing, whatever the iteration order of
    the set, and every row of the result is the row of the table with
    every group coalesced: the labels of the group except the last are
    gone, the combined label holds the first value of the group's columns
    that is not missing, scanning from the left, and the last label of
    the group, when it is not the combined label, stays with its
    values. *)
Theorem coalesce_groups `{SetOrder} (df : frame) :
  frame_wf df -> NoDup (columns df) -> separate (columns df) ->
  exists df', coalesce df = Ok df' /\ frame_wf df' /\ NoDup (columns df')
    /\ Forall2 (fun m m' =>
                  forall g, g ∈ map (rsplit_head "_") (columns df) ->
                            group_coalesced (group_of (columns df) g) m m')
               (rows_of df) (rows_of df').
Proof.
  intros Hwf Hnd Hsep.
  destruct (coalesce_table df Hwf Hnd Hsep) as (df' & Hco & Hwf' & Hnd' & Htable).
  exists df'. split_and!; try done.
  apply (f_equal snd) in Htable. rewrite table_fold_rows in Htable.
  cbn [table_of snd] in Htable. rewrite Htable.
  apply Forall2_fmap_r, Forall_Forall2_diag, Forall_forall. intros m _ g Hg.
  apply row_fold_groups; try done; [apply set_iter_NoDup|apply set_iter_Forall|].
  by apply elem_of_set_iter.
Qed.

Lemma coalesce_groups_witness :
  exists df', coalesce (H := reverse_order) frame_two_by_two = Ok df'
    /\ frame_wf df' /\ NoDup (columns df')
    /\ Forall2 (fun m m' =>
                  forall g, g ∈ map (rsplit_head "_") (columns frame_two_by_two) ->
                            group_coalesced (group_of (columns frame_two_by_two) g) m m')
               (rows_of frame_two_by_two) (rows_of df').
Proof. apply coalesce_groups; by_compute. Defined.

(** C27: the iteration order of the set decides the order of the columns
    and nothing else.  On a table with distinct labels whose groups stand
    apart, the loop returns under any two iteration orders, and the two
    tables are the same up to the order of their columns: selecting the
    columns of the one from the other gives the one. *)
Theorem coalesce_order_independent (H1 H2 : SetOrder) (df : frame) :
  frame_wf df -> NoDup (columns df) -> separate (columns df) ->
  exists df1 df2, coalesce (H := H1) df = Ok df1 /\ coalesce (H := H2) df = Ok df2
    /\ same_table df1 df2.
Proof.
  intros Hwf Hnd Hsep.
  destruct (coalesce_table df Hwf Hnd Hsep (H := H1)) as (df1 & Hco1 & Hwf1 & Hnd1 & Ht1).
  destruct (coalesce_table df Hwf Hnd Hsep (H := H2)) as (df2 & Hco2 & Hwf2 & Hnd2 & Ht2).
  exists df1, df2. split_and!; try done. apply same_table_of; try done.
  rewrite Ht1, Ht2.
  apply table_fold_perm; [done | apply set_iter_NoDup | apply set_iter_Forall|].
  by rewrite !set_iter_perm.
Qed.

Lemma coalesce_order_independent_witness :
  exists df1 df2,
    coalesce (H := insertion_order) frame_two_by_two = Ok df1
    /\ coalesce (H := reverse_order) frame_two_by_two = Ok df2
    /\ same_table df1 df2.
Proof. apply coalesce_order_independent; by_compute. Defined.
