(* ===== verification/Runner.v ===== *)
(** * Runner: [StockParser.run] ([src/main.py], lines 63-129)

    [run] reads the token, lists the shares and the bonds of the API, keeps
    the instruments whose ticker was asked for, and for each ticker, in the
    order given, fetches the candles chunk by chunk and merges each chunk's
    table into [merged_df]; a bare [except] around the work for one ticker
    prints a message and goes on with the next ticker.  The coalescing loop
    and the final prints follow.

    The local variable [merged_df] is assigned inside the [try]: when an
    exception ends the work for a ticker, the table keeps what the chunks
    before it have put there.  [chunk_loop] therefore returns the table
    together with the exception that ended the loop, if any.

    The lemmas of the section [Invariant] carry a property of tables
    through the two loops; the theorems say what the loop over the chunks
    makes of the answers of the API ([answers]). *)

From Stdlib Require Import ZArith Lia.
From stdpp Require Import base tactics option list strings.
From S2P Require Import Prelude DateTime RangeSplitter Money PyStr Frame Candles.
From S2P Require Import Console Client Merge Coalesce Groups.

#[local] Open Scope string_scope.
#[local] Open Scope list_scope.

(** ** The code *)

(** The dictionary of one instrument (lines 72-77). *)
Definition instrument_record (method : string) (item : Instrument) : record :=
  [("ticker", CStr (item_ticker item));
   ("figi", CStr (item_figi item));
   ("type", CStr method);
   ("name", CStr (item_name item))].

(** Lines 97-100: the chunks to fetch.  A datetime is true, [None] is
    false. *)
Definition date_ranges (start_date end_date : option datetime)
    : result (list (option datetime * option datetime)) :=
  match start_date, end_date with
  | Some s, Some e =>
      date_ranges <- split_date_range s e ;;
      Ok (map (fun r => (Some r.1, Some r.2)) date_ranges)
  | _, _ => Ok [(start_date, end_date)]
  end.

Section Run.
Context {W : Type} `{!MarketData W} `{!Instruments W} `{!SetOrder}.

(** [getattr(instruments, method)().instruments] *)
Definition listing (method token : string) : io W (list Instrument) :=
  fun st =>
    let '(r, w) := instruments_list method token (world st) in
    (r, set_world w st).

(** Lines 69-77: the list [l]. *)
Definition catalogue (token : string) : io W (list record) :=
  shares <~ listing "shares" token ;;
  bonds <~ listing "bonds" token ;;
  io_ret (map (instrument_record "shares") shares
          ++ map (instrument_record "bonds") bonds).

(** Lines 103-112: the body of the loop over the chunks. *)
Definition chunk_step (figi asset_name token : string) (merged_df : frame)
    (range : option datetime * option datetime) : io W frame :=
  r <~ get_candles figi range.1 range.2 token ;;
  match r with
  | None => io_ret merged_df
  | Some r =>
      io_lift (temp_df <- chunk_table asset_name (candles r) ;;
               if frame_empty merged_df then Ok temp_df
               else merge_outer "date" merged_df temp_df)
  end.

(** Lines 102-112: the loop over the chunks; the table as the loop leaves
    it, and the exception that ended it, if one did. *)
Fixpoint chunk_loop (figi asset_name token : string)
    (date_ranges : list (option datetime * option datetime))
    (merged_df : frame) (st : io_state W) : (frame * option exn) * io_state W :=
  match date_ranges with
  | [] => ((merged_df, None), st)
  | range :: date_ranges =>
      match chunk_step figi asset_name token merged_df range st with
      | (Ok df, st) => chunk_loop figi asset_name token date_ranges df st
      | (Raise e, st) => ((merged_df, Some e), st)
      end
  end.

(** Lines 96-115: the [try] statement. *)
Definition fetch_ticker (figi asset_name token : string)
    (start_date end_date : option datetime) (merged_df : frame) : io W frame :=
  fun st =>
    let '((merged_df, raised), st) :=
      match date_ranges start_date end_date with
      | Raise e => ((merged_df, Some e), st)
      | Ok date_ranges => chunk_loop figi asset_name token date_ranges merged_df st
      end in
    match raised with
    | None => (Ok merged_df, st)
    | Some _ =>
        (Ok merged_df,
         print "" (print ("Ошибка при получении данных для тикера: " +:+ asset_name) st))
    end.

(** Lines 88-115: the body of the loop over the tickers. *)
Definition ticker_step (df : frame) (token : string)
    (start_date end_date : option datetime) (merged_df : frame)
    (ticker : string) : io W frame :=
  tickers <~ io_lift (getitem "ticker" df) ;;
  let asset_data := mask_rows (series_eq tickers (CStr ticker)) df in
  if frame_empty asset_data then
    _ <~ io_print ("Тикер не найден: " +:+ ticker) ;;
    io_ret merged_df
  else
    figi <~ io_lift (figis <- getitem "figi" asset_data ;; values_0 figis) ;;
    asset_name <~ io_lift (names <- getitem "name" asset_data ;; values_0 names) ;;
    fetch_ticker (cell_str figi) (cell_str asset_name) token
      start_date end_date merged_df.

(** The loop over the tickers (line 87). *)
Fixpoint ticker_loop (df : frame) (token : string)
    (start_date end_date : option datetime) (tickers : list string)
    (merged_df : frame) : io W frame :=
  match tickers with
  | [] => io_ret merged_df
  | ticker :: tickers =>
      merged_df <~ ticker_step df token start_date end_date merged_df ticker ;;
      ticker_loop df token start_date end_date tickers merged_df
  end.

(** [run(tickers, start_date, end_date)]; [None] is the [return] of line
    83. *)
Definition run (tickers : list string) (start_date end_date : option datetime)
    : io W (option frame) :=
  token <~ input "Enter your token: " ;;
  l <~ catalogue token ;;
  let df := DataFrame l in
  ticker_column <~ io_lift (getitem "ticker" df) ;;
  let df := mask_rows (isin (map CStr tickers) ticker_column) df in
  if frame_empty df then
    _ <~ io_print ("Нет тикеров из списка: " +:+ join ", " tickers) ;;
    io_ret None
  else
    merged_df <~ ticker_loop df token start_date end_date tickers DataFrame_empty ;;
    merged_df <~ io_lift (coalesce merged_df) ;;
    _ <~ io_put (Info merged_df) ;;
    _ <~ io_print "None" ;;
    _ <~ io_print token ;;
    io_ret (Some merged_df).

End Run.

(** ** A scripted world *)

(** The listings, the outcomes of the candle requests to come, in order,
    and the log of the requests sent. *)
Record script : Type := mk_script {
  shares_script : result (list Instrument);
  bonds_script : result (list Instrument);
  candles_script : list (result GetCandlesResponse);
  sent : list candles_request
}.

#[global] Instance script_market : MarketData script := {
  market_data_get_candles q w :=
    match candles_script w with
    | [] => (Raise (OtherError "no response scripted"), w)
    | r :: rest =>
        (r, mk_script (shares_script w) (bonds_script w) rest (sent w ++ [q]))
    end
}.

#[global] Instance script_instruments : Instruments script := {
  instruments_list method _ w :=
    (if decide (method = "shares") then shares_script w else bonds_script w, w)
}.

(** ** Specification vocabulary *)

(** A table at line 109: the empty table of line 85, or one that
    satisfies [I]. *)
Definition empty_or (I : frame -> Prop) (df : frame) : Prop :=
  df = DataFrame_empty \/ I df.

(** The empty table or a dated one. *)
Definition accumulated : frame -> Prop := empty_or dated.

(** A table of prices: dated, with a date or a float in every cell. *)
Definition priced (df : frame) : Prop := dated df /\ cells date_or_float df.

#[global] Instance priced_dec (df : frame) : Decision (priced df).
Proof. unfold priced. apply _. Defined.

(** A name under which a column of prices can stand: not the label of
    the key, and not the label of the one column of a candle's table that
    holds integers. *)
Definition price_name (name : string) : Prop := name <> "date" /\ name <> "volume".

#[global] Instance price_name_dec (name : string) : Decision (price_name name).
Proof. unfold price_name. apply _. Defined.

(** The API, started in world [w], answers the candle requests for the
    chunks [ranges], made in their order, with [outcomes], and is left in
    world [w']. *)
Inductive answers {W : Type} `{!MarketData W} (figi token : string) :
    list (option datetime * option datetime) -> W ->
    list (result GetCandlesResponse) -> W -> Prop :=
| answers_nil (w : W) : answers figi token [] w [] w
| answers_cons range ranges (w w1 w' : W) (r : result GetCandlesResponse) rs :
    market_data_get_candles (request_of figi range.1 range.2 token) w = (r, w1) ->
    answers figi token ranges w1 rs w' ->
    answers figi token (range :: ranges) w (r :: rs) w'.

(** The outcomes that [get_candles] returns from: a response, or
    [RequestError]. *)
Definition handled (outcome : result GetCandlesResponse) : Prop :=
  match outcome with
  | Ok _ | Raise (RequestError _) => True
  | Raise _ => False
  end.

#[global] Instance handled_dec (outcome : result GetCandlesResponse) :
  Decision (handled outcome).
Proof. destruct outcome as [|[]]; cbn; apply _. Defined.

(** The responses among the outcomes, and the messages of the requests
    that failed, each in the order of the requests. *)
Definition responses (outcomes : list (result GetCandlesResponse))
    : list GetCandlesResponse :=
  omap (fun outcome => match outcome with Ok r => Some r | Raise _ => None end) outcomes.

Definition request_errors (outcomes : list (result GetCandlesResponse)) : list string :=
  omap (fun outcome =>
          match outcome with Raise (RequestError msg) => Some msg | _ => None end)
       outcomes.

(** What lines 105-112 make of the table and one response. *)
Definition merge_chunk (asset_name : string) (merged_df : frame)
    (r : GetCandlesResponse) : result frame :=
  temp_df <- chunk_table asset_name (candles r) ;;
  if frame_empty merged_df then Ok temp_df
  else merge_outer "date" merged_df temp_df.

(** The labels of the catalogue (lines 72-77). *)
Definition catalogue_columns : list string := ["ticker"; "figi"; "type"; "name"].

(** The name of the instrument of a row of the catalogue. *)
Definition row_name (row : list cell) : string :=
  cell_str (default NaN (row !! 3%nat)).

(** A catalogue of instruments whose names satisfy [N]: the four labels,
    one cell per label in every row. *)
Definition catalogue_of (N : string -> Prop) (df : frame) : Prop :=
  columns df = catalogue_columns /\ frame_wf df /\
  Forall (fun row => N (row_name row)) (rows df).

#[global] Instance catalogue_of_dec (N : string -> Prop) `{!forall name, Decision (N name)}
    (df : frame) : Decision (catalogue_of N df).
Proof. unfold catalogue_of. apply _. Defined.

(** A catalogue with no instrument called [date]. *)
Definition catalogued : frame -> Prop := catalogue_of (fun name => name <> "date").

(** The instrument of a ticker: the identifier and the name in the first
    row of the catalogue that carries the ticker. *)
Definition lookup_ticker (df : frame) (ticker : string) : option (string * string) :=
  match filter (fun row => default NaN (row !! 0%nat) = CStr ticker) (rows df) with
  | [] => None
  | row :: _ =>
      Some (cell_str (default NaN (row !! 1%nat)), cell_str (default NaN (row !! 3%nat)))
  end.

(** A name that the grouping of the labels and the selection of line 107
    treat as a name: apart from [date], and none of the other labels of a
    candle's table. *)
Definition plain_name (name : string) : Prop :=
  apart name /\ (name ∉ ["volume"; "open"; "high"; "low"]).

#[global] Instance plain_name_dec (name : string) : Decision (plain_name name).
Proof. unfold plain_name. apply _. Defined.

(** Names of instruments that can share a table: each a plain name, and
    none the beginning of another. *)
Definition compatible (names : list string) : Prop :=
  Forall plain_name names /\
  Forall (fun n => Forall (fun m => n <> m -> startswith m n = false) names) names.

#[global] Instance compatible_dec (names : list string) : Decision (compatible names).
Proof. unfold compatible. apply _. Defined.

(** A table built from chunks of the instruments [names]: dated, with
    grouped labels. *)
Definition grouped (names : list string) (df : frame) : Prop :=
  dated df /\ grouped_labels names (columns df).

#[global] Instance grouped_dec (names : list string) (df : frame) :
  Decision (grouped names df).
Proof. unfold grouped. apply _. Defined.

(** A response with at least one candle and prices in the range of the
    API's messages. *)
Definition good (r : GetCandlesResponse) : Prop :=
  candles r <> [] /\ Forall candle_in_range (candles r).

#[global] Instance good_dec (r : GetCandlesResponse) : Decision (good r).
Proof. unfold good. apply _. Defined.

(** The table of a chunk: dates and closing prices under the name. *)
Definition chunk_frame (name : string) (r : GetCandlesResponse) : frame :=
  mk_frame ["date"; name] (map close_row (candles r)).

(** Data for the examples: one share, a response of two candles, and the
    state in which a run starts. *)
Definition sber : Instrument := mk_Instrument "SBER" "BBG004730N88" "Sber Bank".

Definition two_days : GetCandlesResponse := mk_GetCandlesResponse [candle_1; candle_2].

Definition later_days : GetCandlesResponse :=
  mk_GetCandlesResponse
    [mk_HistoricCandle (open candle_1) (high candle_1) (low candle_1) (close candle_1)
       (volume candle_1) (mk_datetime 738507 25200000000)].

Definition start_state (outcomes : list (result GetCandlesResponse))
    : io_state script :=
  mk_io_state (mk_script (Ok [sber]) (Ok []) outcomes []) ["t0ken"] [].

Definition sber_catalogue : frame := DataFrame [instrument_record "shares" sber].

Definition year_2022 : option datetime * option datetime :=
  (Some (midnight 738156), Some (midnight 738506)).

(** ** Lemmas *)

(** The table of a chunk is dated. *)
Lemma chunk_table_dated (asset_name : string) (candles : list HistoricCandle)
    (df : frame) :
  asset_name <> "date" -> chunk_table asset_name candles = Ok df -> dated df.
Proof.
  intros Hname H. unfold chunk_table in H. inv_result H.
  apply create_df_Ok in E. destruct candles as [|c cs]; [by subst|]. subst a.
  eapply (select_dated asset_name); [done| |exact H].
  apply rename_dated; [done..|]. repeat split.
  - apply Forall_fmap, Forall_forall. by intros.
  - cbn. rewrite !elem_of_cons, elem_of_nil. intuition congruence.
  - apply Forall_fmap, Forall_forall. intros c' _. cbn. eauto.
Qed.

(** The table of a good response. *)
Lemma chunk_table_good (name : string) (r : GetCandlesResponse) :
  plain_name name -> good r ->
  chunk_table name (candles r) = Ok (chunk_frame name r).
Proof.
  intros [Hname Hlabels] [Hne Hall]. unfold chunk_table.
  rewrite create_df_in_range_lemma by done. cbn [bind]. apply select_close.
  pose proof (apart_not_date name Hname). revert Hlabels.
  rewrite !not_elem_of_cons. tauto.
Qed.

Lemma chunk_frame_dated (name : string) (r : GetCandlesResponse) :
  name <> "date" -> dated (chunk_frame name r).
Proof.
  intros Hname. repeat split.
  - apply Forall_fmap, Forall_forall. by intros.
  - cbn. rewrite elem_of_cons, elem_of_nil. intuition congruence.
  - apply Forall_fmap, Forall_forall. intros c _. cbn. eauto.
Qed.

(** *** Tables of compatible names *)

Section Compatible.
Context (names : list string) (Hnames : compatible names).

Lemma compatible_plain (n : string) : n ∈ names -> plain_name n.
Proof. destruct Hnames as [H _]. rewrite Forall_forall in H. apply H. Qed.

Lemma compatible_keys : keys_apart ("date" :: names).
Proof.
  destruct Hnames as [Hplain Hpre]. rewrite Forall_forall in Hplain, Hpre. split.
  - constructor; [done|]. apply Forall_forall. intros n Hn. apply (Hplain n Hn).
  - apply Forall_forall. intros g Hg. apply Forall_forall. intros h Hh Hne.
    apply elem_of_cons in Hg as [->|Hg], Hh as [->|Hh]; [done| | |].
    + apply (Hplain h Hh).
    + apply (Hplain g Hg).
    + specialize (Hpre g Hg). rewrite Forall_forall in Hpre. by apply Hpre.
Qed.

Lemma chunk_table_grouped (n : string) (candles : list HistoricCandle) (r : frame) :
  n ∈ names -> chunk_table n candles = Ok r ->
  grouped names r /\ columns r = ["date"; n].
Proof.
  intros Hn Hr. pose proof (compatible_plain n Hn) as [Hapart Hlabels].
  pose proof (apart_not_date n Hapart) as Hdate.
  assert (dated r) as Hd by (by apply (chunk_table_dated n candles)).
  apply chunk_table_Ok in Hr as [_ ->]; [|rewrite !not_elem_of_cons in *; tauto].
  split; [split; [done|]|done]. cbn [columns]. split_and!.
  - solve_labels.
  - apply Forall_cons. split; [|apply Forall_singleton]; apply elem_of_families.
    + exists "date". split; [left|apply elem_of_family; by left].
    + exists n. split; [by right|apply elem_of_family; by left].
  - apply Forall_forall. intros m Hm.
    pose proof (sepfree_not_suffixed n m "x" (proj1 Hapart)).
    pose proof (sepfree_not_suffixed n m "y" (proj1 Hapart)).
    destruct (suffix_facts m) as (_ & _ & _ & ? & ?).
    rewrite !elem_of_cons, !elem_of_nil. intuition congruence.
Qed.

Lemma merge_chunk_grouped (l r df : frame) (n : string) (candles : list HistoricCandle) :
  grouped names l -> n ∈ names -> chunk_table n candles = Ok r ->
  merge_outer "date" l r = Ok df -> grouped names df.
Proof.
  intros [Hl Hlabels] Hn [[Hr _] Hcols]%chunk_table_grouped Hdf; [|done].
  split; [by apply (merge_outer_keeps_dated l r)|].
  rewrite merge_outer_dated_eq in Hdf by done. rewrite Hcols in Hdf. cbn [tail] in Hdf.
  inv_result Hdf. destruct a as [ll rl]. injection Hdf as <-. cbn [columns fst snd].
  by apply (grouped_labels_chunk names n compatible_keys Hn (columns l)).
Qed.

End Compatible.

(** The coalescing loop returns on the empty table and on a grouped
    one. *)
Lemma coalesce_grouped `{SetOrder} (names : list string) (df : frame) :
  compatible names -> empty_or (grouped names) df ->
  exists df', coalesce df = Ok df' /\ frame_wf df' /\ NoDup (columns df').
Proof.
  intros Hnames [->|[Hd (Hnd & Hfam & _)]].
  - exists DataFrame_empty. split; [apply coalesce_empty|]. split; constructor.
  - assert (separate (columns df)) as Hsep
      by (apply (separate_families ("date" :: names)); [by apply compatible_keys|done]).
    destruct (coalesce_table df (proj1 Hd) Hnd Hsep) as (df' & Hco & Hwf' & Hnd' & _).
    eauto.
Qed.

Section RunLemmas.
Context {W : Type} `{!MarketData W} `{!Instruments W} `{!SetOrder}.
Implicit Types (st : io_state W) (figi asset_name token : string)
  (range : option datetime * option datetime) (merged_df : frame).

(** The body of the chunk loop, by the outcome of the request. *)
Lemma chunk_step_call figi asset_name token merged_df range st :
  chunk_step figi asset_name token merged_df range st
  = match market_data_get_candles (request_of figi range.1 range.2 token) (world st) with
    | (Ok r, w) =>
        (temp_df <- chunk_table asset_name (candles r) ;;
         if frame_empty merged_df then Ok temp_df
         else merge_outer "date" merged_df temp_df,
         set_world w st)
    | (Raise (RequestError msg), w) => (Ok merged_df, print msg (set_world w st))
    | (Raise e, w) => (Raise e, set_world w st)
    end.
Proof.
  unfold chunk_step, io_bind, get_candles, request_of.
  destruct (market_data_get_candles _ _) as [[r|e] w]; [done|]. by destruct e.
Qed.

(** *** Invariants of the loops

    A property [I] of tables that the table of a chunk has, when the
    instrument's name satisfies [N], and that the join with the table of
    a chunk keeps, holds of the table at every turn of the two loops, once
    the table is not empty any more. *)

Section Invariant.
Context (N : string -> Prop) (I : frame -> Prop).
Context (I_chunk : forall name candles r,
           N name -> chunk_table name candles = Ok r -> I r).
Context (I_merge : forall l name candles r df,
           I l -> N name -> chunk_table name candles = Ok r ->
           merge_outer "date" l r = Ok df -> I df).

Lemma chunk_step_invariant figi asset_name token merged_df range st df st' :
  N asset_name -> empty_or I merged_df ->
  chunk_step figi asset_name token merged_df range st = (Ok df, st') ->
  empty_or I df.
Proof.
  intros Hname Hacc. rewrite chunk_step_call.
  destruct (market_data_get_candles _ _) as [[r|e] w].
  - intros [= Hdf _]. inv_result Hdf.
    destruct (frame_empty merged_df) eqn:Hempty.
    + injection Hdf as <-. right. by apply (I_chunk asset_name (candles r)).
    + right. destruct Hacc as [->|Hd]; [done|].
      by apply (I_merge merged_df asset_name (candles r) a).
  - destruct e; intros [= <- _]; done.
Qed.

Lemma chunk_loop_invariant figi asset_name token ranges merged_df st :
  N asset_name -> empty_or I merged_df ->
  empty_or I (chunk_loop figi asset_name token ranges merged_df st).1.1.
Proof.
  intros Hname. revert merged_df st.
  induction ranges as [|range ranges IH]; intros merged_df st Hacc; [done|].
  cbn [chunk_loop].
  destruct (chunk_step _ _ _ _ _ _) as [[df|e] st'] eqn:E; [|done].
  apply IH. by eapply chunk_step_invariant.
Qed.

(** The [try] statement raises nothing and keeps the invariant. *)
Lemma fetch_ticker_invariant figi asset_name token start_date end_date
    merged_df st :
  N asset_name -> empty_or I merged_df ->
  exists df st', fetch_ticker figi asset_name token start_date end_date merged_df st
                 = (Ok df, st') /\ empty_or I df.
Proof.
  intros Hname Hacc. unfold fetch_ticker.
  destruct (date_ranges start_date end_date) as [ranges|e].
  - pose proof (chunk_loop_invariant figi asset_name token ranges merged_df st
                  Hname Hacc) as Hloop.
    destruct (chunk_loop _ _ _ _ _ _) as [[df [e|]] st']; eauto.
  - eauto.
Qed.

End Invariant.

(** The rows that a mask computed from the rows themselves keeps. *)
Lemma mask_rows_map (f : list cell -> bool) (df : frame) :
  mask_rows (map f (rows df)) df
  = mk_frame (columns df) (filter (fun row => f row = true) (rows df)).
Proof.
  unfold mask_rows. f_equal. induction (rows df) as [|row rs IH]; [done|].
  cbn [map zip zip_with]. rewrite !filter_cons. cbn [fst].
  destruct (decide (f row = true)); cbn [map snd]; by rewrite IH.
Qed.

(** The columns of a catalogue, by position. *)
Lemma getitem_catalogue (label : string) (i : nat) (df : frame) :
  columns df = catalogue_columns -> catalogue_columns !! i = Some label ->
  getitem label df = Ok (map (fun row => default NaN (row !! i)) (rows df)).
Proof.
  intros Hcols Hi. unfold getitem. rewrite Hcols.
  destruct i as [|[|[|[|i]]]]; try done; by injection Hi as <-.
Qed.

(** The body of the loop over the tickers: the lookup, then the message
    or the [try] statement. *)
Lemma ticker_step_lookup (df : frame) token start_date end_date merged_df
    (ticker : string) st :
  columns df = catalogue_columns ->
  ticker_step df token start_date end_date merged_df ticker st
  = match lookup_ticker df ticker with
    | None => (Ok merged_df, print ("Тикер не найден: " +:+ ticker) st)
    | Some (figi, asset_name) =>
        fetch_ticker figi asset_name token start_date end_date merged_df st
    end.
Proof.
  intros Hcols. unfold ticker_step, lookup_ticker.
  rewrite (io_bind_lift_Ok_eq _ _ _ _ (getitem_catalogue "ticker" 0 df Hcols eq_refl)).
  unfold series_eq. rewrite map_map, mask_rows_map.
  rewrite (list_filter_iff _ (fun row => default NaN (row !! 0%nat) = CStr ticker))
    by (intros row; apply bool_decide_eq_true).
  destruct (filter _ (rows df)) as [|row rs] eqn:E.
  - unfold frame_empty. cbn [rows columns]. rewrite Hcols.
    by rewrite bool_decide_eq_false_2, bool_decide_eq_true_2 by done.
  - unfold frame_empty. cbn [rows columns]. rewrite Hcols.
    rewrite !bool_decide_eq_false_2 by done. cbn [orb].
    rewrite (getitem_catalogue "figi" 1), (getitem_catalogue "name" 3) by done.
    reflexivity.
Qed.

Section Invariant.
Context (N : string -> Prop) (I : frame -> Prop).
Context (I_chunk : forall name candles r,
           N name -> chunk_table name candles = Ok r -> I r).
Context (I_merge : forall l name candles r df,
           I l -> N name -> chunk_table name candles = Ok r ->
           merge_outer "date" l r = Ok df -> I df).

(** The name found for a ticker is a name of the catalogue. *)
Lemma lookup_ticker_name (df : frame) (ticker figi asset_name : string) :
  catalogue_of N df -> lookup_ticker df ticker = Some (figi, asset_name) ->
  N asset_name.
Proof.
  intros (_ & _ & Hnames) Hl. unfold lookup_ticker in Hl.
  destruct (filter _ (rows df)) as [|row rs] eqn:E; [done|].
  injection Hl as _ <-.
  assert (row ∈ row :: rs) as Hin by left. rewrite <- E in Hin.
  apply list_elem_of_filter in Hin as [_ Hrow].
  rewrite Forall_forall in Hnames. by apply Hnames.
Qed.

(** The body of the loop over the tickers raises nothing and keeps the
    invariant. *)
Lemma ticker_step_invariant (df : frame) token start_date end_date merged_df
    (ticker : string) st :
  catalogue_of N df -> empty_or I merged_df ->
  exists df' st', ticker_step df token start_date end_date merged_df ticker st
                  = (Ok df', st') /\ empty_or I df'.
Proof.
  intros Hcat Hacc. rewrite ticker_step_lookup by apply Hcat.
  destruct (lookup_ticker df ticker) as [[figi asset_name]|] eqn:E; [|eauto].
  apply (fetch_ticker_invariant N I); [done..| |done]. by eapply lookup_ticker_name.
Qed.

(** The loop over the tickers raises nothing, whatever the API answers
    to the candle requests (responses, [RequestError], any other
    exception): every exception of the work for a ticker is caught by the
    bare [except].  And the table it builds is always the empty table or
    one that satisfies the invariant. *)
Lemma ticker_loop_invariant (df : frame) token start_date end_date
    (tickers : list string) merged_df st :
  catalogue_of N df -> empty_or I merged_df ->
  exists df' st', ticker_loop df token start_date end_date tickers merged_df st
                  = (Ok df', st') /\ empty_or I df'.
Proof.
  intros Hcat. revert merged_df st.
  induction tickers as [|ticker tickers IH]; intros merged_df st Hacc; [cbn; eauto|].
  cbn [ticker_loop]. unfold io_bind.
  destruct (ticker_step_invariant df token start_date end_date merged_df ticker st
              Hcat Hacc) as (df' & st' & -> & Hacc').
  by apply IH.
Qed.

End Invariant.

(** The table the loop over the tickers builds is the empty table or a
    dated one (one cell per label in every row, [date] first and nowhere
    else, dates in the key cells), provided no instrument is called
    [date]. *)
Lemma ticker_loop_accumulated (df : frame) token start_date end_date
    (tickers : list string) merged_df st :
  catalogued df -> accumulated merged_df ->
  exists df' st', ticker_loop df token start_date end_date tickers merged_df st
                  = (Ok df', st') /\ accumulated df'.
Proof.
  apply ticker_loop_invariant; [apply chunk_table_dated|].
  intros l name candles r df0 Hl Hname Hr. apply merge_outer_keeps_dated; [done|].
  by apply (chunk_table_dated name candles).
Qed.

(** It is the empty table or a table of prices, provided no instrument
    is called [date] or [volume]. *)
Lemma ticker_loop_priced (df : frame) token start_date end_date
    (tickers : list string) merged_df st :
  catalogue_of price_name df -> empty_or priced merged_df ->
  exists df' st', ticker_loop df token start_date end_date tickers merged_df st
                  = (Ok df', st') /\ empty_or priced df'.
Proof.
  assert (forall name candles r,
             price_name name -> chunk_table name candles = Ok r -> priced r) as Hchunk.
  { intros name candles r [Hdate Hvolume] Hr.
    split; [by apply (chunk_table_dated name candles)|].
    by apply (chunk_table_cells name candles). }
  apply ticker_loop_invariant; [done|].
  intros l name candles r df0 [Hl Hlc] Hname [Hr Hrc]%Hchunk Hdf0; [|done].
  split; [by apply (merge_outer_keeps_dated l r)|].
  by apply (merge_outer_cells date_or_float (or_intror eq_refl)
              (fun _ => or_introl eq_refl) "date" l r).
Qed.

(** It is the empty table or a grouped one, when the names of the
    instruments are compatible. *)
Lemma ticker_loop_grouped (names : list string) (df : frame) token start_date end_date
    (tickers : list string) merged_df st :
  compatible names -> catalogue_of (fun n => n ∈ names) df ->
  empty_or (grouped names) merged_df ->
  exists df' st', ticker_loop df token start_date end_date tickers merged_df st
                  = (Ok df', st') /\ empty_or (grouped names) df'.
Proof.
  intros Hnames. apply ticker_loop_invariant.
  - intros name candles r Hn Hr. by apply (chunk_table_grouped names Hnames name candles).
  - intros l name candles r df0 Hl Hn Hr.
    by apply (merge_chunk_grouped names Hnames l r df0 name candles).
Qed.

(** *** The console *)

Lemma chunk_step_forward figi asset_name token merged_df range :
  forward (chunk_step figi asset_name token merged_df range).
Proof. unfold chunk_step. solve_forward. Qed.

Lemma chunk_loop_later figi asset_name token ranges merged_df st :
  later st (chunk_loop figi asset_name token ranges merged_df st).2.
Proof.
  revert merged_df st. induction ranges as [|range ranges IH]; intros merged_df st; [done|].
  cbn [chunk_loop].
  destruct (chunk_step _ _ _ _ _ _) as [[df|e] st'] eqn:E;
    apply chunk_step_forward in E; [|done].
  etrans; [exact E|apply IH].
Qed.

Lemma fetch_ticker_forward figi asset_name token start_date end_date merged_df :
  forward (fetch_ticker figi asset_name token start_date end_date merged_df).
Proof.
  intros st r st'. unfold fetch_ticker.
  destruct (date_ranges start_date end_date) as [ranges|e].
  - pose proof (chunk_loop_later figi asset_name token ranges merged_df st) as Hl.
    destruct (chunk_loop _ _ _ _ _ _) as [[df [e|]] st1]; intros [= _ <-]; [|done].
    etrans; [exact Hl|]. etrans; apply later_put.
  - intros [= _ <-]. etrans; apply later_put.
Qed.

Lemma ticker_step_forward (df : frame) token start_date end_date merged_df
    (ticker : string) :
  forward (ticker_step df token start_date end_date merged_df ticker).
Proof. unfold ticker_step. solve_forward. apply fetch_ticker_forward. Qed.


Lemma ticker_loop_forward (df : frame) token start_date end_date
    (tickers : list string) merged_df :
  forward (ticker_loop df token start_date end_date tickers merged_df).
Proof.
  revert merged_df. induction tickers as [|ticker tickers IH]; intros merged_df;
    cbn [ticker_loop]; solve_forward. apply ticker_step_forward.
Qed.

Lemma listing_forward (method token : string) : forward (listing method token).
Proof.
  intros st r st'. unfold listing. destruct (instruments_list _ _ _) as [r' w].
  intros [= _ <-]. apply later_set_world.
Qed.

Lemma run_forward (tickers : list string) start_date end_date :
  forward (run tickers start_date end_date).
Proof.
  unfold run, catalogue. solve_forward;
    auto using listing_forward, ticker_loop_forward.
Qed.

End RunLemmas.

(** ** Theorems *)

Section RunTheorems.
Context {W : Type} `{!MarketData W} `{!Instruments W} `{!SetOrder}.
Implicit Types (st : io_state W) (figi asset_name token : string)
  (range : option datetime * option datetime) (merged_df : frame).

(** A request that fails with [RequestError] costs its chunk only: the
    message is printed, the table is left as it is, and the loop goes on
    with the next chunk. *)
Lemma chunk_loop_failed_request figi asset_name token range ranges merged_df st
    (msg : string) (w : W) :
  market_data_get_candles (request_of figi range.1 range.2 token) (world st)
    = (Raise (RequestError msg), w) ->
  chunk_loop figi asset_name token (range :: ranges) merged_df st
  = chunk_loop figi asset_name token ranges merged_df (print msg (set_world w st)).
Proof. intros Hcall. cbn [chunk_loop]. by rewrite chunk_step_call, Hcall. Qed.

(** C8: the loop over the chunks, as long as nothing but [RequestError]
    is raised, is the fold of lines 105-112 over the responses received.
    When the API answers the requests for the chunks, made one after the
    other, with responses or with [RequestError], and the tables of the
    responses can be joined one after the other, the loop makes every
    request, writes the message of each request that failed, and leaves
    the table that the responses alone would have given, in their order:
    a failed request costs its chunk and nothing else. *)
Theorem chunk_loop_skips_failures figi asset_name token ranges merged_df st
    (outcomes : list (result GetCandlesResponse)) (w' : W) (df : frame) :
  answers figi token ranges (world st) outcomes w' ->
  Forall handled outcomes ->
  foldM (merge_chunk asset_name) merged_df (responses outcomes) = Ok df ->
  chunk_loop figi asset_name token ranges merged_df st
  = ((df, None),
     mk_io_state w' (stdin st) (stdout st ++ map Line (request_errors outcomes))).
Proof.
  intros Hans. remember (world st) as w eqn:Hw. revert merged_df st Hw.
  induction Hans as [w|range ranges w w1 w' outcome outcomes Hcall _ IH];
    intros merged_df st -> Hhandled Hfold.
  - injection Hfold as <-. destruct st. cbn. by rewrite app_nil_r.
  - apply Forall_cons in Hhandled as [Hhandled Hrest].
    destruct outcome as [r|[]]; try done.
    + cbn in Hfold. inv_result Hfold. cbn [chunk_loop].
      rewrite chunk_step_call, Hcall. fold (merge_chunk asset_name merged_df r).
      rewrite E. by rewrite (IH a (set_world w1 st)).
    + rewrite (chunk_loop_failed_request _ _ _ _ _ _ _ _ _ Hcall), IH by done.
      cbn. by rewrite <- app_assoc.
Qed.


(** C16: a response without candles ends the loop over the chunks: the
    selection of line 107 raises [KeyError], the table stays as the chunks
    before have left it, and the remaining chunks of the instrument are
    not requested (the world is as the failing request left it). *)
Theorem chunk_loop_empty_response figi asset_name token range ranges merged_df st
    (w : W) :
  market_data_get_candles (request_of figi range.1 range.2 token) (world st)
    = (Ok (mk_GetCandlesResponse []), w) ->
  chunk_loop figi asset_name token (range :: ranges) merged_df st
  = ((merged_df, Some (KeyError ["date"; asset_name])), set_world w st).
Proof. intros Hcall. cbn [chunk_loop]. by rewrite chunk_step_call, Hcall. Qed.

(** C23: the fourth chunk of an instrument ends the loop over the chunks:
    on the table [date, name_x, name_y, name] of three chunks the merge of
    a further chunk raises [MergeError]; the table keeps the first three
    chunks and the remaining chunks are not requested. *)
Theorem chunk_loop_fourth_chunk figi asset_name token range ranges merged_df st
    (r : GetCandlesResponse) (w : W) :
  plain_name asset_name -> good r -> dated merged_df -> rows merged_df <> [] ->
  columns merged_df
    = ["date"; asset_name +:+ "_x"; asset_name +:+ "_y"; asset_name] ->
  market_data_get_candles (request_of figi range.1 range.2 token) (world st)
    = (Ok r, w) ->
  chunk_loop figi asset_name token (range :: ranges) merged_df st
  = ((merged_df, Some MergeError), set_world w st).
Proof.
  intros Hname Hgood Hdated Hrows Hcols Hcall. cbn [chunk_loop].
  rewrite chunk_step_call, Hcall, chunk_table_good by done. cbn [bind].
  unfold frame_empty. rewrite Hcols, !bool_decide_eq_false_2 by done. cbn [orb].
  rewrite (merge_fourth_chunk merged_df (chunk_frame asset_name r) asset_name);
    try done.
  apply chunk_frame_dated, apart_not_date, Hname.
Qed.

End RunTheorems.

Lemma chunk_loop_skips_failures_witness :
  let st := start_state [Ok two_days; Raise (RequestError "limit"); Ok later_days] in
  let w' := mk_script (Ok [sber]) (Ok []) []
              (replicate 3 (request_of "BBG004730N88" year_2022.1 year_2022.2 "t0ken")) in
  chunk_loop "BBG004730N88" "Sber Bank" "t0ken" (replicate 3 year_2022) DataFrame_empty st
  = ((mk_frame ["date"; "Sber Bank_x"; "Sber Bank_y"]
        [[CDate 738157; CFloat (price (close candle_1)); NaN];
         [CDate 738158; CFloat (price (close candle_2)); NaN];
         [CDate 738507; NaN; CFloat (price (close candle_1))]], None),
     mk_io_state w' (stdin st) (stdout st ++ [Line "limit"])).
Proof.
  intros st w'.
  apply (chunk_loop_skips_failures (W := script) _ _ _ _ _ _
           [Ok two_days; Raise (RequestError "limit"); Ok later_days]);
    [by repeat econstructor | by_compute | by vm_compute].
Defined.


Lemma chunk_loop_empty_response_witness :
  chunk_loop "BBG004730N88" "Sber Bank" "t0ken" [year_2022; year_2022] DataFrame_empty
    (start_state [Ok (mk_GetCandlesResponse []); Ok two_days])
  = ((DataFrame_empty, Some (KeyError ["date"; "Sber Bank"])),
     set_world
       (mk_script (Ok [sber]) (Ok []) [Ok two_days]
          [request_of "BBG004730N88" year_2022.1 year_2022.2 "t0ken"])
       (start_state [Ok (mk_GetCandlesResponse []); Ok two_days])).
Proof. by apply chunk_loop_empty_response. Defined.

Lemma chunk_loop_fourth_chunk_witness :
  let three := mk_frame ["date"; "Sber Bank_x"; "Sber Bank_y"; "Sber Bank"]
                 [[CDate 738000; money 1; NaN; NaN]] in
  chunk_loop "BBG004730N88" "Sber Bank" "t0ken" [year_2022; year_2022] three
    (start_state [Ok two_days; Ok two_days])
  = ((three, Some MergeError),
     set_world
       (mk_script (Ok [sber]) (Ok []) [Ok two_days]
          [request_of "BBG004730N88" year_2022.1 year_2022.2 "t0ken"])
       (start_state [Ok two_days; Ok two_days])).
Proof.
  apply (chunk_loop_fourth_chunk (W := script) _ _ _ _ _ _ _ two_days);
    [by_compute | by_compute | by_compute | done | done | done].
Defined.

