(* ===== verification/EndToEnd.v ===== *)
(** * EndToEnd: a run as a whole ([StockParser.run], [src/main.py] lines 63-129)

    The theorems of this file compose the components: the console, the
    listings, the lookup of the tickers, the chunks of [RangeSplitter], the
    requests of [Client], the tables of [Candles], the joins of [Merge]
    and the coalescing loop of [Coalesce].  They are stated for any
    implementation of the two interfaces of the API, by the answers the
    implementation gives to the calls that the run makes.  The example at
    the end runs the end-to-end case of the written specification in the
    scripted world of [Runner]. *)

From Stdlib Require Import ZArith Lia.
From stdpp Require Import base tactics option list strings.
From S2P Require Import Prelude DateTime RangeSplitter Money PyStr Frame Candles.
From S2P Require Import Console Client Merge Coalesce Groups Runner.

#[local] Open Scope string_scope.
#[local] Open Scope list_scope.

(** ** Specification vocabulary *)

(** The row of an instrument in the catalogue (lines 72-77). *)
Definition catalogue_row (method : string) (item : Instrument) : list cell :=
  [CStr (item_ticker item); CStr (item_figi item); CStr method; CStr (item_name item)].

(** The catalogue of the shares and the bonds listed. *)
Definition catalogue_frame (shares bonds : list Instrument) : frame :=
  mk_frame catalogue_columns
    (map (catalogue_row "shares") shares ++ map (catalogue_row "bonds") bonds).

(** The rows of the catalogue whose ticker was asked for (line 80). *)
Definition listed (tickers : list string) (df : frame) : frame :=
  mk_frame (columns df)
    (filter (fun row => default NaN (row !! 0%nat) ∈ map CStr tickers) (rows df)).

(** The state after the token has been read and the listings fetched:
    the prompt written, the token taken from the input, the world as the
    second listing left it. *)
Definition after_listings {W : Type} (st : io_state W) (w : W) : io_state W :=
  mk_io_state w (tail (stdin st)) (stdout st ++ [Prompt "Enter your token: "]).

(** The last three items a run writes (lines 127-128): the summary of the
    table, the [None] that [info()] returns, and the token. *)
Definition closing (df : frame) (token : string) : list output :=
  [Info df; Line "None"; Line token].

(** No instrument listed has one of the tickers. *)
Definition none_listed (tickers : list string) (items : list Instrument) : Prop :=
  Forall (fun item => item_ticker item ∉ tickers) items.

#[global] Instance none_listed_dec (tickers : list string) (items : list Instrument) :
  Decision (none_listed tickers items).
Proof. unfold none_listed. apply _. Defined.

(** The lines written for the tickers that are not in the catalogue
    (line 90), in the order of the tickers. *)
Definition not_found (df : frame) (tickers : list string) : list output :=
  map (fun ticker => Line ("Тикер не найден: " +:+ ticker))
      (filter (fun ticker => lookup_ticker df ticker = None) tickers).

(** For the end-to-end example: a second share, and the state in which
    two shares are listed and four candle requests will be answered. *)
Definition gazp : Instrument := mk_Instrument "GAZP" "BBG004730RP0" "Gazprom".

Definition two_shares : io_state script :=
  mk_io_state
    (mk_script (Ok [sber; gazp]) (Ok [])
       [Ok two_days; Ok later_days; Ok two_days; Ok later_days] [])
    ["t0ken"] [].

(** ** Lemmas *)

(** *** The catalogue *)

Lemma DataFrame_catalogue (shares bonds : list Instrument) :
  shares ++ bonds <> [] ->
  DataFrame (map (instrument_record "shares") shares
             ++ map (instrument_record "bonds") bonds)
  = catalogue_frame shares bonds.
Proof.
  intros Hne. rewrite (DataFrame_uniform catalogue_columns).
  - unfold catalogue_frame. f_equal. by rewrite map_app, !map_map.
  - by_compute.
  - by destruct shares, bonds.
  - apply Forall_app. split; apply Forall_forall; by intros r (i & -> & _)%list_elem_of_fmap.
Qed.

Lemma isin_catalogue (tickers : list string) (df : frame) :
  columns df = catalogue_columns ->
  exists column, getitem "ticker" df = Ok column
    /\ mask_rows (isin (map CStr tickers) column) df = listed tickers df.
Proof.
  intros Hcols. eexists. split; [by apply (getitem_catalogue "ticker" 0)|].
  unfold isin, listed. rewrite map_map, mask_rows_map. f_equal.
  apply list_filter_iff. intros row. apply bool_decide_eq_true.
Qed.

(** A property of the instruments, on the rows of the catalogue. *)
Lemma Forall_catalogue (P : list cell -> Prop) (Q : Instrument -> Prop)
    (shares bonds : list Instrument) :
  (forall method item, Q item -> P (catalogue_row method item)) ->
  Forall Q (shares ++ bonds) -> Forall P (rows (catalogue_frame shares bonds)).
Proof.
  intros HPQ [Hs Hb]%Forall_app. cbn [rows catalogue_frame].
  apply Forall_app; split; apply Forall_fmap;
    (eapply Forall_impl; [eassumption|]); intros item; apply HPQ.
Qed.

Lemma listed_catalogue_of (N : string -> Prop) (tickers : list string)
    (shares bonds : list Instrument) :
  Forall (fun item => N (item_name item)) (shares ++ bonds) ->
  catalogue_of N (listed tickers (catalogue_frame shares bonds)).
Proof.
  intros Hnames. unfold catalogue_of, listed, frame_wf. cbn [columns].
  split; [done|]. split; apply Forall_filter_keep.
  - apply (Forall_catalogue _ (fun _ => True)); [done|]. by apply Forall_forall.
  - eapply Forall_catalogue; [|exact Hnames]. by intros method item Hitem.
Qed.

Lemma listed_nil (tickers : list string) (shares bonds : list Instrument) :
  none_listed tickers (shares ++ bonds) ->
  rows (listed tickers (catalogue_frame shares bonds)) = [].
Proof.
  intros Hnone. apply filter_nil_Forall. eapply Forall_catalogue; [|exact Hnone].
  intros method item Hitem. cbn. by intros (t & [= <-] & Ht)%list_elem_of_fmap.
Qed.

Lemma listed_not_nil (tickers : list string) (shares bonds : list Instrument) :
  ~ none_listed tickers (shares ++ bonds) ->
  rows (listed tickers (catalogue_frame shares bonds)) <> [].
Proof.
  intros Hsome Hnil. apply Hsome. apply filter_nil_Forall in Hnil.
  cbn [rows catalogue_frame] in Hnil. unfold none_listed.
  apply Forall_app in Hnil as [Hs Hb]. rewrite Forall_fmap in Hs, Hb.
  apply Forall_app; split; (eapply Forall_impl; [eassumption|]);
    intros item Hitem Ht; apply Hitem; cbn; by apply list_elem_of_fmap_2.
Qed.

(** A ticker that is found is listed. *)
Lemma lookup_listed (tickers : list string) (shares bonds : list Instrument)
    (ticker : string) (found : string * string) :
  lookup_ticker (listed tickers (catalogue_frame shares bonds)) ticker = Some found ->
  shares ++ bonds <> [] /\ ~ none_listed tickers (shares ++ bonds).
Proof.
  intros Hfound.
  assert (rows (listed tickers (catalogue_frame shares bonds)) <> []) as Hrows.
  { intros Hnil. unfold lookup_ticker in Hfound. by rewrite Hnil in Hfound. }
  split; [|by intros Hnone%listed_nil].
  intros [-> ->]%app_eq_nil. by apply Hrows.
Qed.

(** *** The run up to the catalogue *)

Section Listed.
Context {W : Type} `{!MarketData W} `{!Instruments W} `{!SetOrder}.
Context (st : io_state W) (token : string) (shares bonds : list Instrument) (w1 w2 : W).
Context (Hstdin : head (stdin st) = Some token).
Context (Hshares : instruments_list "shares" token (world st) = (Ok shares, w1)).
Context (Hbonds : instruments_list "bonds" token w1 = (Ok bonds, w2)).
Implicit Types (tickers : list string) (start_date end_date : option datetime).

Lemma listing_Ok (method : string) (st0 : io_state W) (l : list Instrument) (w : W) :
  instruments_list method token (world st0) = (Ok l, w) ->
  listing method token st0 = (Ok l, set_world w st0).
Proof. unfold listing. by intros ->. Qed.

Lemma input_token :
  input "Enter your token: " st
  = (Ok token, mk_io_state (world st) (tail (stdin st))
                 (stdout st ++ [Prompt "Enter your token: "])).
Proof. destruct (stdin st) as [|t rest] eqn:E; [done|]. injection Hstdin as ->. by apply input_Ok. Qed.

Lemma catalogue_Ok :
  catalogue token (mk_io_state (world st) (tail (stdin st))
                     (stdout st ++ [Prompt "Enter your token: "]))
  = (Ok (map (instrument_record "shares") shares
         ++ map (instrument_record "bonds") bonds), after_listings st w2).
Proof.
  unfold catalogue.
  erewrite io_bind_Ok by (by apply listing_Ok).
  by erewrite io_bind_Ok by (by apply listing_Ok).
Qed.

(** With no instrument listed the run stops at [df['ticker']]. *)
Lemma run_catalogue_nil tickers start_date end_date :
  shares ++ bonds = [] ->
  run tickers start_date end_date st = (Raise (KeyError ["ticker"]), after_listings st w2).
Proof.
  intros [Hs Hb]%app_eq_nil. unfold run.
  rewrite (io_bind_Ok _ _ _ _ _ input_token), (io_bind_Ok _ _ _ _ _ catalogue_Ok).
  by rewrite Hs, Hb.
Qed.

(** With a catalogue: the message of line 82, or the loops and the
    closing prints. *)
Lemma run_catalogue tickers start_date end_date :
  shares ++ bonds <> [] ->
  run tickers start_date end_date st
  = if bool_decide (none_listed tickers (shares ++ bonds)) then
      (Ok None,
       print ("Нет тикеров из списка: " +:+ join ", " tickers) (after_listings st w2))
    else
      (merged_df <~ ticker_loop (listed tickers (catalogue_frame shares bonds))
                      token start_date end_date tickers DataFrame_empty ;;
       merged_df <~ io_lift (coalesce merged_df) ;;
       _ <~ io_put (Info merged_df) ;;
       _ <~ io_print "None" ;;
       _ <~ io_print token ;;
       io_ret (Some merged_df)) (after_listings st w2).
Proof.
  intros Hne. unfold run.
  rewrite (io_bind_Ok _ _ _ _ _ input_token), (io_bind_Ok _ _ _ _ _ catalogue_Ok).
  rewrite DataFrame_catalogue by done.
  destruct (isin_catalogue tickers (catalogue_frame shares bonds)) as (col & Hcol & Hmask);
    [done|].
  rewrite (io_bind_lift_Ok_eq _ _ _ _ Hcol), Hmask. unfold frame_empty.
  rewrite (bool_decide_eq_false_2 (columns _ = [])) by done. cbn [orb].
  destruct (decide (none_listed tickers (shares ++ bonds))) as [Hnone|Hsome].
  - by rewrite !bool_decide_eq_true_2 by (done || by apply listed_nil).
  - by rewrite !bool_decide_eq_false_2 by (done || by apply listed_not_nil).
Qed.

(** The closing prints of a run whose loops have returned [merged_df]. *)
Lemma run_closing tickers start_date end_date (merged_df df : frame) (st' : io_state W) :
  shares ++ bonds <> [] -> ~ none_listed tickers (shares ++ bonds) ->
  ticker_loop (listed tickers (catalogue_frame shares bonds))
    token start_date end_date tickers DataFrame_empty (after_listings st w2)
    = (Ok merged_df, st') ->
  coalesce merged_df = Ok df ->
  run tickers start_date end_date st
  = (Ok (Some df), mk_io_state (world st') (stdin st') (stdout st' ++ closing df token)).
Proof.
  intros Hne Hsome Hloop Hco. rewrite run_catalogue, bool_decide_eq_false_2 by done.
  rewrite (io_bind_Ok _ _ _ _ _ Hloop), (io_bind_lift_Ok_eq _ _ _ _ Hco).
  unfold io_bind, io_put, io_print, io_ret, print, put, closing. cbn.
  by rewrite <- !app_assoc.
Qed.

End Listed.

(** *** The loops on particular answers *)

Section Loops.
Context {W : Type} `{!MarketData W}.
Implicit Types (st : io_state W) (figi asset_name token ticker : string)
  (merged_df df : frame) (start_date end_date : option datetime).

(** Without chunks nothing is requested and nothing is written. *)
Lemma fetch_ticker_no_chunks figi asset_name token start_date end_date merged_df st :
  date_ranges start_date end_date = Ok [] ->
  fetch_ticker figi asset_name token start_date end_date merged_df st = (Ok merged_df, st).
Proof. unfold fetch_ticker. by intros ->. Qed.

Lemma ticker_loop_no_chunks df token start_date end_date (tickers : list string)
    merged_df st :
  columns df = catalogue_columns -> date_ranges start_date end_date = Ok [] ->
  ticker_loop df token start_date end_date tickers merged_df st
  = (Ok merged_df,
     mk_io_state (world st) (stdin st) (stdout st ++ not_found df tickers)).
Proof.
  intros Hcols Hranges. revert st.
  induction tickers as [|ticker tickers IH]; intros st.
  { destruct st. cbn. by rewrite app_nil_r. }
  cbn [ticker_loop]. unfold io_bind, not_found. rewrite ticker_step_lookup by done.
  cbn [filter list_filter]. destruct (lookup_ticker df ticker) as [[figi name]|] eqn:E.
  - rewrite fetch_ticker_no_chunks, IH by done.
    by rewrite decide_False by done.
  - rewrite IH, decide_True by done. cbn. by rewrite <- app_assoc.
Qed.

(** The first chunk of a run: its table becomes the table. *)
Lemma chunk_step_first figi asset_name token range st (r : GetCandlesResponse) (w : W) :
  plain_name asset_name -> good r ->
  market_data_get_candles (request_of figi range.1 range.2 token) (world st) = (Ok r, w) ->
  chunk_step figi asset_name token DataFrame_empty range st
  = (Ok (chunk_frame asset_name r), set_world w st).
Proof.
  intros Hname Hgood Hcall. by rewrite chunk_step_call, Hcall, chunk_table_good.
Qed.

(** A later chunk: its table is joined to the table. *)
Lemma chunk_step_next figi asset_name token merged_df range st
    (r : GetCandlesResponse) (w : W) :
  plain_name asset_name -> good r -> frame_empty merged_df = false ->
  market_data_get_candles (request_of figi range.1 range.2 token) (world st) = (Ok r, w) ->
  chunk_step figi asset_name token merged_df range st
  = (merge_outer "date" merged_df (chunk_frame asset_name r), set_world w st).
Proof.
  intros Hname Hgood Hempty Hcall.
  by rewrite chunk_step_call, Hcall, chunk_table_good, Hempty.
Qed.

Lemma chunk_frame_not_empty (name : string) (r : GetCandlesResponse) :
  good r -> frame_empty (chunk_frame name r) = false.
Proof.
  intros [Hne _]. unfold frame_empty. cbn.
  rewrite bool_decide_eq_false_2; [done|]. by destruct (candles r).
Qed.

(** Two chunks with candles: the second table is joined to the first,
    and both labels of the instrument are suffixed. *)
Lemma fetch_two_chunks figi asset_name token (s e : datetime) (c1 c2 : date_range) st
    (r1 r2 : GetCandlesResponse) (w4 : W) :
  plain_name asset_name -> good r1 -> good r2 ->
  split_date_range s e = Ok [c1; c2] ->
  answers figi token [(Some c1.1, Some c1.2); (Some c2.1, Some c2.2)] (world st)
    [Ok r1; Ok r2] w4 ->
  exists joined,
    merge_outer "date" (chunk_frame asset_name r1) (chunk_frame asset_name r2) = Ok joined
    /\ columns joined = ["date"; asset_name +:+ "_x"; asset_name +:+ "_y"]
    /\ frame_wf joined
    /\ fetch_ticker figi asset_name token (Some s) (Some e) DataFrame_empty st
       = (Ok joined, set_world w4 st).
Proof.
  intros Hname Hg1 Hg2 Hsplit Hans.
  inversion Hans as [|? ? ? w3 ? ? ? Hcall1 Hans2]; subst.
  inversion Hans2 as [|? ? ? w5 ? ? ? Hcall2 Hans3]; subst.
  inversion Hans3; subst.
  pose proof (apart_not_date _ (proj1 Hname)) as Hdate.
  destruct (merge_second_chunk (chunk_frame asset_name r1) (chunk_frame asset_name r2)
              asset_name) as (joined & Hjoin & Hcols);
    [by apply chunk_frame_dated.. | done | done |].
  exists joined. split_and!; [done..| |].
  - eapply merge_outer_keeps_dated; [| |exact Hjoin]; by apply chunk_frame_dated.
  - unfold fetch_ticker. cbn [date_ranges]. rewrite Hsplit. cbn [bind map chunk_loop].
    rewrite (chunk_step_first _ _ _ _ _ r1 w3) by done.
    rewrite (chunk_step_next _ _ _ _ _ _ r2 w4), Hjoin
      by (done || by apply chunk_frame_not_empty).
    by destruct st.
Qed.

End Loops.

(** ** Theorems *)

Section RunTheorems.
Context {W : Type} `{!MarketData W} `{!Instruments W} `{!SetOrder}.
Context (st : io_state W) (token : string) (shares bonds : list Instrument) (w1 w2 : W).
Context (Hstdin : head (stdin st) = Some token).
Context (Hshares : instruments_list "shares" token (world st) = (Ok shares, w1)).
Context (Hbonds : instruments_list "bonds" token w1 = (Ok bonds, w2)).
Implicit Types (tickers : list string) (start_date end_date : option datetime).

(** C26: when both listings are empty the run raises [KeyError] for the
    label [ticker] at line 80, after the token has been read and the two
    listings fetched: [DataFrame([])] has no columns, so the message of
    line 82 for tickers that are not listed is never reached. *)
Theorem run_no_listing tickers start_date end_date :
  shares = [] -> bonds = [] ->
  run tickers start_date end_date st
  = (Raise (KeyError ["ticker"]), after_listings st w2).
Proof. intros -> ->. by apply (run_catalogue_nil st token [] [] w1 w2). Qed.

(** C5: the outcomes of a run with a catalogue, whatever the API answers
    to the candle requests, provided no instrument is called [date].
    When none of the tickers is listed the run writes the message of line
    82 and returns [None].  Otherwise it returns a table in which every
    row has one cell per label, and the last items written are the
    summary of that table, the line [None] and the token; or it raises
    [KeyError], from the coalescing loop, and nothing else. *)
Theorem run_outcome tickers start_date end_date :
  shares ++ bonds <> [] ->
  Forall (fun item => item_name item <> "date") (shares ++ bonds) ->
  exists r st', run tickers start_date end_date st = (r, st') /\
    match r with
    | Ok None =>
        none_listed tickers (shares ++ bonds)
        /\ st' = print ("Нет тикеров из списка: " +:+ join ", " tickers)
                   (after_listings st w2)
    | Ok (Some df) =>
        ~ none_listed tickers (shares ++ bonds) /\ frame_wf df
        /\ exists out, stdout st' = out ++ closing df token
    | Raise e => exists missing, e = KeyError missing
    end.
Proof.
  intros Hne Hnames.
  destruct (decide (none_listed tickers (shares ++ bonds))) as [Hnone|Hsome].
  { rewrite (run_catalogue st token shares bonds w1 w2), bool_decide_eq_true_2 by done.
    eexists _, _. split; [reflexivity|]. by split. }
  destruct (ticker_loop_accumulated (listed tickers (catalogue_frame shares bonds))
              token start_date end_date tickers DataFrame_empty (after_listings st w2))
    as (df & st' & Hloop & Hacc); [by apply listed_catalogue_of | by left |].
  destruct (coalesce df) as [df'|e] eqn:Hco.
  - erewrite run_closing by done. eexists _, _. split; [reflexivity|]. cbn [stdout].
    split_and!; [done| |by eexists].
    apply (coalesce_wf df); [|done]. destruct Hacc as [->|Hd]; [by constructor|apply Hd].
  - pose proof (coalesce_outcome df) as Hk. rewrite Hco in Hk.
    rewrite (run_catalogue st token shares bonds w1 w2), bool_decide_eq_false_2 by done.
    rewrite (io_bind_Ok _ _ _ _ _ Hloop), Hco, io_bind_lift_Raise. eexists _, _. by split.
Qed.

(** C3: no exception leaves a run when the names of the instruments are
    compatible.  When the listings return at least one instrument, every
    name is a plain name (without [_], apart from [date] and from the
    labels of a candle's table) and no name is the beginning of another,
    the run returns, whatever the dates, the tickers and the answers of
    the API to the candle requests: [None] after the message of line 82
    when none of the tickers is listed, and otherwise a table with
    distinct labels and one cell per label in every row, after the
    prints of its last lines.  The table of the loops has its labels in
    groups that stand apart, so the coalescing loop finds every column
    it selects. *)
Theorem run_total (tickers : list string) (start_date end_date : option datetime) :
  shares ++ bonds <> [] -> compatible (map item_name (shares ++ bonds)) ->
  exists r st', run tickers start_date end_date st = (Ok r, st') /\
    match r with
    | None =>
        none_listed tickers (shares ++ bonds)
        /\ st' = print ("Нет тикеров из списка: " +:+ join ", " tickers)
                   (after_listings st w2)
    | Some df =>
        ~ none_listed tickers (shares ++ bonds) /\ frame_wf df /\ NoDup (columns df)
        /\ exists out, stdout st' = out ++ closing df token
    end.
Proof.
  intros Hne Hnames.
  destruct (decide (none_listed tickers (shares ++ bonds))) as [Hnone|Hsome].
  { rewrite (run_catalogue st token shares bonds w1 w2), bool_decide_eq_true_2 by done.
    eexists _, _. split; [reflexivity|]. by split. }
  destruct (ticker_loop_grouped (map item_name (shares ++ bonds))
              (listed tickers (catalogue_frame shares bonds))
              token start_date end_date tickers DataFrame_empty (after_listings st w2))
    as (df & st' & Hloop & Hacc); [done| |by left|].
  { apply listed_catalogue_of, Forall_forall. intros item Hitem.
    by apply list_elem_of_fmap_2. }
  destruct (coalesce_grouped _ df Hnames Hacc) as (df' & Hco & Hwf' & Hnd').
  erewrite run_closing by done. eexists _, _. split; [reflexivity|]. cbn [stdout].
  split_and!; [done..|by eexists].
Qed.

(** C12: the table a run returns is a table of dates and floats.  When no
    instrument listed is called [date] or [volume], every row of the table
    has one cell per label and every cell holds a date or a float (NaN
    where a value is missing), whatever the API answers to the candle
    requests: the table of a chunk holds dates and closing prices, the
    joins add NaN and dates only, the coalescing loop moves cells and
    adds NaN only.  No string of the catalogue and no volume reaches the
    table, and no column needs a conversion when a join fills it. *)
Theorem run_table_typed tickers start_date end_date (df : frame) (st' : io_state W) :
  Forall (fun item => price_name (item_name item)) (shares ++ bonds) ->
  run tickers start_date end_date st = (Ok (Some df), st') ->
  frame_wf df /\ cells date_or_float df.
Proof.
  intros Hnames. destruct (decide (shares ++ bonds = [])) as [Hnil|Hne].
  { by rewrite (run_catalogue_nil st token shares bonds w1 w2). }
  rewrite (run_catalogue st token shares bonds w1 w2) by done.
  case_bool_decide; [done|].
  destruct (ticker_loop_priced (listed tickers (catalogue_frame shares bonds))
              token start_date end_date tickers DataFrame_empty (after_listings st w2))
    as (df0 & st0 & Hloop & Hacc); [by apply listed_catalogue_of | by left |].
  destruct (coalesce df0) as [df'|e] eqn:Hco;
    [|by rewrite (io_bind_Ok _ _ _ _ _ Hloop), Hco, io_bind_lift_Raise].
  rewrite (io_bind_Ok _ _ _ _ _ Hloop), (io_bind_lift_Ok_eq _ _ _ _ Hco). intros [= <- _].
  assert (frame_wf df0 /\ cells date_or_float df0) as [Hwf Hcells].
  { destruct Hacc as [->|[Hd Hc]]; [by split; constructor|]. split; [apply Hd|done]. }
  split; [by apply (coalesce_wf df0) | by apply (coalesce_cells _ df0); [right|..]].
Qed.

(** A range that ends on the day it starts, or before, fetches
    nothing.  [split_date_range] returns no chunk, so no candle is
    requested for any ticker (the world stays as the listings left it),
    the table stays the empty table of line 85, and the run writes the
    lines for the tickers not found and the closing items and returns the
    empty table. *)
Lemma run_empty_range tickers (s e : datetime) :
  shares ++ bonds <> [] -> ~ none_listed tickers (shares ++ bonds) ->
  (e <= s)%dt -> 0 < ordinal s + 350 <= MAXORDINAL ->
  run tickers (Some s) (Some e) st
  = (Ok (Some DataFrame_empty),
     mk_io_state w2 (tail (stdin st))
       (stdout st ++ [Prompt "Enter your token: "]
        ++ not_found (listed tickers (catalogue_frame shares bonds)) tickers
        ++ closing DataFrame_empty token)).
Proof.
  intros Hne Hsome Hle Hs.
  assert (date_ranges (Some s) (Some e) = Ok []) as Hranges
    by (cbn; by rewrite split_date_range_nil).
  pose proof (ticker_loop_no_chunks (listed tickers (catalogue_frame shares bonds))
                token _ _ tickers DataFrame_empty (after_listings st w2) eq_refl Hranges)
    as Hloop.
  rewrite (run_closing st token shares bonds w1 w2 Hstdin Hshares Hbonds _ _ _ _ _ _
             Hne Hsome Hloop coalesce_empty).
  cbn [world stdin stdout after_listings]. by rewrite <- !app_assoc.
Qed.

(** C4: one instrument over a range of two chunks, both answered with
    candles.  The two candle requests are made in the order of the chunks
    and nothing else is asked of the API;
    the join of the second table suffixes both columns of the instrument,
    and the coalescing loop fills the column under the instrument's name
    with the first value present but drops the first suffixed column
    only: the table returned has the columns [date], [name_y] and [name],
    not one column per instrument. *)
Theorem run_two_chunks (ticker figi name : string) (s e : datetime) (c1 c2 : date_range)
    (r1 r2 : GetCandlesResponse) (w4 : W) :
  lookup_ticker (listed [ticker] (catalogue_frame shares bonds)) ticker
    = Some (figi, name) ->
  plain_name name -> good r1 -> good r2 ->
  split_date_range s e = Ok [c1; c2] ->
  answers figi token [(Some c1.1, Some c1.2); (Some c2.1, Some c2.2)] w2
    [Ok r1; Ok r2] w4 ->
  exists joined,
    merge_outer "date" (chunk_frame name r1) (chunk_frame name r2) = Ok joined
    /\ let df := mk_frame ["date"; name +:+ "_y"; name] (map coalesced_two (rows joined)) in
       run [ticker] (Some s) (Some e) st
       = (Ok (Some df),
          mk_io_state w4 (tail (stdin st))
            (stdout st ++ [Prompt "Enter your token: "] ++ closing df token)).
Proof.
  intros Hfound Hname Hg1 Hg2 Hsplit Hans.
  destruct (lookup_listed _ _ _ _ _ Hfound) as [Hne Hsome].
  destruct (fetch_two_chunks figi name token s e c1 c2 (after_listings st w2) r1 r2 w4)
    as (joined & Hjoin & Hcols & Hwf & Hfetch); [done..|].
  exists joined. split; [done|]. cbv zeta.
  assert (ticker_loop (listed [ticker] (catalogue_frame shares bonds)) token
            (Some s) (Some e) [ticker] DataFrame_empty (after_listings st w2)
          = (Ok joined, set_world w4 (after_listings st w2))) as Hloop.
  { cbn [ticker_loop]. unfold io_bind. by rewrite ticker_step_lookup, Hfound, Hfetch. }
  assert (coalesce joined
          = Ok (mk_frame ["date"; name +:+ "_y"; name] (map coalesced_two (rows joined))))
    as Hco.
  { destruct joined as [cols rs]. cbn [columns rows] in *. subst cols.
    apply coalesce_two; [apply Hname|done]. }
  rewrite (run_closing st token shares bonds w1 w2 Hstdin Hshares Hbonds _ _ _ _ _ _
             Hne Hsome Hloop Hco).
  cbn [world stdin stdout after_listings set_world]. by rewrite <- !app_assoc.
Qed.

End RunTheorems.

Lemma run_no_listing_witness :
  let st := mk_io_state (mk_script (Ok []) (Ok []) [] []) ["t0ken"] [] in
  run (H := insertion_order) ["MOEX"; "SBER"] None None st
  = (Raise (KeyError ["ticker"]), after_listings st (world st)).
Proof.
  intros st. by apply (run_no_listing (H := insertion_order) st "t0ken" [] [] (world st)).
Defined.

Lemma run_outcome_witness :
  let st := start_state [Ok two_days] in
  exists r st', run (H := insertion_order) ["MOEX"; "SBER"] None None st = (r, st') /\
    match r with
    | Ok None =>
        none_listed ["MOEX"; "SBER"] ([sber] ++ [])
        /\ st' = print ("Нет тикеров из списка: " +:+ join ", " ["MOEX"; "SBER"])
                   (after_listings st (world st))
    | Ok (Some df) =>
        ~ none_listed ["MOEX"; "SBER"] ([sber] ++ []) /\ frame_wf df
        /\ exists out, stdout st' = out ++ closing df "t0ken"
    | Raise e => exists missing, e = KeyError missing
    end.
Proof.
  intros st.
  apply (run_outcome (H := insertion_order) st "t0ken" [sber] [] (world st) (world st));
    try done; by_compute.
Defined.

Lemma run_total_witness :
  let st := start_state [Ok two_days; Ok two_days] in
  exists r st',
    run (H := reverse_order) ["MOEX"; "SBER"] (Some (midnight 738156))
      (Some (midnight 738556)) st = (Ok r, st') /\
    match r with
    | None =>
        none_listed ["MOEX"; "SBER"] ([sber] ++ [])
        /\ st' = print ("Нет тикеров из списка: " +:+ join ", " ["MOEX"; "SBER"])
                   (after_listings st (world st))
    | Some df =>
        ~ none_listed ["MOEX"; "SBER"] ([sber] ++ []) /\ frame_wf df /\ NoDup (columns df)
        /\ exists out, stdout st' = out ++ closing df "t0ken"
    end.
Proof.
  intros st.
  apply (run_total (H := reverse_order) st "t0ken" [sber] [] (world st) (world st));
    try done; by_compute.
Defined.

Lemma run_table_typed_witness :
  let df := mk_frame ["date"; "Sber Bank"] (map close_row (candles two_days)) in
  frame_wf df /\ cells date_or_float df.
Proof.
  intros df. pose (st := start_state [Ok two_days]).
  eapply (run_table_typed (H := insertion_order) st "t0ken" [sber] [] (world st) (world st))
    with (tickers := ["SBER"]) (start_date := None) (end_date := None);
    [done | done | done | by_compute | by vm_compute].
Defined.

Lemma run_empty_range_witness :
  let st := start_state [Ok two_days] in
  run (H := insertion_order) ["MOEX"; "SBER"] (Some (midnight 738160)) (Some (midnight 738160)) st
  = (Ok (Some DataFrame_empty),
     mk_io_state (world st) (tail (stdin st))
       (stdout st ++ [Prompt "Enter your token: "]
        ++ not_found (listed ["MOEX"; "SBER"] (catalogue_frame [sber] [])) ["MOEX"; "SBER"]
        ++ closing DataFrame_empty "t0ken")).
Proof.
  intros st.
  apply (run_empty_range (H := insertion_order) st "t0ken" [sber] [] (world st) (world st));
    try done; by_compute.
Defined.

Lemma run_two_chunks_witness :
  let st := start_state [Ok two_days; Ok two_days] in
  let s := midnight 738156 in
  let e := midnight 738556 in
  let c1 := (midnight 738156, midnight 738506) in
  let c2 := (midnight 738507, midnight 738556) in
  let w4 := mk_script (Ok [sber]) (Ok []) []
              [request_of "BBG004730N88" (Some c1.1) (Some c1.2) "t0ken";
               request_of "BBG004730N88" (Some c2.1) (Some c2.2) "t0ken"] in
  exists joined,
    merge_outer "date" (chunk_frame "Sber Bank" two_days) (chunk_frame "Sber Bank" two_days)
      = Ok joined
    /\ let df := mk_frame ["date"; "Sber Bank" +:+ "_y"; "Sber Bank"]
                   (map coalesced_two (rows joined)) in
       run (H := insertion_order) ["SBER"] (Some s) (Some e) st
       = (Ok (Some df),
          mk_io_state w4 (tail (stdin st))
            (stdout st ++ [Prompt "Enter your token: "] ++ closing df "t0ken")).
Proof.
  intros st s e c1 c2 w4.
  apply (run_two_chunks (H := insertion_order)) with
    (shares := [sber]) (bonds := []) (w1 := world st) (w2 := world st)
    (figi := "BBG004730N88") (c1 := c1) (c2 := c2);
    try done; try by_compute. by repeat econstructor.
Defined.

(** The end-to-end example of the written specification (8): two
    instruments over 400 days, hence two chunks each, every request
    answered with candles.  The four requests are made and the table has
    one row per date, but five columns: beside [date] and the column of
    each instrument, the column of the second chunk of each instrument
    stays under its suffixed label. *)
Example run_two_instruments :
  exists df st',
    run (H := insertion_order) ["SBER"; "GAZP"]
      (Some (midnight 738156)) (Some (midnight 738556)) two_shares
    = (Ok (Some df), st')
    /\ columns df = ["date"; "Sber Bank_y"; "Gazprom_y"; "Sber Bank"; "Gazprom"]
    /\ dates df = [738157; 738158; 738507]
    /\ candles_script (world st') = [] /\ length (sent (world st')) = 4%nat.
Proof. eexists _, _. split; [by vm_compute|]. by vm_compute. Qed.
