(* ===== verification/Main.v ===== *)
(** * Main: the console front end ([src/main.py], lines 10-11 and 131-150)

    [main] reads the tickers and the two dates from the console, parses
    the dates when both were typed, calls [run] and prints what it
    returns.  The script creates a [StockParser] and calls [main].

    The object has one attribute, [token], set to [None] by the
    constructor; no method reads it or assigns it ([run] keeps the token
    it reads in a local variable), so [run] and the methods it calls take
    no [self] in the model; [main] takes the object and does not use it. *)

From Stdlib Require Import ZArith Lia Ascii.
From stdpp Require Import base tactics option list strings.
From S2P Require Import Prelude DateTime Calendar RangeSplitter Money PyStr Strptime.
From S2P Require Import Frame Candles Console Client Merge Coalesce Runner EndToEnd.

#[local] Open Scope string_scope.
#[local] Open Scope list_scope.

(** ** The code *)

(** The attributes of a [StockParser]. *)
Record StockParser : Type := mk_StockParser { self_token : option string }.

(** [StockParser()]: [__init__] (lines 10-11). *)
Definition StockParser_init : StockParser := mk_StockParser None.

(** The truth value of a string: not empty. *)
Definition truthy (s : string) : bool := negb (bool_decide (s = "")).

Section Main.
Context {W : Type} `{!MarketData W} `{!Instruments W} `{!SetOrder}.

(** [main(self)] (lines 131-145). *)
Definition main (self : StockParser) : io W unit :=
  line <~ input "Enter tickers separated by commas: " ;;
  let TICKER := split ","%char line in
  let TICKERS := ["MOEX"] ++ TICKER in
  START_DATE <~ input "Enter start date (yyyy-mm-dd): " ;;
  END_DATE <~ input "Enter end date (yyyy-mm-dd): " ;;
  df <~ (if truthy START_DATE && truthy END_DATE then
           start_date <~ io_lift (strptime START_DATE) ;;
           end_date <~ io_lift (strptime END_DATE) ;;
           run TICKERS (Some start_date) (Some end_date)
         else
           run TICKERS None None) ;;
  io_put (Table df).

(** The script (lines 148-150). *)
Definition program : io W unit :=
  let analyzer := StockParser_init in
  main analyzer.

End Main.

(** ** Specification vocabulary *)

(** The three prompts of [main]. *)
Definition prompts : list output :=
  [Prompt "Enter tickers separated by commas: ";
   Prompt "Enter start date (yyyy-mm-dd): ";
   Prompt "Enter end date (yyyy-mm-dd): "].

(** The state after the three lines of [main] have been read. *)
Definition after_prompts {W : Type} (st : io_state W) : io_state W :=
  mk_io_state (world st) (drop 3 (stdin st)) (stdout st ++ prompts).

(** For the examples: the lines typed, one share listed, the candle
    responses to come. *)
Definition typed_state (lines : list string) (outcomes : list (result GetCandlesResponse))
    : io_state script :=
  mk_io_state (mk_script (Ok [sber]) (Ok []) outcomes []) lines [].

(** ** Lemmas *)

Section MainLemmas.
Context {W : Type} `{!MarketData W} `{!Instruments W} `{!SetOrder}.
Implicit Types (st : io_state W) (self : StockParser).

(** [main] after its three lines. *)
Lemma main_after_prompts self st (line START_DATE END_DATE : string) (rest : list string) :
  stdin st = line :: START_DATE :: END_DATE :: rest ->
  main self st
  = (df <~ (if truthy START_DATE && truthy END_DATE then
              start_date <~ io_lift (strptime START_DATE) ;;
              end_date <~ io_lift (strptime END_DATE) ;;
              run ("MOEX" :: split ","%char line) (Some start_date) (Some end_date)
            else
              run ("MOEX" :: split ","%char line) None None) ;;
     io_put (Table df)) (after_prompts st).
Proof.
  intros Hin. unfold main, after_prompts, prompts. rewrite Hin.
  rewrite (io_bind_Ok _ _ _ _ _ (input_Ok _ _ _ _ Hin)).
  erewrite io_bind_Ok by (by apply input_Ok).
  erewrite io_bind_Ok by (by apply input_Ok).
  cbn [drop app world stdin stdout]. by rewrite <- !app_assoc.
Qed.

End MainLemmas.

(** ** Theorems *)

Section MainTheorems.
Context {W : Type} `{!MarketData W} `{!Instruments W} `{!SetOrder}.
Implicit Types (st : io_state W) (self : StockParser).


(** C33: a date that [strptime] does not accept ends the program after
    the three prompts: when both dates were typed and one of them is not a
    spelling of a date of the calendar, [main] raises [ValueError] before
    the token is asked for and before any call of the API. *)
Theorem main_bad_date self st (line START_DATE END_DATE : string) (rest : list string) :
  stdin st = line :: START_DATE :: END_DATE :: rest ->
  START_DATE <> "" -> END_DATE <> "" ->
  (forall d, valid_date d -> START_DATE ∉ spellings d)
  \/ (forall d, valid_date d -> END_DATE ∉ spellings d) ->
  exists msg, main self st = (Raise (ValueError msg), after_prompts st).
Proof.
  intros Hin Hs He Hbad. rewrite (main_after_prompts _ _ _ _ _ _ Hin).
  unfold truthy. rewrite !bool_decide_eq_false_2 by done. cbn [negb andb].
  destruct (strptime START_DATE) as [start_date|e] eqn:Hstart.
  - destruct Hbad as [Hbad|Hbad].
    + apply strptime_rejects in Hbad as [msg Hmsg]. congruence.
    + apply strptime_rejects in Hbad as [msg Hmsg]. exists msg.
      by rewrite io_bind_assoc, io_bind_lift_Ok, io_bind_assoc, Hmsg.
  - apply strptime_Raise in Hstart as [msg ->]. by exists msg.
Qed.

(** C18: a range typed with the end on the day of the start, or before
    it, shows an empty table.  Both dates are accepted, [run] finds no
    chunk to fetch, and the program writes, after its prompts, the lines
    for the tickers not found, the closing items of [run] and the empty
    table, without a single candle request. *)
Theorem main_empty_range self st (line START_DATE END_DATE token : string)
    (rest : list string) (ds de : Z * Z * Z) (shares bonds : list Instrument) (w1 w2 : W) :
  stdin st = line :: START_DATE :: END_DATE :: token :: rest ->
  valid_date ds -> START_DATE ∈ spellings ds ->
  valid_date de -> END_DATE ∈ spellings de ->
  (toordinal de <= toordinal ds)%Z -> (toordinal ds + 350 <= MAXORDINAL)%Z ->
  instruments_list "shares" token (world st) = (Ok shares, w1) ->
  instruments_list "bonds" token w1 = (Ok bonds, w2) ->
  shares ++ bonds <> [] ->
  let tickers := "MOEX" :: split "," line in
  ~ none_listed tickers (shares ++ bonds) ->
  main self st
  = (Ok tt,
     mk_io_state w2 rest
       (stdout st ++ prompts ++ [Prompt "Enter your token: "]
        ++ not_found (listed tickers (catalogue_frame shares bonds)) tickers
        ++ closing DataFrame_empty token ++ [Table (Some DataFrame_empty)])).
Proof.
  intros Hin Hds Hstart Hde Hend Hle Hmax Hshares Hbonds Hne tickers Hsome.
  rewrite (main_after_prompts _ _ _ _ _ _ Hin).
  assert (truthy START_DATE && truthy END_DATE = true) as ->.
  { unfold truthy. by rewrite !bool_decide_eq_false_2 by by eapply spellings_not_empty. }
  rewrite io_bind_assoc, (strptime_spelling ds), io_bind_lift_Ok by done.
  rewrite io_bind_assoc, (strptime_spelling de), io_bind_lift_Ok by done.
  erewrite io_bind_Ok.
  2:{ apply (run_empty_range (after_prompts st) token shares bonds w1 w2);
        try done; [cbn; by rewrite Hin | dt_lia | pose proof (toordinal_range ds Hds); dt_lia]. }
  unfold io_put, put. cbn [stdout stdin world after_prompts]. rewrite Hin. cbn [drop tail].
  by rewrite <- !app_assoc.
Qed.

End MainTheorems.

Lemma main_bad_date_witness :
  exists msg,
    main (H := insertion_order) StockParser_init
      (typed_state ["SBER"; "2022-13-01"; "2022-01-05"; "t0ken"] [])
    = (Raise (ValueError msg),
       after_prompts (typed_state ["SBER"; "2022-13-01"; "2022-01-05"; "t0ken"] [])).
Proof.
  apply (main_bad_date (H := insertion_order) _ _ "SBER" "2022-13-01" "2022-01-05" ["t0ken"]);
    [done..|].
  left. intros d Hd Hin.
  assert (is_Ok (strptime "2022-13-01") = false) as Hraise by (by vm_compute).
  by rewrite (strptime_spelling d _ Hd Hin) in Hraise.
Defined.

Lemma main_empty_range_witness :
  let st := typed_state ["SBER"; "2022-01-05"; "2022-01-05"; "t0ken"] [Ok two_days] in
  let tickers := "MOEX" :: split "," "SBER" in
  main (H := insertion_order) StockParser_init st
  = (Ok tt,
     mk_io_state (world st) []
       (stdout st ++ prompts ++ [Prompt "Enter your token: "]
        ++ not_found (listed tickers (catalogue_frame [sber] [])) tickers
        ++ closing DataFrame_empty "t0ken" ++ [Table (Some DataFrame_empty)])).
Proof.
  intros st tickers.
  apply (main_empty_range (H := insertion_order) StockParser_init st "SBER" "2022-01-05"
           "2022-01-05" "t0ken" [] (2022, 1, 5)%Z (2022, 1, 5)%Z [sber] [] (world st));
    try done; by_compute.
Defined.
